(** * Session lifecycle, usage quota and confidence gate of the property pipeline

    A shallow embedding of the route handlers
      - [app/api/extract/route.ts]        (module [Extract]),
      - [app/api/stats/route.ts]          (module [Stats]),
      - [app/api/stats/confirm/route.ts]  (module [StatsConfirm]),
      - [app/api/evaluate/route.ts]       (module [Evaluate]),
      - [app/api/preferences/route.ts]    (module [Preferences]),
      - [app/api/confirm/route.ts]        (module [Confirm]),
    over an explicit model of the Supabase tables they read and write, and
    of the helpers of the pages that call them
      - [app/preferences/page.tsx]        (module [PreferencesPage]),
      - [app/properties/page.tsx]         (module [PropertiesPage]).

    Conventions of the model:
      - a JavaScript value that came out of [JSON.parse] or goes into a
        PostgREST payload is a [json]; [undefined] is [None] of [option json];
      - JavaScript numbers are integer valued ([Z]) or [NaN];
      - every table is a finite map keyed by its primary or unique key
        ([property_sessions] by [id], the artifact tables by
        [property_session_id], [usage_counters] and [preferences] by
        [user_id]); the ledger is a list, newest entry last;
      - a handler is a function from the world before the request to the
        response and the world after it. The exceptions it can meet are the
        ones it raises itself, the ones of [JSON.parse], of the HTML fetch
        and of the call to the model, and the refusal of a row by the store;
        the store is otherwise taken to answer, and a refused write leaves
        the table as it was;
      - a [POST] or [GET] of a route is the request served alone: nothing
        else writes the store between its first read and its last write.
        A handler reaches the store by separate statements, and the pieces
        a second request can fall between are definitions of their own:
        [Stats.run] and [Evaluate.run] are the handlers from the guarded
        transition on and take the status read at the start of the
        request as an argument; [Usage.consume] is the pair of writes of
        [checkAndConsumeQuota] for a counter value read earlier;
        [Extract.enforceMaxLinks] and [Extract.insert_session] are the
        count and the insert of [upsertPropertySession]. One statement
        ([setStatusGuarded], an upsert, an insert) is one step;
      - a string holds the UTF-8 bytes of the JavaScript string, so that
        white space is the white space of ECMAScript ([trim], [\s]). *)

From Stdlib Require Import ZArith Ascii String.
From stdpp Require Import gmap strings list fin_maps pretty.

Set Warnings "-register-all".
Local Open Scope string_scope.
Local Open Scope Z_scope.

(** ** JavaScript values *)

Inductive json : Type :=
| JNull
| JBool (b : bool)
| JNum (n : Z)
| JNaN
| JStr (s : string)
| JArr (xs : list json)
| JObj (kvs : list (string * json)).

(** Own-property lookup in an object literal, first binding of the key. *)
Fixpoint assoc (k : string) (kvs : list (string * json)) : option json :=
  match kvs with
  | [] => None
  | (k', v) :: rest => if String.eqb k k' then Some v else assoc k rest
  end.

(** [v[k]] for a [v] that is neither [null] nor [undefined]. The keys the
    handlers use are column and field names, none of which is a property of
    a primitive, of an array or of [Object.prototype], so only objects
    answer. *)
Definition prop (v : json) (k : string) : option json :=
  match v with
  | JObj kvs => assoc k kvs
  | _ => None
  end.

(** [o?.[k]]: optional chaining stops at [null] and [undefined]. *)
Definition opt_prop (o : option json) (k : string) : option json :=
  match o with
  | None | Some JNull => None
  | Some v => prop v k
  end.

(** [o ?? d] *)
Definition nullish (o : option json) (d : json) : json :=
  match o with
  | None | Some JNull => d
  | Some v => v
  end.

(** [o === null || o === undefined] *)
Definition is_nullish (o : option json) : bool :=
  match o with
  | None | Some JNull => true
  | Some _ => false
  end.

(** ToBoolean *)
Definition truthy (v : json) : bool :=
  match v with
  | JNull | JNaN => false
  | JBool b => b
  | JNum n => negb (n =? 0)%Z
  | JStr s => negb (String.eqb s EmptyString)
  | JArr _ | JObj _ => true
  end.

Definition truthy_opt (o : option json) : bool :=
  match o with
  | None => false
  | Some v => truthy v
  end.

(** [typeof v === "object"] ([null] included, as in JavaScript). *)
Definition typeof_object (v : json) : bool :=
  match v with
  | JNull | JArr _ | JObj _ => true
  | _ => false
  end.

Definition join_comma (parts : list string) : string :=
  match parts with
  | [] => EmptyString
  | p :: ps => fold_left (fun acc q => acc +:+ "," +:+ q) ps p
  end.

(** [String(v)]: arrays join their elements with commas, [null] elements
    printing as the empty string; plain objects print as
    ["[object Object]"]. *)
Fixpoint jsString (v : json) : string :=
  match v with
  | JNull => "null"
  | JBool true => "true"
  | JBool false => "false"
  | JNum n => pretty n
  | JNaN => "NaN"
  | JStr s => s
  | JArr xs =>
      join_comma
        (map (fun x => match x with JNull => EmptyString | _ => jsString x end) xs)
  | JObj _ => "[object Object]"
  end.

(** ** Strings

    A string of the model holds a JavaScript string as the bytes of its
    UTF-8 encoding, so that a string literal of this file is the string it
    shows; a surrogate that stands alone, which UTF-8 does not encode, is
    held as the three bytes its code point would take. *)

(** The string of the bytes [l]. *)
Definition bytes (l : list Z) : string :=
  fold_right (fun n s => String (Ascii.ascii_of_N (Z.to_N n)) s) EmptyString l.

(** LineTerminator of ECMAScript: LF, CR, U+2028 and U+2029. *)
Definition line_terminators : list string :=
  map bytes [ [10]; [13]; [226; 128; 168]; [226; 128; 169] ].

(** The white space of [String.prototype.trim], of [Number] and of the
    regular expression class [\s]: TAB, VT, FF, SP, U+00A0, U+1680,
    U+2000 to U+200A, U+202F, U+205F, U+3000 and U+FEFF, and the line
    terminators. *)
Definition white_space : list string :=
  (map bytes
     [ [9]; [11]; [12]; [32]; [194; 160]; [225; 154; 128];
       [226; 128; 128]; [226; 128; 129]; [226; 128; 130]; [226; 128; 131];
       [226; 128; 132]; [226; 128; 133]; [226; 128; 134]; [226; 128; 135];
       [226; 128; 136]; [226; 128; 137]; [226; 128; 138];
       [226; 128; 175]; [226; 129; 159]; [227; 128; 128]; [239; 187; 191] ]
   ++ line_terminators)%list.

(** [s] starts with [p]. *)
Fixpoint has_prefix (p s : string) : bool :=
  match p, s with
  | EmptyString, _ => true
  | String a p', String b s' => Ascii.eqb a b && has_prefix p' s'
  | String _ _, EmptyString => false
  end.

(** The number of bytes of the character of [chars] that [s] starts with,
    0 when it starts with none of them. *)
Definition width_at (chars : list string) (s : string) : nat :=
  match find (fun p => has_prefix p s) chars with
  | Some p => String.length p
  | None => 0%nat
  end.

(** [s] without the characters of [chars] it starts with; [k] counts the
    bytes still to drop of the character being dropped. *)
Fixpoint drop_chars (chars : list string) (k : nat) (s : string) : string :=
  match k, s with
  | S k', String _ rest => drop_chars chars k' rest
  | S _, EmptyString => EmptyString
  | O, EmptyString => EmptyString
  | O, String _ rest =>
      match width_at chars s with
      | S w => drop_chars chars w rest
      | O => s
      end
  end.

Definition trim_start (s : string) : string := drop_chars white_space 0%nat s.

Fixpoint string_rev_onto (s acc : string) : string :=
  match s with
  | EmptyString => acc
  | String c rest => string_rev_onto rest (String c acc)
  end.

Definition string_reverse (s : string) : string :=
  string_rev_onto s EmptyString.

(** The white space at the end of [s] is, read backwards, the white space
    at the start of [s] read backwards: the encoding of a character does
    not end with the encoding of another. *)
Definition trim_end (s : string) : string :=
  string_reverse (drop_chars (map string_reverse white_space) 0%nat (string_reverse s)).

Definition trim (s : string) : string := trim_end (trim_start s).

(** The suffix of [s] starting at the first occurrence of [c]. *)
Fixpoint from_first (c : Ascii.ascii) (s : string) : option string :=
  match s with
  | EmptyString => None
  | String d rest => if Ascii.eqb c d then Some s else from_first c rest
  end.

(** [s.match(/\{[\s\S]*\}/)?.[0]]: from the first opening brace to the last
    closing brace after it (the star is greedy). *)
Definition match_braces (s : string) : option string :=
  match from_first "{"%char s with
  | None => None
  | Some (String _ inner) =>
      match from_first "}"%char (string_reverse inner) with
      | None => None
      | Some kept => Some (String "{"%char (string_reverse kept))
      end
  | Some EmptyString => None
  end.

(** ** Lifecycle states and the tables *)

Inductive LifecycleStage : Set :=
| CREATED
| FETCHED_HTML
| EXTRACTED_BASE
| AI_PARSED
| NEEDS_CONFIRMATION
| CONFIRMED
| STATS_RUNNING
| STATS_NEEDS_CONFIRMATION
| STATS_READY
| STATS_FAILED
| EVAL_RUNNING
| AI_READY
| EVAL_FAILED
| VIDEO_REQUESTED
| VIDEO_READY.

Global Instance LifecycleStage_eq_dec : EqDecision LifecycleStage.
Proof. solve_decision. Defined.

Definition stage_name (s : LifecycleStage) : string :=
  match s with
  | CREATED => "CREATED"
  | FETCHED_HTML => "FETCHED_HTML"
  | EXTRACTED_BASE => "EXTRACTED_BASE"
  | AI_PARSED => "AI_PARSED"
  | NEEDS_CONFIRMATION => "NEEDS_CONFIRMATION"
  | CONFIRMED => "CONFIRMED"
  | STATS_RUNNING => "STATS_RUNNING"
  | STATS_NEEDS_CONFIRMATION => "STATS_NEEDS_CONFIRMATION"
  | STATS_READY => "STATS_READY"
  | STATS_FAILED => "STATS_FAILED"
  | EVAL_RUNNING => "EVAL_RUNNING"
  | AI_READY => "AI_READY"
  | EVAL_FAILED => "EVAL_FAILED"
  | VIDEO_REQUESTED => "VIDEO_REQUESTED"
  | VIDEO_READY => "VIDEO_READY"
  end.

(** A row of [property_sessions]; the map key is its [id]. *)
Record SessionRow : Type := {
  user_id : string;
  rightmove_url : string;
  rightmove_listing_id : option string;
  status : LifecycleStage;
  last_extracted_at : option string
}.

Definition with_status (r : SessionRow) (s : LifecycleStage) : SessionRow :=
  {| user_id := user_id r;
     rightmove_url := rightmove_url r;
     rightmove_listing_id := rightmove_listing_id r;
     status := s;
     last_extracted_at := last_extracted_at r |}.

Definition with_last_extracted_at (r : SessionRow) (t : string) : SessionRow :=
  {| user_id := user_id r;
     rightmove_url := rightmove_url r;
     rightmove_listing_id := rightmove_listing_id r;
     status := status r;
     last_extracted_at := Some t |}.

(** The metered actions that have a handler. *)
Inductive Action : Set := A_extract | A_stats | A_evaluate.

Global Instance Action_eq_dec : EqDecision Action.
Proof. solve_decision. Defined.

Definition action_name (a : Action) : string :=
  match a with
  | A_extract => "extract"
  | A_stats => "stats"
  | A_evaluate => "evaluate"
  end.

(** A row of [usage_counters]; the map key is its [user_id]. *)
Record CountersRow : Type := {
  extract_used : Z;
  extract_limit : Z;
  stats_used : Z;
  stats_limit : Z;
  evaluate_used : Z;
  evaluate_limit : Z;
  video_used : Z;
  video_limit : Z
}.

Definition used_of (a : Action) (c : CountersRow) : Z :=
  match a with
  | A_extract => extract_used c
  | A_stats => stats_used c
  | A_evaluate => evaluate_used c
  end.

Definition limit_of (a : Action) (c : CountersRow) : Z :=
  match a with
  | A_extract => extract_limit c
  | A_stats => stats_limit c
  | A_evaluate => evaluate_limit c
  end.

(** [update({ <action>_used: v })] on one row. *)
Definition with_used (a : Action) (v : Z) (c : CountersRow) : CountersRow :=
  {| extract_used := match a with A_extract => v | _ => extract_used c end;
     extract_limit := extract_limit c;
     stats_used := match a with A_stats => v | _ => stats_used c end;
     stats_limit := stats_limit c;
     evaluate_used := match a with A_evaluate => v | _ => evaluate_used c end;
     evaluate_limit := evaluate_limit c;
     video_used := video_used c;
     video_limit := video_limit c |}.

(** A row of the append-only [usage_ledger]. *)
Record LedgerEntry : Type := {
  led_user_id : string;
  action_type : string;
  delta : Z;
  reason : string;
  direction : string;
  action : string;
  note : string;
  amount : Z
}.

Record World : Type := {
  property_sessions : gmap string SessionRow;
  usage_counters : gmap string CountersRow;
  usage_ledger : list LedgerEntry;
  listing_facts_raw : gmap string json;
  listing_facts_confirmed : gmap string json;
  listing_stats_raw : gmap string json;
  listing_stats_confirmed : gmap string json;
  listing_evaluation_raw : gmap string json;
  preferences : gmap string json;
  (** number of [openai.responses.create] invocations so far *)
  openai_calls : nat
}.

Definition set_property_sessions (m : gmap string SessionRow) (w : World) : World :=
  {| property_sessions := m;
     usage_counters := usage_counters w;
     usage_ledger := usage_ledger w;
     listing_facts_raw := listing_facts_raw w;
     listing_facts_confirmed := listing_facts_confirmed w;
     listing_stats_raw := listing_stats_raw w;
     listing_stats_confirmed := listing_stats_confirmed w;
     listing_evaluation_raw := listing_evaluation_raw w;
     preferences := preferences w;
     openai_calls := openai_calls w |}.

Definition set_usage_counters (m : gmap string CountersRow) (w : World) : World :=
  {| property_sessions := property_sessions w;
     usage_counters := m;
     usage_ledger := usage_ledger w;
     listing_facts_raw := listing_facts_raw w;
     listing_facts_confirmed := listing_facts_confirmed w;
     listing_stats_raw := listing_stats_raw w;
     listing_stats_confirmed := listing_stats_confirmed w;
     listing_evaluation_raw := listing_evaluation_raw w;
     preferences := preferences w;
     openai_calls := openai_calls w |}.

Definition set_usage_ledger (l : list LedgerEntry) (w : World) : World :=
  {| property_sessions := property_sessions w;
     usage_counters := usage_counters w;
     usage_ledger := l;
     listing_facts_raw := listing_facts_raw w;
     listing_facts_confirmed := listing_facts_confirmed w;
     listing_stats_raw := listing_stats_raw w;
     listing_stats_confirmed := listing_stats_confirmed w;
     listing_evaluation_raw := listing_evaluation_raw w;
     preferences := preferences w;
     openai_calls := openai_calls w |}.

Definition set_listing_facts_raw (m : gmap string json) (w : World) : World :=
  {| property_sessions := property_sessions w;
     usage_counters := usage_counters w;
     usage_ledger := usage_ledger w;
     listing_facts_raw := m;
     listing_facts_confirmed := listing_facts_confirmed w;
     listing_stats_raw := listing_stats_raw w;
     listing_stats_confirmed := listing_stats_confirmed w;
     listing_evaluation_raw := listing_evaluation_raw w;
     preferences := preferences w;
     openai_calls := openai_calls w |}.

Definition set_listing_stats_raw (m : gmap string json) (w : World) : World :=
  {| property_sessions := property_sessions w;
     usage_counters := usage_counters w;
     usage_ledger := usage_ledger w;
     listing_facts_raw := listing_facts_raw w;
     listing_facts_confirmed := listing_facts_confirmed w;
     listing_stats_raw := m;
     listing_stats_confirmed := listing_stats_confirmed w;
     listing_evaluation_raw := listing_evaluation_raw w;
     preferences := preferences w;
     openai_calls := openai_calls w |}.

Definition set_listing_stats_confirmed (m : gmap string json) (w : World) : World :=
  {| property_sessions := property_sessions w;
     usage_counters := usage_counters w;
     usage_ledger := usage_ledger w;
     listing_facts_raw := listing_facts_raw w;
     listing_facts_confirmed := listing_facts_confirmed w;
     listing_stats_raw := listing_stats_raw w;
     listing_stats_confirmed := m;
     listing_evaluation_raw := listing_evaluation_raw w;
     preferences := preferences w;
     openai_calls := openai_calls w |}.

Definition set_listing_evaluation_raw (m : gmap string json) (w : World) : World :=
  {| property_sessions := property_sessions w;
     usage_counters := usage_counters w;
     usage_ledger := usage_ledger w;
     listing_facts_raw := listing_facts_raw w;
     listing_facts_confirmed := listing_facts_confirmed w;
     listing_stats_raw := listing_stats_raw w;
     listing_stats_confirmed := listing_stats_confirmed w;
     listing_evaluation_raw := m;
     preferences := preferences w;
     openai_calls := openai_calls w |}.

Definition set_preferences (m : gmap string json) (w : World) : World :=
  {| property_sessions := property_sessions w;
     usage_counters := usage_counters w;
     usage_ledger := usage_ledger w;
     listing_facts_raw := listing_facts_raw w;
     listing_facts_confirmed := listing_facts_confirmed w;
     listing_stats_raw := listing_stats_raw w;
     listing_stats_confirmed := listing_stats_confirmed w;
     listing_evaluation_raw := listing_evaluation_raw w;
     preferences := m;
     openai_calls := openai_calls w |}.

(** One more request sent to the model. *)
Definition count_openai_call (w : World) : World :=
  {| property_sessions := property_sessions w;
     usage_counters := usage_counters w;
     usage_ledger := usage_ledger w;
     listing_facts_raw := listing_facts_raw w;
     listing_facts_confirmed := listing_facts_confirmed w;
     listing_stats_raw := listing_stats_raw w;
     listing_stats_confirmed := listing_stats_confirmed w;
     listing_evaluation_raw := listing_evaluation_raw w;
     preferences := preferences w;
     openai_calls := S (openai_calls w) |}.

(** [db.from("property_sessions").update({ status }).eq("id", sessionId)]:
    no row, no change. *)
Definition update_status (sessionId : string) (s : LifecycleStage) (w : World) : World :=
  match property_sessions w !! sessionId with
  | Some r => set_property_sessions (<[sessionId := with_status r s]> (property_sessions w)) w
  | None => w
  end.

(** ** Exceptions, responses and the collaborators *)

Inductive Exn : Type :=
| Error (message : string)       (* [new Error(message)] *)
| MaxLinksReached                (* [Error] with [code = "MAX_LINKS_REACHED"], [limit = 100] *)
| SingleRowError                 (* [.single()] did not find exactly one row *)
| SyntaxError                    (* [JSON.parse] *)
| TypeError                      (* property access on [null] *)
| FetchError                     (* the HTML fetch failed, timed out or was not 2xx *)
| ApiError                       (* [openai.responses.create] rejected *)
| StoreError.                    (* the store refused a row *)

Inductive throws (A : Type) : Type :=
| Returns (a : A)
| Throws (e : Exn).
Arguments Returns {A} a.
Arguments Throws {A} e.

Inductive Body : Type :=
| Json (v : json)
| Caught (e : Exn).   (* [{ error: e?.message || String(e) }] of a catch block *)

Record Response : Type := { code : Z; body : Body }.

Definition respond (c : Z) (fields : list (string * json)) : Response :=
  {| code := c; body := Json (JObj fields) |}.

Definition caught (c : Z) (e : Exn) : Response :=
  {| code := c; body := Caught e |}.

(** What a handler receives: the token [getBearerToken] found in the
    [authorization] header, and the body as [req.json().catch(() => ({}))]
    delivers it. *)
Record Request : Type := {
  bearer : option string;
  payload : json
}.

(** The collaborators and builtins the handlers call but do not define. *)
Record Host : Type := {
  (** [JSON.parse] *)
  JSON_parse : string -> throws json;
  (** ToNumber on a string: [JNum n] or [JNaN] *)
  StringToNumber : string -> json;
  (** [auth.auth.getUser(token)]: the user id of a valid token *)
  getUser : string -> option string;
  (** [userErr?.message] for a token [getUser] does not accept: the message
      of the error it answered with, nothing when it answered without an
      error and without a user *)
  userErr_message : string -> option string;
  (** [process.env.OPENAI_API_KEY]. The route modules that call the model
      build their client from it when they load
      ([new OpenAI({ apiKey: process.env.OPENAI_API_KEY! })]), and that
      fails when the variable is unset: a handler that runs sees a string,
      possibly empty *)
  OPENAI_API_KEY : string;
  (** [openai.responses.create] on the request at hand: the [output_text]
      of the response, or the call rejects *)
  model_output : throws string;
  (** [fetchRightmoveHtml] *)
  fetchRightmoveHtml : string -> throws string;
  (** [extractSnippets]: at most six labelled pieces of the page text, cut
      out by regular expressions that are not modelled; a function of the
      page *)
  extractSnippets : string -> list string;
  (** [new Date().toISOString()] *)
  nowIso : string;
  (** column defaults of a new [usage_counters] row *)
  default_counters : CountersRow;
  (** the column types and constraints of a table accept a row; when they
      do not, the write returns an error and the handler throws it *)
  store_accepts : string -> json -> bool
}.

(** [!!process.env.OPENAI_API_KEY] *)
Definition has_api_key (h : Host) : bool :=
  negb (String.eqb (OPENAI_API_KEY h) EmptyString).

(** [Number(v)] *)
Definition jsNumber (h : Host) (v : json) : json :=
  match v with
  | JNull => JNum 0
  | JBool true => JNum 1
  | JBool false => JNum 0
  | JNum n => JNum n
  | JNaN => JNaN
  | JStr s => StringToNumber h s
  | JArr _ | JObj _ => StringToNumber h (jsString v)
  end.

(** ** Listing references *)

Definition lower (c : Ascii.ascii) : Ascii.ascii :=
  let n := Ascii.nat_of_ascii c in
  if ((65 <=? n) && (n <=? 90))%nat then Ascii.ascii_of_nat (n + 32) else c.

(** [s] starts with [p], letters compared without case; the rest of [s]. *)
Fixpoint strip_prefix_ci (p s : string) : option string :=
  match p, s with
  | EmptyString, _ => Some s
  | String a p', String b s' =>
      if Ascii.eqb (lower a) (lower b) then strip_prefix_ci p' s' else None
  | String _ _, EmptyString => None
  end.

Definition is_digit (c : Ascii.ascii) : bool :=
  let n := Ascii.nat_of_ascii c in ((48 <=? n) && (n <=? 57))%nat.

Fixpoint take_digits (s : string) : string :=
  match s with
  | String c rest => if is_digit c then String c (take_digits rest) else EmptyString
  | EmptyString => EmptyString
  end.

(** [url.match(/rightmove\.co\.uk\/properties\/(\d+)/i)?.[1] ?? null]:
    the digits after the leftmost occurrence of the path that is followed
    by a digit. *)
Fixpoint parseRightmoveListingId (url : string) : option string :=
  let here :=
    match strip_prefix_ci "rightmove.co.uk/properties/" url with
    | Some rest =>
        match take_digits rest with
        | EmptyString => None
        | digits => Some digits
        end
    | None => None
    end in
  match here, url with
  | Some digits, _ => Some digits
  | None, String _ rest => parseRightmoveListingId rest
  | None, EmptyString => None
  end.

(** ** Usage counters and ledger *)

Module Usage.

Record QuotaResult : Type := { ok : bool; used : Z; limit : Z }.

Definition usage_note (a : Action) : string :=
  match a with
  | A_extract => "Extract invoked via /api/extract"
  | A_stats => "Stats invoked via /api/stats"
  | A_evaluate => "Evaluation invoked via /api/evaluate"
  end.

(** The ledger row every copy of [checkAndConsumeQuota] inserts. *)
Definition usage_entry (userId : string) (a : Action) : LedgerEntry :=
  {| led_user_id := userId;
     action_type := action_name a;
     delta := -1;
     reason := "usage";
     direction := "debit";
     action := action_name a;
     note := usage_note a;
     amount := 1 |}.

(** The two writes of [checkAndConsumeQuota] for a request that has read
    the counter at [used] and found it under the limit:
    [update({ <action>_used: used + 1 }).eq("user_id", userId)] sets the
    one column of the stored row, whatever that row has become since the
    read, and the ledger takes one more row. *)
Definition consume (userId : string) (a : Action) (used : Z) (w : World) : World :=
  let w2 :=
    match usage_counters w !! userId with
    | Some stored =>
        set_usage_counters
          (<[userId := with_used a (used + 1) stored]> (usage_counters w)) w
    | None => w
    end in
  set_usage_ledger (usage_ledger w2 ++ [usage_entry userId a]) w2.

Section WithHost.
Context (h : Host).

(** [upsert({ user_id: userId }, { onConflict: "user_id" })]: an existing
    row keeps every column, a missing one is created from the column
    defaults. *)
Definition ensureUsageRow (userId : string) (w : World) : World :=
  match usage_counters w !! userId with
  | Some _ => w
  | None => set_usage_counters (<[userId := default_counters h]> (usage_counters w)) w
  end.

(** The three route files carry one copy each, for ["extract"],
    ["stats"] and ["evaluate"]; the copies differ in the pair of columns
    they read and write and in the note of the ledger row. The call served
    alone: the row the UPDATE meets is the row the SELECT read, so the
    writes are [consume userId a used] on the world after
    [ensureUsageRow]. *)
Definition checkAndConsumeQuota (userId : string) (a : Action) (w : World)
  : throws QuotaResult * World :=
  let w1 := ensureUsageRow userId w in
  match usage_counters w1 !! userId with
  | None => (Throws SingleRowError, w1)
  | Some counters =>
      let used := used_of a counters in
      let limit := limit_of a counters in
      if limit <=? used then
        (Returns {| ok := false; used := used; limit := limit |}, w1)
      else
        let w2 :=
          set_usage_counters
            (<[userId := with_used a (used + 1) counters]> (usage_counters w1)) w1 in
        let w3 := set_usage_ledger (usage_ledger w2 ++ [usage_entry userId a]) w2 in
        (Returns {| ok := true; used := used + 1; limit := limit |}, w3)
  end.

(** The pair [(used, limit)] a call of [checkAndConsumeQuota] reads: the
    stored row, or the defaults [ensureUsageRow] is about to write. *)
Definition counters_of (userId : string) (w : World) : CountersRow :=
  default (default_counters h) (usage_counters w !! userId).

End WithHost.

End Usage.

(** ** Helpers the stats and evaluate routes share

    [app/api/stats/route.ts] and [app/api/evaluate/route.ts] carry identical
    copies of [setStatusGuarded] and [parseJsonLoose]. *)

(** [update({ status: to }).eq("id", sessionId).eq("user_id", userId)
     .in("status", from).select("id").maybeSingle()], then [!!data]: one
    conditional UPDATE statement; [id] is the key of the table, so it
    matches the row of that id or nothing. *)
Definition setStatusGuarded (sessionId userId : string)
    (from : list LifecycleStage) (to : LifecycleStage) (w : World) : bool * World :=
  match property_sessions w !! sessionId with
  | Some r =>
      if bool_decide (user_id r = userId) && bool_decide (status r ∈ from) then
        (true, set_property_sessions (<[sessionId := with_status r to]> (property_sessions w)) w)
      else (false, w)
  | None => (false, w)
  end.

(** The rows the UPDATE of [setStatusGuarded] selects. *)
Definition guard_matches (sessionId userId : string) (from : list LifecycleStage)
    (w : World) : gmap string SessionRow :=
  filter (fun kr => kr.1 = sessionId ∧ user_id kr.2 = userId ∧ status kr.2 ∈ from)
         (property_sessions w).

Section Parsing.
Context (h : Host).

Definition parseJsonLoose (text : string) : throws json :=
  let trimmed := trim text in
  if String.eqb trimmed EmptyString then Returns JNull
  else
    match JSON_parse h trimmed with
    | Returns v => Returns v
    | Throws _ =>
        match match_braces trimmed with
        | None => Returns JNull
        | Some m => JSON_parse h m
        end
    end.

End Parsing.

(** [a ?? b] where [b] may itself be [undefined]. *)
Definition nullish_opt (a b : option json) : option json :=
  if is_nullish a then b else a.

(** ** [app/api/stats/route.ts] *)

Module Stats.

Definition reqFields : list string :=
  [ "budget_max"; "budget_flex"; "min_bedrooms"; "property_type_rank";
    "property_type_reject_below_index"; "tenure_rank";
    "tenure_reject_below_index"; "work_postcode"; "transport_mode";
    "car_owner"; "bike_owner"; "transport_convenience_weight";
    "religion_required"; "school_priority"; "gym_priority"; "has_children";
    "quiet_area_priority"; "green_space_priority"; "safety_weight";
    "cleanliness_weight"; "storage_required"; "affordability_weight" ].

Definition includes (k : string) (l : list string) : bool :=
  existsb (String.eqb k) l.

Definition push_new (k : string) (missing : list string) : list string :=
  if includes k missing then missing else missing ++ [k].

Definition blank_string (o : option json) : bool :=
  match o with
  | Some (JStr s) => String.eqb (trim s) EmptyString
  | _ => true       (* falsy, or not a string *)
  end.

Definition empty_array (o : option json) : bool :=
  match o with
  | Some (JArr []) => true
  | Some (JArr _) => false
  | _ => true       (* not an array *)
  end.

Definition checkMinimumPreferences (p : json) : bool * list string :=
  let missing0 := filter (fun k => is_nullish (opt_prop (Some p) k) = true) reqFields in
  let missing1 :=
    if negb (truthy_opt (opt_prop (Some p) "work_postcode"))
       || blank_string (opt_prop (Some p) "work_postcode")
    then push_new "work_postcode" missing0 else missing0 in
  let missing2 :=
    if empty_array (opt_prop (Some p) "property_type_rank")
    then push_new "property_type_rank" missing1 else missing1 in
  let missing3 :=
    if empty_array (opt_prop (Some p) "tenure_rank")
    then push_new "tenure_rank" missing2 else missing2 in
  (bool_decide (missing3 = []), missing3).

Definition requiredFields : list string :=
  [ "commute_total_minutes"; "commute_walk_minutes"; "commute_mode";
    "nearest_station_distance_m"; "nearest_station_name";
    "supermarket_distance_m"; "supermarket_name";
    "green_space_distance_m"; "green_space_name"; "safety_score" ].

Definition isMediumOrHigh (c : string) : bool :=
  String.eqb c "medium" || String.eqb c "high".

Definition allowedFrom (forceRecalc : bool) : list LifecycleStage :=
  if forceRecalc
  then [CONFIRMED; STATS_FAILED; STATS_READY; AI_READY; EVAL_FAILED; STATS_NEEDS_CONFIRMATION]
  else [CONFIRMED; STATS_FAILED; STATS_NEEDS_CONFIRMATION].

Section WithHost.
Context (h : Host).

(** [Number(fields.k?.value ?? 0)] *)
Definition number_value (fields : json) (k : string) : json :=
  jsNumber h (nullish (opt_prop (prop fields k) "value") (JNum 0)).

(** [String(fields.k?.f ?? d)] *)
Definition string_of (fields : json) (k f d : string) : json :=
  JStr (jsString (nullish (opt_prop (prop fields k) f) (JStr d))).

Definition or_null (o : option json) : json := nullish o JNull.

Definition rawPayload (sessionId : string) (parsed fields : json) : json :=
  JObj
    [ ("property_session_id", JStr sessionId);
      ("stats_version", jsNumber h (nullish (prop parsed "stats_version") (JNum 1)));
      ("computed_at", JStr (nowIso h));
      ("commute_total_minutes", number_value fields "commute_total_minutes");
      ("commute_walk_minutes", number_value fields "commute_walk_minutes");
      ("commute_mode", string_of fields "commute_mode" "value" EmptyString);
      ("commute_confidence", string_of fields "commute_total_minutes" "confidence" "low");
      ("commute_notes", string_of fields "commute_total_minutes" "notes" EmptyString);
      ("nearest_station_distance_m", number_value fields "nearest_station_distance_m");
      ("nearest_station_name", string_of fields "nearest_station_name" "value" EmptyString);
      ("supermarket_distance_m", number_value fields "supermarket_distance_m");
      ("supermarket_name", string_of fields "supermarket_name" "value" EmptyString);
      ("gym_distance_m", number_value fields "gym_distance_m");
      ("gym_name", string_of fields "gym_name" "value" EmptyString);
      ("school_distance_m", number_value fields "school_distance_m");
      ("school_name", string_of fields "school_name" "value" EmptyString);
      ("religious_building_distance_m", number_value fields "religious_building_distance_m");
      ("religious_building_name", string_of fields "religious_building_name" "value" EmptyString);
      ("green_space_distance_m", number_value fields "green_space_distance_m");
      ("green_space_name", string_of fields "green_space_name" "value" EmptyString);
      ("safety_score", number_value fields "safety_score");
      ("cleanliness_score", number_value fields "cleanliness_score");
      ("transport_convenience_score", number_value fields "transport_convenience_score");
      ("service_charge_estimate_annual", number_value fields "service_charge_estimate_annual");
      ("ground_rent_estimate_annual", number_value fields "ground_rent_estimate_annual");
      ("running_costs_confidence", string_of fields "running_costs_confidence" "value" "low");
      ("running_costs_notes", string_of fields "running_costs_notes" "value" EmptyString);
      ("required_confidence", or_null (prop parsed "required_confidence"));
      ("required_source", or_null (prop parsed "required_source"));
      ("optional_confidence", or_null (prop parsed "optional_confidence"));
      ("optional_source", or_null (prop parsed "optional_source")) ].

(** [rawPayload.k] *)
Definition raw_column (raw : json) (k : string) : json := or_null (prop raw k).

Definition confirmedPayload (sessionId : string) (parsed raw : json) : json :=
  JObj
    [ ("property_session_id", JStr sessionId);
      ("commute_total_minutes", raw_column raw "commute_total_minutes");
      ("commute_walk_minutes", raw_column raw "commute_walk_minutes");
      ("commute_mode", raw_column raw "commute_mode");
      ("nearest_station_distance_m", raw_column raw "nearest_station_distance_m");
      ("nearest_station_name", raw_column raw "nearest_station_name");
      ("supermarket_distance_m", raw_column raw "supermarket_distance_m");
      ("supermarket_name", raw_column raw "supermarket_name");
      ("green_space_distance_m", raw_column raw "green_space_distance_m");
      ("green_space_name", raw_column raw "green_space_name");
      ("safety_score", raw_column raw "safety_score");
      ("required_confidence", or_null (prop parsed "required_confidence"));
      ("required_source", or_null (prop parsed "required_source"));
      ("notes", JStr "Auto-confirmed (required fields medium/high)");
      ("confirmed_by_user", JBool false);
      ("confirmed_at", JStr (nowIso h)) ].

(** [String(fields[k]?.confidence ?? parsed.required_confidence?.[k] ?? "low")] *)
Definition resolved_confidence (parsed fields : json) (k : string) : string :=
  jsString
    (nullish
       (nullish_opt (opt_prop (prop fields k) "confidence")
                    (opt_prop (prop parsed "required_confidence") k))
       (JStr "low")).

Definition allOk (parsed fields : json) : bool :=
  forallb (fun k => isMediumOrHigh (resolved_confidence parsed fields k)) requiredFields.

(** The handler from the model's answer on: shape check, raw upsert,
    auto-confirm gate. *)
Definition finish (sessionId : string) (w : World) : Response * World :=
  match model_output h with
  | Throws e => (caught 500 e, w)
  | Returns outputText =>
  match parseJsonLoose h outputText with
  | Throws e => (caught 500 e, w)
  | Returns parsed =>
      if negb (truthy parsed) || negb (typeof_object parsed)
         || negb (truthy_opt (prop parsed "fields"))
      then
        (respond 500 [("error", JStr "AI returned non-JSON or missing fields")],
         update_status sessionId STATS_FAILED w)
      else
        let fields := or_null (prop parsed "fields") in
        let raw := rawPayload sessionId parsed fields in
        if negb (store_accepts h "listing_stats_raw" raw) then (caught 500 StoreError, w)
        else
        let w1 := set_listing_stats_raw (<[sessionId := raw]> (listing_stats_raw w)) w in
        if allOk parsed fields then
          if negb (store_accepts h "listing_stats_confirmed"
                     (confirmedPayload sessionId parsed raw))
          then (caught 500 StoreError, w1)
          else
          let w2 :=
            set_listing_stats_confirmed
              (<[sessionId := confirmedPayload sessionId parsed raw]>
                 (listing_stats_confirmed w1)) w1 in
          (respond 200 [("ok", JBool true); ("status", JStr "STATS_READY")],
           update_status sessionId STATS_READY w2)
        else
          (respond 200 [("ok", JBool true); ("status", JStr "STATS_NEEDS_CONFIRMATION")],
           update_status sessionId STATS_NEEDS_CONFIRMATION w1)
  end end.

(** The handler from the guarded transition on, in the world [w] the
    guard meets; [currentStatus] is the status read at the start of the
    request, which is the stored one when nothing wrote the session in
    between. The 409 reports it and the revert writes it back. *)
Definition run (sessionId userId : string) (currentStatus : LifecycleStage)
    (forceRecalc : bool) (w : World) : Response * World :=
  let '(guarded, w1) :=
    setStatusGuarded sessionId userId (allowedFrom forceRecalc) STATS_RUNNING w in
  if negb guarded then
    (respond 409 [("error", JStr "ALREADY_RUNNING_OR_INVALID_STATE");
                  ("status", JStr (stage_name currentStatus))], w1)
  else
    match Usage.checkAndConsumeQuota h userId A_stats w1 with
    | (Throws e, w2) => (caught 500 e, w2)
    | (Returns quota, w2) =>
        if negb (Usage.ok quota) then
          (respond 402 [("error", JStr "Quota exceeded");
                        ("used", JNum (Usage.used quota));
                        ("limit", JNum (Usage.limit quota))],
           update_status sessionId currentStatus w2)
        else if negb (has_api_key h) then
          (respond 500 [("error", JStr "OPENAI_API_KEY missing")],
           update_status sessionId STATS_FAILED w2)
        else finish sessionId (count_openai_call w2)
    end.

Definition POST (req : Request) (w : World) : Response * World :=
  match bearer req with
  | None => (respond 401 [("error", JStr "Missing bearer token")], w)
  | Some token =>
  match getUser h token with
  | None => (respond 401 [("error", JStr "Invalid JWT")], w)
  | Some userId =>
  let sessionId := opt_prop (Some (payload req)) "property_session_id" in
  let forceRecalc := truthy_opt (opt_prop (Some (payload req)) "force_recalc") in
  if negb (truthy_opt sessionId) then
    (respond 400 [("error", JStr "property_session_id required")], w)
  else
  let sid := jsString (or_null sessionId) in
  match property_sessions w !! sid with
  | None => (caught 500 SingleRowError, w)
  | Some session =>
  if negb (bool_decide (user_id session = userId)) then
    (respond 403 [("error", JStr "Forbidden")], w)
  else
  match listing_facts_confirmed w !! sid with
  | None => (respond 400 [("error", JStr "Listing not confirmed")], w)
  | Some facts =>
  match preferences w !! userId with
  | None => (respond 400 [("error", JStr "Preferences not found")], w)
  | Some prefs =>
  let min := checkMinimumPreferences prefs in
  if negb min.1 then
    (respond 400 [("error", JStr "MIN_PREFS_MISSING");
                  ("missing", JArr (map JStr min.2))], w)
  else run sid userId (status session) forceRecalc w
  end end end end end.

End WithHost.

End Stats.

(** ** [app/api/evaluate/route.ts] *)

Module Evaluate.

Definition evalFrom : list LifecycleStage := [STATS_READY; AI_READY; EVAL_FAILED].

Section WithHost.
Context (h : Host).

Definition evalPayload (sessionId : string) (parsed : json) : json :=
  JObj
    [ ("property_session_id", JStr sessionId);
      ("rank_score", nullish (prop parsed "rank_score") JNull);
      ("overall_score", nullish (prop parsed "overall_score") JNull);
      ("executive_summary",
        JStr (jsString (nullish (prop parsed "executive_summary") (JStr EmptyString))));
      ("estate_agent_snippet",
        JStr (jsString (nullish (prop parsed "estate_agent_snippet") (JStr EmptyString))));
      ("per_preference", nullish (prop parsed "per_preference") (JObj []));
      ("warnings", nullish (prop parsed "warnings") JNull);
      ("assumptions", nullish (prop parsed "assumptions") JNull);
      ("model_info",
        nullish (prop parsed "model_info") (JObj [("schema_version", JNum 1)]));
      ("evaluated_at", JStr (nowIso h)) ].

(** The handler from the model's answer on. *)
Definition finish (sessionId : string) (w : World) : Response * World :=
  match model_output h with
  | Throws e => (caught 500 e, w)
  | Returns outputText =>
  match parseJsonLoose h outputText with
  | Throws e => (caught 500 e, w)
  | Returns parsed =>
      if negb (truthy parsed) || negb (typeof_object parsed) then
        (respond 500 [("error", JStr "AI returned non-JSON")],
         update_status sessionId EVAL_FAILED w)
      else if negb (store_accepts h "listing_evaluation_raw" (evalPayload sessionId parsed))
      then (caught 500 StoreError, w)
      else
        let w1 :=
          set_listing_evaluation_raw
            (<[sessionId := evalPayload sessionId parsed]> (listing_evaluation_raw w)) w in
        (respond 200 [("ok", JBool true); ("status", JStr "AI_READY")],
         update_status sessionId AI_READY w1)
  end end.

(** The handler from the guarded transition on, in the world [w] the
    guard meets; [currentStatus] is the status read at the start of the
    request. [POST] has found it in [evalFrom] before it comes here, so
    the guard can fail only when the session was written in between; the
    409 then reports [currentStatus], and the reverts write it back. *)
Definition run (sessionId userId : string) (currentStatus : LifecycleStage)
    (w : World) : Response * World :=
  let '(guarded, w1) := setStatusGuarded sessionId userId evalFrom EVAL_RUNNING w in
  if negb guarded then
    (respond 409 [("error", JStr "ALREADY_RUNNING_OR_INVALID_STATE");
                  ("status", JStr (stage_name currentStatus))], w1)
  else
  match listing_facts_confirmed w1 !! sessionId with
  | None =>
      (respond 400 [("error", JStr "Listing not confirmed")],
       update_status sessionId currentStatus w1)
  | Some facts =>
  match listing_stats_confirmed w1 !! sessionId with
  | None =>
      (respond 400 [("error", JStr "Stats not ready")],
       update_status sessionId currentStatus w1)
  | Some stats =>
  match preferences w1 !! userId with
  | None =>
      (respond 400 [("error", JStr "Preferences not found")],
       update_status sessionId currentStatus w1)
  | Some prefs =>
  match Usage.checkAndConsumeQuota h userId A_evaluate w1 with
  | (Throws e, w2) => (caught 500 e, w2)
  | (Returns quota, w2) =>
      if negb (Usage.ok quota) then
        (respond 402 [("error", JStr "Quota exceeded");
                      ("used", JNum (Usage.used quota));
                      ("limit", JNum (Usage.limit quota))],
         update_status sessionId currentStatus w2)
      else if negb (has_api_key h) then
        (respond 500 [("error", JStr "OPENAI_API_KEY missing")],
         update_status sessionId EVAL_FAILED w2)
      else finish sessionId (count_openai_call w2)
  end end end end.

Definition POST (req : Request) (w : World) : Response * World :=
  match bearer req with
  | None => (respond 401 [("error", JStr "Missing bearer token")], w)
  | Some token =>
  match getUser h token with
  | None => (respond 401 [("error", JStr "Invalid JWT")], w)
  | Some userId =>
  let sessionId := opt_prop (Some (payload req)) "property_session_id" in
  if negb (truthy_opt sessionId) then
    (respond 400 [("error", JStr "property_session_id required")], w)
  else
  let sid := jsString (nullish sessionId JNull) in
  match property_sessions w !! sid with
  | None => (caught 500 SingleRowError, w)
  | Some session =>
  if negb (bool_decide (user_id session = userId)) then
    (respond 403 [("error", JStr "Forbidden")], w)
  else
  let currentStatus := status session in
  if negb (bool_decide (currentStatus ∈ evalFrom)) then
    (respond 409 [("error", JStr "Invalid state");
                  ("status", JStr (stage_name currentStatus))], w)
  else run sid userId currentStatus w
  end end end.

End WithHost.

End Evaluate.

(** ** [app/api/stats/confirm/route.ts] *)

Module StatsConfirm.

(** [must(v, msg)]: the value unless it is [null], [undefined] or a blank
    string; the type parameter of the source leaves no trace at run time. *)
Definition must (v : option json) (msg : string) : throws json :=
  match v with
  | None | Some JNull => Throws (Error msg)
  | Some (JStr s) =>
      if String.eqb (trim s) EmptyString then Throws (Error msg) else Returns (JStr s)
  | Some x => Returns x
  end.

(** The columns the payload takes through [must], in the order of the
    object literal. *)
Definition core_fields : list string :=
  [ "commute_total_minutes"; "commute_walk_minutes"; "commute_mode";
    "nearest_station_distance_m"; "nearest_station_name";
    "supermarket_distance_m"; "supermarket_name";
    "green_space_distance_m"; "green_space_name"; "safety_score" ].

(** The [must] columns of the payload, left to right; the first missing
    one throws. *)
Fixpoint must_all (stats : json) (ks : list string)
  : throws (list (string * json)) :=
  match ks with
  | [] => Returns []
  | k :: rest =>
      match must (prop stats k) (k +:+ " required") with
      | Throws e => Throws e
      | Returns v =>
          match must_all stats rest with
          | Throws e => Throws e
          | Returns kvs => Returns ((k, v) :: kvs)
          end
      end
  end.

Section WithHost.
Context (h : Host).

Definition confirm_payload (sessionId : json) (stats : json)
  : throws json :=
  match must_all stats core_fields with
  | Throws e => Throws e
  | Returns core =>
      Returns
        (JObj
           (("property_session_id", sessionId) :: core ++
            [ ("required_confidence", nullish (prop stats "required_confidence") JNull);
              ("required_source", nullish (prop stats "required_source") JNull);
              ("notes", nullish (prop stats "notes") (JStr "Confirmed by user"));
              ("confirmed_by_user", JBool true);
              ("confirmed_at", JStr (nowIso h)) ]))
  end.

Definition POST (req : Request) (w : World) : Response * World :=
  match bearer req with
  | None => (respond 401 [("error", JStr "Missing bearer token")], w)
  | Some token =>
  match getUser h token with
  | None => (respond 401 [("error", JStr "Invalid JWT")], w)
  | Some userId =>
  match payload req with
  | JNull => (caught 400 TypeError, w)
  | body =>
  match must (prop body "property_session_id") "property_session_id required" with
  | Throws e => (caught 400 e, w)
  | Returns sessionId =>
  match must (prop body "stats") "stats required" with
  | Throws e => (caught 400 e, w)
  | Returns stats =>
  let sid := jsString sessionId in
  match property_sessions w !! sid with
  | None => (caught 400 SingleRowError, w)
  | Some s =>
  if negb (bool_decide (user_id s = userId)) then
    (respond 403 [("error", JStr "Forbidden")], w)
  else if negb (bool_decide (status s = STATS_NEEDS_CONFIRMATION)) then
    (respond 409 [("error", JStr "Invalid state");
                  ("status", JStr (stage_name (status s)))], w)
  else
  match confirm_payload sessionId stats with
  | Throws e => (caught 400 e, w)
  | Returns row =>
      if negb (store_accepts h "listing_stats_confirmed" row) then (caught 400 StoreError, w)
      else
      let w1 :=
        set_listing_stats_confirmed
          (<[sid := row]> (listing_stats_confirmed w)) w in
      (respond 200 [("ok", JBool true); ("status", JStr "STATS_READY")],
       update_status sid STATS_READY w1)
  end end end end end end end.

End WithHost.

End StatsConfirm.

(** ** [app/api/extract/route.ts] *)

Module Extract.

(** [.maybeSingle()] with only [data] destructured: the row when exactly
    one matches, [null] when none does and also when several do (the error
    is dropped). *)
Definition maybeSingle (rows : list (string * SessionRow)) : option (string * SessionRow) :=
  match rows with
  | [r] => Some r
  | _ => None
  end.

Definition by_listing (userId listingId : string) (w : World) : option (string * SessionRow) :=
  maybeSingle
    (map_to_list
       (filter (fun kr => user_id kr.2 = userId ∧ rightmove_listing_id kr.2 = Some listingId)
               (property_sessions w))).

Definition by_url (userId url : string) (w : World) : option (string * SessionRow) :=
  maybeSingle
    (map_to_list
       (filter (fun kr => user_id kr.2 = userId ∧ rightmove_url kr.2 = url)
               (property_sessions w))).

(** [select("id", { count: "exact", head: true }).eq("user_id", userId)] *)
Definition count_sessions (userId : string) (w : World) : nat :=
  size (filter (fun kr : string * SessionRow => user_id kr.2 = userId) (property_sessions w)).

(** The count is one statement and the insert that follows it another. *)
Definition enforceMaxLinks (userId : string) (w : World) : throws unit :=
  if (100 <=? count_sessions userId w)%nat then Throws MaxLinksReached else Returns tt.

(** [insert(row).select("*").single()]; the store draws an [id] that is
    not in use. The row is made of the user id, the URL, the listing id
    and the stage name, and the store is taken to accept it: the error
    the handler would throw here is not among the exceptions modelled. *)
Definition insert_session (r : SessionRow) (w : World) : (string * SessionRow) * World :=
  let id := fresh (dom (property_sessions w)) in
  ((id, r), set_property_sessions (<[id := r]> (property_sessions w)) w).

(** The call served alone: the lookup, the count and the insert meet one
    world. *)
Definition upsertPropertySession (userId rightmoveUrl : string)
    (listingId : option string) (w : World) : throws (string * SessionRow) * World :=
  match listingId with
  | Some lid =>
      match by_listing userId lid w with
      | Some existing => (Returns existing, w)
      | None =>
          match enforceMaxLinks userId w with
          | Throws e => (Throws e, w)
          | Returns _ =>
              let '(data, w1) :=
                insert_session
                  {| user_id := userId;
                     rightmove_url := rightmoveUrl;
                     rightmove_listing_id := Some lid;
                     status := CREATED;
                     last_extracted_at := None |} w in
              (Returns data, w1)
          end
      end
  | None =>
      match by_url userId rightmoveUrl w with
      | Some existing => (Returns existing, w)
      | None =>
          match enforceMaxLinks userId w with
          | Throws e => (Throws e, w)
          | Returns _ =>
              let '(data, w1) :=
                insert_session
                  {| user_id := userId;
                     rightmove_url := rightmoveUrl;
                     rightmove_listing_id := None;
                     status := CREATED;
                     last_extracted_at := None |} w in
              (Returns data, w1)
          end
      end
  end.

Definition fact_columns : list string :=
  [ "price"; "bedrooms"; "bathrooms"; "property_type"; "tenure";
    "lease_years_remaining"; "postcode"; "address"; "description";
    "estate_agent"; "ai_confidence"; "ai_warnings" ].

(** The row [writeFactsRaw] sends: every column is [facts.k ?? null]. *)
Definition facts_row (propertySessionId : string) (facts : json) : json :=
  JObj (("property_session_id", JStr propertySessionId)
        :: map (fun k => (k, nullish (prop facts k) JNull)) fact_columns).

Definition is_stage (runStage : json) (name : string) : bool :=
  match runStage with
  | JStr s => String.eqb s name
  | _ => false
  end.

Section WithHost.
Context (h : Host).

(** [update({ status, last_extracted_at: now }).eq("id", sessionId)] *)
Definition updateSessionStatus (sessionId : string) (s : LifecycleStage) (w : World) : World :=
  match property_sessions w !! sessionId with
  | Some r =>
      set_property_sessions
        (<[sessionId := with_last_extracted_at (with_status r s) (nowIso h)]>
           (property_sessions w)) w
  | None => w
  end.

(** Upsert on [property_session_id]. *)
Definition writeFactsRaw (propertySessionId : string) (facts : json) (w : World)
  : throws unit * World :=
  if negb (store_accepts h "listing_facts_raw" (facts_row propertySessionId facts))
  then (Throws StoreError, w)
  else
    (Returns tt,
     set_listing_facts_raw
       (<[propertySessionId := facts_row propertySessionId facts]> (listing_facts_raw w)) w).

Definition no_key_facts : json :=
  JObj [ ("ai_warnings", JArr [JStr "OPENAI_API_KEY missing – skipping AI extraction"]);
         ("ai_confidence", JObj [("overall", JNum 0)]) ].

Definition non_json_facts : json :=
  JObj [ ("ai_warnings", JArr [JStr "AI returned non-JSON or empty output"]);
         ("ai_confidence", JObj [("overall", JNum 0)]) ].

(** The prompt is built from the URL and the snippets and plays no part
    in what follows the call; the answer is [model_output h]. *)
Definition callOpenAIWithWeb (w : World) : throws json * World :=
  if negb (has_api_key h) then (Returns no_key_facts, w)
  else
    let w1 := count_openai_call w in
    match model_output h with
    | Throws e => (Throws e, w1)
    | Returns outputText =>
    let parsed :=
      match JSON_parse h outputText with
      | Returns v => Returns v
      | Throws _ =>
          match match_braces outputText with
          | Some m => JSON_parse h m
          | None => Returns JNull
          end
      end in
    match parsed with
    | Throws e => (Throws e, w1)
    | Returns v =>
        if negb (truthy v) || negb (typeof_object v)
        then (Returns non_json_facts, w1)
        else (Returns v, w1)
    end
    end.

Definition quota_json (q : Usage.QuotaResult) : json :=
  JObj [ ("ok", JBool (Usage.ok q)); ("used", JNum (Usage.used q));
         ("limit", JNum (Usage.limit q)) ].

Definition listing_json (listingId : option string) : json :=
  match listingId with
  | Some lid => JStr lid
  | None => JNull
  end.

Definition snippets_json (html : string) : json :=
  JArr (map JStr (extractSnippets h html)).

(** [{ error: "Invalid JWT", details: userErr?.message }]: an [undefined]
    member is not serialised. *)
Definition invalid_jwt (token : string) : list (string * json) :=
  ("error", JStr "Invalid JWT")
  :: match userErr_message h token with
     | Some message => [("details", JStr message)]
     | None => []
     end.

Definition POST (req : Request) (w : World) : Response * World :=
  match bearer req with
  | None => (respond 401 [("error", JStr "Missing Authorization: Bearer <token>")], w)
  | Some token =>
  match payload req with
  | JNull => (caught 500 TypeError, w)
  | body =>
  let rightmove_url := prop body "rightmove_url" in
  let stage := prop body "stage" in
  let runStage := if truthy_opt stage then nullish stage JNull else JStr "full" in
  match getUser h token with
  | None => (respond 401 (invalid_jwt token), w)
  | Some userId =>
  if is_stage runStage "auth" then
    (respond 200 [("ok", JBool true); ("stage", JStr "auth"); ("user_id", JStr userId)], w)
  else
  match Usage.checkAndConsumeQuota h userId A_extract w with
  | (Throws e, w1) => (caught 500 e, w1)
  | (Returns quota, w1) =>
  if negb (Usage.ok quota) then
    (respond 402 [("ok", JBool false); ("stage", JStr "quota");
                  ("error", JStr "Quota exceeded");
                  ("used", JNum (Usage.used quota));
                  ("limit", JNum (Usage.limit quota))], w1)
  else if is_stage runStage "quota" then
    (respond 200 [("ok", JBool true); ("stage", JStr "quota"); ("user_id", JStr userId);
                  ("quota", quota_json quota)], w1)
  else
  match rightmove_url with
  | Some (JStr url) =>
  if String.eqb url EmptyString then
    (respond 400 [("error", JStr "Missing rightmove_url in body")], w1)
  else
  let listingId := parseRightmoveListingId url in
  match fetchRightmoveHtml h url with
  | Throws e => (caught 500 e, w1)
  | Returns html =>
  if is_stage runStage "fetch" then
    (respond 200 [("ok", JBool true); ("stage", JStr "fetch"); ("user_id", JStr userId);
                  ("listing_id", listing_json listingId);
                  ("snippets", snippets_json html)], w1)
  else
  match callOpenAIWithWeb w1 with
  | (Throws e, w2) => (caught 500 e, w2)
  | (Returns facts, w2) =>
  if is_stage runStage "openai" then
    (respond 200 [("ok", JBool true); ("stage", JStr "openai"); ("user_id", JStr userId);
                  ("listing_id", listing_json listingId);
                  ("snippets", snippets_json html); ("facts", facts)], w2)
  else
  match upsertPropertySession userId url listingId w2 with
  | (Throws MaxLinksReached, w3) =>
      (respond 403 [("ok", JBool false); ("error", JStr "MAX_LINKS_REACHED");
                    ("limit", JNum 100)], w3)
  | (Throws e, w3) => (caught 500 e, w3)
  | (Returns (id, _), w3) =>
      let w4 := updateSessionStatus id FETCHED_HTML w3 in
      let w5 := updateSessionStatus id AI_PARSED w4 in
      match writeFactsRaw id facts w5 with
      | (Throws e, w6) => (caught 500 e, w6)
      | (Returns _, w6) =>
          let w7 := updateSessionStatus id NEEDS_CONFIRMATION w6 in
          (respond 200 [("ok", JBool true); ("stage", JStr "full"); ("user_id", JStr userId);
                        ("session_id", JStr id); ("listing_id", listing_json listingId);
                        ("snippets", snippets_json html); ("facts", facts)], w7)
      end
  end end end
  | _ => (respond 400 [("error", JStr "Missing rightmove_url in body")], w1)
  end end end end end.

End WithHost.

End Extract.

(** ** [app/api/preferences/route.ts] *)

Module Preferences.

Definition strings (l : list string) : json := JArr (map JStr l).

(** Defaults that satisfy the NOT NULL columns of [preferences]. *)
Definition defaultPreferences (userId : string) : json :=
  JObj
    [ ("user_id", JStr userId);
      ("budget_max", JNum 450000);
      ("budget_flex", JNum 0);
      ("notes_budget", JNull);
      ("min_bedrooms", JNum 2);
      ("min_bathrooms", JNull);
      ("property_type_rank",
        strings ["detached"; "semi_detached"; "terraced"; "flat"; "maisonette";
                 "bungalow"; "studio"]);
      ("property_type_reject_below_index", JNum 0);
      ("notes_property_type", JNull);
      ("tenure_rank",
        strings ["freehold"; "share_of_freehold"; "leasehold"; "commonhold"; "other"]);
      ("tenure_reject_below_index", JNum 0);
      ("min_lease_years", JNull);
      ("notes_tenure", JNull);
      ("work_postcode", JStr EmptyString);
      ("transport_mode", JStr "public_transport");
      ("max_commute_minutes_total", JNull);
      ("max_walk_minutes", JNull);
      ("car_owner", JBool false);
      ("bike_owner", JBool false);
      ("transport_convenience_weight", JNum 5);
      ("notes_commute", JNull);
      ("religion_required", JBool false);
      ("school_priority", JBool false);
      ("gym_priority", JBool false);
      ("has_children", JBool false);
      ("quiet_area_priority", JBool false);
      ("green_space_priority", JBool false);
      ("safety_weight", JNum 5);
      ("cleanliness_weight", JNum 5);
      ("notes_lifestyle", JNull);
      ("max_service_charge", JNull);
      ("max_ground_rent", JNull);
      ("notes_running_costs", JNull);
      ("parking_required", JStr "not_required");
      ("parking_type_rank",
        strings ["driveway"; "garage"; "allocated"; "permit"; "street"; "none"]);
      ("parking_reject_below_index", JNum 0);
      ("storage_required", JBool false);
      ("notes_parking", JNull);
      ("condition_tolerance", JStr "light_cosmetic");
      ("notes_condition", JNull);
      ("affordability_weight", JNum 5);
      ("notes_value", JNull) ].

(** The own enumerable properties of a value, as the object spread
    [{ ...v }] copies them: the members of an object, the elements of an
    array and the characters of a string under their indices, nothing for
    the other values. *)
Definition indexed (xs : list json) : list (string * json) :=
  imap (fun i x => (pretty i, x)) xs.

(** The value of the byte [c]. *)
Definition byte_value (c : Ascii.ascii) : Z := Z.of_N (Ascii.N_of_ascii c).

(** The number of bytes of the character that starts with the byte [c]. *)
Definition char_width (c : Ascii.ascii) : nat :=
  let n := byte_value c in
  if n <? 192 then 1%nat else if n <? 224 then 2%nat else if n <? 240 then 3%nat else 4%nat.

(** The characters of [s], each as its bytes; [k] counts the bytes still
    to come of the character [cur], held last byte first. *)
Fixpoint split_chars (k : nat) (cur : list Z) (s : string) : list (list Z) :=
  match s with
  | EmptyString => match cur with [] => [] | _ => [rev cur] end
  | String c rest =>
      match k with
      | S k' => split_chars k' (byte_value c :: cur) rest
      | O =>
          (match cur with [] => [] | _ => [rev cur] end
           ++ split_chars (char_width c - 1) [byte_value c] rest)%list
      end
  end.

(** The three bytes of the code unit [u], when it is 2048 or more. *)
Definition unit_bytes (u : Z) : list Z :=
  [ 224 + u / 4096; 128 + (u / 64) mod 64; 128 + u mod 64 ].

(** The UTF-16 code units of a character: itself, or its two surrogates
    when it lies above U+FFFF and takes four bytes. *)
Definition code_units (char : list Z) : list string :=
  match char with
  | [b0; b1; b2; b3] =>
      let v := (b0 mod 8) * 262144 + (b1 mod 64) * 4096 + (b2 mod 64) * 64
               + b3 mod 64 - 65536 in
      [ bytes (unit_bytes (55296 + v / 1024)); bytes (unit_bytes (56320 + v mod 1024)) ]
  | _ => [ bytes char ]
  end.

(** [s[0]], [s[1]], ...: the code units of the string. *)
Definition characters (s : string) : list json :=
  map JStr (concat (map code_units (split_chars 0 [] s))).

Definition own_entries (v : json) : list (string * json) :=
  match v with
  | JObj kvs => kvs
  | JArr xs => indexed xs
  | JStr s => indexed (characters s)
  | _ => []
  end.

(** [{ ...o, k: v }] on the members of [o]: a member [k] keeps its place
    and takes the value, a new one goes last. *)
Fixpoint with_key (k : string) (v : json) (kvs : list (string * json))
  : list (string * json) :=
  match kvs with
  | [] => [(k, v)]
  | (k', v') :: rest =>
      if String.eqb k k' then (k, v) :: rest else (k', v') :: with_key k v rest
  end.

(** The row an upsert leaves where one was stored: the columns of the
    payload are written, the others keep their value. *)
Definition upsert_row (old : json) (payload : list (string * json)) : json :=
  JObj (fold_left (fun row kv => with_key kv.1 kv.2 row) payload (own_entries old)).

Section WithHost.
Context (h : Host).

Definition GET (req : Request) (w : World) : Response * World :=
  match bearer req with
  | None => (respond 401 [("error", JStr "Missing bearer token")], w)
  | Some token =>
  match getUser h token with
  | None => (respond 401 [("error", JStr "Invalid JWT")], w)
  | Some userId =>
  match preferences w !! userId with
  | None =>
      let seed := defaultPreferences userId in
      if negb (store_accepts h "preferences" seed) then (caught 500 StoreError, w)
      else
        (respond 200 [("ok", JBool true); ("preferences", seed)],
         set_preferences (<[userId := seed]> (preferences w)) w)
  | Some data =>
      (respond 200 [("ok", JBool true); ("preferences", data)], w)
  end end end.

(** [upsert(payload, { onConflict: "user_id" }).select("*").single()] with
    [payload = { ...body, user_id: userId }]. On a first insert the columns
    the body does not name take the defaults of the table, which the rows
    of the model do not show (as for the [seed] of [GET]). The body is read
    by [await req.json()]: one that is not JSON throws into the catch-all
    before anything is read or written, and the requests of the model
    carry a parsed body. *)
Definition POST (req : Request) (w : World) : Response * World :=
  match bearer req with
  | None => (respond 401 [("error", JStr "Missing bearer token")], w)
  | Some token =>
  match getUser h token with
  | None => (respond 401 [("error", JStr "Invalid JWT")], w)
  | Some userId =>
  let payload := with_key "user_id" (JStr userId) (own_entries (payload req)) in
  if negb (store_accepts h "preferences" (JObj payload)) then (caught 400 StoreError, w)
  else
    let row :=
      match preferences w !! userId with
      | Some old => upsert_row old payload
      | None => JObj payload
      end in
    (respond 200 [("ok", JBool true); ("preferences", row)],
     set_preferences (<[userId := row]> (preferences w)) w)
  end end.

End WithHost.

End Preferences.

(** ** [app/api/confirm/route.ts]: manual confirmation of the facts *)

Definition set_listing_facts_confirmed (m : gmap string json) (w : World) : World :=
  {| property_sessions := property_sessions w;
     usage_counters := usage_counters w;
     usage_ledger := usage_ledger w;
     listing_facts_raw := listing_facts_raw w;
     listing_facts_confirmed := m;
     listing_stats_raw := listing_stats_raw w;
     listing_stats_confirmed := listing_stats_confirmed w;
     listing_evaluation_raw := listing_evaluation_raw w;
     preferences := preferences w;
     openai_calls := openai_calls w |}.

Module Confirm.

(** The columns the payload takes through [must], in the order of the
    object literal; the route carries its own copy of [must], the same as
    the one of the stats confirmation. *)
Definition required_facts : list string :=
  [ "price"; "bedrooms"; "property_type"; "tenure"; "postcode" ].

(** The columns that are [facts.k ?? null]. *)
Definition optional_facts : list string :=
  [ "bathrooms"; "lease_years_remaining"; "address"; "description"; "estate_agent" ].

Definition confirm_payload (sessionId facts : json) : throws json :=
  match StatsConfirm.must_all facts required_facts with
  | Throws e => Throws e
  | Returns core =>
      Returns
        (JObj
           (("property_session_id", sessionId) :: core ++
            map (fun k => (k, nullish (prop facts k) JNull)) optional_facts))
  end.

Section WithHost.
Context (h : Host).

(** The body is read by [await req.json()]: one that is not JSON throws
    into the catch-all (400) before anything is read or written, and the
    requests of the model carry a parsed body. The payload is validated
    before the session is looked up; no status is asked of the session. *)
Definition POST (req : Request) (w : World) : Response * World :=
  match bearer req with
  | None => (respond 401 [("error", JStr "Missing bearer token")], w)
  | Some token =>
  match getUser h token with
  | None => (respond 401 [("error", JStr "Invalid JWT")], w)
  | Some userId =>
  match payload req with
  | JNull => (caught 400 TypeError, w)
  | body =>
  match StatsConfirm.must (prop body "session_id") "session_id required" with
  | Throws e => (caught 400 e, w)
  | Returns sessionId =>
  match StatsConfirm.must (prop body "facts") "facts required" with
  | Throws e => (caught 400 e, w)
  | Returns facts =>
  match confirm_payload sessionId facts with
  | Throws e => (caught 400 e, w)
  | Returns row =>
  let sid := jsString sessionId in
  match property_sessions w !! sid with
  | None => (caught 400 SingleRowError, w)
  | Some s =>
  if negb (bool_decide (user_id s = userId)) then
    (respond 403 [("error", JStr "Forbidden")], w)
  else if negb (store_accepts h "listing_facts_confirmed" row) then
    (caught 400 StoreError, w)
  else
    let w1 := set_listing_facts_confirmed (<[sid := row]> (listing_facts_confirmed w)) w in
    (respond 200 [("ok", JBool true)], update_status sid CONFIRMED w1)
  end end end end end end end.

End WithHost.

End Confirm.

(** ** The bearer token

    Every route file carries the same [getBearerToken]; the handlers above
    receive its result as [bearer]. *)

(** [.] matches every character but a line terminator: no line terminator
    starts anywhere in [s]. *)
Fixpoint one_line (s : string) : bool :=
  match s with
  | EmptyString => true
  | String _ rest => (width_at line_terminators s =? 0)%nat && one_line rest
  end.

(** [(.+)$] at [s]: all of [s], when it is not empty and has no line
    terminator. *)
Definition rest_of_line (s : string) : option string :=
  match s with
  | EmptyString => None
  | _ => if one_line s then Some s else None
  end.

(** [\s+(.+)$] once a first white-space character is taken: the greedy
    [\s+] takes the next white-space character too, and gives it back to
    the group only when the rest does not match. [k] counts the bytes
    still to pass of the character being taken. *)
Fixpoint spaces_then_rest (k : nat) (s : string) : option string :=
  match k, s with
  | S k', String _ rest => spaces_then_rest k' rest
  | S _, EmptyString => None
  | O, _ =>
      let further :=
        match width_at white_space s, s with
        | S w, String _ rest => spaces_then_rest w rest
        | _, _ => None
        end in
      match further with
      | Some token => Some token
      | None => rest_of_line s
      end
  end.

(** [(req.headers.get("authorization") || "").match(/^Bearer\s+(.+)$/i)?.[1]
    ?? null] on the header value [authorization]. *)
Definition getBearerToken (authorization : option string) : option string :=
  match strip_prefix_ci "Bearer" (default EmptyString authorization) with
  | Some rest =>
      match width_at white_space rest, rest with
      | S w, String _ after => spaces_then_rest w after
      | _, _ => None
      end
  | None => None
  end.

(** ** [app/preferences/page.tsx]: helpers of the preferences form *)

Module PreferencesPage.

Definition UK_PROPERTY_TYPES : list string :=
  [ "detached"; "semi_detached"; "terraced"; "end_of_terrace"; "flat";
    "maisonette"; "bungalow"; "studio"; "other" ].

Definition TENURE_TYPES : list string :=
  [ "freehold"; "share_of_freehold"; "leasehold"; "commonhold"; "other" ].

Definition PARKING_TYPES : list string :=
  [ "driveway"; "garage"; "allocated"; "permit"; "street"; "none" ].

(** [Math.max(min, Math.min(max, n))] on integers. *)
Definition clamp (n min max : Z) : Z := Z.max min (Z.min max n).

(** The index at which [splice(start, ...)] works on an array of [len]
    elements: counted from the end when negative, and kept within the
    array. *)
Definition splice_start (len : nat) (start : Z) : nat :=
  if start <? 0 then Z.to_nat (Z.max (Z.of_nat len + start) 0)
  else Z.to_nat (Z.min start (Z.of_nat len)).

(** [const copy = [...arr]; const [item] = copy.splice(from, 1);
    copy.splice(to, 0, item); return copy]. An element of the result is
    [None] where the array holds [undefined]: when [from] is past the end
    nothing is removed and [item] is [undefined]. *)
Definition reorder {T : Type} (arr : list T) (from to : Z) : list (option T) :=
  let copy := map Some arr in
  let i := splice_start (length copy) from in
  let item := mjoin (copy !! i) in
  let copy1 := delete i copy in
  let j := splice_start (length copy1) to in
  (take j copy1 ++ item :: drop j copy1)%list.

(** [cur.filter((x) => allowedSet.has(x))]: the elements of the array that
    are allowed names; an element that is not a string is in no set of
    names. *)
Fixpoint kept_of (xs : list json) (allowed : list string) : list string :=
  match xs with
  | [] => []
  | JStr x :: rest =>
      if bool_decide (x ∈ allowed) then x :: kept_of rest allowed else kept_of rest allowed
  | _ :: rest => kept_of rest allowed
  end.

(** [current] is the value received ([None] for [undefined]); anything
    that is not an array counts as the empty array. *)
Definition normalizeRankList (current : option json) (allowed : list string) : list string :=
  let cur := match current with Some (JArr xs) => xs | _ => [] end in
  let kept := kept_of cur allowed in
  let missing := filter (fun x => x ∉ kept) allowed in
  (kept ++ missing)%list.

Inductive SectionKey : Set :=
| budget | requirements | tenure | commute | lifestyle | running_costs
| parking | condition | value.

Global Instance SectionKey_eq_dec : EqDecision SectionKey.
Proof. solve_decision. Defined.

Inductive SectionStatus : Set := missing | partial | complete.

Global Instance SectionStatus_eq_dec : EqDecision SectionStatus.
Proof. solve_decision. Defined.

Definition SECTION_ORDER : list SectionKey :=
  [ budget; requirements; tenure; commute; lifestyle; running_costs;
    parking; condition; value ].







Section WithHost.
Context (h : Host).





End WithHost.

End PreferencesPage.

(** ** [app/properties/page.tsx]: what the page sends to the confirm routes *)

Module PropertiesPage.

(** [getOne(v)]: the first element of an array, [null] for a falsy value
    or an empty array, the value itself otherwise. *)
Definition getOne (v : option json) : json :=
  match v with
  | None => JNull
  | Some x =>
      if negb (truthy x) then JNull
      else match x with
           | JArr [] => JNull
           | JArr (y :: _) => y
           | _ => x
           end
  end.

(** The draft [openStatsConfirm] puts into the stats form for the raw
    stats row [raw]. *)
Definition statsDraft (raw : json) : json :=
  JObj
    [ ("commute_total_minutes", nullish (prop raw "commute_total_minutes") (JNum 0));
      ("commute_walk_minutes", nullish (prop raw "commute_walk_minutes") (JNum 0));
      ("commute_mode", nullish (prop raw "commute_mode") (JStr EmptyString));
      ("nearest_station_distance_m", nullish (prop raw "nearest_station_distance_m") (JNum 0));
      ("nearest_station_name", nullish (prop raw "nearest_station_name") (JStr EmptyString));
      ("supermarket_distance_m", nullish (prop raw "supermarket_distance_m") (JNum 0));
      ("supermarket_name", nullish (prop raw "supermarket_name") (JStr EmptyString));
      ("green_space_distance_m", nullish (prop raw "green_space_distance_m") (JNum 0));
      ("green_space_name", nullish (prop raw "green_space_name") (JStr EmptyString));
      ("safety_score", nullish (prop raw "safety_score") (JNum 0));
      ("required_confidence", nullish (prop raw "required_confidence") JNull);
      ("required_source", nullish (prop raw "required_source") JNull);
      ("notes", JStr "Confirmed by user") ].

(** [openStatsConfirm] on the [listing_stats_raw] member of a session: the
    draft of the form, or [None] when there is no raw row and the page
    shows ["No stats_raw found."]. *)
Definition openStatsConfirm (listing_stats_raw : option json) : option json :=
  let raw := getOne listing_stats_raw in
  if truthy raw then Some (statsDraft raw) else None.

(** What [JSON.stringify] followed by the [req.json()] of the server makes
    of a value: [NaN] arrives as [null]. *)
Fixpoint wire (v : json) : json :=
  match v with
  | JNaN => JNull
  | JArr xs => JArr (map wire xs)
  | JObj kvs => JObj (map (fun kv => (kv.1, wire kv.2)) kvs)
  | _ => v
  end.

(** What a submit function of the page does. *)
Inductive Submit : Type :=
| Nothing                    (* returns at once *)
| Shows (message : string)   (* shows a validation message, sends nothing *)
| Sends (body : json).       (* posts the body, as the server reads it *)

(** [submitStatsConfirm] with the session and the draft the page holds
    ([None] for [null]): what it posts to [/api/stats/confirm]. *)
Definition submitStatsConfirm (session : option string) (draft : option json) : Submit :=
  match session, draft with
  | Some id, Some d =>
      if negb (truthy d) then Nothing
      else Sends (wire (JObj [ ("property_session_id", JStr id); ("stats", d) ]))
  | _, _ => Nothing
  end.

Section WithHost.
Context (h : Host).

(** [!v || v <= 0] *)
Definition not_positive (v : option json) : bool :=
  match v with
  | None => true
  | Some x =>
      negb (truthy x)
      || match jsNumber h x with
         | JNum n => n <=? 0
         | _ => false
         end
  end.

(** [!v?.trim()]; a value that is neither nullish nor a string has no
    [trim] and the call throws. *)
Definition blank (v : option json) : throws bool :=
  match v with
  | None | Some JNull => Returns true
  | Some (JStr s) => Returns (String.eqb (trim s) EmptyString)
  | Some _ => Throws TypeError
  end.

(** [submitConfirm] with the session and the facts the form holds: the
    validation of the required facts, then the post to [/api/confirm]. *)
Definition submitConfirm (session : option string) (facts : option json) : throws Submit :=
  match session, facts with
  | Some id, Some f =>
      if negb (truthy f) then Returns Nothing
      else if not_positive (prop f "price") then Returns (Shows "Price is required.")
      else if not_positive (prop f "bedrooms") then Returns (Shows "Bedrooms is required.")
      else
      match blank (prop f "property_type") with
      | Throws e => Throws e
      | Returns true => Returns (Shows "Property type is required.")
      | Returns false =>
      match blank (prop f "tenure") with
      | Throws e => Throws e
      | Returns true => Returns (Shows "Tenure is required.")
      | Returns false =>
      match blank (prop f "postcode") with
      | Throws e => Throws e
      | Returns true => Returns (Shows "Postcode is required.")
      | Returns false =>
          Returns (Sends (wire (JObj [ ("session_id", JStr id); ("facts", f) ])))
      end end end
  | _, _ => Returns Nothing
  end.

End WithHost.

End PropertiesPage.

(** * Vocabulary of the statements *)

(** The world a successful debit leaves behind. *)
Definition debited (h : Host) (userId : string) (a : Action) (w : World) : World :=
  let w1 := Usage.ensureUsageRow h userId w in
  let c := Usage.counters_of h userId w in
  set_usage_ledger (usage_ledger w1 ++ [Usage.usage_entry userId a])
    (set_usage_counters
       (<[userId := with_used a (used_of a c + 1) c]> (usage_counters w1)) w1).

(** The guarded transitions the orchestrators take: compute-stats without
    and with [force_recalc], and evaluate. *)
Inductive GuardSite : Set := StatsNormal | StatsForced | EvaluateEntry.

Definition site_from (c : GuardSite) : list LifecycleStage :=
  match c with
  | StatsNormal => Stats.allowedFrom false
  | StatsForced => Stats.allowedFrom true
  | EvaluateEntry => Evaluate.evalFrom
  end.

Definition site_to (c : GuardSite) : LifecycleStage :=
  match c with
  | StatsNormal | StatsForced => STATS_RUNNING
  | EvaluateEntry => EVAL_RUNNING
  end.

Definition guard_at (c : GuardSite) (sessionId userId : string) (w : World) : bool * World :=
  setStatusGuarded sessionId userId (site_from c) (site_to c) w.

(** The orchestrator of a site, from its guard on. *)
Definition run_at (h : Host) (c : GuardSite) (sessionId userId : string)
    (currentStatus : LifecycleStage) (w : World) : Response * World :=
  match c with
  | StatsNormal => Stats.run h sessionId userId currentStatus false w
  | StatsForced => Stats.run h sessionId userId currentStatus true w
  | EvaluateEntry => Evaluate.run h sessionId userId currentStatus w
  end.

(** The request carries a token the identity service accepts for [userId]. *)
Definition authenticated (h : Host) (req : Request) (userId : string) : Prop :=
  ∃ token, bearer req = Some token ∧ getUser h token = Some userId.

(** The session a stats or evaluate request names: [property_session_id]
    of the body when truthy, as the key of the lookup. *)
Definition request_session (req : Request) : option string :=
  let sessionId := opt_prop (Some (payload req)) "property_session_id" in
  if truthy_opt sessionId then Some (jsString (nullish sessionId JNull)) else None.

Definition force_recalc (req : Request) : bool :=
  truthy_opt (opt_prop (Some (payload req)) "force_recalc").

(** Session [sessionId] exists as row [r] and belongs to [userId]. *)
Definition owns (w : World) (userId sessionId : string) (r : SessionRow) : Prop :=
  property_sessions w !! sessionId = Some r ∧ user_id r = userId.

(** No unit of the action is left to the user. *)
Definition quota_exhausted (h : Host) (userId : string) (a : Action) (w : World) : Prop :=
  limit_of a (Usage.counters_of h userId w) ≤ used_of a (Usage.counters_of h userId w).

Definition quota_available (h : Host) (userId : string) (a : Action) (w : World) : Prop :=
  used_of a (Usage.counters_of h userId w) < limit_of a (Usage.counters_of h userId w).

(** The preconditions of compute-stats: confirmed facts and a complete
    minimum set of preferences. *)
Definition stats_preconditions (w : World) (userId sessionId : string) : Prop :=
  is_Some (listing_facts_confirmed w !! sessionId)
  ∧ ∃ prefs, preferences w !! userId = Some prefs
             ∧ (Stats.checkMinimumPreferences prefs).1 = true.

(** The preconditions of evaluate: confirmed facts, confirmed stats and a
    preferences row. *)
Definition evaluate_preconditions (w : World) (userId sessionId : string) : Prop :=
  is_Some (listing_facts_confirmed w !! sessionId)
  ∧ is_Some (listing_stats_confirmed w !! sessionId)
  ∧ is_Some (preferences w !! userId).

(** The status of a session, if the session exists. *)
Definition status_of (w : World) (sessionId : string) : option LifecycleStage :=
  status <$> property_sessions w !! sessionId.

(** The world right after a guard moved session row [r] to [to]. *)
Definition entered (sessionId : string) (r : SessionRow) (to : LifecycleStage)
    (w : World) : World :=
  set_property_sessions (<[sessionId := with_status r to]> (property_sessions w)) w.

(** The column names of a row. *)
Definition keys (row : json) : list string :=
  match row with
  | JObj kvs => map fst kvs
  | _ => []
  end.


(** The world in which compute-stats calls the model: guard taken, one unit
    debited, the call counted. *)
Definition stats_called (h : Host) (userId sessionId : string) (r : SessionRow)
    (w : World) : World :=
  count_openai_call (debited h userId A_stats (entered sessionId r STATS_RUNNING w)).

Definition evaluate_called (h : Host) (userId sessionId : string) (r : SessionRow)
    (w : World) : World :=
  count_openai_call (debited h userId A_evaluate (entered sessionId r EVAL_RUNNING w)).

(** [parseJsonLoose] finds nothing to parse: the text is blank, or the
    strict parse throws and no brace-delimited substring exists. *)
Definition no_object_found (h : Host) (text : string) : Prop :=
  trim text = EmptyString
  ∨ ((∃ e, JSON_parse h (trim text) = Throws e) ∧ match_braces (trim text) = None).

(** The top-level shape compute-stats requires is absent. *)
Definition stats_shape_missing (parsed : json) : Prop :=
  truthy parsed = false ∨ typeof_object parsed = false
  ∨ truthy_opt (prop parsed "fields") = false.

(** The top-level shape evaluate requires is absent. *)
Definition evaluate_shape_missing (parsed : json) : Prop :=
  truthy parsed = false ∨ typeof_object parsed = false.

(** The failures of compute-stats and evaluate between the debit and the
    raw upsert that the handlers test for. *)
Definition upstream_failure (h : Host) (shape_missing : json → Prop) : Prop :=
  has_api_key h = false
  ∨ (has_api_key h = true
     ∧ ∃ text, model_output h = Returns text
        ∧ (no_object_found h text
           ∨ ∃ parsed, parseJsonLoose h text = Returns parsed ∧ shape_missing parsed)).

(** The cases in which extract goes on with placeholder facts: no
    credential, or an answer that is not an object, or one that fails the
    strict parse and has no brace-delimited substring. *)
Definition extract_placeholder (h : Host) : Prop :=
  has_api_key h = false
  ∨ (has_api_key h = true
     ∧ ∃ text, model_output h = Returns text
        ∧ (((∃ e, JSON_parse h text = Throws e) ∧ match_braces text = None)
           ∨ ∃ v, JSON_parse h text = Returns v
                  ∧ (truthy v = false ∨ typeof_object v = false))).

(** A request for the full extract pipeline on [url]: the body names the
    URL and no other stage. *)
Definition extract_full_request (req : Request) (url : string) : Prop :=
  prop (payload req) "rightmove_url" = Some (JStr url)
  ∧ url ≠ EmptyString
  ∧ (truthy_opt (prop (payload req) "stage") = false
     ∨ prop (payload req) "stage" = Some (JStr "full")).

(** The extract pipeline once the quota is debited and the page [html]
    fetched: model, session, facts, status. *)
Definition extract_tail (h : Host) (userId url html : string) (w1 : World)
  : Response * World :=
  let listingId := parseRightmoveListingId url in
  match Extract.callOpenAIWithWeb h w1 with
  | (Throws e, w2) => (caught 500 e, w2)
  | (Returns facts, w2) =>
      match Extract.upsertPropertySession userId url listingId w2 with
      | (Throws MaxLinksReached, w3) =>
          (respond 403 [("ok", JBool false); ("error", JStr "MAX_LINKS_REACHED");
                        ("limit", JNum 100)], w3)
      | (Throws e, w3) => (caught 500 e, w3)
      | (Returns (id, _), w3) =>
          match Extract.writeFactsRaw h id facts
                  (Extract.updateSessionStatus h id AI_PARSED
                     (Extract.updateSessionStatus h id FETCHED_HTML w3)) with
          | (Throws e, w6) => (caught 500 e, w6)
          | (Returns _, w6) =>
              (respond 200 [("ok", JBool true); ("stage", JStr "full");
                            ("user_id", JStr userId); ("session_id", JStr id);
                            ("listing_id", Extract.listing_json listingId);
                            ("snippets", Extract.snippets_json h html);
                            ("facts", facts)],
               Extract.updateSessionStatus h id NEEDS_CONFIRMATION w6)
          end
      end
  end.

(** The session extract finds for a reference: by listing id when the URL
    has one, else by URL. *)
Definition find_session (userId url : string) (w : World) : option (string * SessionRow) :=
  match parseRightmoveListingId url with
  | Some lid => Extract.by_listing userId lid w
  | None => Extract.by_url userId url w
  end.

(** A session row as the full extract pipeline leaves it. *)
Definition extracted (h : Host) (r : SessionRow) : SessionRow :=
  with_last_extracted_at (with_status r NEEDS_CONFIRMATION) (nowIso h).

(** What [must] accepts: neither [null] nor [undefined] nor a blank
    string. *)
Definition present (o : option json) : Prop :=
  match o with
  | None | Some JNull => False
  | Some (JStr s) => trim s ≠ EmptyString
  | Some _ => True
  end.


(** The draft is well typed: the store takes the confirmed row made of it. *)
Definition well_typed (h : Host) (sessionId draft : json) : Prop :=
  ∀ row, StatsConfirm.confirm_payload h sessionId draft = Returns row →
         store_accepts h "listing_stats_confirmed" row = true.

(** * Sample data

    Concrete hosts, worlds and requests on which the statements below are
    evaluated. *)

(** ** A host to run the handlers on

    [sample_JSON_parse] reads the JSON texts the samples use: objects,
    arrays, strings with the simple escapes, integers and the three
    literals; anything else is a syntax error. [render] writes such texts. *)

Definition dquote : Ascii.ascii := Ascii.ascii_of_nat 34.
Definition backslash : Ascii.ascii := Ascii.ascii_of_nat 92.

(** A later binding of a key replaces the earlier one, as in [JSON.parse]. *)
Fixpoint set_member (k : string) (v : json) (kvs : list (string * json))
  : list (string * json) :=
  match kvs with
  | [] => [(k, v)]
  | (k', v') :: rest =>
      if String.eqb k k' then (k, v) :: rest else (k', v') :: set_member k v rest
  end.

(** The white space of JSON at the start of [s] dropped: space, TAB, LF
    and CR. *)
Fixpoint skip_json_space (s : string) : string :=
  match s with
  | String c rest =>
      let n := Ascii.nat_of_ascii c in
      if ((n =? 9) || (n =? 10) || (n =? 13) || (n =? 32))%nat
      then skip_json_space rest else s
  | EmptyString => EmptyString
  end.

(** The characters of a string literal after its opening quote, and the
    text after its closing quote. *)
Fixpoint read_string (s : string) : option (string * string) :=
  match s with
  | EmptyString => None
  | String c rest =>
      if Ascii.eqb c dquote then Some (EmptyString, rest)
      else if Ascii.eqb c backslash then
        match rest with
        | String e rest' =>
            let plain :=
              if Ascii.eqb e "n"%char then Some (Ascii.ascii_of_nat 10)
              else if Ascii.eqb e "t"%char then Some (Ascii.ascii_of_nat 9)
              else if Ascii.eqb e "r"%char then Some (Ascii.ascii_of_nat 13)
              else if Ascii.eqb e dquote || Ascii.eqb e backslash || Ascii.eqb e "/"%char
              then Some e else None in
            match plain, read_string rest' with
            | Some ch, Some (body, after) => Some (String ch body, after)
            | _, _ => None
            end
        | EmptyString => None
        end
      else
        match read_string rest with
        | Some (body, after) => Some (String c body, after)
        | None => None
        end
  end.

Fixpoint digits_value (s : string) (acc : Z) : Z :=
  match s with
  | String c rest =>
      if is_digit c then digits_value rest (10 * acc + Z.of_nat (Ascii.nat_of_ascii c) - 48)
      else acc
  | EmptyString => acc
  end.

Fixpoint drop_digits (s : string) : string :=
  match s with
  | String c rest => if is_digit c then drop_digits rest else s
  | EmptyString => EmptyString
  end.

(** An integer literal at the head of [s]; a fraction or an exponent after
    it is a syntax error of this reader. *)
Definition read_number (s : string) : option (json * string) :=
  let '(sign, body) :=
    match s with
    | String "-"%char rest => (-1, rest)
    | _ => (1, s)
    end in
  match take_digits body, drop_digits body with
  | EmptyString, _ => None
  | _, String "."%char _ | _, String "e"%char _ | _, String "E"%char _ => None
  | ds, after => Some (JNum (sign * digits_value ds 0), after)
  end.

Fixpoint read_value (fuel : nat) (s : string) : option (json * string) :=
  match fuel with
  | O => None
  | S fuel' =>
      match skip_json_space s with
      | String "{"%char rest =>
          match skip_json_space rest with
          | String "}"%char after => Some (JObj [], after)
          | members =>
              match read_members fuel' members [] with
              | Some (kvs, after) => Some (JObj kvs, after)
              | None => None
              end
          end
      | String "["%char rest =>
          match skip_json_space rest with
          | String "]"%char after => Some (JArr [], after)
          | elements =>
              match read_elements fuel' elements [] with
              | Some (xs, after) => Some (JArr xs, after)
              | None => None
              end
          end
      | String c rest as text =>
          if Ascii.eqb c dquote then
            match read_string rest with
            | Some (body, after) => Some (JStr body, after)
            | None => None
            end
          else
            match text with
            | String "n"%char (String "u"%char (String "l"%char (String "l"%char after))) =>
                Some (JNull, after)
            | String "t"%char (String "r"%char (String "u"%char (String "e"%char after))) =>
                Some (JBool true, after)
            | String "f"%char (String "a"%char (String "l"%char
                (String "s"%char (String "e"%char after)))) =>
                Some (JBool false, after)
            | _ => read_number text
            end
      | EmptyString => None
      end
  end
with read_elements (fuel : nat) (s : string) (acc : list json)
  : option (list json * string) :=
  match fuel with
  | O => None
  | S fuel' =>
      match read_value fuel' s with
      | Some (v, after) =>
          match skip_json_space after with
          | String ","%char rest => read_elements fuel' rest (acc ++ [v])%list
          | String "]"%char rest => Some ((acc ++ [v])%list, rest)
          | _ => None
          end
      | None => None
      end
  end
with read_members (fuel : nat) (s : string) (acc : list (string * json))
  : option (list (string * json) * string) :=
  match fuel with
  | O => None
  | S fuel' =>
      match skip_json_space s with
      | String c rest =>
          if Ascii.eqb c dquote then
            match read_string rest with
            | Some (k, after) =>
                match skip_json_space after with
                | String ":"%char rest' =>
                    match read_value fuel' rest' with
                    | Some (v, after') =>
                        match skip_json_space after' with
                        | String ","%char rest'' =>
                            read_members fuel' rest'' (set_member k v acc)
                        | String "}"%char rest'' => Some (set_member k v acc, rest'')
                        | _ => None
                        end
                    | None => None
                    end
                | _ => None
                end
            | None => None
            end
          else None
      | EmptyString => None
      end
  end.

Definition sample_JSON_parse (text : string) : throws json :=
  match read_value (2 * String.length text + 2) text with
  | Some (v, after) =>
      match skip_json_space after with
      | EmptyString => Returns v
      | _ => Throws SyntaxError
      end
  | None => Throws SyntaxError
  end.

Definition quoted (s : string) : string :=
  String dquote (s +:+ String dquote EmptyString).

(** The text of a value whose strings need no escape. *)
Fixpoint render (v : json) : string :=
  match v with
  | JNull | JNaN => "null"
  | JBool true => "true"
  | JBool false => "false"
  | JNum n => pretty n
  | JStr s => quoted s
  | JArr xs => "[" +:+ join_comma (map render xs) +:+ "]"
  | JObj kvs =>
      "{" +:+ join_comma (map (fun kv => quoted kv.1 +:+ ":" +:+ render kv.2) kvs) +:+ "}"
  end.

(** ToNumber on the strings the samples use: decimal integers; anything
    else is [NaN]. *)
Definition sample_StringToNumber (s : string) : json :=
  match read_number (trim s) with
  | Some (n, EmptyString) => n
  | _ => if String.eqb (trim s) EmptyString then JNum 0 else JNaN
  end.

Definition fresh_counters : CountersRow :=
  {| extract_used := 0; extract_limit := 5;
     stats_used := 0; stats_limit := 5;
     evaluate_used := 0; evaluate_limit := 5;
     video_used := 0; video_limit := 0 |}.

(** Integer and text columns of the sample store. *)
Definition is_integer (v : json) : bool :=
  match v with
  | JNum _ => true
  | _ => false
  end.

Definition is_text (v : json) : bool :=
  match v with
  | JStr _ => true
  | _ => false
  end.

Definition integer_columns : list string :=
  [ "commute_total_minutes"; "commute_walk_minutes"; "nearest_station_distance_m";
    "supermarket_distance_m"; "green_space_distance_m"; "safety_score" ].

Definition text_columns : list string :=
  [ "commute_mode"; "nearest_station_name"; "supermarket_name"; "green_space_name" ].

(** The sample store types the ten core columns of the two stats tables
    (integers and texts, none null) and takes every row of the others. *)
Definition sample_store_accepts (table : string) (row : json) : bool :=
  if Stats.includes table ["listing_stats_raw"; "listing_stats_confirmed"] then
    forallb (fun k => match prop row k with Some v => is_integer v | None => false end)
            integer_columns
    && forallb (fun k => match prop row k with Some v => is_text v | None => false end)
               text_columns
  else true.

(** A host with the given credential whose model answers [text]. *)
Definition sample_host (key : string) (text : string) : Host :=
  {| JSON_parse := sample_JSON_parse;
     StringToNumber := sample_StringToNumber;
     getUser := fun token => if String.eqb token "token-alice" then Some "alice" else None;
     userErr_message :=
       fun token => if String.eqb token "token-alice" then None else Some "invalid JWT";
     OPENAI_API_KEY := key;
     model_output := Returns text;
     fetchRightmoveHtml := fun _ => Returns "<html><title>Flat</title></html>";
     extractSnippets :=
       fun _ => ["TITLE: Flat"; "PAGE_TEXT_HEAD: Flat"; "PAGE_TEXT_MID: Flat"];
     nowIso := "2026-01-05T10:00:00.000Z";
     default_counters := fresh_counters;
     store_accepts := sample_store_accepts |}.

(** ** Answers of the model *)

Definition annotated (v : json) (confidence : string) : json :=
  JObj [ ("value", v); ("confidence", JStr confidence);
         ("sources", JArr [JStr "listing"]); ("notes", JStr "none") ].

Definition sample_value (k : string) : json :=
  if Stats.includes k ["commute_mode"; "nearest_station_name"; "supermarket_name";
                       "green_space_name"]
  then JStr "near" else JNum 7.

(** Every required field annotated ["high"], except [low] when given,
    which is annotated ["low"]. *)
Definition answer_fields (low : option string) : json :=
  JObj (map (fun k =>
               (k, annotated (sample_value k)
                     (if bool_decide (low = Some k) then "low" else "high")))
            Stats.requiredFields).

Definition stats_answer_json (low : option string) : json :=
  JObj [ ("stats_version", JNum 1); ("fields", answer_fields low) ].

Definition evaluation_json : json :=
  JObj [ ("rank_score", JNum 71); ("overall_score", JNum 7);
         ("executive_summary", JStr "Good fit") ].

Definition facts_json : json :=
  JObj [ ("price", JNum 425000); ("bedrooms", JNum 2); ("property_type", JStr "flat");
         ("tenure", JStr "leasehold"); ("postcode", JStr "N1 9GU") ].

(** ** Worlds *)

Definition listing_url : string := "https://www.rightmove.co.uk/properties/170645465".

Definition session_row (s : LifecycleStage) : SessionRow :=
  {| user_id := "alice";
     rightmove_url := listing_url;
     rightmove_listing_id := Some "170645465";
     status := s;
     last_extracted_at := None |}.

(** The default preferences with the work postcode filled in. *)
Definition complete_preferences : json :=
  match Preferences.defaultPreferences "alice" with
  | JObj kvs => JObj (set_member "work_postcode" (JStr "EC1A 1BB") kvs)
  | other => other
  end.

Definition confirmed_stats_row : json :=
  JObj [ ("property_session_id", JStr "s1"); ("confirmed_by_user", JBool true) ].

(** One session [s1] of alice in status [s], with confirmed facts, with
    confirmed stats when [with_stats], preferences [prefs] and counters
    [c]. *)
Definition sample_world (s : LifecycleStage) (with_stats : bool) (prefs : json)
    (c : CountersRow) : World :=
  {| property_sessions := {[ "s1" := session_row s ]};
     usage_counters := {[ "alice" := c ]};
     usage_ledger := [];
     listing_facts_raw := ∅;
     listing_facts_confirmed := {[ "s1" := facts_json ]};
     listing_stats_raw := ∅;
     listing_stats_confirmed := if with_stats then {[ "s1" := confirmed_stats_row ]} else ∅;
     listing_evaluation_raw := ∅;
     preferences := {[ "alice" := prefs ]};
     openai_calls := 0 |}.

Definition spent_counters : CountersRow :=
  {| extract_used := 5; extract_limit := 5;
     stats_used := 5; stats_limit := 5;
     evaluate_used := 5; evaluate_limit := 5;
     video_used := 0; video_limit := 0 |}.

(** A hundred sessions of alice, on listings 1000 to 1099. *)
Definition hundred_sessions : gmap string SessionRow :=
  list_to_map
    (map (fun n : nat =>
            ("h" +:+ pretty n,
             {| user_id := "alice";
                rightmove_url := "https://www.rightmove.co.uk/properties/" +:+ pretty (1000 + n)%nat;
                rightmove_listing_id := Some (pretty (1000 + n)%nat);
                status := NEEDS_CONFIRMATION;
                last_extracted_at := None |}))
         (seq 0 100)).

Definition full_world : World :=
  {| property_sessions := hundred_sessions;
     usage_counters := {[ "alice" := fresh_counters ]};
     usage_ledger := [];
     listing_facts_raw := ∅;
     listing_facts_confirmed := ∅;
     listing_stats_raw := ∅;
     listing_stats_confirmed := ∅;
     listing_evaluation_raw := ∅;
     preferences := ∅;
     openai_calls := 0 |}.

(** ** Requests *)

Definition session_request (force : bool) : Request :=
  {| bearer := Some "token-alice";
     payload := JObj [ ("property_session_id", JStr "s1"); ("force_recalc", JBool force) ] |}.

Definition extract_request (url : string) : Request :=
  {| bearer := Some "token-alice";
     payload := JObj [ ("rightmove_url", JStr url) ] |}.

(** A draft with every core field, or with every core field but [without]. *)
Definition draft (without : option string) : json :=
  JObj (map (fun k => (k, sample_value k))
            (filter (fun k => without ≠ Some k) StatsConfirm.core_fields)).

Definition confirm_request (without : option string) : Request :=
  {| bearer := Some "token-alice";
     payload := JObj [ ("property_session_id", JStr "s1"); ("stats", draft without) ] |}.

(** ** Named samples *)

(** A host whose credential is the empty string, and one with a credential
    whose model returns the all-high stats answer. *)
Definition keyless_host : Host := sample_host EmptyString EmptyString.
Definition stats_host : Host := sample_host "sk-sample" (render (stats_answer_json None)).
Definition facts_host : Host := sample_host "sk-sample" (render facts_json).

(** Session [s1] confirmed, quota untouched / used up. *)
Definition confirmed_world : World :=
  sample_world CONFIRMED false complete_preferences fresh_counters.
Definition spent_world : World :=
  sample_world STATS_READY true complete_preferences spent_counters.
Definition needs_confirmation_world : World :=
  sample_world STATS_NEEDS_CONFIRMATION false complete_preferences fresh_counters.
Definition default_prefs_world : World :=
  sample_world CONFIRMED false (Preferences.defaultPreferences "alice") fresh_counters.

Definition new_listing_url : string := "https://www.rightmove.co.uk/properties/999".

(** * Further vocabulary: the routes together *)

(** The routes of the model. *)
Inductive Route : Set :=
| POST_extract
| POST_confirm
| POST_stats
| POST_stats_confirm
| POST_evaluate
| GET_preferences
| POST_preferences.

Definition serve (h : Host) (route : Route) (req : Request) (w : World) : Response * World :=
  match route with
  | POST_extract => Extract.POST h req w
  | POST_confirm => Confirm.POST h req w
  | POST_stats => Stats.POST h req w
  | POST_stats_confirm => StatsConfirm.POST h req w
  | POST_evaluate => Evaluate.POST h req w
  | GET_preferences => Preferences.GET h req w
  | POST_preferences => Preferences.POST h req w
  end.

(** The five artifact tables hold the same at session [sessionId]. *)
Definition same_artifacts (sessionId : string) (w w' : World) : Prop :=
  listing_facts_raw w' !! sessionId = listing_facts_raw w !! sessionId
  ∧ listing_facts_confirmed w' !! sessionId = listing_facts_confirmed w !! sessionId
  ∧ listing_stats_raw w' !! sessionId = listing_stats_raw w !! sessionId
  ∧ listing_stats_confirmed w' !! sessionId = listing_stats_confirmed w !! sessionId
  ∧ listing_evaluation_raw w' !! sessionId = listing_evaluation_raw w !! sessionId.

(** The number of ledger rows of [l] that debit action [a] to [userId]. *)
Definition debits (userId : string) (a : Action) (l : list LedgerEntry) : Z :=
  Z.of_nat (length (filter (fun e => led_user_id e = userId ∧ action_type e = action_name a) l)).

(** Every counter of the user is within its limit. *)
Definition within_limits (h : Host) (userId : string) (w : World) : Prop :=
  ∀ a, used_of a (Usage.counters_of h userId w) ≤ limit_of a (Usage.counters_of h userId w).

(** What a piece of a handler working for [userId] may do to the world:
    it appends [paid] ledger rows and calls the model [calls] times, and
    otherwise writes only what belongs to the user. *)
Record touches (h : Host) (paid calls : nat) (userId : string) (w w' : World) : Prop := {
  (** the sessions of the others and their artifacts are as before *)
  touches_others : ∀ sessionId row,
    property_sessions w !! sessionId = Some row → user_id row ≠ userId →
    property_sessions w' !! sessionId = Some row ∧ same_artifacts sessionId w w';
  (** a session stays, with its owner and its listing *)
  touches_kept : ∀ sessionId row,
    property_sessions w !! sessionId = Some row →
    ∃ row', property_sessions w' !! sessionId = Some row'
            ∧ user_id row' = user_id row
            ∧ rightmove_url row' = rightmove_url row
            ∧ rightmove_listing_id row' = rightmove_listing_id row;
  (** the counters and the preferences of the others are as before *)
  touches_rows : ∀ u, u ≠ userId →
    usage_counters w' !! u = usage_counters w !! u
    ∧ preferences w' !! u = preferences w !! u;
  (** the ledger grows by debits of the user, and the counters with it *)
  touches_ledger : ∃ l,
    usage_ledger w' = (usage_ledger w ++ l)%list
    ∧ length l = paid
    ∧ Forall (fun e => ∃ a, e = Usage.usage_entry userId a) l
    ∧ ∀ a, used_of a (Usage.counters_of h userId w')
           = used_of a (Usage.counters_of h userId w) + debits userId a l
           ∧ limit_of a (Usage.counters_of h userId w')
             = limit_of a (Usage.counters_of h userId w);
  touches_limits : within_limits h userId w → within_limits h userId w';
  touches_calls : openai_calls w' = (openai_calls w + calls)%nat
}.

(** Session [sessionId] is of [userId] wherever it exists. *)
Definition owned_now (w : World) (userId sessionId : string) : Prop :=
  ∀ r, property_sessions w !! sessionId = Some r → user_id r = userId.

(** What a request costs: the rows it pays are at most one, and the model
    is called at most as often as rows are paid. *)
Definition served (h : Host) (u : string) (w w' : World) : Prop :=
  ∃ paid calls, touches h paid calls u w w' ∧ (calls ≤ paid)%nat ∧ (paid ≤ 1)%nat.


(** A call of a route, with the collaborators as they are at that time. *)
Record Call : Type := {
  call_host : Host;
  call_route : Route;
  call_request : Request
}.

(** The world after a sequence of calls, served one after the other. *)
Fixpoint serve_all (calls : list Call) (w : World) : World :=
  match calls with
  | [] => w
  | c :: rest => serve_all rest (serve (call_host c) (call_route c) (call_request c) w).2
  end.

(** The statuses a route writes and can leave a session in. *)
Definition written (route : Route) : list LifecycleStage :=
  match route with
  | POST_extract => [AI_PARSED; NEEDS_CONFIRMATION]
  | POST_confirm => [CONFIRMED]
  | POST_stats => [STATS_RUNNING; STATS_FAILED; STATS_NEEDS_CONFIRMATION; STATS_READY]
  | POST_stats_confirm => [STATS_READY]
  | POST_evaluate => [EVAL_RUNNING; EVAL_FAILED; AI_READY]
  | GET_preferences | POST_preferences => []
  end.

(** The session tables of [w] and [w'] differ at most at session [id];
    a session [id] of [w] is still there in [w']; and its status in [w']
    is [s] when [st] is [Some s], the one it has in [w] when [st] is
    [None]. *)
Definition lands (st : option LifecycleStage) (id : string) (w w' : World) : Prop :=
  (∀ sid, sid ≠ id → property_sessions w' !! sid = property_sessions w !! sid)
  ∧ (is_Some (property_sessions w !! id) → is_Some (property_sessions w' !! id))
  ∧ match st with
    | Some s => ∀ s', status_of w' id = Some s' → s' = s
    | None => status_of w' id = status_of w id
    end.

(** The [status] member of a response body, when it is a string. *)
Definition reported_status (r : Response) : option string :=
  match body r with
  | Json v =>
      match prop v "status" with
      | Some (JStr name) => Some name
      | _ => None
      end
  | Caught _ => None
  end.

(** The session a request of the route names in its body: compute-stats
    and evaluate read [property_session_id] when it is truthy, the stats
    confirmation takes it through [must]. *)
Definition names (route : Route) (req : Request) (id : string) : Prop :=
  match route with
  | POST_stats | POST_evaluate => request_session req = Some id
  | POST_stats_confirm =>
      ∃ v, StatsConfirm.must (prop (payload req) "property_session_id")
             "property_session_id required" = Returns v
           ∧ jsString v = id
  | _ => False
  end.

(** What a request does to the session table: at most one session is
    moved, into a status the route writes, and a status the response
    reports is the status, afterwards, of the session the request names. *)
Definition moves (route : Route) (req : Request) (w : World) (res : Response * World) : Prop :=
  ∃ id st,
    lands st id w res.2
    ∧ (∀ s, st = Some s → s ∈ written route)
    ∧ ∀ name, reported_status res.1 = Some name →
              names route req id
              ∧ ∃ s, status_of res.2 id = Some s ∧ stage_name s = name.

(** What identifies a session for extract: its owner, its URL and its
    listing id. No handler changes them. *)
Definition session_key (r : SessionRow) : string * string * option string :=
  (user_id r, rightmove_url r, rightmove_listing_id r).

Definition session_keys (w : World) : gmap string (string * string * option string) :=
  session_key <$> property_sessions w.

(** The listing id of every session is the one its URL parses to, and a
    user has no two sessions on one listing id, nor two sessions without
    listing id on one URL. *)
Definition one_session_per_listing (w : World) : Prop :=
  (∀ id u url l,
     session_keys w !! id = Some (u, url, l) → l = parseRightmoveListingId url)
  ∧ ∀ id1 id2 u url1 url2 l,
      session_keys w !! id1 = Some (u, url1, l) →
      session_keys w !! id2 = Some (u, url2, l) →
      (l = None → url1 = url2) →
      id1 = id2.

(** What a request does to the sessions as extract identifies them:
    nothing, or, in extract, one new session of the caller on a reference
    the caller has no session for, the caller having fewer than 100. *)
Definition adds_at_most_one (h : Host) (route : Route) (req : Request) (w w' : World) : Prop :=
  session_keys w' = session_keys w
  ∨ (route = POST_extract
     ∧ ∃ id u url,
         authenticated h req u
         ∧ prop (payload req) "rightmove_url" = Some (JStr url)
         ∧ property_sessions w !! id = None
         ∧ session_keys w' = <[id := (u, url, parseRightmoveListingId url)]> (session_keys w)
         ∧ (Extract.count_sessions u w < 100)%nat
         ∧ find_session u url w = None).

(** [stage || "full"] of an extract request. *)
Definition extract_stage (req : Request) : json :=
  if truthy_opt (prop (payload req) "stage")
  then nullish (prop (payload req) "stage") JNull
  else JStr "full".

(** The names of the stages extract stops at before it writes. *)
Definition partial_stages : list string := ["auth"; "quota"; "fetch"; "openai"].

(** The session row the full stage of extract leaves for a new reference. *)
Definition new_session (h : Host) (userId url : string) : SessionRow :=
  {| user_id := userId;
     rightmove_url := url;
     rightmove_listing_id := parseRightmoveListingId url;
     status := NEEDS_CONFIRMATION;
     last_extracted_at := Some (nowIso h) |}.



(** Everything the confirmation of the facts asks for before it answers
    200: an authenticated caller, a body that names a session and carries
    facts, the required facts among them, a session of the caller under
    that name, and a row the store takes. The status of the session is not
    among the conditions. *)
Definition confirm_admitted (h : Host) (req : Request) (w : World)
    (userId : string) (sessionId facts : json) (r : SessionRow) (row : json) : Prop :=
  authenticated h req userId
  ∧ payload req ≠ JNull
  ∧ StatsConfirm.must (prop (payload req) "session_id") "session_id required"
    = Returns sessionId
  ∧ StatsConfirm.must (prop (payload req) "facts") "facts required" = Returns facts
  ∧ Confirm.confirm_payload sessionId facts = Returns row
  ∧ owns w userId (jsString sessionId) r
  ∧ store_accepts h "listing_facts_confirmed" row = true.

(** What compute-stats asks of the preference [k] with value [v]: a value
    that is neither [null] nor [undefined]; for the work postcode a string
    that is not blank; for the two rank lists an array that is not empty. *)
Definition filled (k : string) (v : option json) : Prop :=
  match v with
  | None | Some JNull => False
  | Some x =>
      (k = "work_postcode" → ∃ s, x = JStr s ∧ trim s ≠ EmptyString)
      ∧ (k ∈ ["property_type_rank"; "tenure_rank"] → ∃ y ys, x = JArr (y :: ys))
  end.

(** The column [k] of the preferences row stored for [userId]. *)
Definition stored_preference (w : World) (userId k : string) : option json :=
  preferences w !! userId ≫= fun old => assoc k (Preferences.own_entries old).

(** The column [k] of the row an authenticated [POST /api/preferences] of
    [userId] with the body [sent] leaves: the user id of the token, else
    the member of the body, else what was stored. *)
Definition merged_preference (w : World) (userId : string) (sent : json) (k : string)
  : option json :=
  if String.eqb k "user_id" then Some (JStr userId)
  else match assoc k (Preferences.own_entries sent) with
       | Some v => Some v
       | None => stored_preference w userId k
       end.

(** The members of the body have distinct names, as those of a parsed
    JSON text have. *)
Definition distinct_members (sent : json) : Prop :=
  NoDup (Preferences.own_entries sent).*1.

(** ** Strings *)

(** The strings of [l] one after the other. *)
Definition joined (l : list string) : string :=
  fold_right String.append EmptyString l.

(** [s] is white space throughout, and is not empty. *)
Definition white_spaces (s : string) : Prop :=
  ∃ l, l ≠ [] ∧ Forall (fun p => p ∈ white_space) l ∧ s = joined l.

(** [s] does not start with white space. *)
Definition starts_black (s : string) : Prop :=
  ∀ p, p ∈ white_space → has_prefix p s = false.

Fixpoint all_digits (s : string) : bool :=
  match s with
  | EmptyString => true
  | String c rest => is_digit c && all_digits rest
  end.

(** The first character of [s], if any, satisfies [p]. *)
Definition starts_with (p : Ascii.ascii → bool) (s : string) : bool :=
  match s with
  | EmptyString => false
  | String c _ => p c
  end.

(** [c] occurs in [s]. *)
Fixpoint occurs (c : Ascii.ascii) (s : string) : bool :=
  match s with
  | EmptyString => false
  | String d rest => Ascii.eqb c d || occurs c rest
  end.

(** The letter [c], in either case, occurs in [s]. *)
Fixpoint occurs_ci (c : Ascii.ascii) (s : string) : bool :=
  match s with
  | EmptyString => false
  | String d rest => Ascii.eqb (lower c) (lower d) || occurs_ci c rest
  end.

(** The path the listing references carry before the listing id. *)
Definition listing_path : string := "rightmove.co.uk/properties/".

(** [s] is [p] up to the case of its letters. *)
Definition same_ci (p s : string) : Prop := strip_prefix_ci p s = Some EmptyString.

(** ** The pages *)

(** The four core columns of the stats that are texts; the other six are
    numbers. *)
Definition text_stats : list string :=
  [ "commute_mode"; "nearest_station_name"; "supermarket_name"; "green_space_name" ].

(** The column [k] of the raw stats row gives a member of the stats form
    that the confirmation route takes as it is: a value that is not a
    blank string and not [NaN]; a column without value only for a number,
    which the form sets to 0, not for a text, which it sets to the empty
    string. *)
Definition prefilled (raw : json) (k : string) : Prop :=
  match prop raw k with
  | None | Some JNull => k ∉ text_stats
  | Some JNaN => False
  | Some (JStr s) => trim s ≠ EmptyString
  | Some _ => True
  end.

(** [Number] of a blank string is 0. *)
Definition blank_is_zero (h : Host) : Prop :=
  ∀ s, trim s = EmptyString → StringToNumber h s = JNum 0.




(** * Further sample data *)

(** A request without a token. *)
Definition anonymous_request : Request :=
  {| bearer := None;
     payload := JObj [ ("property_session_id", JStr "s1") ] |}.

(** A session of another user, on another listing. *)
Definition bob_row : SessionRow :=
  {| user_id := "bob";
     rightmove_url := "https://www.rightmove.co.uk/properties/42";
     rightmove_listing_id := Some "42";
     status := AI_READY;
     last_extracted_at := None |}.

(** The world of [confirmed_world] with the session [b1] of bob beside
    alice's. *)
Definition shared_world : World :=
  set_property_sessions (<["b1" := bob_row]> (property_sessions confirmed_world))
    confirmed_world.

(** Session [s1] with confirmed facts and stats, ready for evaluation, and
    the same session already evaluated. *)
Definition ready_world : World :=
  sample_world STATS_READY true complete_preferences fresh_counters.
Definition evaluated_world : World :=
  sample_world AI_READY true complete_preferences fresh_counters.

(** A host whose model returns the evaluation. *)
Definition evaluation_host : Host :=
  sample_host "sk-sample" (render evaluation_json).

(** An extract request that names a stage. *)
Definition staged_request (url stage : string) : Request :=
  {| bearer := Some "token-alice";
     payload := JObj [ ("rightmove_url", JStr url); ("stage", JStr stage) ] |}.

(** The request the facts form posts for session [s1]. *)
Definition facts_request (facts : json) : Request :=
  {| bearer := Some "token-alice";
     payload := JObj [ ("session_id", JStr "s1"); ("facts", facts) ] |}.

(** The row the confirmation of [facts_json] stores. *)
Definition confirmed_facts_row : json :=
  JObj [ ("property_session_id", JStr "s1");
         ("price", JNum 425000); ("bedrooms", JNum 2); ("property_type", JStr "flat");
         ("tenure", JStr "leasehold"); ("postcode", JStr "N1 9GU");
         ("bathrooms", JNull); ("lease_years_remaining", JNull); ("address", JNull);
         ("description", JNull); ("estate_agent", JNull) ].

(** A save of the work postcode alone. *)
Definition postcode_request : Request :=
  {| bearer := Some "token-alice";
     payload := JObj [ ("work_postcode", JStr "EC1A 1BB") ] |}.

(** Calls of several routes, one after the other. *)
Definition sample_calls : list Call :=
  [ {| call_host := facts_host; call_route := POST_extract;
       call_request := extract_request new_listing_url |};
    {| call_host := stats_host; call_route := POST_stats;
       call_request := session_request false |};
    {| call_host := keyless_host; call_route := POST_evaluate;
       call_request := session_request false |};
    {| call_host := keyless_host; call_route := POST_preferences;
       call_request := postcode_request |} ].

(** The raw stats row compute-stats writes for the all-high answer, and
    one whose station has no name. *)
Definition raw_stats_row : json :=
  Stats.rawPayload stats_host "s1" (stats_answer_json None) (answer_fields None).

Definition nameless_stats_row : json :=
  match raw_stats_row with
  | JObj kvs => JObj (set_member "nearest_station_name" JNull kvs)
  | other => other
  end.

(** Session [s1] while a compute-stats run is in flight: the guard has been
    taken and nothing else has happened yet; and the same session once the
    facts form was posted again in the meantime. *)
Definition running_world : World :=
  (guard_at StatsNormal "s1" "alice" confirmed_world).2.

Definition reopened_world : World :=
  (Confirm.POST keyless_host (facts_request facts_json) running_world).2.

(** Session [s1] after a failed compute-stats run, the quota used up; and
    the same session once the facts form was posted again. *)
Definition failed_spent_world : World :=
  sample_world STATS_FAILED false complete_preferences spent_counters.

Definition reconfirmed_world : World :=
  (Confirm.POST keyless_host (facts_request facts_json) failed_spent_world).2.

(** Session [s1] while an evaluation is in flight: the guard has been
    taken from STATS_READY and nothing else has happened yet. *)
Definition evaluating_world : World :=
  (guard_at EvaluateEntry "s1" "alice" ready_world).2.

(** One unit of every action left. *)
Definition last_unit_counters : CountersRow :=
  {| extract_used := 4; extract_limit := 5;
     stats_used := 4; stats_limit := 5;
     evaluate_used := 4; evaluate_limit := 5;
     video_used := 0; video_limit := 0 |}.

Definition last_unit_world : World :=
  sample_world CONFIRMED false complete_preferences last_unit_counters.

(** Alice one session short of the cap: the hundred sessions but the
    first. *)
Definition almost_full_world : World :=
  set_property_sessions (delete "h0" hundred_sessions) full_world.

(** The row [upsertPropertySession] inserts for alice on listing [lid]. *)
Definition created_row (lid : string) : SessionRow :=
  {| user_id := "alice";
     rightmove_url := "https://www.rightmove.co.uk/properties/" +:+ lid;
     rightmove_listing_id := Some lid;
     status := CREATED;
     last_extracted_at := None |}.

(** One no-break space (U+00A0), and the complete preferences with that as
    the work postcode. *)
Definition no_break_space : string := bytes [194; 160].

Definition blank_postcode_preferences : json :=
  match Preferences.defaultPreferences "alice" with
  | JObj kvs => JObj (set_member "work_postcode" (JStr no_break_space) kvs)
  | other => other
  end.
(** * Properties *)

(** ** Text helpers on samples *)

Example match_braces_greedy :
  match_braces "say {a:1} and {b:2} ok" = Some "{a:1} and {b:2}".
Proof. reflexivity. Qed.

Example match_braces_wrong_order : match_braces "} then {" = None.
Proof. reflexivity. Qed.

Example trim_both_ends : trim "  {x}  " = "{x}".
Proof. reflexivity. Qed.

Example parseRightmoveListingId_sample :
  parseRightmoveListingId "https://www.rightmove.co.uk/properties/170645465#/?channel=RES_BUY"
  = Some "170645465".
Proof. reflexivity. Qed.

Example parseRightmoveListingId_none :
  parseRightmoveListingId "https://example.org/properties/12" = None.
Proof. reflexivity. Qed.

(** ** Records and tables *)

Lemma with_status_same (r : SessionRow) : with_status r (status r) = r.
Proof. by destruct r. Qed.

Lemma with_status_twice (r : SessionRow) (s t : LifecycleStage) :
  with_status (with_status r s) t = with_status r t.
Proof. done. Qed.

Lemma set_property_sessions_same (w : World) :
  set_property_sessions (property_sessions w) w = w.
Proof. by destruct w. Qed.

Lemma set_usage_counters_same (w : World) :
  set_usage_counters (usage_counters w) w = w.
Proof. by destruct w. Qed.

(** Writing a status and writing the old one back restores the table. *)
Lemma insert_status_back (m : gmap string SessionRow) (k : string)
    (r : SessionRow) (s : LifecycleStage) :
  m !! k = Some r →
  <[k := with_status (with_status r s) (status r)]> (<[k := with_status r s]> m) = m.
Proof.
  intros Hk. rewrite insert_insert_eq, with_status_twice, with_status_same.
  by apply insert_id.
Qed.

Lemma update_status_sessions (k : string) (s : LifecycleStage) (w : World) :
  property_sessions (update_status k s w) =
  match property_sessions w !! k with
  | Some r => <[k := with_status r s]> (property_sessions w)
  | None => property_sessions w
  end.
Proof. unfold update_status. by destruct (property_sessions w !! k). Qed.

Lemma update_status_frame (k : string) (s : LifecycleStage) (w : World) :
  usage_counters (update_status k s w) = usage_counters w
  ∧ usage_ledger (update_status k s w) = usage_ledger w
  ∧ listing_facts_raw (update_status k s w) = listing_facts_raw w
  ∧ listing_facts_confirmed (update_status k s w) = listing_facts_confirmed w
  ∧ listing_stats_raw (update_status k s w) = listing_stats_raw w
  ∧ listing_stats_confirmed (update_status k s w) = listing_stats_confirmed w
  ∧ listing_evaluation_raw (update_status k s w) = listing_evaluation_raw w
  ∧ preferences (update_status k s w) = preferences w
  ∧ openai_calls (update_status k s w) = openai_calls w.
Proof. unfold update_status. by destruct (property_sessions w !! k). Qed.

(** ** Usage counters and ledger *)

Lemma ensureUsageRow_lookup (h : Host) (userId : string) (w : World) :
  usage_counters (Usage.ensureUsageRow h userId w) !! userId
  = Some (Usage.counters_of h userId w).
Proof.
  unfold Usage.ensureUsageRow, Usage.counters_of.
  destruct (usage_counters w !! userId) eqn:E; simpl.
  - by rewrite E.
  - by rewrite lookup_insert_eq.
Qed.

Lemma ensureUsageRow_present (h : Host) (userId : string) (w : World) :
  is_Some (usage_counters w !! userId) → Usage.ensureUsageRow h userId w = w.
Proof. intros [c E]. unfold Usage.ensureUsageRow. by rewrite E. Qed.

Lemma ensureUsageRow_counters_of (h : Host) (userId : string) (w : World) :
  Usage.counters_of h userId (Usage.ensureUsageRow h userId w)
  = Usage.counters_of h userId w.
Proof.
  unfold Usage.counters_of at 1. by rewrite ensureUsageRow_lookup.
Qed.

Lemma ensureUsageRow_frame (h : Host) (userId : string) (w : World) :
  property_sessions (Usage.ensureUsageRow h userId w) = property_sessions w
  ∧ usage_ledger (Usage.ensureUsageRow h userId w) = usage_ledger w
  ∧ listing_facts_raw (Usage.ensureUsageRow h userId w) = listing_facts_raw w
  ∧ listing_facts_confirmed (Usage.ensureUsageRow h userId w) = listing_facts_confirmed w
  ∧ listing_stats_raw (Usage.ensureUsageRow h userId w) = listing_stats_raw w
  ∧ listing_stats_confirmed (Usage.ensureUsageRow h userId w) = listing_stats_confirmed w
  ∧ listing_evaluation_raw (Usage.ensureUsageRow h userId w) = listing_evaluation_raw w
  ∧ preferences (Usage.ensureUsageRow h userId w) = preferences w
  ∧ openai_calls (Usage.ensureUsageRow h userId w) = openai_calls w.
Proof. unfold Usage.ensureUsageRow. by destruct (usage_counters w !! userId). Qed.

Lemma checkAndConsumeQuota_exhausted (h : Host) (userId : string) (a : Action) (w : World) :
  let c := Usage.counters_of h userId w in
  limit_of a c ≤ used_of a c →
  Usage.checkAndConsumeQuota h userId a w
  = (Returns {| Usage.ok := false; Usage.used := used_of a c; Usage.limit := limit_of a c |},
     Usage.ensureUsageRow h userId w).
Proof.
  intros c Hle. unfold Usage.checkAndConsumeQuota.
  rewrite ensureUsageRow_lookup. fold c.
  by destruct (Z.leb_spec (limit_of a c) (used_of a c)); [|lia].
Qed.

Lemma checkAndConsumeQuota_available (h : Host) (userId : string) (a : Action) (w : World) :
  let c := Usage.counters_of h userId w in
  used_of a c < limit_of a c →
  Usage.checkAndConsumeQuota h userId a w
  = (Returns {| Usage.ok := true; Usage.used := used_of a c + 1; Usage.limit := limit_of a c |},
     debited h userId a w).
Proof.
  intros c Hlt. unfold Usage.checkAndConsumeQuota.
  rewrite ensureUsageRow_lookup. fold c.
  by destruct (Z.leb_spec (limit_of a c) (used_of a c)); [lia|].
Qed.

Lemma debited_counters_of (h : Host) (userId : string) (a : Action) (w : World) :
  Usage.counters_of h userId (debited h userId a w)
  = with_used a (used_of a (Usage.counters_of h userId w) + 1) (Usage.counters_of h userId w).
Proof.
  unfold Usage.counters_of at 1, debited. simpl. by rewrite lookup_insert_eq.
Qed.

Lemma debited_frame (h : Host) (userId : string) (a : Action) (w : World) :
  property_sessions (debited h userId a w) = property_sessions w
  ∧ usage_ledger (debited h userId a w) = (usage_ledger w ++ [Usage.usage_entry userId a])%list
  ∧ listing_facts_raw (debited h userId a w) = listing_facts_raw w
  ∧ listing_facts_confirmed (debited h userId a w) = listing_facts_confirmed w
  ∧ listing_stats_raw (debited h userId a w) = listing_stats_raw w
  ∧ listing_stats_confirmed (debited h userId a w) = listing_stats_confirmed w
  ∧ listing_evaluation_raw (debited h userId a w) = listing_evaluation_raw w
  ∧ preferences (debited h userId a w) = preferences w
  ∧ openai_calls (debited h userId a w) = openai_calls w.
Proof.
  unfold debited. simpl.
  destruct (ensureUsageRow_frame h userId w) as (-> & -> & -> & -> & -> & -> & -> & -> & ->).
  done.
Qed.

Lemma used_of_with_used (a b : Action) (v : Z) (c : CountersRow) :
  used_of b (with_used a v c) = if decide (a = b) then v else used_of b c.
Proof. by destruct a, b. Qed.

Lemma limit_of_with_used (a b : Action) (v : Z) (c : CountersRow) :
  limit_of b (with_used a v c) = limit_of b c.
Proof. by destruct a, b. Qed.

(** C1. [checkAndConsumeQuota] reads [(used, limit)] of the action. With
    [limit ≤ used] it answers [{ok: false, used, limit}] and changes
    neither the counters of the user, nor the ledger, nor any session (and
    nothing at all when the counters row exists). With [used < limit] it
    writes [used + 1], appends exactly one ledger row with
    [action_type = action], [delta = -1], [reason = "usage"],
    [direction = "debit"], [amount = 1], and answers
    [{ok: true, used: used + 1, limit}]. *)
Theorem checkAndConsumeQuota_contract
    (h : Host) (userId : string) (a : Action) (w : World) (used limit : Z) :
  used = used_of a (Usage.counters_of h userId w) →
  limit = limit_of a (Usage.counters_of h userId w) →
  let r := (Usage.checkAndConsumeQuota h userId a w).1 in
  let w' := (Usage.checkAndConsumeQuota h userId a w).2 in
  (limit ≤ used →
     r = Returns {| Usage.ok := false; Usage.used := used; Usage.limit := limit |}
     ∧ Usage.counters_of h userId w' = Usage.counters_of h userId w
     ∧ usage_ledger w' = usage_ledger w
     ∧ property_sessions w' = property_sessions w
     ∧ (is_Some (usage_counters w !! userId) → w' = w))
  ∧ (used < limit →
     r = Returns {| Usage.ok := true; Usage.used := used + 1; Usage.limit := limit |}
     ∧ used_of a (Usage.counters_of h userId w') = used + 1
     ∧ limit_of a (Usage.counters_of h userId w') = limit
     ∧ (∀ b, b ≠ a →
          used_of b (Usage.counters_of h userId w') = used_of b (Usage.counters_of h userId w))
     ∧ usage_ledger w' =
         (usage_ledger w ++
            [ {| led_user_id := userId; action_type := action_name a; delta := -1;
                 reason := "usage"; direction := "debit"; action := action_name a;
                 note := Usage.usage_note a; amount := 1 |} ])%list
     ∧ property_sessions w' = property_sessions w).
Proof.
  intros -> -> r w'. subst r w'. split; intros Hcmp.
  - rewrite checkAndConsumeQuota_exhausted by done. simpl.
    destruct (ensureUsageRow_frame h userId w) as (Hs & Hl & _).
    repeat split; try done.
    + apply ensureUsageRow_counters_of.
    + apply ensureUsageRow_present.
  - rewrite checkAndConsumeQuota_available by done. simpl.
    destruct (debited_frame h userId a w) as (Hs & Hl & _).
    rewrite debited_counters_of, used_of_with_used, limit_of_with_used.
    repeat split; try done.
    + by rewrite decide_True.
    + intros b Hb. rewrite used_of_with_used. by rewrite decide_False.
Qed.

(** ** The guarded transition *)

Lemma guard_matches_char (sessionId userId : string) (from : list LifecycleStage) (w : World) :
  guard_matches sessionId userId from w =
  match property_sessions w !! sessionId with
  | Some r =>
      if bool_decide (user_id r = userId) && bool_decide (status r ∈ from)
      then {[ sessionId := r ]} else ∅
  | None => ∅
  end.
Proof.
  unfold guard_matches. apply map_eq. intros k.
  destruct (property_sessions w !! sessionId) as [r|] eqn:E.
  - destruct (bool_decide (user_id r = userId) && bool_decide (status r ∈ from)) eqn:B.
    + apply andb_true_iff in B as [B1%bool_decide_eq_true B2%bool_decide_eq_true].
      destruct (decide (k = sessionId)) as [->|Hne].
      * rewrite lookup_singleton_eq. apply map_lookup_filter_Some. by simpl.
      * rewrite lookup_singleton_ne by done.
        apply map_lookup_filter_None. right. intros x _ (Hk & _). by simpl in Hk.
    + rewrite lookup_empty. apply map_lookup_filter_None. right.
      intros x Hx (Hk & Hu & Hs). simpl in *. subst k.
      rewrite E in Hx. injection Hx as <-.
      apply andb_false_iff in B as [B%bool_decide_eq_false|B%bool_decide_eq_false]; done.
  - rewrite lookup_empty. apply map_lookup_filter_None. right.
    intros x Hx (Hk & _). simpl in Hk. subst k. by rewrite E in Hx.
Qed.

Lemma setStatusGuarded_true (sessionId userId : string) (from : list LifecycleStage)
    (to : LifecycleStage) (w : World) (r : SessionRow) :
  property_sessions w !! sessionId = Some r →
  user_id r = userId →
  status r ∈ from →
  setStatusGuarded sessionId userId from to w
  = (true, set_property_sessions (<[sessionId := with_status r to]> (property_sessions w)) w).
Proof.
  intros E Hu Hs. unfold setStatusGuarded. rewrite E.
  by rewrite (bool_decide_eq_true_2 _ Hu), (bool_decide_eq_true_2 _ Hs).
Qed.

Lemma setStatusGuarded_false_same (sessionId userId : string) (from : list LifecycleStage)
    (to : LifecycleStage) (w : World) :
  (setStatusGuarded sessionId userId from to w).1 = false →
  setStatusGuarded sessionId userId from to w = (false, w).
Proof.
  unfold setStatusGuarded. destruct (property_sessions w !! sessionId) as [r|]; [|done].
  by destruct (bool_decide (user_id r = userId) && bool_decide (status r ∈ from)).
Qed.

Lemma setStatusGuarded_not_from (sessionId userId : string) (from : list LifecycleStage)
    (to : LifecycleStage) (w : World) (r : SessionRow) :
  property_sessions w !! sessionId = Some r →
  status r ∉ from →
  setStatusGuarded sessionId userId from to w = (false, w).
Proof.
  intros E Hs. unfold setStatusGuarded. rewrite E.
  rewrite (bool_decide_eq_false_2 _ Hs). by rewrite andb_false_r.
Qed.

Lemma run_at_conflict (h : Host) (c : GuardSite) (sessionId userId : string)
    (currentStatus : LifecycleStage) (w : World) :
  (guard_at c sessionId userId w).1 = false →
  run_at h c sessionId userId currentStatus w
  = (respond 409 [("error", JStr "ALREADY_RUNNING_OR_INVALID_STATE");
                  ("status", JStr (stage_name currentStatus))], w).
Proof.
  intros Hg. apply setStatusGuarded_false_same in Hg.
  destruct c; cbv [guard_at site_from site_to] in Hg;
    cbv [run_at Stats.run Evaluate.run]; by rewrite Hg.
Qed.

(** C3. [setStatusGuarded] answers [true] iff exactly one row matches the
    id, the owner and the set of source states, and then the status of that
    row becomes [to]; in all other cases it answers [false] and the world
    is unchanged. An orchestrator whose guard answers [false] replies 409
    and leaves the world as it was: no quota consumed, no call to the
    model. *)
Theorem setStatusGuarded_contract :
  (∀ (sessionId userId : string) (from : list LifecycleStage) (to : LifecycleStage)
     (w : World),
     let r := setStatusGuarded sessionId userId from to w in
     (r.1 = true ↔ size (guard_matches sessionId userId from w) = 1%nat)
     ∧ (r.1 = true →
        ∃ row, property_sessions w !! sessionId = Some row
               ∧ user_id row = userId ∧ status row ∈ from
               ∧ r.2 = set_property_sessions
                         (<[sessionId := with_status row to]> (property_sessions w)) w)
     ∧ (r.1 = false → r.2 = w))
  ∧ (∀ (h : Host) (c : GuardSite) (sessionId userId : string)
       (currentStatus : LifecycleStage) (w : World),
       (guard_at c sessionId userId w).1 = false →
       let out := run_at h c sessionId userId currentStatus w in
       code out.1 = 409
       ∧ out.2 = w
       ∧ usage_counters out.2 = usage_counters w
       ∧ usage_ledger out.2 = usage_ledger w
       ∧ openai_calls out.2 = openai_calls w).
Proof.
  split.
  - intros sessionId userId from to w r. subst r.
    rewrite guard_matches_char. unfold setStatusGuarded.
    destruct (property_sessions w !! sessionId) as [row|] eqn:E.
    + destruct (bool_decide (user_id row = userId) && bool_decide (status row ∈ from)) eqn:B;
        simpl.
      * apply andb_true_iff in B as [B1%bool_decide_eq_true B2%bool_decide_eq_true].
        rewrite map_size_singleton. split_and!; [done| |done].
        intros _. by exists row.
      * rewrite map_size_empty. split_and!; done.
    + simpl. rewrite map_size_empty. split_and!; done.
  - intros h c sessionId userId currentStatus w Hg out. subst out.
    rewrite (run_at_conflict h c sessionId userId currentStatus w Hg). done.
Qed.

Lemma site_to_not_in_site_from (c c' : GuardSite) : site_to c ∉ site_from c'.
Proof. destruct c, c'; apply (bool_decide_unpack _); by vm_compute. Qed.

Lemma setStatusGuarded_twice (sessionId user1 user2 : string)
    (from1 from2 : list LifecycleStage) (to1 to2 : LifecycleStage) (w : World) :
  to1 ∉ from2 →
  (setStatusGuarded sessionId user1 from1 to1 w).1 = true →
  setStatusGuarded sessionId user2 from2 to2 (setStatusGuarded sessionId user1 from1 to1 w).2
  = (false, (setStatusGuarded sessionId user1 from1 to1 w).2).
Proof.
  intros Hto. unfold setStatusGuarded at 1 3 4.
  destruct (property_sessions w !! sessionId) as [row|] eqn:E; [|done].
  destruct (bool_decide (user_id row = user1) && bool_decide (status row ∈ from1)); [|done].
  intros _. cbn [fst snd].
  apply (setStatusGuarded_not_from _ _ _ _ _ (with_status row to1)).
  - cbn [property_sessions set_property_sessions]. by rewrite lookup_insert_eq.
  - done.
Qed.

(** C9, amended. Each call of [setStatusGuarded] is one conditional UPDATE,
    executed atomically by the store, so a race of two callers on a session
    is the execution of their two statements in one order or the other.
    Whatever the two call sites and callers, at most one of the two calls
    answers [true]; after a winner the other call answers [false], changes
    nothing, and its orchestrator replies 409. While a session is in a
    RUNNING state no guard succeeds on it. For two calls with one set of
    source states, the same holds whenever the target of the first lies
    outside that set, as it does at every call site. This is a property of
    the guards alone: a route that writes the status without a guard is
    not held back by a RUNNING state. *)
Theorem guarded_transition_single_winner
    (h : Host) (c1 c2 : GuardSite) (sessionId user1 user2 : string)
    (seen2 : LifecycleStage) (w : World) :
  let first := guard_at c1 sessionId user1 w in
  let second := guard_at c2 sessionId user2 first.2 in
  ¬ (first.1 = true ∧ second.1 = true)
  ∧ (first.1 = true →
     second = (false, first.2)
     ∧ code (run_at h c2 sessionId user2 seen2 first.2).1 = 409
     ∧ (run_at h c2 sessionId user2 seen2 first.2).2 = first.2)
  ∧ (∀ row, property_sessions w !! sessionId = Some row →
       status row = STATS_RUNNING ∨ status row = EVAL_RUNNING →
       first = (false, w))
  ∧ (∀ from to1 to2,
       to1 ∉ from →
       ¬ ((setStatusGuarded sessionId user1 from to1 w).1 = true
          ∧ (setStatusGuarded sessionId user2 from to2
               (setStatusGuarded sessionId user1 from to1 w).2).1 = true)).
Proof.
  intros first second.
  assert (Hwin : first.1 = true → second = (false, first.2)).
  { subst first second. unfold guard_at. apply setStatusGuarded_twice.
    apply site_to_not_in_site_from. }
  split_and!.
  - intros [H1 H2]. rewrite (Hwin H1) in H2. done.
  - intros H1. split; [by apply Hwin|].
    assert (Hg : (guard_at c2 sessionId user2 first.2).1 = false).
    { fold second. by rewrite (Hwin H1). }
    by rewrite (run_at_conflict h c2 sessionId user2 seen2 first.2 Hg).
  - intros row E Hrun. subst first. unfold guard_at.
    apply (setStatusGuarded_not_from _ _ _ _ _ row E).
    destruct Hrun as [-> | ->].
    + apply (site_to_not_in_site_from StatsNormal c1).
    + apply (site_to_not_in_site_from EvaluateEntry c1).
  - intros from to1 to2 Hto [H1 H2].
    rewrite (setStatusGuarded_twice sessionId user1 user2 from from to1 to2 w Hto H1) in H2.
    done.
Qed.

(** ** The orchestrators up to their guard *)

Lemma request_session_some (req : Request) (sessionId : string) :
  request_session req = Some sessionId →
  truthy_opt (opt_prop (Some (payload req)) "property_session_id") = true
  ∧ jsString (nullish (opt_prop (Some (payload req)) "property_session_id") JNull) = sessionId.
Proof.
  unfold request_session. set (o := opt_prop _ _).
  destruct (truthy_opt o); [|done]. by intros [= <-].
Qed.

Lemma Stats_POST_owned (h : Host) (req : Request) (w : World)
    (userId sessionId : string) (r : SessionRow) :
  authenticated h req userId →
  request_session req = Some sessionId →
  owns w userId sessionId r →
  Stats.POST h req w =
  match listing_facts_confirmed w !! sessionId with
  | None => (respond 400 [("error", JStr "Listing not confirmed")], w)
  | Some _ =>
      match preferences w !! userId with
      | None => (respond 400 [("error", JStr "Preferences not found")], w)
      | Some prefs =>
          if negb (Stats.checkMinimumPreferences prefs).1 then
            (respond 400 [("error", JStr "MIN_PREFS_MISSING");
                          ("missing", JArr (map JStr (Stats.checkMinimumPreferences prefs).2))], w)
          else Stats.run h sessionId userId (status r) (force_recalc req) w
      end
  end.
Proof.
  intros (token & Hb & Hu) Hs (Hr & Ho).
  destruct (request_session_some _ _ Hs) as [Ht Hk].
  unfold Stats.POST, Stats.or_null. rewrite Hb, Hu, Ht. simpl negb. cbv iota.
  rewrite Hk, Hr. by rewrite (bool_decide_eq_true_2 _ Ho).
Qed.

Lemma Evaluate_POST_owned (h : Host) (req : Request) (w : World)
    (userId sessionId : string) (r : SessionRow) :
  authenticated h req userId →
  request_session req = Some sessionId →
  owns w userId sessionId r →
  Evaluate.POST h req w =
  if negb (bool_decide (status r ∈ Evaluate.evalFrom)) then
    (respond 409 [("error", JStr "Invalid state");
                  ("status", JStr (stage_name (status r)))], w)
  else Evaluate.run h sessionId userId (status r) w.
Proof.
  intros (token & Hb & Hu) Hs (Hr & Ho).
  destruct (request_session_some _ _ Hs) as [Ht Hk].
  unfold Evaluate.POST. rewrite Hb, Hu, Ht. simpl negb. cbv iota.
  rewrite Hk, Hr. by rewrite (bool_decide_eq_true_2 _ Ho).
Qed.

Lemma update_status_revert (sessionId : string) (r : SessionRow) (to : LifecycleStage)
    (w w2 : World) :
  property_sessions w !! sessionId = Some r →
  property_sessions w2 = <[sessionId := with_status r to]> (property_sessions w) →
  property_sessions (update_status sessionId (status r) w2) = property_sessions w.
Proof.
  intros Hr H2. rewrite update_status_sessions, H2, lookup_insert_eq.
  by apply insert_status_back.
Qed.

Lemma update_status_revert_world (sessionId : string) (r : SessionRow) (to : LifecycleStage)
    (w : World) :
  property_sessions w !! sessionId = Some r →
  update_status sessionId (status r)
    (set_property_sessions (<[sessionId := with_status r to]> (property_sessions w)) w) = w.
Proof.
  intros Hr. unfold update_status. simpl. rewrite lookup_insert_eq.
  rewrite (insert_status_back _ _ _ _ Hr). by destruct w.
Qed.

(** ** The orchestrators from their guard to the model *)

Lemma entered_counters_of (h : Host) (userId sessionId : string) (r : SessionRow)
    (to : LifecycleStage) (w : World) :
  Usage.counters_of h userId (entered sessionId r to w) = Usage.counters_of h userId w.
Proof. done. Qed.

Lemma Stats_run_exhausted (h : Host) (sessionId userId : string) (r : SessionRow)
    (force : bool) (w : World) :
  owns w userId sessionId r →
  status r ∈ Stats.allowedFrom force →
  quota_exhausted h userId A_stats w →
  Stats.run h sessionId userId (status r) force w =
  (respond 402 [("error", JStr "Quota exceeded");
                ("used", JNum (used_of A_stats (Usage.counters_of h userId w)));
                ("limit", JNum (limit_of A_stats (Usage.counters_of h userId w)))],
   update_status sessionId (status r)
     (Usage.ensureUsageRow h userId (entered sessionId r STATS_RUNNING w))).
Proof.
  intros (Hr & Ho) Hs Hq. unfold Stats.run.
  rewrite (setStatusGuarded_true _ _ _ _ _ r Hr Ho Hs). fold (entered sessionId r STATS_RUNNING w).
  rewrite checkAndConsumeQuota_exhausted by done. done.
Qed.

Lemma Stats_run_available (h : Host) (sessionId userId : string) (r : SessionRow)
    (force : bool) (w : World) :
  owns w userId sessionId r →
  status r ∈ Stats.allowedFrom force →
  quota_available h userId A_stats w →
  Stats.run h sessionId userId (status r) force w =
  let w2 := debited h userId A_stats (entered sessionId r STATS_RUNNING w) in
  if negb (has_api_key h) then
    (respond 500 [("error", JStr "OPENAI_API_KEY missing")],
     update_status sessionId STATS_FAILED w2)
  else Stats.finish h sessionId (count_openai_call w2).
Proof.
  intros (Hr & Ho) Hs Hq. unfold Stats.run.
  rewrite (setStatusGuarded_true _ _ _ _ _ r Hr Ho Hs). fold (entered sessionId r STATS_RUNNING w).
  rewrite checkAndConsumeQuota_available by done. done.
Qed.

Lemma Evaluate_run_entered (h : Host) (sessionId userId : string) (r : SessionRow)
    (w : World) :
  owns w userId sessionId r →
  status r ∈ Evaluate.evalFrom →
  Evaluate.run h sessionId userId (status r) w =
  let w1 := entered sessionId r EVAL_RUNNING w in
  match listing_facts_confirmed w !! sessionId with
  | None => (respond 400 [("error", JStr "Listing not confirmed")], w)
  | Some _ =>
  match listing_stats_confirmed w !! sessionId with
  | None => (respond 400 [("error", JStr "Stats not ready")], w)
  | Some _ =>
  match preferences w !! userId with
  | None => (respond 400 [("error", JStr "Preferences not found")], w)
  | Some _ =>
  match Usage.checkAndConsumeQuota h userId A_evaluate w1 with
  | (Throws e, w2) => (caught 500 e, w2)
  | (Returns quota, w2) =>
      if negb (Usage.ok quota) then
        (respond 402 [("error", JStr "Quota exceeded");
                      ("used", JNum (Usage.used quota));
                      ("limit", JNum (Usage.limit quota))],
         update_status sessionId (status r) w2)
      else if negb (has_api_key h) then
        (respond 500 [("error", JStr "OPENAI_API_KEY missing")],
         update_status sessionId EVAL_FAILED w2)
      else Evaluate.finish h sessionId (count_openai_call w2)
  end end end end.
Proof.
  intros (Hr & Ho) Hs. unfold Evaluate.run.
  rewrite (setStatusGuarded_true _ _ _ _ _ r Hr Ho Hs).
  fold (entered sessionId r EVAL_RUNNING w). cbv zeta.
  change (listing_facts_confirmed (entered sessionId r EVAL_RUNNING w))
    with (listing_facts_confirmed w).
  change (listing_stats_confirmed (entered sessionId r EVAL_RUNNING w))
    with (listing_stats_confirmed w).
  change (preferences (entered sessionId r EVAL_RUNNING w)) with (preferences w).
  pose proof (update_status_revert_world sessionId r EVAL_RUNNING w Hr) as Hback.
  fold (entered sessionId r EVAL_RUNNING w) in Hback.
  destruct (listing_facts_confirmed w !! sessionId); [|by rewrite Hback].
  destruct (listing_stats_confirmed w !! sessionId); [|by rewrite Hback].
  destruct (preferences w !! userId); [done|by rewrite Hback].
Qed.

(** The counters, the ledger and the call count after the status of a
    session was written back on top of an ensured counters row. *)
Lemma written_back_after_ensure (h : Host) (userId sessionId : string) (r : SessionRow)
    (to seen : LifecycleStage) (w : World) :
  property_sessions w !! sessionId = Some r →
  let w' := update_status sessionId seen
              (Usage.ensureUsageRow h userId (entered sessionId r to w)) in
  property_sessions w' = <[sessionId := with_status r seen]> (property_sessions w)
  ∧ usage_ledger w' = usage_ledger w
  ∧ Usage.counters_of h userId w' = Usage.counters_of h userId w
  ∧ openai_calls w' = openai_calls w.
Proof.
  intros Hr w'. subst w'.
  destruct (update_status_frame sessionId seen
              (Usage.ensureUsageRow h userId (entered sessionId r to w)))
    as (Hc & Hl & _ & _ & _ & _ & _ & _ & Hn).
  destruct (ensureUsageRow_frame h userId (entered sessionId r to w))
    as (Hs' & Hl' & _ & _ & _ & _ & _ & _ & Hn').
  split_and!.
  - rewrite update_status_sessions, Hs'. unfold entered.
    cbn [property_sessions set_property_sessions].
    rewrite lookup_insert_eq, insert_insert_eq. by destruct r.
  - by rewrite Hl, Hl'.
  - unfold Usage.counters_of at 1. rewrite Hc.
    fold (Usage.counters_of h userId (Usage.ensureUsageRow h userId (entered sessionId r to w))).
    by rewrite ensureUsageRow_counters_of.
  - by rewrite Hn, Hn'.
Qed.

Lemma reverted_after_ensure (h : Host) (userId sessionId : string) (r : SessionRow)
    (to : LifecycleStage) (w : World) :
  property_sessions w !! sessionId = Some r →
  let w' := update_status sessionId (status r)
              (Usage.ensureUsageRow h userId (entered sessionId r to w)) in
  property_sessions w' = property_sessions w
  ∧ usage_ledger w' = usage_ledger w
  ∧ Usage.counters_of h userId w' = Usage.counters_of h userId w
  ∧ openai_calls w' = openai_calls w.
Proof.
  intros Hr w'.
  destruct (written_back_after_ensure h userId sessionId r to (status r) w Hr)
    as (Hs & Hrest).
  split; [|exact Hrest].
  subst w'. rewrite Hs, with_status_same. by apply insert_id.
Qed.

(** Compute-stats from its guard on, for a request that read the status
    [seen] at its start and finds the quota used up. *)
Lemma Stats_run_seen_exhausted (h : Host) (sessionId userId : string) (r : SessionRow)
    (seen : LifecycleStage) (force : bool) (w : World) :
  owns w userId sessionId r →
  status r ∈ Stats.allowedFrom force →
  quota_exhausted h userId A_stats w →
  Stats.run h sessionId userId seen force w =
  (respond 402 [("error", JStr "Quota exceeded");
                ("used", JNum (used_of A_stats (Usage.counters_of h userId w)));
                ("limit", JNum (limit_of A_stats (Usage.counters_of h userId w)))],
   update_status sessionId seen
     (Usage.ensureUsageRow h userId (entered sessionId r STATS_RUNNING w))).
Proof.
  intros (Hr & Ho) Hs Hq. unfold Stats.run.
  rewrite (setStatusGuarded_true _ _ _ _ _ r Hr Ho Hs). fold (entered sessionId r STATS_RUNNING w).
  rewrite checkAndConsumeQuota_exhausted by done. done.
Qed.

(** The session written back to [seen] right after the guard. *)
Lemma update_status_entered (sessionId : string) (r : SessionRow)
    (to seen : LifecycleStage) (w : World) :
  update_status sessionId seen (entered sessionId r to w)
  = set_property_sessions (<[sessionId := with_status r seen]> (property_sessions w)) w.
Proof.
  unfold update_status, entered. cbn [property_sessions set_property_sessions].
  rewrite lookup_insert_eq, insert_insert_eq. by destruct r, w.
Qed.

(** Evaluate from its guard on, for a request that read the status [seen]
    at its start. *)
Lemma Evaluate_run_seen (h : Host) (sessionId userId : string) (r : SessionRow)
    (seen : LifecycleStage) (w : World) :
  owns w userId sessionId r →
  status r ∈ Evaluate.evalFrom →
  Evaluate.run h sessionId userId seen w =
  let w1 := entered sessionId r EVAL_RUNNING w in
  let back :=
    set_property_sessions (<[sessionId := with_status r seen]> (property_sessions w)) w in
  match listing_facts_confirmed w !! sessionId with
  | None => (respond 400 [("error", JStr "Listing not confirmed")], back)
  | Some _ =>
  match listing_stats_confirmed w !! sessionId with
  | None => (respond 400 [("error", JStr "Stats not ready")], back)
  | Some _ =>
  match preferences w !! userId with
  | None => (respond 400 [("error", JStr "Preferences not found")], back)
  | Some _ =>
  match Usage.checkAndConsumeQuota h userId A_evaluate w1 with
  | (Throws e, w2) => (caught 500 e, w2)
  | (Returns quota, w2) =>
      if negb (Usage.ok quota) then
        (respond 402 [("error", JStr "Quota exceeded");
                      ("used", JNum (Usage.used quota));
                      ("limit", JNum (Usage.limit quota))],
         update_status sessionId seen w2)
      else if negb (has_api_key h) then
        (respond 500 [("error", JStr "OPENAI_API_KEY missing")],
         update_status sessionId EVAL_FAILED w2)
      else Evaluate.finish h sessionId (count_openai_call w2)
  end end end end.
Proof.
  intros (Hr & Ho) Hs. unfold Evaluate.run.
  rewrite (setStatusGuarded_true _ _ _ _ _ r Hr Ho Hs).
  fold (entered sessionId r EVAL_RUNNING w). cbv zeta.
  change (listing_facts_confirmed (entered sessionId r EVAL_RUNNING w))
    with (listing_facts_confirmed w).
  change (listing_stats_confirmed (entered sessionId r EVAL_RUNNING w))
    with (listing_stats_confirmed w).
  change (preferences (entered sessionId r EVAL_RUNNING w)) with (preferences w).
  rewrite (update_status_entered sessionId r EVAL_RUNNING seen w).
  destruct (listing_facts_confirmed w !! sessionId); [|done].
  destruct (listing_stats_confirmed w !! sessionId); [|done].
  by destruct (preferences w !! userId).
Qed.

(** C5, amended. In compute-stats and in evaluate, a failure found after
    the guarded transition into the RUNNING state and before the call to
    the model (for evaluate: confirmed facts, confirmed stats or the
    preferences row missing; for both: the quota used up) is answered 400,
    or 402 with [used] and [limit] for the quota; the model is not called,
    no unit is debited, and the status written back is [seen], the one the
    request read at its start, not a generic fallback: the session table
    is the one the guard met with the status of this session set to
    [seen]. For a request served alone [seen] is the status the guard met,
    so the session table, and with it the status, is what it was before
    the request; compute-stats tests the facts and the preferences before
    its guard and answers 400 with nothing written. *)
Theorem precondition_failure_reverts
    (h : Host) (w : World) (userId sessionId : string) (r : SessionRow)
    (seen : LifecycleStage) :
  owns w userId sessionId r →
  (∀ force,
     status r ∈ Stats.allowedFrom force →
     quota_exhausted h userId A_stats w →
     let out := Stats.run h sessionId userId seen force w in
     out.1 = respond 402
               [("error", JStr "Quota exceeded");
                ("used", JNum (used_of A_stats (Usage.counters_of h userId w)));
                ("limit", JNum (limit_of A_stats (Usage.counters_of h userId w)))]
     ∧ property_sessions out.2 = <[sessionId := with_status r seen]> (property_sessions w)
     ∧ usage_ledger out.2 = usage_ledger w
     ∧ Usage.counters_of h userId out.2 = Usage.counters_of h userId w
     ∧ openai_calls out.2 = openai_calls w)
  ∧ (status r ∈ Evaluate.evalFrom →
     let out := Evaluate.run h sessionId userId seen w in
     (¬ evaluate_preconditions w userId sessionId →
        code out.1 = 400
        ∧ out.2 = set_property_sessions
                    (<[sessionId := with_status r seen]> (property_sessions w)) w)
     ∧ (evaluate_preconditions w userId sessionId →
        quota_exhausted h userId A_evaluate w →
        out.1 = respond 402
                  [("error", JStr "Quota exceeded");
                   ("used", JNum (used_of A_evaluate (Usage.counters_of h userId w)));
                   ("limit", JNum (limit_of A_evaluate (Usage.counters_of h userId w)))]
        ∧ property_sessions out.2
          = <[sessionId := with_status r seen]> (property_sessions w)
        ∧ usage_ledger out.2 = usage_ledger w
        ∧ Usage.counters_of h userId out.2 = Usage.counters_of h userId w
        ∧ openai_calls out.2 = openai_calls w))
  ∧ (∀ req,
     authenticated h req userId →
     request_session req = Some sessionId →
     (let out := Stats.POST h req w in
      (¬ stats_preconditions w userId sessionId →
         code out.1 = 400 ∧ out.2 = w)
      ∧ (stats_preconditions w userId sessionId →
         status r ∈ Stats.allowedFrom (force_recalc req) →
         quota_exhausted h userId A_stats w →
         out.1 = respond 402
                   [("error", JStr "Quota exceeded");
                    ("used", JNum (used_of A_stats (Usage.counters_of h userId w)));
                    ("limit", JNum (limit_of A_stats (Usage.counters_of h userId w)))]
         ∧ property_sessions out.2 = property_sessions w
         ∧ usage_ledger out.2 = usage_ledger w
         ∧ Usage.counters_of h userId out.2 = Usage.counters_of h userId w
         ∧ openai_calls out.2 = openai_calls w))
     ∧ (status r ∈ Evaluate.evalFrom →
        let out := Evaluate.POST h req w in
        (¬ evaluate_preconditions w userId sessionId →
           code out.1 = 400 ∧ out.2 = w)
        ∧ (evaluate_preconditions w userId sessionId →
           quota_exhausted h userId A_evaluate w →
           out.1 = respond 402
                     [("error", JStr "Quota exceeded");
                      ("used", JNum (used_of A_evaluate (Usage.counters_of h userId w)));
                      ("limit", JNum (limit_of A_evaluate (Usage.counters_of h userId w)))]
           ∧ property_sessions out.2 = property_sessions w
           ∧ usage_ledger out.2 = usage_ledger w
           ∧ Usage.counters_of h userId out.2 = Usage.counters_of h userId w
           ∧ openai_calls out.2 = openai_calls w))).
Proof.
  intros Ho. split_and!.
  - intros force Hst Hq out. subst out.
    rewrite (Stats_run_seen_exhausted h sessionId userId r seen force w Ho Hst Hq).
    split; [done|]. simpl fst. simpl snd.
    apply (written_back_after_ensure h userId sessionId r STATS_RUNNING seen w). apply Ho.
  - intros Hst out. subst out.
    rewrite (Evaluate_run_seen h sessionId userId r seen w Ho Hst). cbv zeta.
    unfold evaluate_preconditions. split.
    + intros Hno.
      destruct (listing_facts_confirmed w !! sessionId) as [facts|]; [|done].
      destruct (listing_stats_confirmed w !! sessionId) as [stats|]; [|done].
      destruct (preferences w !! userId) as [prefs|]; [|done].
      exfalso. apply Hno. done.
    + intros ([facts ->] & [stats ->] & [prefs ->]) Hq.
      rewrite checkAndConsumeQuota_exhausted by done.
      split; [done|]. simpl fst. simpl snd.
      apply (written_back_after_ensure h userId sessionId r EVAL_RUNNING seen w). apply Ho.
  - intros req Ha Hs. split.
    + intros out. subst out. rewrite (Stats_POST_owned h req w userId sessionId r Ha Hs Ho).
      unfold stats_preconditions. split.
      * intros Hno.
        destruct (listing_facts_confirmed w !! sessionId) as [facts|]; [|done].
        destruct (preferences w !! userId) as [prefs|]; [|done].
        destruct (Stats.checkMinimumPreferences prefs).1 eqn:Hmin; [|done].
        exfalso. apply Hno. split; [done|]. by exists prefs.
      * intros ([facts Hf] & prefs & Hp & Hmin) Hst Hq. rewrite Hf, Hp, Hmin.
        simpl negb. cbv iota.
        rewrite (Stats_run_exhausted h sessionId userId r _ w Ho Hst Hq).
        split; [done|]. simpl fst. simpl snd.
        apply (reverted_after_ensure h userId sessionId r STATS_RUNNING w). apply Ho.
    + intros Hst out. subst out.
      rewrite (Evaluate_POST_owned h req w userId sessionId r Ha Hs Ho).
      rewrite (bool_decide_eq_true_2 _ Hst). simpl negb. cbv iota.
      rewrite (Evaluate_run_entered h sessionId userId r w Ho Hst). cbv zeta.
      unfold evaluate_preconditions. split.
      * intros Hno.
        destruct (listing_facts_confirmed w !! sessionId) as [facts|]; [|done].
        destruct (listing_stats_confirmed w !! sessionId) as [stats|]; [|done].
        destruct (preferences w !! userId) as [prefs|]; [|done].
        exfalso. apply Hno. done.
      * intros ([facts ->] & [stats ->] & [prefs ->]) Hq.
        rewrite checkAndConsumeQuota_exhausted by done.
        split; [done|]. simpl fst. simpl snd.
        apply (reverted_after_ensure h userId sessionId r EVAL_RUNNING w). apply Ho.
Qed.

(** ** The confidence gate *)

Lemma status_of_update_status (sessionId : string) (s : LifecycleStage) (w : World) :
  is_Some (property_sessions w !! sessionId) →
  status_of (update_status sessionId s w) sessionId = Some s.
Proof.
  intros [r Hr]. unfold status_of. rewrite update_status_sessions, Hr.
  by rewrite lookup_insert_eq.
Qed.





Lemma Stats_POST_called (h : Host) (req : Request) (w : World)
    (userId sessionId : string) (r : SessionRow) :
  authenticated h req userId →
  request_session req = Some sessionId →
  owns w userId sessionId r →
  stats_preconditions w userId sessionId →
  status r ∈ Stats.allowedFrom (force_recalc req) →
  quota_available h userId A_stats w →
  Stats.POST h req w =
  if negb (has_api_key h) then
    (respond 500 [("error", JStr "OPENAI_API_KEY missing")],
     update_status sessionId STATS_FAILED
       (debited h userId A_stats (entered sessionId r STATS_RUNNING w)))
  else Stats.finish h sessionId (stats_called h userId sessionId r w).
Proof.
  intros Ha Hs Ho ([facts Hf] & prefs & Hp & Hmin) Hst Hq.
  rewrite (Stats_POST_owned h req w userId sessionId r Ha Hs Ho), Hf, Hp, Hmin.
  simpl negb. cbv iota.
  by rewrite (Stats_run_available h sessionId userId r _ w Ho Hst Hq).
Qed.





(** ** Extract up to the model *)

Lemma Extract_POST_full (h : Host) (req : Request) (w : World) (userId url html : string) :
  authenticated h req userId →
  extract_full_request req url →
  quota_available h userId A_extract w →
  fetchRightmoveHtml h url = Returns html →
  Extract.POST h req w = extract_tail h userId url html (debited h userId A_extract w).
Proof.
  intros (token & Hb & Hu) (Hurl & Hne & Hstage) Hq Hfetch.
  unfold Extract.POST. rewrite Hb.
  destruct (payload req) as [| | | | |xs|kvs] eqn:Hp; try discriminate Hurl.
  rewrite Hurl, Hu.
  rewrite checkAndConsumeQuota_available by done.
  cbn [Usage.ok negb].
  assert (Hs : ∀ name, name ∈ ["auth"; "quota"; "fetch"; "openai"] →
      Extract.is_stage
        (if truthy_opt (prop (JObj kvs) "stage")
         then nullish (prop (JObj kvs) "stage") JNull else JStr "full") name = false).
  { intros name Hname. destruct Hstage as [-> | ->].
    - cbn [Extract.is_stage].
      repeat (apply elem_of_cons in Hname as [-> | Hname]; [reflexivity|]).
      by apply elem_of_nil in Hname.
    - cbn [truthy_opt truthy]. simpl.
      repeat (apply elem_of_cons in Hname as [-> | Hname]; [reflexivity|]).
      by apply elem_of_nil in Hname. }
  rewrite !Hs by (apply (bool_decide_unpack _); by vm_compute).
  rewrite (proj2 (String.eqb_neq url EmptyString) Hne), Hfetch.
  unfold extract_tail.
  destruct (Extract.callOpenAIWithWeb h (debited h userId A_extract w)) as [[facts|e] w2];
    [|done].
  destruct (Extract.upsertPropertySession userId url (parseRightmoveListingId url) w2)
    as [[[id row]|e] w3]; done.
Qed.

(** ** Extract: the model, the session, the facts *)

Lemma callOpenAIWithWeb_world (h : Host) (w : World) :
  (Extract.callOpenAIWithWeb h w).2 = if has_api_key h then count_openai_call w else w.
Proof.
  unfold Extract.callOpenAIWithWeb. destruct (has_api_key h); [|done]. simpl.
  destruct (model_output h) as [text|e0]; [|done].
  destruct (JSON_parse h text) as [v|e].
  - by destruct (negb (truthy v) || negb (typeof_object v)).
  - destruct (match_braces text) as [m|].
    + destruct (JSON_parse h m) as [v|e']; [|done].
      by destruct (negb (truthy v) || negb (typeof_object v)).
    + done.
Qed.

Lemma callOpenAIWithWeb_placeholder (h : Host) (w : World) :
  extract_placeholder h →
  (Extract.callOpenAIWithWeb h w).1 = Returns (Extract.no_key_facts)
  ∨ (Extract.callOpenAIWithWeb h w).1 = Returns (Extract.non_json_facts).
Proof.
  unfold Extract.callOpenAIWithWeb.
  intros [Hk | (Hk & text & Ht & [((e & He) & Hm) | (v & Hv & Hshape)])]; rewrite Hk; simpl.
  - by left.
  - rewrite Ht, He, Hm. by right.
  - rewrite Ht, Hv. right.
    by destruct Hshape as [-> | ->]; rewrite ?orb_true_r.
Qed.

Lemma maybeSingle_some (rows : list (string * SessionRow)) (x : string * SessionRow) :
  Extract.maybeSingle rows = Some x → rows = [x].
Proof. destruct rows as [|y [|z rows]]; simpl; congruence. Qed.

Lemma filter_single_lookup (P : string * SessionRow → Prop) `{!∀ x, Decision (P x)}
    (m : gmap string SessionRow) (id : string) (r : SessionRow) :
  map_to_list (filter P m) = [(id, r)] →
  filter P m = {[ id := r ]} ∧ m !! id = Some r ∧ P (id, r).
Proof.
  intros Hl.
  assert (Hf : filter P m = {[ id := r ]}).
  { rewrite <- (list_to_map_to_list (filter P m)), Hl. simpl. by rewrite insert_empty. }
  split; [done|].
  apply (map_lookup_filter_Some P m id r). by rewrite Hf, lookup_singleton_eq.
Qed.


Lemma upsertPropertySession_capped (userId url : string) (w : World) :
  find_session userId url w = None →
  (100 ≤ Extract.count_sessions userId w)%nat →
  Extract.upsertPropertySession userId url (parseRightmoveListingId url) w
  = (Throws MaxLinksReached, w).
Proof.
  unfold find_session, Extract.upsertPropertySession, Extract.enforceMaxLinks.
  intros Hf Hc. apply Nat.leb_le in Hc.
  destruct (parseRightmoveListingId url) as [lid|]; by rewrite Hf, Hc.
Qed.

(** What depends on the session table only. *)
Lemma find_session_ext (userId url : string) (w w' : World) :
  property_sessions w' = property_sessions w →
  find_session userId url w' = find_session userId url w
  ∧ Extract.count_sessions userId w' = Extract.count_sessions userId w.
Proof.
  intros E. unfold find_session, Extract.by_listing, Extract.by_url, Extract.count_sessions.
  by rewrite E.
Qed.


Lemma updateSessionStatus_sessions (h : Host) (id : string) (s : LifecycleStage)
    (w : World) (r : SessionRow) :
  property_sessions w !! id = Some r →
  property_sessions (Extract.updateSessionStatus h id s w)
  = <[id := with_last_extracted_at (with_status r s) (nowIso h)]> (property_sessions w).
Proof. intros Hr. unfold Extract.updateSessionStatus. by rewrite Hr. Qed.

Lemma updateSessionStatus_frame (h : Host) (id : string) (s : LifecycleStage) (w : World) :
  usage_counters (Extract.updateSessionStatus h id s w) = usage_counters w
  ∧ usage_ledger (Extract.updateSessionStatus h id s w) = usage_ledger w
  ∧ listing_facts_raw (Extract.updateSessionStatus h id s w) = listing_facts_raw w
  ∧ openai_calls (Extract.updateSessionStatus h id s w) = openai_calls w.
Proof. unfold Extract.updateSessionStatus. by destruct (property_sessions w !! id). Qed.

Lemma writeFactsRaw_accepted (h : Host) (id : string) (facts : json) (w : World) :
  store_accepts h "listing_facts_raw" (Extract.facts_row id facts) = true →
  Extract.writeFactsRaw h id facts w
  = (Returns tt,
     set_listing_facts_raw
       (<[id := Extract.facts_row id facts]> (listing_facts_raw w)) w).
Proof. intros Hacc. unfold Extract.writeFactsRaw. by rewrite Hacc. Qed.

(** The last four steps of the full pipeline, and the world after them. *)
Lemma extract_written (h : Host) (id : string) (facts : json) (w : World) (r : SessionRow) :
  property_sessions w !! id = Some r →
  store_accepts h "listing_facts_raw" (Extract.facts_row id facts) = true →
  ∃ w6,
    Extract.writeFactsRaw h id facts
      (Extract.updateSessionStatus h id AI_PARSED
         (Extract.updateSessionStatus h id FETCHED_HTML w)) = (Returns tt, w6)
    ∧ property_sessions (Extract.updateSessionStatus h id NEEDS_CONFIRMATION w6)
      = <[id := extracted h r]> (property_sessions w)
    ∧ listing_facts_raw (Extract.updateSessionStatus h id NEEDS_CONFIRMATION w6)
      = <[id := Extract.facts_row id facts]> (listing_facts_raw w)
    ∧ usage_counters (Extract.updateSessionStatus h id NEEDS_CONFIRMATION w6)
      = usage_counters w
    ∧ usage_ledger (Extract.updateSessionStatus h id NEEDS_CONFIRMATION w6) = usage_ledger w
    ∧ openai_calls (Extract.updateSessionStatus h id NEEDS_CONFIRMATION w6) = openai_calls w.
Proof.
  intros Hr Hacc.
  pose proof (updateSessionStatus_sessions h id FETCHED_HTML w r Hr) as H1.
  destruct (updateSessionStatus_frame h id FETCHED_HTML w) as (Hc1 & Hl1 & Hf1 & Hn1).
  revert H1 Hc1 Hl1 Hf1 Hn1.
  generalize (Extract.updateSessionStatus h id FETCHED_HTML w). intros w1 H1 Hc1 Hl1 Hf1 Hn1.
  assert (H2 : property_sessions (Extract.updateSessionStatus h id AI_PARSED w1)
               = <[id := with_last_extracted_at (with_status r AI_PARSED) (nowIso h)]>
                   (property_sessions w)).
  { rewrite (updateSessionStatus_sessions h id AI_PARSED w1
               (with_last_extracted_at (with_status r FETCHED_HTML) (nowIso h))).
    - by rewrite H1, insert_insert_eq.
    - by rewrite H1, lookup_insert_eq. }
  destruct (updateSessionStatus_frame h id AI_PARSED w1) as (Hc2 & Hl2 & Hf2 & Hn2).
  revert H2 Hc2 Hl2 Hf2 Hn2.
  generalize (Extract.updateSessionStatus h id AI_PARSED w1). intros w2 H2 Hc2 Hl2 Hf2 Hn2.
  rewrite (writeFactsRaw_accepted h id facts w2 Hacc).
  eexists. split; [reflexivity|].
  set (w3 := set_listing_facts_raw _ w2).
  assert (H3 : property_sessions w3 = property_sessions w2) by done.
  assert (Hc3 : usage_counters w3 = usage_counters w2) by done.
  assert (Hl3 : usage_ledger w3 = usage_ledger w2) by done.
  assert (Hf3 : listing_facts_raw w3
                = <[id := Extract.facts_row id facts]> (listing_facts_raw w2)) by done.
  assert (Hn3 : openai_calls w3 = openai_calls w2) by done.
  clearbody w3.
  destruct (updateSessionStatus_frame h id NEEDS_CONFIRMATION w3) as (Hc4 & Hl4 & Hf4 & Hn4).
  split_and!.
  - rewrite (updateSessionStatus_sessions h id NEEDS_CONFIRMATION w3
               (with_last_extracted_at (with_status r AI_PARSED) (nowIso h))).
    + by rewrite H3, H2, insert_insert_eq.
    + by rewrite H3, H2, lookup_insert_eq.
  - by rewrite Hf4, Hf3, Hf2, Hf1.
  - by rewrite Hc4, Hc3, Hc2, Hc1.
  - by rewrite Hl4, Hl3, Hl2, Hl1.
  - by rewrite Hn4, Hn3, Hn2, Hn1.
Qed.

Lemma extract_called_frame (h : Host) (userId : string) (w : World) :
  let w2 := (Extract.callOpenAIWithWeb h (debited h userId A_extract w)).2 in
  property_sessions w2 = property_sessions w
  ∧ listing_facts_raw w2 = listing_facts_raw w
  ∧ usage_ledger w2 = (usage_ledger w ++ [Usage.usage_entry userId A_extract])%list
  ∧ usage_counters w2 = usage_counters (debited h userId A_extract w)
  ∧ openai_calls w2 = if has_api_key h then S (openai_calls w) else openai_calls w.
Proof.
  intros w2. subst w2. rewrite callOpenAIWithWeb_world.
  destruct (debited_frame h userId A_extract w) as (Hs & Hl & Hf & _ & _ & _ & _ & _ & Hn).
  destruct (has_api_key h); cbn [count_openai_call property_sessions listing_facts_raw
    usage_ledger usage_counters openai_calls]; rewrite ?Hs, ?Hl, ?Hf, ?Hn; done.
Qed.

Lemma counters_of_ext (h : Host) (userId : string) (w w' : World) :
  usage_counters w' = usage_counters w →
  Usage.counters_of h userId w' = Usage.counters_of h userId w.
Proof. unfold Usage.counters_of. by intros ->. Qed.

(** The row [writeFactsRaw] sends, member by member. *)
Lemma facts_row_members (id : string) (facts : json) :
  Extract.facts_row id facts
  = JObj [ ("property_session_id", JStr id);
           ("price", nullish (prop facts "price") JNull);
           ("bedrooms", nullish (prop facts "bedrooms") JNull);
           ("bathrooms", nullish (prop facts "bathrooms") JNull);
           ("property_type", nullish (prop facts "property_type") JNull);
           ("tenure", nullish (prop facts "tenure") JNull);
           ("lease_years_remaining", nullish (prop facts "lease_years_remaining") JNull);
           ("postcode", nullish (prop facts "postcode") JNull);
           ("address", nullish (prop facts "address") JNull);
           ("description", nullish (prop facts "description") JNull);
           ("estate_agent", nullish (prop facts "estate_agent") JNull);
           ("ai_confidence", nullish (prop facts "ai_confidence") JNull);
           ("ai_warnings", nullish (prop facts "ai_warnings") JNull) ].
Proof. reflexivity. Qed.


(** C7, amended. For a user who already has 100 sessions, the full extract
    pipeline on a reference the user has no session for is answered 403
    MAX_LINKS_REACHED with limit 100; no session row is added and no facts
    are written. The cap is checked when the session is about to be
    created, after the quota step and the call to the model: the extract
    counter of the user has gone up by one and one usage row has been
    appended to the ledger. *)
Theorem extract_cap_after_debit
    (h : Host) (req : Request) (w : World) (userId url html : string) (facts : json) :
  authenticated h req userId →
  extract_full_request req url →
  find_session userId url w = None →
  (100 ≤ Extract.count_sessions userId w)%nat →
  quota_available h userId A_extract w →
  fetchRightmoveHtml h url = Returns html →
  (Extract.callOpenAIWithWeb h (debited h userId A_extract w)).1 = Returns facts →
  let out := Extract.POST h req w in
  out.1 = respond 403 [("ok", JBool false); ("error", JStr "MAX_LINKS_REACHED");
                       ("limit", JNum 100)]
  ∧ property_sessions out.2 = property_sessions w
  ∧ listing_facts_raw out.2 = listing_facts_raw w
  ∧ used_of A_extract (Usage.counters_of h userId out.2)
    = used_of A_extract (Usage.counters_of h userId w) + 1
  ∧ usage_ledger out.2 = (usage_ledger w ++ [Usage.usage_entry userId A_extract])%list
  ∧ openai_calls out.2 = if has_api_key h then S (openai_calls w) else openai_calls w.
Proof.
  intros Ha Hreq Hnew Hcap Hq Hfetch Hfacts out. subst out.
  rewrite (Extract_POST_full h req w userId url html Ha Hreq Hq Hfetch).
  unfold extract_tail.
  destruct (extract_called_frame h userId w) as (Hs2 & Hf2 & Hl2 & Hc2 & Hn2).
  destruct (Extract.callOpenAIWithWeb h (debited h userId A_extract w)) as [[f|e] w2];
    simpl in Hfacts; [injection Hfacts as ->|discriminate].
  simpl in Hs2, Hf2, Hl2, Hc2, Hn2.
  destruct (find_session_ext userId url w w2 Hs2) as (Hfind & Hcount).
  rewrite upsertPropertySession_capped by (by rewrite ?Hfind, ?Hcount).
  cbn [fst snd]. split_and!; try done.
  rewrite (counters_of_ext h userId (debited h userId A_extract w)) by done.
  rewrite debited_counters_of, used_of_with_used. by rewrite decide_True.
Qed.

(** ** Failures after the debit *)

Lemma parseJsonLoose_none (h : Host) (text : string) :
  no_object_found h text → parseJsonLoose h text = Returns JNull.
Proof.
  unfold parseJsonLoose. intros [-> | ((e & ->) & ->)].
  - done.
  - by destruct (String.eqb (trim text) EmptyString).
Qed.

Lemma Stats_finish_rejected (h : Host) (sessionId : string) (w : World)
    (text : string) (parsed : json) :
  model_output h = Returns text →
  parseJsonLoose h text = Returns parsed →
  stats_shape_missing parsed →
  Stats.finish h sessionId w
  = (respond 500 [("error", JStr "AI returned non-JSON or missing fields")],
     update_status sessionId STATS_FAILED w).
Proof.
  intros Hm Hp Hshape. unfold Stats.finish. rewrite Hm, Hp.
  by destruct Hshape as [-> | [-> | ->]]; simpl; rewrite ?orb_true_r.
Qed.

Lemma Evaluate_finish_rejected (h : Host) (sessionId : string) (w : World)
    (text : string) (parsed : json) :
  model_output h = Returns text →
  parseJsonLoose h text = Returns parsed →
  evaluate_shape_missing parsed →
  Evaluate.finish h sessionId w
  = (respond 500 [("error", JStr "AI returned non-JSON")],
     update_status sessionId EVAL_FAILED w).
Proof.
  intros Hm Hp Hshape. unfold Evaluate.finish. rewrite Hm, Hp.
  by destruct Hshape as [-> | ->]; simpl; rewrite ?orb_true_r.
Qed.

(** What a session that was entered and debited looks like once its status
    is overwritten. *)
Lemma failed_after_debit (h : Host) (userId sessionId : string) (a : Action)
    (r : SessionRow) (running failed : LifecycleStage) (w wf : World) :
  wf = debited h userId a (entered sessionId r running w)
  ∨ wf = count_openai_call (debited h userId a (entered sessionId r running w)) →
  let w' := update_status sessionId failed wf in
  status_of w' sessionId = Some failed
  ∧ used_of a (Usage.counters_of h userId w') = used_of a (Usage.counters_of h userId w) + 1
  ∧ limit_of a (Usage.counters_of h userId w') = limit_of a (Usage.counters_of h userId w)
  ∧ usage_ledger w' = (usage_ledger w ++ [Usage.usage_entry userId a])%list.
Proof.
  intros Hwf w'. subst w'.
  destruct (debited_frame h userId a (entered sessionId r running w))
    as (Hs & Hl & _).
  pose proof (debited_counters_of h userId a (entered sessionId r running w)) as Hc.
  destruct (update_status_frame sessionId failed wf) as (Hc' & Hl' & _).
  assert (Hs' : property_sessions wf = <[sessionId := with_status r running]> (property_sessions w))
    by (destruct Hwf as [-> | ->]; exact Hs).
  assert (Hu : Usage.counters_of h userId wf
               = with_used a (used_of a (Usage.counters_of h userId w) + 1)
                   (Usage.counters_of h userId w))
    by (destruct Hwf as [-> | ->]; exact Hc).
  assert (Hl2 : usage_ledger wf = (usage_ledger w ++ [Usage.usage_entry userId a])%list)
    by (destruct Hwf as [-> | ->]; exact Hl).
  split_and!.
  - apply status_of_update_status. rewrite Hs', lookup_insert_eq. by eexists.
  - rewrite (counters_of_ext h userId wf) by done.
    rewrite Hu, used_of_with_used. by rewrite decide_True.
  - rewrite (counters_of_ext h userId wf) by done.
    by rewrite Hu, limit_of_with_used.
  - by rewrite Hl', Hl2.
Qed.

Lemma Evaluate_POST_called (h : Host) (req : Request) (w : World)
    (userId sessionId : string) (r : SessionRow) :
  authenticated h req userId →
  request_session req = Some sessionId →
  owns w userId sessionId r →
  evaluate_preconditions w userId sessionId →
  status r ∈ Evaluate.evalFrom →
  quota_available h userId A_evaluate w →
  Evaluate.POST h req w =
  if negb (has_api_key h) then
    (respond 500 [("error", JStr "OPENAI_API_KEY missing")],
     update_status sessionId EVAL_FAILED
       (debited h userId A_evaluate (entered sessionId r EVAL_RUNNING w)))
  else Evaluate.finish h sessionId (evaluate_called h userId sessionId r w).
Proof.
  intros Ha Hs Ho ([facts Hf] & [stats Hst'] & [prefs Hp]) Hst Hq.
  rewrite (Evaluate_POST_owned h req w userId sessionId r Ha Hs Ho).
  rewrite (bool_decide_eq_true_2 _ Hst). simpl negb. cbv iota.
  rewrite (Evaluate_run_entered h sessionId userId r w Ho Hst). cbv zeta.
  rewrite Hf, Hst', Hp.
  by rewrite checkAndConsumeQuota_available by done.
Qed.

Lemma upsertPropertySession_returns (userId url : string) (listingId : option string)
    (w : World) :
  (Extract.count_sessions userId w < 100)%nat →
  ∃ id row w3,
    Extract.upsertPropertySession userId url listingId w = (Returns (id, row), w3)
    ∧ property_sessions w3 !! id = Some row
    ∧ usage_counters w3 = usage_counters w
    ∧ usage_ledger w3 = usage_ledger w
    ∧ openai_calls w3 = openai_calls w.
Proof.
  intros Hc. unfold Extract.upsertPropertySession, Extract.enforceMaxLinks.
  assert (Hleb : (100 <=? Extract.count_sessions userId w)%nat = false)
    by (apply Nat.leb_gt; lia).
  destruct listingId as [lid|].
  - destruct (Extract.by_listing userId lid w) as [[id row]|] eqn:E.
    + exists id, row, w. split_and!; try done.
      apply maybeSingle_some in E. by apply filter_single_lookup in E as (_ & ? & _).
    + rewrite Hleb. unfold Extract.insert_session. eexists _, _, _. split; [done|].
      split_and!; try done. cbn [property_sessions set_property_sessions].
      by rewrite lookup_insert_eq.
  - destruct (Extract.by_url userId url w) as [[id row]|] eqn:E.
    + exists id, row, w. split_and!; try done.
      apply maybeSingle_some in E. by apply filter_single_lookup in E as (_ & ? & _).
    + rewrite Hleb. unfold Extract.insert_session. eexists _, _, _. split; [done|].
      split_and!; try done. cbn [property_sessions set_property_sessions].
      by rewrite lookup_insert_eq.
Qed.

(** C6, amended. In compute-stats and in evaluate, once the quota unit is
    debited, a missing credential, a blank answer, an answer that fails
    the strict parse and has no brace-delimited substring, or a parsed
    answer without the required top-level shape puts the session in the
    FAILED state of the stage and is answered 500; the unit stays debited
    and its ledger row stays. Extract has no FAILED state: in the same
    situations it goes on with placeholder facts that carry a warning,
    writes them, leaves the session in NEEDS_CONFIRMATION and is answered
    200, the unit likewise debited. *)
Theorem upstream_failure_outcomes
    (h : Host) (req : Request) (w : World) (userId : string) :
  authenticated h req userId →
  (∀ sessionId r,
     request_session req = Some sessionId →
     owns w userId sessionId r →
     stats_preconditions w userId sessionId →
     status r ∈ Stats.allowedFrom (force_recalc req) →
     quota_available h userId A_stats w →
     upstream_failure h stats_shape_missing →
     let out := Stats.POST h req w in
     code out.1 = 500
     ∧ status_of out.2 sessionId = Some STATS_FAILED
     ∧ used_of A_stats (Usage.counters_of h userId out.2)
       = used_of A_stats (Usage.counters_of h userId w) + 1
     ∧ usage_ledger out.2 = (usage_ledger w ++ [Usage.usage_entry userId A_stats])%list)
  ∧ (∀ sessionId r,
     request_session req = Some sessionId →
     owns w userId sessionId r →
     evaluate_preconditions w userId sessionId →
     status r ∈ Evaluate.evalFrom →
     quota_available h userId A_evaluate w →
     upstream_failure h evaluate_shape_missing →
     let out := Evaluate.POST h req w in
     code out.1 = 500
     ∧ status_of out.2 sessionId = Some EVAL_FAILED
     ∧ used_of A_evaluate (Usage.counters_of h userId out.2)
       = used_of A_evaluate (Usage.counters_of h userId w) + 1
     ∧ usage_ledger out.2 = (usage_ledger w ++ [Usage.usage_entry userId A_evaluate])%list)
  ∧ (∀ url html,
     extract_full_request req url →
     quota_available h userId A_extract w →
     fetchRightmoveHtml h url = Returns html →
     (Extract.count_sessions userId w < 100)%nat →
     extract_placeholder h →
     (∀ id facts, facts = Extract.no_key_facts ∨ facts = Extract.non_json_facts →
                  store_accepts h "listing_facts_raw" (Extract.facts_row id facts) = true) →
     let out := Extract.POST h req w in
     code out.1 = 200
     ∧ (∃ id facts,
          status_of out.2 id = Some NEEDS_CONFIRMATION
          ∧ listing_facts_raw out.2 !! id = Some (Extract.facts_row id facts)
          ∧ (facts = Extract.no_key_facts ∨ facts = Extract.non_json_facts))
     ∧ used_of A_extract (Usage.counters_of h userId out.2)
       = used_of A_extract (Usage.counters_of h userId w) + 1
     ∧ usage_ledger out.2 = (usage_ledger w ++ [Usage.usage_entry userId A_extract])%list).
Proof.
  intros Ha. split_and!.
  - intros sessionId r Hs Ho Hpre Hst Hq Hfail out. subst out.
    rewrite (Stats_POST_called h req w userId sessionId r Ha Hs Ho Hpre Hst Hq).
    assert (Hrej : has_api_key h = true →
              ∃ text parsed, model_output h = Returns text
                             ∧ parseJsonLoose h text = Returns parsed
                             ∧ stats_shape_missing parsed).
    { intros Hk. destruct Hfail as [Hno | (_ & text & Hm & [Hnone | (parsed & Hp)])];
        [congruence| |by exists text, parsed].
      exists text, JNull. split_and!; [done|by apply parseJsonLoose_none|by left]. }
    destruct (has_api_key h); simpl negb; cbv iota.
    + destruct (Hrej eq_refl) as (text & parsed & Hm & Hp & Hshape).
      rewrite (Stats_finish_rejected h sessionId _ text parsed Hm Hp Hshape).
      split; [done|]. cbn [fst snd].
      destruct (failed_after_debit h userId sessionId A_stats r STATS_RUNNING STATS_FAILED w
                  (stats_called h userId sessionId r w)) as (H1 & H2 & _ & H4);
        [by right|done].
    + split; [done|]. cbn [fst snd].
      destruct (failed_after_debit h userId sessionId A_stats r STATS_RUNNING STATS_FAILED w
                  (debited h userId A_stats (entered sessionId r STATS_RUNNING w)))
        as (H1 & H2 & _ & H4); [by left|done].
  - intros sessionId r Hs Ho Hpre Hst Hq Hfail out. subst out.
    rewrite (Evaluate_POST_called h req w userId sessionId r Ha Hs Ho Hpre Hst Hq).
    assert (Hrej : has_api_key h = true →
              ∃ text parsed, model_output h = Returns text
                             ∧ parseJsonLoose h text = Returns parsed
                             ∧ evaluate_shape_missing parsed).
    { intros Hk. destruct Hfail as [Hno | (_ & text & Hm & [Hnone | (parsed & Hp)])];
        [congruence| |by exists text, parsed].
      exists text, JNull. split_and!; [done|by apply parseJsonLoose_none|by left]. }
    destruct (has_api_key h); simpl negb; cbv iota.
    + destruct (Hrej eq_refl) as (text & parsed & Hm & Hp & Hshape).
      rewrite (Evaluate_finish_rejected h sessionId _ text parsed Hm Hp Hshape).
      split; [done|]. cbn [fst snd].
      destruct (failed_after_debit h userId sessionId A_evaluate r EVAL_RUNNING EVAL_FAILED w
                  (evaluate_called h userId sessionId r w)) as (H1 & H2 & _ & H4);
        [by right|done].
    + split; [done|]. cbn [fst snd].
      destruct (failed_after_debit h userId sessionId A_evaluate r EVAL_RUNNING EVAL_FAILED w
                  (debited h userId A_evaluate (entered sessionId r EVAL_RUNNING w)))
        as (H1 & H2 & _ & H4); [by left|done].
  - intros url html Hreq Hq Hfetch Hcount Hph Hacc out. subst out.
    rewrite (Extract_POST_full h req w userId url html Ha Hreq Hq Hfetch).
    unfold extract_tail.
    destruct (extract_called_frame h userId w) as (Hs2 & Hf2 & Hl2 & Hc2 & _).
    pose proof (callOpenAIWithWeb_placeholder h (debited h userId A_extract w) Hph) as Hfacts.
    destruct (Extract.callOpenAIWithWeb h (debited h userId A_extract w)) as [[facts|e] w2];
      [|by destruct Hfacts].
    simpl in Hs2, Hf2, Hl2, Hc2, Hfacts.
    destruct (upsertPropertySession_returns userId url (parseRightmoveListingId url) w2)
      as (id & row & w3 & -> & Hrow & Hc3 & Hl3 & _).
    { unfold Extract.count_sessions. rewrite Hs2. exact Hcount. }
    assert (Hkind : facts = Extract.no_key_facts ∨ facts = Extract.non_json_facts)
      by (destruct Hfacts as [[= ->] | [= ->]]; [by left|by right]).
    destruct (extract_written h id facts w3 row Hrow (Hacc id facts Hkind))
      as (w6 & -> & Hs & Hf & Hc & Hl & _).
    cbn [fst snd]. split_and!.
    + done.
    + exists id, facts. split_and!.
      * unfold status_of. by rewrite Hs, lookup_insert_eq.
      * by rewrite Hf, lookup_insert_eq.
      * exact Hkind.
    + rewrite (counters_of_ext h userId (debited h userId A_extract w))
        by (by rewrite Hc, Hc3, Hc2).
      rewrite debited_counters_of, used_of_with_used. by rewrite decide_True.
    + by rewrite Hl, Hl3, Hl2.
Qed.

(** ** Manual confirmation of stats *)

Lemma must_returns (o : option json) (msg : string) (v : json) :
  StatsConfirm.must o msg = Returns v → o = Some v.
Proof.
  destruct o as [[]|]; simpl; try congruence.
  destruct (String.eqb (trim s) EmptyString); congruence.
Qed.

Lemma must_present (o : option json) (msg : string) :
  (∃ v, StatsConfirm.must o msg = Returns v) ↔ present o.
Proof.
  destruct o as [[]|]; simpl; try (split; [by intros [? [=]] | done]);
    try (split; [done | intros _; by eexists]).
  destruct (String.eqb_spec (trim s) EmptyString) as [E|E].
  - split; [by intros [? [=]] | done].
  - split; [done | intros _; by eexists].
Qed.

Lemma must_all_present (draft : json) (ks : list string) :
  (∃ core, StatsConfirm.must_all draft ks = Returns core)
  ↔ ∀ k, k ∈ ks → present (prop draft k).
Proof.
  induction ks as [|k ks IH]; simpl.
  - split; [intros _ k Hk; by apply elem_of_nil in Hk | intros _; by eexists].
  - split.
    + intros [core Hcore] k' Hk'.
      destruct (StatsConfirm.must (prop draft k) (k +:+ " required")) as [v|e] eqn:Hm;
        [|discriminate].
      destruct (StatsConfirm.must_all draft ks) as [kvs|e] eqn:Hrest; [|discriminate].
      apply elem_of_cons in Hk' as [-> | Hk'].
      * apply (must_present _ (k +:+ " required")). by exists v.
      * apply IH; [by exists kvs|done].
    + intros Hall.
      destruct (proj2 (must_present (prop draft k) (k +:+ " required"))) as [v ->].
      { apply Hall. by left. }
      destruct (proj2 IH) as [kvs ->].
      { intros k' Hk'. apply Hall. by right. }
      by eexists.
Qed.

Lemma must_all_columns (draft : json) (ks : list string) (core : list (string * json)) :
  StatsConfirm.must_all draft ks = Returns core →
  map fst core = ks ∧ ∀ k, k ∈ ks → assoc k core = prop draft k.
Proof.
  revert core. induction ks as [|k ks IH]; simpl; intros core Hcore.
  - injection Hcore as <-. split; [done|]. intros k Hk. by apply elem_of_nil in Hk.
  - destruct (StatsConfirm.must (prop draft k) (k +:+ " required")) as [v|e] eqn:Hm;
      [|discriminate].
    destruct (StatsConfirm.must_all draft ks) as [kvs|e] eqn:Hrest; [|discriminate].
    injection Hcore as <-. destruct (IH kvs eq_refl) as (Hkeys & Hvals).
    split; [simpl; by rewrite Hkeys|].
    intros k' Hk'. simpl. destruct (String.eqb_spec k' k) as [->|Hne].
    + symmetry. by apply (must_returns _ (k +:+ " required")).
    + apply elem_of_cons in Hk' as [-> | Hk']; [done|]. by apply Hvals.
Qed.

Lemma assoc_app (k : string) (xs ys : list (string * json)) :
  assoc k (xs ++ ys) = match assoc k xs with Some v => Some v | None => assoc k ys end.
Proof.
  induction xs as [|[k' v] xs IH]; simpl; [done|].
  by destruct (String.eqb k k').
Qed.

Lemma assoc_not_key (k : string) (xs : list (string * json)) :
  k ∉ map fst xs → assoc k xs = None.
Proof.
  induction xs as [|[k' v] xs IH]; simpl; [done|].
  intros Hk. apply not_elem_of_cons in Hk as [Hne Hk].
  destruct (String.eqb_spec k k'); [done|]. by apply IH.
Qed.

(** C4, amended. The required fields of a draft are the ten names of
    [core_fields]. Manual confirmation succeeds only from
    STATS_NEEDS_CONFIRMATION: there, a draft in which all ten are present
    (neither null nor blank) and well typed (the store takes the row) is
    stored as the confirmed row with [confirmed_by_user = true], whatever
    its confidences say, and the session goes to STATS_READY; any other
    draft is answered 400 and nothing is written. From any other status the
    answer is 409 and neither the confirmed table nor the status changes. *)
Theorem confirmStats_contract
    (h : Host) (req : Request) (w : World) (userId : string) (sessionId draft : json)
    (s : SessionRow) :
  authenticated h req userId →
  StatsConfirm.must (prop (payload req) "property_session_id") "property_session_id required"
  = Returns sessionId →
  StatsConfirm.must (prop (payload req) "stats") "stats required" = Returns draft →
  owns w userId (jsString sessionId) s →
  let sid := jsString sessionId in
  let out := StatsConfirm.POST h req w in
  let acceptable :=
    (∀ k, k ∈ StatsConfirm.core_fields → present (prop draft k))
    ∧ well_typed h sessionId draft in
  length StatsConfirm.core_fields = 10%nat
  ∧ (code out.1 = 200 → status s = STATS_NEEDS_CONFIRMATION ∧ acceptable)
  ∧ (status s ≠ STATS_NEEDS_CONFIRMATION →
     out.1 = respond 409 [("error", JStr "Invalid state");
                          ("status", JStr (stage_name (status s)))]
     ∧ out.2 = w)
  ∧ (status s = STATS_NEEDS_CONFIRMATION →
     acceptable →
     out.1 = respond 200 [("ok", JBool true); ("status", JStr "STATS_READY")]
     ∧ status_of out.2 sid = Some STATS_READY
     ∧ ∃ row, listing_stats_confirmed out.2 !! sid = Some row
         ∧ keys row =
           ("property_session_id" :: StatsConfirm.core_fields ++
            ["required_confidence"; "required_source"; "notes";
             "confirmed_by_user"; "confirmed_at"])%list
         ∧ (∀ k, k ∈ StatsConfirm.core_fields → prop row k = prop draft k)
         ∧ prop row "confirmed_by_user" = Some (JBool true)
         ∧ prop row "confirmed_at" = Some (JStr (nowIso h)))
  ∧ (status s = STATS_NEEDS_CONFIRMATION →
     ¬ acceptable →
     code out.1 = 400 ∧ out.2 = w).
Proof.
  intros (token & Hb & Hu) Hm1 Hm2 (Hrow & Howner) sid out acceptable.
  assert (Hout : out =
    if negb (bool_decide (status s = STATS_NEEDS_CONFIRMATION)) then
      (respond 409 [("error", JStr "Invalid state");
                    ("status", JStr (stage_name (status s)))], w)
    else
      match StatsConfirm.confirm_payload h sessionId draft with
      | Throws e => (caught 400 e, w)
      | Returns row =>
          if negb (store_accepts h "listing_stats_confirmed" row)
          then (caught 400 StoreError, w)
          else
            (respond 200 [("ok", JBool true); ("status", JStr "STATS_READY")],
             update_status sid STATS_READY
               (set_listing_stats_confirmed (<[sid := row]> (listing_stats_confirmed w)) w))
      end).
  { subst out sid. unfold StatsConfirm.POST. rewrite Hb, Hu.
    revert Hm1 Hm2. destruct (payload req); intros Hm1 Hm2; try discriminate Hm1.
    rewrite Hm1, Hm2, Hrow. rewrite (bool_decide_eq_true_2 _ Howner). done. }
  assert (Hacc : ∀ row, StatsConfirm.confirm_payload h sessionId draft = Returns row →
                        store_accepts h "listing_stats_confirmed" row = true → acceptable).
  { intros row Hpay Hstore. split.
    - apply must_all_present. unfold StatsConfirm.confirm_payload in Hpay.
      destruct (StatsConfirm.must_all draft StatsConfirm.core_fields) as [core|e];
        [by exists core|discriminate].
    - intros row' Hpay'. rewrite Hpay in Hpay'. by injection Hpay' as <-. }
  split_and!.
  - done.
  - rewrite Hout. destruct (decide (status s = STATS_NEEDS_CONFIRMATION)) as [E|E].
    + rewrite (bool_decide_eq_true_2 _ E). simpl negb. cbv iota.
      destruct (StatsConfirm.confirm_payload h sessionId draft) as [row|e] eqn:Hpay;
        [|simpl; discriminate].
      destruct (store_accepts h "listing_stats_confirmed" row) eqn:Hstore;
        [|simpl; discriminate].
      intros _. split; [done|]. by apply (Hacc row).
    + rewrite (bool_decide_eq_false_2 _ E). simpl. discriminate.
  - intros E. rewrite Hout, (bool_decide_eq_false_2 _ E). done.
  - intros E (Hall & Htyped). rewrite Hout, (bool_decide_eq_true_2 _ E). simpl negb. cbv iota.
    destruct (proj2 (must_all_present draft StatsConfirm.core_fields) Hall) as [core Hcore].
    unfold well_typed in Htyped. unfold StatsConfirm.confirm_payload in *.
    rewrite Hcore in *. rewrite (Htyped _ eq_refl). simpl negb. cbv iota.
    destruct (must_all_columns draft StatsConfirm.core_fields core Hcore) as (Hkeys & Hvals).
    cbn [fst snd]. split_and!.
    + done.
    + apply status_of_update_status. cbn [property_sessions set_listing_stats_confirmed].
      by eexists.
    + eexists. split_and!.
      * match goal with |- context [update_status _ _ ?W] =>
          destruct (update_status_frame sid STATS_READY W) as (_ & _ & _ & _ & _ & -> & _) end.
        cbn [listing_stats_confirmed set_listing_stats_confirmed].
        by rewrite lookup_insert_eq.
      * cbn [keys map fst]. rewrite map_app, Hkeys. done.
      * intros k Hk. cbn [prop assoc].
        assert (String.eqb k "property_session_id" = false) as ->.
        { apply String.eqb_neq. intros ->. revert Hk. apply (bool_decide_unpack _).
          by vm_compute. }
        rewrite assoc_app, (Hvals k Hk).
        destruct (prop draft k) as [v|] eqn:Hv; [done|].
        specialize (Hall k Hk). by rewrite Hv in Hall.
      * cbn [prop assoc String.eqb]. simpl String.eqb. cbv iota.
        rewrite assoc_app, assoc_not_key; [done|].
        rewrite Hkeys. apply (bool_decide_unpack _). by vm_compute.
      * cbn [prop assoc]. simpl String.eqb. cbv iota.
        rewrite assoc_app, assoc_not_key; [done|].
        rewrite Hkeys. apply (bool_decide_unpack _). by vm_compute.
  - intros E Hnot. rewrite Hout, (bool_decide_eq_true_2 _ E). simpl negb. cbv iota.
    destruct (StatsConfirm.confirm_payload h sessionId draft) as [row|e] eqn:Hpay; [|done].
    destruct (store_accepts h "listing_stats_confirmed" row) eqn:Hstore; [|done].
    exfalso. apply Hnot. by apply (Hacc row).
Qed.

(** ** Default preferences *)

Lemma checkMinimumPreferences_default (userId : string) :
  Stats.checkMinimumPreferences (Preferences.defaultPreferences userId)
  = (false, ["work_postcode"]).
Proof. reflexivity. Qed.

(** C10. The row [GET /api/preferences] creates for a user without one has
    [work_postcode] empty, and [checkMinimumPreferences] reports exactly
    that column as missing. While the row of a user is still this default,
    compute-stats never gets to its guard: the world after the request is
    the world before it (no transition, no debit), the answer is an error,
    and for a session of the user that has confirmed facts it is 400
    MIN_PREFS_MISSING with [missing = ["work_postcode"]]. *)
Theorem default_preferences_block_stats
    (h : Host) (req : Request) (w : World) (userId : string) :
  authenticated h req userId →
  preferences w !! userId = Some (Preferences.defaultPreferences userId) →
  let out := Stats.POST h req w in
  (∀ w0, preferences w0 !! userId = None →
         store_accepts h "preferences" (Preferences.defaultPreferences userId) = true →
         preferences (Preferences.GET h req w0).2 !! userId
         = Some (Preferences.defaultPreferences userId))
  ∧ prop (Preferences.defaultPreferences userId) "work_postcode" = Some (JStr EmptyString)
  ∧ Stats.checkMinimumPreferences (Preferences.defaultPreferences userId)
    = (false, ["work_postcode"])
  ∧ out.2 = w
  ∧ code out.1 ≠ 200
  ∧ (∀ sessionId r,
       request_session req = Some sessionId →
       owns w userId sessionId r →
       is_Some (listing_facts_confirmed w !! sessionId) →
       out.1 = respond 400 [("error", JStr "MIN_PREFS_MISSING");
                            ("missing", JArr [JStr "work_postcode"])]).
Proof.
  intros Ha Hp out. split_and!.
  - intros w0 Hnone Hacc. destruct Ha as (token & Hb & Hu).
    unfold Preferences.GET. rewrite Hb, Hu, Hnone. cbv zeta. rewrite Hacc.
    cbn [negb snd preferences set_preferences]. by rewrite lookup_insert_eq.
  - reflexivity.
  - reflexivity.
  - subst out. destruct Ha as (token & Hb & Hu). unfold Stats.POST. rewrite Hb, Hu.
    destruct (negb (truthy_opt (opt_prop (Some (payload req)) "property_session_id")));
      [done|].
    cbv zeta.
    destruct (property_sessions w !! _) as [session|]; [|done].
    destruct (negb (bool_decide (user_id session = userId))); [done|].
    destruct (listing_facts_confirmed w !! _); [|done].
    rewrite Hp, checkMinimumPreferences_default. done.
  - subst out. destruct Ha as (token & Hb & Hu). unfold Stats.POST. rewrite Hb, Hu.
    destruct (negb (truthy_opt (opt_prop (Some (payload req)) "property_session_id")));
      [by simpl|].
    cbv zeta.
    destruct (property_sessions w !! _) as [session|]; [|by simpl].
    destruct (negb (bool_decide (user_id session = userId))); [by simpl|].
    destruct (listing_facts_confirmed w !! _); [|by simpl].
    rewrite Hp, checkMinimumPreferences_default. by simpl.
  - intros sessionId r Hs Ho [facts Hf]. subst out.
    rewrite (Stats_POST_owned h req w userId sessionId r Ha Hs Ho), Hf, Hp.
    by rewrite checkMinimumPreferences_default.
Qed.

(** * The statements on the samples *)

Example sample_parse_renders :
  sample_JSON_parse (render (stats_answer_json None)) = Returns (stats_answer_json None)
  ∧ sample_JSON_parse ("Here it is: " +:+ render facts_json) = Throws SyntaxError
  ∧ parseJsonLoose facts_host ("Here it is: " +:+ render facts_json +:+ " Bye.")
    = Returns facts_json.
Proof. by vm_compute. Qed.

(** On the samples: with 5 of 5 units used the call answers [ok = false], with
    0 of 5 used it answers [ok = true] and [used = 1]. *)
Lemma checkAndConsumeQuota_contract_witness :
  (5 = used_of A_extract (Usage.counters_of keyless_host "alice" spent_world)
   ∧ 5 = limit_of A_extract (Usage.counters_of keyless_host "alice" spent_world)
   ∧ (Usage.checkAndConsumeQuota keyless_host "alice" A_extract spent_world).1
     = Returns {| Usage.ok := false; Usage.used := 5; Usage.limit := 5 |})
  ∧ (0 = used_of A_extract (Usage.counters_of keyless_host "alice" confirmed_world)
     ∧ 5 = limit_of A_extract (Usage.counters_of keyless_host "alice" confirmed_world)
     ∧ (Usage.checkAndConsumeQuota keyless_host "alice" A_extract confirmed_world).1
       = Returns {| Usage.ok := true; Usage.used := 0 + 1; Usage.limit := 5 |}).
Proof.
  split; (split; [reflexivity|]; split; [reflexivity|]).
  - destruct (checkAndConsumeQuota_contract keyless_host "alice" A_extract spent_world 5 5
                eq_refl eq_refl) as [Hexhausted _].
    destruct (Hexhausted ltac:(lia)) as (Hr & _). exact Hr.
  - destruct (checkAndConsumeQuota_contract keyless_host "alice" A_extract confirmed_world 0 5
                eq_refl eq_refl) as [_ Havailable].
    destruct (Havailable ltac:(lia)) as (Hr & _). exact Hr.
Defined.



(** On the samples: evaluate served alone with the quota used up is
    answered 402 and the session is back in STATS_READY; compute-stats that
    read STATS_FAILED and meets the session in CONFIRMED with the quota
    used up is answered 402 and leaves the session in STATS_FAILED. *)
Lemma precondition_failure_reverts_witness :
  authenticated keyless_host (session_request false) "alice"
  ∧ request_session (session_request false) = Some "s1"
  ∧ owns spent_world "alice" "s1" (session_row STATS_READY)
  ∧ evaluate_preconditions spent_world "alice" "s1"
  ∧ quota_exhausted keyless_host "alice" A_evaluate spent_world
  ∧ (Evaluate.POST keyless_host (session_request false) spent_world).1
    = respond 402 [("error", JStr "Quota exceeded"); ("used", JNum 5); ("limit", JNum 5)]
  ∧ status_of (Evaluate.POST keyless_host (session_request false) spent_world).2 "s1"
    = Some STATS_READY
  ∧ owns reconfirmed_world "alice" "s1" (session_row CONFIRMED)
  ∧ quota_exhausted keyless_host "alice" A_stats reconfirmed_world
  ∧ (Stats.run keyless_host "s1" "alice" STATS_FAILED false reconfirmed_world).1
    = respond 402 [("error", JStr "Quota exceeded"); ("used", JNum 5); ("limit", JNum 5)]
  ∧ status_of (Stats.run keyless_host "s1" "alice" STATS_FAILED false reconfirmed_world).2 "s1"
    = Some STATS_FAILED.
Proof.
  assert (Ha : authenticated keyless_host (session_request false) "alice")
    by (exists "token-alice"; split; reflexivity).
  assert (Hs : request_session (session_request false) = Some "s1") by reflexivity.
  assert (Ho : owns spent_world "alice" "s1" (session_row STATS_READY))
    by (split; reflexivity).
  assert (Hpre : evaluate_preconditions spent_world "alice" "s1").
  { split_and!; [by exists facts_json|by exists confirmed_stats_row|
                 by exists complete_preferences]. }
  assert (Hq : quota_exhausted keyless_host "alice" A_evaluate spent_world)
    by (by vm_compute).
  assert (Ho' : owns reconfirmed_world "alice" "s1" (session_row CONFIRMED))
    by (split; by vm_compute).
  assert (Hq' : quota_exhausted keyless_host "alice" A_stats reconfirmed_world)
    by (by vm_compute).
  assert (Hfrom : status (session_row CONFIRMED) ∈ Stats.allowedFrom false)
    by (apply (bool_decide_unpack _); by vm_compute).
  split_and!; try assumption.
  - destruct (precondition_failure_reverts keyless_host spent_world
                "alice" "s1" (session_row STATS_READY) STATS_READY Ho) as (_ & _ & Halone).
    destruct (Halone (session_request false) Ha Hs) as [_ Heval].
    destruct Heval as [_ Hquota]; [apply (bool_decide_unpack _); by vm_compute|].
    destruct (Hquota Hpre Hq) as (Hr & _). exact Hr.
  - destruct (precondition_failure_reverts keyless_host spent_world
                "alice" "s1" (session_row STATS_READY) STATS_READY Ho) as (_ & _ & Halone).
    destruct (Halone (session_request false) Ha Hs) as [_ Heval].
    destruct Heval as [_ Hquota]; [apply (bool_decide_unpack _); by vm_compute|].
    destruct (Hquota Hpre Hq) as (_ & Hsessions & _).
    unfold status_of. by rewrite Hsessions.
  - destruct (precondition_failure_reverts keyless_host reconfirmed_world
                "alice" "s1" (session_row CONFIRMED) STATS_FAILED Ho') as (Hstats & _).
    destruct (Hstats false Hfrom Hq') as (Hr & _). exact Hr.
  - destruct (precondition_failure_reverts keyless_host reconfirmed_world
                "alice" "s1" (session_row CONFIRMED) STATS_FAILED Ho') as (Hstats & _).
    destruct (Hstats false Hfrom Hq') as (_ & Hsessions & _).
    unfold status_of. rewrite Hsessions. by rewrite lookup_insert_eq.
Defined.

(** C5, the claim as it stands fails. A compute-stats request reads the
    status STATS_FAILED of session [s1]; before its guard runs the facts
    form is posted again, which sets the status to CONFIRMED without a
    guard. The guard of the first request then succeeds from CONFIRMED,
    which is the value before the transition into STATS_RUNNING; the quota
    is used up, the answer is 402, and the status written back is
    STATS_FAILED, the one read, not CONFIRMED. *)
Lemma revert_writes_the_status_read :
  Stats.POST keyless_host (session_request false) failed_spent_world
  = Stats.run keyless_host "s1" "alice" STATS_FAILED false failed_spent_world
  ∧ code (Confirm.POST keyless_host (facts_request facts_json) failed_spent_world).1 = 200
  ∧ status_of reconfirmed_world "s1" = Some CONFIRMED
  ∧ (guard_at StatsNormal "s1" "alice" reconfirmed_world).1 = true
  ∧ status_of (guard_at StatsNormal "s1" "alice" reconfirmed_world).2 "s1"
    = Some STATS_RUNNING
  ∧ code (Stats.run keyless_host "s1" "alice" STATS_FAILED false reconfirmed_world).1 = 402
  ∧ status_of (Stats.run keyless_host "s1" "alice" STATS_FAILED false reconfirmed_world).2 "s1"
    = Some STATS_FAILED
  ∧ (status_of (Stats.run keyless_host "s1" "alice" STATS_FAILED false reconfirmed_world).2
       "s1"
     ≠ status_of reconfirmed_world "s1").
Proof.
  split_and!; try (by vm_compute).
Qed.

(** On the samples: compute-stats takes the guard of session [s1]; a second
    compute-stats, with [force_recalc], finds it taken and is answered 409;
    and two calls from CONFIRMED or STATS_FAILED to STATS_RUNNING do not
    both succeed. *)
Lemma guarded_transition_single_winner_witness :
  (guard_at StatsNormal "s1" "alice" confirmed_world).1 = true
  ∧ guard_at StatsForced "s1" "alice" running_world = (false, running_world)
  ∧ code (run_at keyless_host StatsForced "s1" "alice" CONFIRMED running_world).1 = 409
  ∧ (STATS_RUNNING ∉ [CONFIRMED; STATS_FAILED])
  ∧ ¬ ((setStatusGuarded "s1" "alice" [CONFIRMED; STATS_FAILED] STATS_RUNNING
          confirmed_world).1 = true
       ∧ (setStatusGuarded "s1" "alice" [CONFIRMED; STATS_FAILED] STATS_RUNNING
            (setStatusGuarded "s1" "alice" [CONFIRMED; STATS_FAILED] STATS_RUNNING
               confirmed_world).2).1 = true).
Proof.
  assert (Hfirst : (guard_at StatsNormal "s1" "alice" confirmed_world).1 = true)
    by reflexivity.
  assert (Hto : STATS_RUNNING ∉ [CONFIRMED; STATS_FAILED])
    by (apply (bool_decide_unpack _); by vm_compute).
  destruct (guarded_transition_single_winner keyless_host StatsNormal StatsForced
              "s1" "alice" "alice" CONFIRMED confirmed_world)
    as (_ & Hwin & _ & Hgeneral).
  destruct (Hwin Hfirst) as (Hsecond & Hcode & _).
  split_and!; [exact Hfirst|exact Hsecond|exact Hcode|exact Hto|].
  exact (Hgeneral [CONFIRMED; STATS_FAILED] STATS_RUNNING STATS_RUNNING Hto).
Defined.

(** C9, the claim as it stands fails, in both of its parts. Two calls of
    [setStatusGuarded] on one session and one set of source states both
    succeed when the target is itself a source state. And the status is
    no lock on a session: while compute-stats is in flight on [s1] (guard
    taken, status STATS_RUNNING), the facts form is posted again; that
    route sets the status to CONFIRMED without a guard, and the guard of a
    second compute-stats then succeeds, so two runs are in flight at
    once. *)
Lemma running_stage_not_exclusive :
  (setStatusGuarded "s1" "alice" [CONFIRMED] CONFIRMED confirmed_world).1 = true
  ∧ (setStatusGuarded "s1" "alice" [CONFIRMED] CONFIRMED
       (setStatusGuarded "s1" "alice" [CONFIRMED] CONFIRMED confirmed_world).2).1 = true
  ∧ (guard_at StatsNormal "s1" "alice" confirmed_world).1 = true
  ∧ status_of running_world "s1" = Some STATS_RUNNING
  ∧ code (Confirm.POST keyless_host (facts_request facts_json) running_world).1 = 200
  ∧ status_of reopened_world "s1" = Some CONFIRMED
  ∧ (guard_at StatsNormal "s1" "alice" reopened_world).1 = true
  ∧ status_of (guard_at StatsNormal "s1" "alice" reopened_world).2 "s1"
    = Some STATS_RUNNING.
Proof.
  split_and!; by vm_compute.
Qed.

(** Without a credential the full extract pipeline ends normally: answer
    200, session in NEEDS_CONFIRMATION, placeholder facts stored, one unit
    debited; and likewise when the model answers plain prose. No FAILED
    state is entered and no 500 is sent. *)
Lemma extract_without_credential_completes :
  code (Extract.POST keyless_host (extract_request listing_url) confirmed_world).1 = 200
  ∧ status_of (Extract.POST keyless_host (extract_request listing_url) confirmed_world).2 "s1"
    = Some NEEDS_CONFIRMATION
  ∧ listing_facts_raw (Extract.POST keyless_host (extract_request listing_url) confirmed_world).2
      !! "s1" = Some (Extract.facts_row "s1" (Extract.no_key_facts))
  ∧ used_of A_extract
      (Usage.counters_of keyless_host "alice"
         (Extract.POST keyless_host (extract_request listing_url) confirmed_world).2) = 1
  ∧ code (Extract.POST (sample_host "sk-sample" "I could not open the page.")
            (extract_request listing_url) confirmed_world).1 = 200
  ∧ status_of (Extract.POST (sample_host "sk-sample" "I could not open the page.")
                 (extract_request listing_url) confirmed_world).2 "s1"
    = Some NEEDS_CONFIRMATION.
Proof. by vm_compute. Qed.

(** On the samples: compute-stats without credential, and with a model that
    answers prose, leaves the session in STATS_FAILED. *)
Lemma upstream_failure_outcomes_witness :
  authenticated keyless_host (session_request false) "alice"
  ∧ upstream_failure keyless_host stats_shape_missing
  ∧ status_of (Stats.POST keyless_host (session_request false) confirmed_world).2 "s1"
    = Some STATS_FAILED
  ∧ upstream_failure (sample_host "sk-sample" "I could not open the page.")
      stats_shape_missing
  ∧ status_of (Stats.POST (sample_host "sk-sample" "I could not open the page.")
                 (session_request false) confirmed_world).2 "s1"
    = Some STATS_FAILED.
Proof.
  assert (Ha : ∀ key text, authenticated (sample_host key text) (session_request false) "alice")
    by (intros; exists "token-alice"; split; reflexivity).
  assert (Hf1 : upstream_failure keyless_host stats_shape_missing) by (by left).
  assert (Hf2 : upstream_failure (sample_host "sk-sample" "I could not open the page.")
                  stats_shape_missing).
  { right. split; [reflexivity|]. exists "I could not open the page.".
    split; [reflexivity|]. left. right. split; [by eexists|reflexivity]. }
  assert (Hpre : stats_preconditions confirmed_world "alice" "s1").
  { split; [by exists facts_json|]. exists complete_preferences. split; reflexivity. }
  assert (Hs : request_session (session_request false) = Some "s1") by reflexivity.
  assert (Ho : owns confirmed_world "alice" "s1" (session_row CONFIRMED))
    by (split; reflexivity).
  assert (Hst : status (session_row CONFIRMED)
                ∈ Stats.allowedFrom (force_recalc (session_request false)))
    by (apply (bool_decide_unpack _); by vm_compute).
  assert (Hq : ∀ key text,
             quota_available (sample_host key text) "alice" A_stats confirmed_world)
    by (intros; reflexivity).
  split_and!; try assumption; [apply Ha| |].
  - destruct (upstream_failure_outcomes keyless_host (session_request false) confirmed_world
                "alice" (Ha _ _)) as (Hstats & _).
    destruct (Hstats "s1" (session_row CONFIRMED) Hs Ho Hpre Hst (Hq _ _) Hf1)
      as (_ & Hstatus & _).
    exact Hstatus.
  - destruct (upstream_failure_outcomes
                (sample_host "sk-sample" "I could not open the page.")
                (session_request false) confirmed_world "alice" (Ha _ _)) as (Hstats & _).
    destruct (Hstats "s1" (session_row CONFIRMED) Hs Ho Hpre Hst (Hq _ _) Hf2)
      as (_ & Hstatus & _).
    exact Hstatus.
Defined.

(** With a hundred sessions, the full pipeline on a new listing is answered
    403 MAX_LINKS_REACHED, and yet the extract counter went from 0 to 1,
    a usage row was appended and the model was called. *)
Lemma extract_cap_debits_quota :
  Extract.count_sessions "alice" full_world = 100%nat
  ∧ find_session "alice" new_listing_url full_world = None
  ∧ (Extract.POST facts_host (extract_request new_listing_url) full_world).1
    = respond 403 [("ok", JBool false); ("error", JStr "MAX_LINKS_REACHED");
                   ("limit", JNum 100)]
  ∧ used_of A_extract (Usage.counters_of facts_host "alice" full_world) = 0
  ∧ used_of A_extract
      (Usage.counters_of facts_host "alice"
         (Extract.POST facts_host (extract_request new_listing_url) full_world).2) = 1
  ∧ usage_ledger full_world = []
  ∧ usage_ledger (Extract.POST facts_host (extract_request new_listing_url) full_world).2
    = [Usage.usage_entry "alice" A_extract]
  ∧ openai_calls (Extract.POST facts_host (extract_request new_listing_url) full_world).2
    = 1%nat.
Proof. by vm_compute. Qed.

(** On the samples: the hundred sessions are untouched by the refused run. *)
Lemma extract_cap_after_debit_witness :
  authenticated facts_host (extract_request new_listing_url) "alice"
  ∧ extract_full_request (extract_request new_listing_url) new_listing_url
  ∧ find_session "alice" new_listing_url full_world = None
  ∧ (100 ≤ Extract.count_sessions "alice" full_world)%nat
  ∧ quota_available facts_host "alice" A_extract full_world
  ∧ property_sessions (Extract.POST facts_host (extract_request new_listing_url) full_world).2
    = property_sessions full_world.
Proof.
  assert (Ha : authenticated facts_host (extract_request new_listing_url) "alice")
    by (exists "token-alice"; split; reflexivity).
  assert (Hreq : extract_full_request (extract_request new_listing_url) new_listing_url)
    by (split_and!; [reflexivity|done|by left]).
  assert (Hnew : find_session "alice" new_listing_url full_world = None) by (by vm_compute).
  assert (Hcap : (100 ≤ Extract.count_sessions "alice" full_world)%nat)
    by (apply Nat.leb_le; by vm_compute).
  assert (Hq : quota_available facts_host "alice" A_extract full_world) by reflexivity.
  split_and!; try assumption.
  destruct (extract_cap_after_debit facts_host (extract_request new_listing_url) full_world
              "alice" new_listing_url "<html><title>Flat</title></html>" facts_json
              Ha Hreq Hnew Hcap Hq eq_refl) as (_ & Hsessions & _).
  - by vm_compute.
  - exact Hsessions.
Defined.


(** The ten names are distinct, a draft with all ten is confirmed from
    STATS_NEEDS_CONFIRMATION, and a draft that lacks any single one of the
    ten is answered 400 with nothing written: confirmation requires ten
    fields, not nine. *)
Lemma confirmStats_requires_ten_fields :
  length StatsConfirm.core_fields ≠ 9%nat
  ∧ length StatsConfirm.core_fields = 10%nat
  ∧ NoDup StatsConfirm.core_fields
  ∧ code (StatsConfirm.POST keyless_host (confirm_request None) needs_confirmation_world).1
    = 200
  ∧ Forall
      (fun k =>
         length (keys (draft (Some k))) = 9%nat
         ∧ code (StatsConfirm.POST keyless_host (confirm_request (Some k))
                   needs_confirmation_world).1 = 400
         ∧ size (listing_stats_confirmed
                   (StatsConfirm.POST keyless_host (confirm_request (Some k))
                      needs_confirmation_world).2) = 0%nat
         ∧ status_of (StatsConfirm.POST keyless_host (confirm_request (Some k))
                        needs_confirmation_world).2 "s1"
           = Some STATS_NEEDS_CONFIRMATION)
      StatsConfirm.core_fields.
Proof.
  split_and!; [by vm_compute|reflexivity| |by vm_compute|].
  - apply (bool_decide_unpack _). by vm_compute.
  - unfold StatsConfirm.core_fields.
    repeat (apply Forall_cons; split; [vm_compute; by repeat split|]). by apply Forall_nil.
Qed.

(** On the samples: a complete draft takes [s1] from
    STATS_NEEDS_CONFIRMATION to STATS_READY, and is refused from CONFIRMED
    without a change. *)
Lemma confirmStats_contract_witness :
  authenticated keyless_host (confirm_request None) "alice"
  ∧ StatsConfirm.must (prop (payload (confirm_request None)) "property_session_id")
      "property_session_id required" = Returns (JStr "s1")
  ∧ StatsConfirm.must (prop (payload (confirm_request None)) "stats") "stats required"
    = Returns (draft None)
  ∧ owns needs_confirmation_world "alice" (jsString (JStr "s1"))
      (session_row STATS_NEEDS_CONFIRMATION)
  ∧ status_of (StatsConfirm.POST keyless_host (confirm_request None)
                 needs_confirmation_world).2 "s1" = Some STATS_READY
  ∧ (StatsConfirm.POST keyless_host (confirm_request None) confirmed_world).2
    = confirmed_world.
Proof.
  assert (Ha : authenticated keyless_host (confirm_request None) "alice")
    by (exists "token-alice"; split; reflexivity).
  assert (Hm1 : StatsConfirm.must (prop (payload (confirm_request None)) "property_session_id")
                  "property_session_id required" = Returns (JStr "s1")) by reflexivity.
  assert (Hm2 : StatsConfirm.must (prop (payload (confirm_request None)) "stats")
                  "stats required" = Returns (draft None)) by reflexivity.
  assert (Ho : owns needs_confirmation_world "alice" (jsString (JStr "s1"))
                 (session_row STATS_NEEDS_CONFIRMATION)) by (split; reflexivity).
  assert (Ho' : owns confirmed_world "alice" (jsString (JStr "s1")) (session_row CONFIRMED))
    by (split; reflexivity).
  split_and!; try assumption.
  - destruct (confirmStats_contract keyless_host (confirm_request None)
                needs_confirmation_world "alice" (JStr "s1") (draft None)
                (session_row STATS_NEEDS_CONFIRMATION) Ha Hm1 Hm2 Ho)
      as (_ & _ & _ & Hok & _).
    destruct Hok as (_ & Hstatus & _); [reflexivity| |exact Hstatus].
    split.
    + apply must_all_present. eexists. by vm_compute.
    + intros row Hrow. vm_compute in Hrow. injection Hrow as <-. by vm_compute.
  - destruct (confirmStats_contract keyless_host (confirm_request None)
                confirmed_world "alice" (JStr "s1") (draft None)
                (session_row CONFIRMED) Ha Hm1 Hm2 Ho')
      as (_ & _ & Hconflict & _).
    by destruct Hconflict as (_ & Hsame).
Defined.

(** On the samples: alice with the default preferences gets
    MIN_PREFS_MISSING for her confirmed session and nothing changes. *)
Lemma default_preferences_block_stats_witness :
  authenticated stats_host (session_request false) "alice"
  ∧ preferences default_prefs_world !! "alice" = Some (Preferences.defaultPreferences "alice")
  ∧ (Stats.POST stats_host (session_request false) default_prefs_world).1
    = respond 400 [("error", JStr "MIN_PREFS_MISSING");
                   ("missing", JArr [JStr "work_postcode"])]
  ∧ (Stats.POST stats_host (session_request false) default_prefs_world).2
    = default_prefs_world.
Proof.
  assert (Ha : authenticated stats_host (session_request false) "alice")
    by (exists "token-alice"; split; reflexivity).
  assert (Hp : preferences default_prefs_world !! "alice"
               = Some (Preferences.defaultPreferences "alice")) by reflexivity.
  split_and!; try assumption.
  - destruct (default_preferences_block_stats stats_host (session_request false)
                default_prefs_world "alice" Ha Hp) as (_ & _ & _ & _ & _ & Hmissing).
    apply (Hmissing "s1" (session_row CONFIRMED)); [reflexivity|by split|by eexists].
  - by destruct (default_preferences_block_stats stats_host (session_request false)
                   default_prefs_world "alice" Ha Hp) as (_ & _ & _ & Hsame & _).
Defined.

(** An answer whose outermost braces do not enclose JSON makes the second
    [JSON.parse] of [parseJsonLoose] throw: compute-stats answers 500 from
    its catch-all and the session stays in STATS_RUNNING, the unit
    debited. *)
Example stats_unparsable_braces_left_running :
  parseJsonLoose (sample_host "sk-sample" "Sorry {no data} today")
    "Sorry {no data} today" = Throws SyntaxError
  ∧ (Stats.POST (sample_host "sk-sample" "Sorry {no data} today")
       (session_request false) confirmed_world).1 = caught 500 SyntaxError
  ∧ status_of (Stats.POST (sample_host "sk-sample" "Sorry {no data} today")
                 (session_request false) confirmed_world).2 "s1" = Some STATS_RUNNING
  ∧ used_of A_stats
      (Usage.counters_of keyless_host "alice"
         (Stats.POST (sample_host "sk-sample" "Sorry {no data} today")
            (session_request false) confirmed_world).2) = 1.
Proof. by vm_compute. Qed.

(** A session from CONFIRMED to AI_READY: compute-stats with one field at
    ["low"], manual confirmation, evaluate; two units debited on the way,
    one for stats and one for evaluate. *)
Example pipeline_confirmed_to_ai_ready :
  status_of
    (Stats.POST (sample_host "sk-sample" (render (stats_answer_json (Some "safety_score"))))
       (session_request false) confirmed_world).2 "s1" = Some STATS_NEEDS_CONFIRMATION
  ∧ status_of
      (StatsConfirm.POST keyless_host (confirm_request None)
         (Stats.POST
            (sample_host "sk-sample" (render (stats_answer_json (Some "safety_score"))))
            (session_request false) confirmed_world).2).2 "s1" = Some STATS_READY
  ∧ status_of
      (Evaluate.POST (sample_host "sk-sample" (render evaluation_json))
         (session_request false)
         (StatsConfirm.POST keyless_host (confirm_request None)
            (Stats.POST
               (sample_host "sk-sample" (render (stats_answer_json (Some "safety_score"))))
               (session_request false) confirmed_world).2).2).2 "s1" = Some AI_READY
  ∧ map action_type
      (usage_ledger
         (Evaluate.POST (sample_host "sk-sample" (render evaluation_json))
            (session_request false)
            (StatsConfirm.POST keyless_host (confirm_request None)
               (Stats.POST
                  (sample_host "sk-sample"
                     (render (stats_answer_json (Some "safety_score"))))
                  (session_request false) confirmed_world).2).2).2)
    = ["stats"; "evaluate"].
Proof. by vm_compute. Qed.

(** * Further properties

    Properties of the handlers together, of the routes the lifecycle
    passes through between extract and evaluate, and of the helpers of the
    pages that call them. *)

(** ** What a handler may touch *)

Lemma same_artifacts_refl (sessionId : string) (w : World) : same_artifacts sessionId w w.
Proof. by repeat split. Qed.

Lemma same_artifacts_trans (sessionId : string) (w1 w2 w3 : World) :
  same_artifacts sessionId w1 w2 → same_artifacts sessionId w2 w3 →
  same_artifacts sessionId w1 w3.
Proof.
  intros (a1 & a2 & a3 & a4 & a5) (b1 & b2 & b3 & b4 & b5).
  repeat split; congruence.
Qed.

Lemma debits_app (u : string) (a : Action) (l1 l2 : list LedgerEntry) :
  debits u a (l1 ++ l2) = debits u a l1 + debits u a l2.
Proof. unfold debits. rewrite filter_app, length_app. lia. Qed.

Lemma debits_nil (u : string) (a : Action) : debits u a [] = 0.
Proof. done. Qed.

Lemma debits_one (u : string) (a b : Action) :
  debits u b [Usage.usage_entry u a] = if decide (a = b) then 1 else 0.
Proof.
  unfold debits. rewrite filter_cons, filter_nil. cbn [led_user_id action_type Usage.usage_entry].
  destruct (decide (a = b)) as [->|Hne].
  - by rewrite decide_True.
  - rewrite decide_False; [done|]. intros [_ Hn]. by destruct a, b.
Qed.

Lemma touches_refl (h : Host) (u : string) (w : World) : touches h 0 0 u w w.
Proof.
  split.
  - intros sid row Hr _. split; [done|apply same_artifacts_refl].
  - intros sid row Hr. by exists row.
  - done.
  - exists []. rewrite app_nil_r. split_and!; [done|done|by apply Forall_nil|].
    intros a. rewrite debits_nil. split; [lia|done].
  - done.
  - lia.
Qed.

Lemma touches_trans (h : Host) (d1 d2 c1 c2 : nat) (u : string) (w1 w2 w3 : World) :
  touches h d1 c1 u w1 w2 → touches h d2 c2 u w2 w3 →
  touches h (d1 + d2) (c1 + c2) u w1 w3.
Proof.
  intros [o1 k1 r1 (l1 & L1 & N1 & F1 & U1) m1 n1] [o2 k2 r2 (l2 & L2 & N2 & F2 & U2) m2 n2].
  split.
  - intros sid row Hr Hu. destruct (o1 sid row Hr Hu) as [Hr2 Ha1].
    destruct (o2 sid row Hr2 Hu) as [Hr3 Ha2].
    split; [done|by eapply same_artifacts_trans].
  - intros sid row Hr. destruct (k1 sid row Hr) as (row2 & Hr2 & e1 & e2 & e3).
    destruct (k2 sid row2 Hr2) as (row3 & Hr3 & f1 & f2 & f3).
    exists row3. split_and!; congruence.
  - intros u' Hu'. destruct (r1 u' Hu') as [a1 b1]. destruct (r2 u' Hu') as [a2 b2].
    split; congruence.
  - exists (l1 ++ l2)%list. split_and!.
    + by rewrite L2, L1, app_assoc.
    + rewrite length_app. lia.
    + by apply Forall_app.
    + intros a. destruct (U1 a) as [x1 y1]. destruct (U2 a) as [x2 y2].
      rewrite debits_app. split; [lia|congruence].
  - auto.
  - lia.
Qed.

(** A further piece that pays nothing and calls nothing. *)
Lemma touches_then (h : Host) (d c : nat) (u : string) (w w1 w2 : World) :
  touches h d c u w w1 → touches h 0 0 u w1 w2 → touches h d c u w w2.
Proof.
  intros H1 H2. pose proof (touches_trans _ _ _ _ _ _ _ _ _ H1 H2) as H.
  by rewrite !Nat.add_0_r in H.
Qed.

Lemma touches_owned (h : Host) (d c : nat) (u : string) (w w1 : World) (sid : string) :
  touches h d c u w w1 →
  (∃ r, property_sessions w !! sid = Some r ∧ user_id r = u) →
  owned_now w1 u sid.
Proof.
  intros H (r & Hr & Hu) r1 Hr1.
  destruct (touches_kept _ _ _ _ _ _ H sid r Hr) as (r' & Hr' & e & _). congruence.
Qed.

(** A change of the session table alone, at a session of the user. *)
Lemma touches_sessions (h : Host) (u sid : string) (row : SessionRow) (w : World) :
  (∀ r, property_sessions w !! sid = Some r →
        user_id r = u ∧ user_id row = u
        ∧ rightmove_url row = rightmove_url r
        ∧ rightmove_listing_id row = rightmove_listing_id r) →
  touches h 0 0 u w (set_property_sessions (<[sid := row]> (property_sessions w)) w).
Proof.
  intros Hown. split; cbn.
  - intros sid' r' Hr' Hu'. split; [|by repeat split].
    rewrite lookup_insert_ne; [done|]. intros <-. by destruct (Hown _ Hr') as [? _].
  - intros sid' r' Hr'. destruct (decide (sid = sid')) as [<-|Hne].
    + exists row. rewrite lookup_insert_eq. destruct (Hown _ Hr') as (? & ? & ? & ?).
      split_and!; congruence.
    + exists r'. by rewrite lookup_insert_ne.
  - done.
  - exists []. rewrite app_nil_r. split_and!; [done|done|by apply Forall_nil|].
    intros a. rewrite debits_nil. split; [|done].
    change (Usage.counters_of h u (set_property_sessions _ w)) with (Usage.counters_of h u w). lia.
  - done.
  - lia.
Qed.

Lemma touches_update_status_now (h : Host) (u sid : string) (s : LifecycleStage) (w : World) :
  owned_now w u sid → touches h 0 0 u w (update_status sid s w).
Proof.
  intros Hown. unfold update_status.
  destruct (property_sessions w !! sid) as [r|] eqn:E; [|apply touches_refl].
  apply touches_sessions. intros r' Hr'. assert (r' = r) as -> by congruence.
  split_and!; [by apply Hown|by cbn; apply Hown|done|done].
Qed.

Lemma touches_updateSessionStatus_now (h : Host) (u sid : string) (s : LifecycleStage)
    (w : World) :
  owned_now w u sid → touches h 0 0 u w (Extract.updateSessionStatus h sid s w).
Proof.
  intros Hown. unfold Extract.updateSessionStatus.
  destruct (property_sessions w !! sid) as [r|] eqn:E; [|apply touches_refl].
  apply touches_sessions. intros r' Hr'. assert (r' = r) as -> by congruence.
  split_and!; [by apply Hown|by cbn; apply Hown|done|done].
Qed.

(** A write of artifact tables alone, at a session of the user. *)
Lemma touches_artifacts (h : Host) (u sid : string) (w w' : World) :
  owned_now w u sid →
  property_sessions w' = property_sessions w →
  usage_counters w' = usage_counters w →
  usage_ledger w' = usage_ledger w →
  preferences w' = preferences w →
  openai_calls w' = openai_calls w →
  (∀ sid', sid' ≠ sid → same_artifacts sid' w w') →
  touches h 0 0 u w w'.
Proof.
  intros Hown Hs Hc Hl Hp Hn Ha.
  assert (Usage.counters_of h u w' = Usage.counters_of h u w) as Hcu.
  { unfold Usage.counters_of. by rewrite Hc. }
  split.
  - intros sid' r' Hr' Hu'. rewrite Hs. split; [done|]. apply Ha. intros ->. by apply Hu', Hown.
  - intros sid' r' Hr'. exists r'. by rewrite Hs.
  - intros u' _. by rewrite Hc, Hp.
  - exists []. rewrite app_nil_r. split_and!; [done|done|by apply Forall_nil|].
    intros a. rewrite debits_nil, Hcu. split; [lia|done].
  - unfold within_limits. by rewrite Hcu.
  - lia.
Qed.

Local Ltac artifact_write :=
  intros Hown; apply (touches_artifacts _ _ _ _ _ Hown); try done;
  intros sid' Hne; repeat split; cbn; try done; by rewrite lookup_insert_ne.

Lemma touches_facts_raw (h : Host) (u sid : string) (row : json) (w : World) :
  owned_now w u sid →
  touches h 0 0 u w (set_listing_facts_raw (<[sid := row]> (listing_facts_raw w)) w).
Proof. artifact_write. Qed.

Lemma touches_facts_confirmed (h : Host) (u sid : string) (row : json) (w : World) :
  owned_now w u sid →
  touches h 0 0 u w (set_listing_facts_confirmed (<[sid := row]> (listing_facts_confirmed w)) w).
Proof. artifact_write. Qed.

Lemma touches_stats_raw (h : Host) (u sid : string) (row : json) (w : World) :
  owned_now w u sid →
  touches h 0 0 u w (set_listing_stats_raw (<[sid := row]> (listing_stats_raw w)) w).
Proof. artifact_write. Qed.

Lemma touches_stats_confirmed (h : Host) (u sid : string) (row : json) (w : World) :
  owned_now w u sid →
  touches h 0 0 u w (set_listing_stats_confirmed (<[sid := row]> (listing_stats_confirmed w)) w).
Proof. artifact_write. Qed.

Lemma touches_evaluation_raw (h : Host) (u sid : string) (row : json) (w : World) :
  owned_now w u sid →
  touches h 0 0 u w (set_listing_evaluation_raw (<[sid := row]> (listing_evaluation_raw w)) w).
Proof. artifact_write. Qed.

Lemma touches_guard (h : Host) (u sid : string) (from : list LifecycleStage)
    (to : LifecycleStage) (w w' : World) (b : bool) :
  setStatusGuarded sid u from to w = (b, w') → touches h 0 0 u w w'.
Proof.
  unfold setStatusGuarded. destruct (property_sessions w !! sid) as [r|] eqn:E.
  - destruct (bool_decide (user_id r = u)) eqn:Hu; cbn [andb].
    + destruct (bool_decide (status r ∈ from)); intros [= <- <-]; [|apply touches_refl].
      apply bool_decide_eq_true in Hu. apply touches_sessions.
      intros r' Hr'. assert (r' = r) as -> by congruence. by split_and!.
    + intros [= <- <-]. apply touches_refl.
  - intros [= <- <-]. apply touches_refl.
Qed.

Lemma touches_insert_session (h : Host) (u : string) (row : SessionRow) (w : World) :
  user_id row = u → touches h 0 0 u w (Extract.insert_session row w).2.
Proof.
  intros Hu. unfold Extract.insert_session. cbn [snd]. apply touches_sessions.
  intros r Hr. exfalso.
  apply (is_fresh (dom (property_sessions w))). apply elem_of_dom. by exists r.
Qed.

Lemma touches_preferences (h : Host) (u : string) (row : json) (w : World) :
  touches h 0 0 u w (set_preferences (<[u := row]> (preferences w)) w).
Proof.
  split; cbn.
  - intros sid r Hr _. split; [done|by repeat split].
  - intros sid r Hr. by exists r.
  - intros u' Hu'. by rewrite lookup_insert_ne.
  - exists []. rewrite app_nil_r. split_and!; [done|done|by apply Forall_nil|].
    intros a. rewrite debits_nil. split; [|done].
    change (Usage.counters_of h u (set_preferences _ w)) with (Usage.counters_of h u w). lia.
  - done.
  - lia.
Qed.

Lemma touches_count_openai_call (h : Host) (u : string) (w : World) :
  touches h 0 1 u w (count_openai_call w).
Proof.
  split; cbn.
  - intros sid r Hr _. split; [done|by repeat split].
  - intros sid r Hr. by exists r.
  - done.
  - exists []. rewrite app_nil_r. split_and!; [done|done|by apply Forall_nil|].
    intros a. rewrite debits_nil. split; [|done].
    change (Usage.counters_of h u (count_openai_call w)) with (Usage.counters_of h u w). lia.
  - done.
  - lia.
Qed.

Lemma touches_ensureUsageRow (h : Host) (u : string) (w : World) :
  touches h 0 0 u w (Usage.ensureUsageRow h u w).
Proof.
  destruct (ensureUsageRow_frame h u w) as (Hs & Hl & f1 & f2 & f3 & f4 & f5 & Hp & Hn).
  split.
  - intros sid r Hr _. rewrite Hs. split; [done|].
    unfold same_artifacts. by rewrite f1, f2, f3, f4, f5.
  - intros sid r Hr. exists r. by rewrite Hs.
  - intros u' Hu'. split; [|by rewrite Hp]. unfold Usage.ensureUsageRow.
    destruct (usage_counters w !! u); [done|]. cbn. by rewrite lookup_insert_ne.
  - exists []. rewrite app_nil_r. split_and!; [done|done|by apply Forall_nil|].
    intros a. rewrite debits_nil, ensureUsageRow_counters_of. split; [lia|done].
  - unfold within_limits. by rewrite ensureUsageRow_counters_of.
  - lia.
Qed.

Lemma touches_debited (h : Host) (u : string) (a : Action) (w : World) :
  quota_available h u a w → touches h 1 0 u w (debited h u a w).
Proof.
  intros Hq.
  destruct (debited_frame h u a w) as (Hs & Hl & f1 & f2 & f3 & f4 & f5 & Hp & Hn).
  split.
  - intros sid r Hr _. rewrite Hs. split; [done|].
    unfold same_artifacts. by rewrite f1, f2, f3, f4, f5.
  - intros sid r Hr. exists r. by rewrite Hs.
  - intros u' Hu'. split; [|by rewrite Hp]. unfold debited. cbn.
    rewrite lookup_insert_ne by done.
    unfold Usage.ensureUsageRow. destruct (usage_counters w !! u); [done|]. cbn.
    by rewrite lookup_insert_ne.
  - exists [Usage.usage_entry u a]. split_and!; [done|done| |].
    + apply Forall_cons. split; [by exists a|by apply Forall_nil].
    + intros b. rewrite debited_counters_of, used_of_with_used, limit_of_with_used, debits_one.
      split; [|done]. destruct (decide (a = b)) as [->|]; lia.
  - intros Hlim b. rewrite debited_counters_of, used_of_with_used, limit_of_with_used.
    destruct (decide (a = b)) as [<-|]; [|apply Hlim]. unfold quota_available in Hq. lia.
  - lia.
Qed.

(** [checkAndConsumeQuota] returns, and pays one row exactly when it
    answers [ok]. *)
Lemma touches_quota (h : Host) (u : string) (a : Action) (w w' : World)
    (res : throws Usage.QuotaResult) :
  Usage.checkAndConsumeQuota h u a w = (res, w') →
  ∃ q, res = Returns q
       ∧ touches h (if Usage.ok q then 1 else 0) 0 u w w'
       ∧ (if Usage.ok q then quota_available h u a w ∧ w' = debited h u a w
          else quota_exhausted h u a w ∧ w' = Usage.ensureUsageRow h u w).
Proof.
  intros E.
  destruct (Z.le_gt_cases (limit_of a (Usage.counters_of h u w))
              (used_of a (Usage.counters_of h u w))) as [Hle|Hgt].
  - rewrite checkAndConsumeQuota_exhausted in E by done. injection E as <- <-.
    eexists. split; [done|]. cbn. split; [apply touches_ensureUsageRow|done].
  - rewrite checkAndConsumeQuota_available in E by done. injection E as <- <-.
    eexists. split; [done|]. cbn. split; [by apply touches_debited|done].
Qed.

(** The pieces as they follow one another in a handler. *)
Lemma then_update_status (h : Host) (d c : nat) (u sid : string) (s : LifecycleStage)
    (w w1 : World) :
  touches h d c u w w1 →
  (∃ r, property_sessions w !! sid = Some r ∧ user_id r = u) →
  touches h d c u w (update_status sid s w1).
Proof.
  intros H Ho. eapply touches_then; [done|].
  apply touches_update_status_now. by eapply touches_owned.
Qed.

Lemma then_stats_raw (h : Host) (d c : nat) (u sid : string) (row : json) (w w1 : World) :
  touches h d c u w w1 →
  (∃ r, property_sessions w !! sid = Some r ∧ user_id r = u) →
  touches h d c u w (set_listing_stats_raw (<[sid := row]> (listing_stats_raw w1)) w1).
Proof.
  intros H Ho. eapply touches_then; [done|].
  apply touches_stats_raw. by eapply touches_owned.
Qed.

Lemma then_stats_confirmed (h : Host) (d c : nat) (u sid : string) (row : json)
    (w w1 : World) :
  touches h d c u w w1 →
  (∃ r, property_sessions w !! sid = Some r ∧ user_id r = u) →
  touches h d c u w
    (set_listing_stats_confirmed (<[sid := row]> (listing_stats_confirmed w1)) w1).
Proof.
  intros H Ho. eapply touches_then; [done|].
  apply touches_stats_confirmed. by eapply touches_owned.
Qed.

Lemma then_facts_confirmed (h : Host) (d c : nat) (u sid : string) (row : json)
    (w w1 : World) :
  touches h d c u w w1 →
  (∃ r, property_sessions w !! sid = Some r ∧ user_id r = u) →
  touches h d c u w
    (set_listing_facts_confirmed (<[sid := row]> (listing_facts_confirmed w1)) w1).
Proof.
  intros H Ho. eapply touches_then; [done|].
  apply touches_facts_confirmed. by eapply touches_owned.
Qed.

Lemma then_evaluation_raw (h : Host) (d c : nat) (u sid : string) (row : json)
    (w w1 : World) :
  touches h d c u w w1 →
  (∃ r, property_sessions w !! sid = Some r ∧ user_id r = u) →
  touches h d c u w
    (set_listing_evaluation_raw (<[sid := row]> (listing_evaluation_raw w1)) w1).
Proof.
  intros H Ho. eapply touches_then; [done|].
  apply touches_evaluation_raw. by eapply touches_owned.
Qed.

Lemma then_count_openai_call (h : Host) (d c : nat) (u : string) (w w1 : World) :
  touches h d c u w w1 → touches h d (S c) u w (count_openai_call w1).
Proof.
  intros H. pose proof (touches_trans _ _ _ _ _ _ _ _ _ H (touches_count_openai_call h u w1)) as H'.
  by rewrite Nat.add_0_r, Nat.add_1_r in H'.
Qed.

Lemma served_refl (h : Host) (u : string) (w : World) : served h u w w.
Proof. exists 0%nat, 0%nat. split; [apply touches_refl|lia]. Qed.


Local Ltac pieces :=
  repeat first
    [ assumption
    | apply then_update_status; [|assumption]
    | apply then_stats_confirmed; [|assumption]
    | apply then_stats_raw; [|assumption]
    | apply then_facts_confirmed; [|assumption]
    | apply then_evaluation_raw; [|assumption]
    | apply then_count_openai_call ].

(** ** The handlers one by one *)

Lemma Stats_finish_touches (h : Host) (d c : nat) (u sid : string) (w w1 : World) :
  touches h d c u w w1 →
  (∃ r, property_sessions w !! sid = Some r ∧ user_id r = u) →
  touches h d c u w (Stats.finish h sid w1).2.
Proof.
  intros H Ho. unfold Stats.finish. repeat case_match; cbn [snd]; pieces.
Qed.

Lemma Evaluate_finish_touches (h : Host) (d c : nat) (u sid : string) (w w1 : World) :
  touches h d c u w w1 →
  (∃ r, property_sessions w !! sid = Some r ∧ user_id r = u) →
  touches h d c u w (Evaluate.finish h sid w1).2.
Proof.
  intros H Ho. unfold Evaluate.finish. repeat case_match; cbn [snd]; pieces.
Qed.

Lemma Stats_run_served (h : Host) (u sid : string) (cs : LifecycleStage) (force : bool)
    (w : World) :
  (∃ r, property_sessions w !! sid = Some r ∧ user_id r = u) →
  served h u w (Stats.run h sid u cs force w).2.
Proof.
  intros Ho. unfold Stats.run.
  destruct (setStatusGuarded sid u (Stats.allowedFrom force) STATS_RUNNING w) as [g w1] eqn:Eg.
  pose proof (touches_guard h _ _ _ _ _ _ _ Eg) as Hg.
  destruct g; cbn [negb]; [|exists 0%nat, 0%nat; split; [done|lia]].
  destruct (Usage.checkAndConsumeQuota h u A_stats w1) as [res w2] eqn:Eq.
  destruct (touches_quota _ _ _ _ _ _ Eq) as (q & -> & Hq & _).
  pose proof (touches_trans _ _ _ _ _ _ _ _ _ Hg Hq) as H. cbn [Nat.add] in H.
  destruct (Usage.ok q); cbn [negb].
  - destruct (has_api_key h); cbn [negb snd].
    + exists 1%nat, 1%nat. split; [|lia].
      apply Stats_finish_touches; [|done]. by apply then_count_openai_call.
    + exists 1%nat, 0%nat. split; [|lia]. pieces.
  - exists 0%nat, 0%nat. split; [|lia]. cbn [snd]. pieces.
Qed.

Lemma Stats_POST_served (h : Host) (req : Request) (w : World) (u : string) :
  authenticated h req u → served h u w (Stats.POST h req w).2.
Proof.
  intros (token & Hb & Hu). unfold Stats.POST. rewrite Hb, Hu.
  repeat case_match; cbn [snd]; try apply served_refl.
  apply Stats_run_served. eexists. split; [eassumption|].
  match goal with
  | H : negb (bool_decide _) = false |- _ =>
      apply negb_false_iff, bool_decide_eq_true in H; exact H
  end.
Qed.

Lemma Evaluate_run_served (h : Host) (u sid : string) (cs : LifecycleStage) (w : World) :
  (∃ r, property_sessions w !! sid = Some r ∧ user_id r = u) →
  served h u w (Evaluate.run h sid u cs w).2.
Proof.
  intros Ho. unfold Evaluate.run.
  destruct (setStatusGuarded sid u Evaluate.evalFrom EVAL_RUNNING w) as [g w1] eqn:Eg.
  pose proof (touches_guard h _ _ _ _ _ _ _ Eg) as Hg.
  destruct g; cbn [negb]; [|exists 0%nat, 0%nat; split; [done|lia]].
  destruct (listing_facts_confirmed w1 !! sid);
    [|exists 0%nat, 0%nat; split; [cbn [snd]; pieces|lia]].
  destruct (listing_stats_confirmed w1 !! sid);
    [|exists 0%nat, 0%nat; split; [cbn [snd]; pieces|lia]].
  destruct (preferences w1 !! u);
    [|exists 0%nat, 0%nat; split; [cbn [snd]; pieces|lia]].
  destruct (Usage.checkAndConsumeQuota h u A_evaluate w1) as [res w2] eqn:Eq.
  destruct (touches_quota _ _ _ _ _ _ Eq) as (q & -> & Hq & _).
  pose proof (touches_trans _ _ _ _ _ _ _ _ _ Hg Hq) as H. cbn [Nat.add] in H.
  destruct (Usage.ok q); cbn [negb].
  - destruct (has_api_key h); cbn [negb snd].
    + exists 1%nat, 1%nat. split; [|lia].
      apply Evaluate_finish_touches; [|done]. by apply then_count_openai_call.
    + exists 1%nat, 0%nat. split; [|lia]. pieces.
  - exists 0%nat, 0%nat. split; [|lia]. cbn [snd]. pieces.
Qed.

Lemma Evaluate_POST_served (h : Host) (req : Request) (w : World) (u : string) :
  authenticated h req u → served h u w (Evaluate.POST h req w).2.
Proof.
  intros (token & Hb & Hu). unfold Evaluate.POST. rewrite Hb, Hu.
  repeat case_match; cbn [snd]; try apply served_refl.
  apply Evaluate_run_served. eexists. split; [eassumption|].
  match goal with
  | H : negb (bool_decide (user_id _ = _)) = false |- _ =>
      apply negb_false_iff, bool_decide_eq_true in H; exact H
  end.
Qed.

Lemma StatsConfirm_POST_served (h : Host) (req : Request) (w : World) (u : string) :
  authenticated h req u → served h u w (StatsConfirm.POST h req w).2.
Proof.
  intros (token & Hb & Hu). unfold StatsConfirm.POST. rewrite Hb, Hu.
  repeat case_match; cbn [snd]; try apply served_refl.
  all: exists 0%nat, 0%nat; (split; [|lia]).
  all: match goal with
       | Hs : property_sessions ?w0 !! ?sid = Some ?s,
         H : negb (bool_decide (user_id ?s = ?u0)) = false |- _ =>
           apply negb_false_iff, bool_decide_eq_true in H;
           assert (∃ r, property_sessions w0 !! sid = Some r ∧ user_id r = u0) as Ho
             by (by exists s)
       end.
  all: pose proof (touches_refl h u w); pieces.
Qed.

Lemma Confirm_POST_served (h : Host) (req : Request) (w : World) (u : string) :
  authenticated h req u → served h u w (Confirm.POST h req w).2.
Proof.
  intros (token & Hb & Hu). unfold Confirm.POST. rewrite Hb, Hu.
  repeat case_match; cbn [snd]; try apply served_refl.
  all: exists 0%nat, 0%nat; (split; [|lia]).
  all: match goal with
       | Hs : property_sessions ?w0 !! ?sid = Some ?s,
         H : negb (bool_decide (user_id ?s = ?u0)) = false |- _ =>
           apply negb_false_iff, bool_decide_eq_true in H;
           assert (∃ r, property_sessions w0 !! sid = Some r ∧ user_id r = u0) as Ho
             by (by exists s)
       end.
  all: pose proof (touches_refl h u w); pieces.
Qed.

Lemma Preferences_GET_served (h : Host) (req : Request) (w : World) (u : string) :
  authenticated h req u → served h u w (Preferences.GET h req w).2.
Proof.
  intros (token & Hb & Hu). unfold Preferences.GET. rewrite Hb, Hu.
  repeat case_match; cbn [snd]; try apply served_refl.
  exists 0%nat, 0%nat. split; [apply touches_preferences|lia].
Qed.

Lemma Preferences_POST_served (h : Host) (req : Request) (w : World) (u : string) :
  authenticated h req u → served h u w (Preferences.POST h req w).2.
Proof.
  intros (token & Hb & Hu). unfold Preferences.POST. rewrite Hb, Hu.
  repeat case_match; cbn [snd]; try apply served_refl.
  all: exists 0%nat, 0%nat; (split; [apply touches_preferences|lia]).
Qed.

Lemma touches_callOpenAIWithWeb (h : Host) (u : string) (w w' : World) (res : throws json) :
  Extract.callOpenAIWithWeb h w = (res, w') →
  ∃ c, (c ≤ 1)%nat ∧ touches h 0 c u w w'.
Proof.
  intros E. pose proof (callOpenAIWithWeb_world h w) as H. rewrite E in H. cbn [snd] in H.
  subst w'. destruct (has_api_key h).
  - exists 1%nat. split; [lia|apply touches_count_openai_call].
  - exists 0%nat. split; [lia|apply touches_refl].
Qed.

Lemma maybeSingle_filter_owned (P : string * SessionRow → Prop) `{!∀ x, Decision (P x)}
    (m : gmap string SessionRow) (id : string) (r : SessionRow) :
  Extract.maybeSingle (map_to_list (filter P m)) = Some (id, r) →
  m !! id = Some r ∧ P (id, r).
Proof.
  intros Hm%maybeSingle_some. by apply filter_single_lookup in Hm as (_ & Hl & HP).
Qed.

Lemma touches_upsertPropertySession (h : Host) (u url : string) (lid : option string)
    (w w' : World) (res : throws (string * SessionRow)) :
  Extract.upsertPropertySession u url lid w = (res, w') →
  touches h 0 0 u w w'
  ∧ ∀ id row, res = Returns (id, row) →
              property_sessions w' !! id = Some row ∧ user_id row = u.
Proof.
  unfold Extract.upsertPropertySession, Extract.by_listing, Extract.by_url.
  destruct lid as [l|].
  - destruct (Extract.maybeSingle _) as [[id0 r0]|] eqn:E.
    + intros [= <- <-]. split; [apply touches_refl|].
      intros id row [= <- <-]. apply maybeSingle_filter_owned in E as (Hl & Hu & _). done.
    + destruct (Extract.enforceMaxLinks u w).
      * unfold Extract.insert_session. intros [= <- <-]. split.
        -- by apply (touches_insert_session h u _ w).
        -- intros id row [= <- <-]. cbn. by rewrite lookup_insert_eq.
      * intros [= <- <-]. split; [apply touches_refl|done].
  - destruct (Extract.maybeSingle _) as [[id0 r0]|] eqn:E.
    + intros [= <- <-]. split; [apply touches_refl|].
      intros id row [= <- <-]. apply maybeSingle_filter_owned in E as (Hl & Hu & _). done.
    + destruct (Extract.enforceMaxLinks u w).
      * unfold Extract.insert_session. intros [= <- <-]. split.
        -- by apply (touches_insert_session h u _ w).
        -- intros id row [= <- <-]. cbn. by rewrite lookup_insert_eq.
      * intros [= <- <-]. split; [apply touches_refl|done].
Qed.

Lemma touches_writeFactsRaw (h : Host) (u id : string) (facts : json) (w w' : World)
    (res : throws unit) :
  Extract.writeFactsRaw h id facts w = (res, w') →
  owned_now w u id → touches h 0 0 u w w'.
Proof.
  unfold Extract.writeFactsRaw. destruct (store_accepts h _ _); cbn [negb].
  - intros [= <- <-]. apply touches_facts_raw.
  - intros [= <- <-] _. apply touches_refl.
Qed.

(** The writes of the full stage of extract, from the session on. *)
Lemma touches_extract_writes (h : Host) (u id : string) (row : SessionRow) (facts : json)
    (w w' : World) (res : throws unit) :
  property_sessions w !! id = Some row → user_id row = u →
  Extract.writeFactsRaw h id facts
    (Extract.updateSessionStatus h id AI_PARSED
       (Extract.updateSessionStatus h id FETCHED_HTML w)) = (res, w') →
  touches h 0 0 u w w'
  ∧ touches h 0 0 u w (Extract.updateSessionStatus h id NEEDS_CONFIRMATION w').
Proof.
  intros Hr Hu E.
  assert (Ho : ∃ r, property_sessions w !! id = Some r ∧ user_id r = u) by (by exists row).
  assert (H1 : touches h 0 0 u w (Extract.updateSessionStatus h id FETCHED_HTML w)).
  { apply touches_updateSessionStatus_now. intros r Hr'. congruence. }
  assert (H2 : touches h 0 0 u w
                 (Extract.updateSessionStatus h id AI_PARSED
                    (Extract.updateSessionStatus h id FETCHED_HTML w))).
  { eapply touches_then; [exact H1|]. apply touches_updateSessionStatus_now.
    by eapply touches_owned. }
  assert (H3 : touches h 0 0 u w w').
  { eapply touches_then; [exact H2|]. eapply touches_writeFactsRaw; [exact E|].
    by eapply touches_owned. }
  split; [done|].
  eapply touches_then; [exact H3|]. apply touches_updateSessionStatus_now.
  by eapply touches_owned.
Qed.

Local Ltac chain :=
  first
    [ eassumption
    | apply touches_refl
    | eapply touches_trans; [|eassumption]; chain ].

Lemma Extract_POST_served (h : Host) (req : Request) (w : World) (u : string) :
  authenticated h req u → served h u w (Extract.POST h req w).2.
Proof.
  intros (token & Hb & Hu). unfold Extract.POST. rewrite Hb.
  destruct (payload req) eqn:Hp; [apply served_refl|..].
  all: rewrite Hu.
  all: destruct (Extract.is_stage _ "auth"); [apply served_refl|].
  all: destruct (Usage.checkAndConsumeQuota h u A_extract w) as [res w1] eqn:Eq.
  all: destruct (touches_quota _ _ _ _ _ _ Eq) as (q & -> & Hq & _).
  all: destruct (Usage.ok q); cbn [negb]; [|exists 0%nat, 0%nat; split; [done|lia]].
  all: repeat case_match; cbn [snd].
  all: repeat match goal with
       | Hq' : touches ?h0 _ _ ?u0 _ _,
         H : Extract.callOpenAIWithWeb ?h0 _ = (_, _) |- _ =>
           let c := fresh "c" in
           destruct (touches_callOpenAIWithWeb h0 u0 _ _ _ H) as (c & ? & ?); clear H
       | Hq' : touches ?h0 _ _ ?u0 _ _,
         H : Extract.upsertPropertySession ?u0 _ _ _ = (Returns (?id, ?row), _) |- _ =>
           let Ht := fresh "Ht" in let Hr := fresh "Hr" in
           destruct (touches_upsertPropertySession h0 _ _ _ _ _ _ H) as [Ht Hr];
           destruct (Hr id row eq_refl); clear H Hr
       | Hq' : touches ?h0 _ _ ?u0 _ _,
         H : Extract.upsertPropertySession ?u0 _ _ _ = (Throws _, _) |- _ =>
           let Ht := fresh "Ht" in
           destruct (touches_upsertPropertySession h0 _ _ _ _ _ _ H) as [Ht _]; clear H
       | H : Extract.writeFactsRaw ?h0 ?id _ _ = (_, _),
         Hs : property_sessions _ !! ?id = Some ?row, Hu' : user_id ?row = ?u0 |- _ =>
           destruct (touches_extract_writes h0 u0 id row _ _ _ _ Hs Hu' H); clear H
       end.
  all: eexists _, _; (split; [chain|lia]).
Qed.

(** Every route, for the user the request is authenticated as. *)
Lemma serve_served (h : Host) (route : Route) (req : Request) (w : World) (u : string) :
  authenticated h req u → served h u w (serve h route req w).2.
Proof.
  intros Ha. destruct route; cbn [serve].
  - by apply Extract_POST_served.
  - by apply Confirm_POST_served.
  - by apply Stats_POST_served.
  - by apply StatsConfirm_POST_served.
  - by apply Evaluate_POST_served.
  - by apply Preferences_GET_served.
  - by apply Preferences_POST_served.
Qed.

Lemma authenticated_dec (h : Host) (req : Request) :
  (∃ u, authenticated h req u) ∨ (∀ u, ¬ authenticated h req u).
Proof.
  unfold authenticated. destruct (bearer req) as [token|] eqn:Hb.
  - destruct (getUser h token) as [u|] eqn:Hu.
    + left. exists u, token. done.
    + right. intros u (t & [= <-] & Hu'). congruence.
  - right. intros u (t & Hb' & _). congruence.
Qed.

Lemma serve_unauthenticated (h : Host) (route : Route) (req : Request) (w : World) :
  (∀ u, ¬ authenticated h req u) →
  (serve h route req w).2 = w
  ∧ (code (serve h route req w).1 = 401
     ∨ (route = POST_extract ∧ payload req = JNull ∧ code (serve h route req w).1 = 500)).
Proof.
  intros Hno.
  assert (Hn : ∀ token, bearer req = Some token → getUser h token = None).
  { intros token Hb. destruct (getUser h token) as [u|] eqn:Hu; [|done].
    destruct (Hno u). by exists token. }
  destruct route; cbn [serve];
    unfold Extract.POST, Confirm.POST, Stats.POST, StatsConfirm.POST, Evaluate.POST,
      Preferences.GET, Preferences.POST;
    destruct (bearer req) as [token|] eqn:Hb; try (by (split; [|left]));
    try (rewrite (Hn token eq_refl); by (split; [|left])).
  destruct (payload req) eqn:Hp; [by split; [|right]|..];
    rewrite (Hn token eq_refl); by (split; [|left]).
Qed.

(** X1. A request without a token the identity service accepts changes
    nothing, whatever the route: the world after it is the world before
    it. It is answered 401, except that extract, which reads the body
    before it asks the identity service, answers 500 to a body that is
    [null]. *)
Theorem unauthenticated_request_changes_nothing
    (h : Host) (route : Route) (req : Request) (w : World) :
  (∀ u, ¬ authenticated h req u) →
  (serve h route req w).2 = w
  ∧ (code (serve h route req w).1 = 401
     ∨ (route = POST_extract ∧ payload req = JNull ∧ code (serve h route req w).1 = 500)).
Proof. apply serve_unauthenticated. Qed.

(** X2. A request authenticated as a user leaves what belongs to the
    others as it was, whatever the route and the body: the session rows of
    the other users and the facts, stats and evaluation stored for those
    sessions, the usage counters and the preferences of the other users;
    and every ledger row it appends is a row of the user. *)
Theorem request_touches_only_own_rows
    (h : Host) (route : Route) (req : Request) (w : World) (userId : string) :
  authenticated h req userId →
  let w' := (serve h route req w).2 in
  (∀ sessionId row,
      property_sessions w !! sessionId = Some row → user_id row ≠ userId →
      property_sessions w' !! sessionId = Some row ∧ same_artifacts sessionId w w')
  ∧ (∀ u, u ≠ userId →
       usage_counters w' !! u = usage_counters w !! u
       ∧ preferences w' !! u = preferences w !! u)
  ∧ ∃ l, usage_ledger w' = (usage_ledger w ++ l)%list
         ∧ Forall (fun e => led_user_id e = userId) l.
Proof.
  intros Ha w'. destruct (serve_served h route req w userId Ha) as (d & c & H & _).
  destruct H as [o k r (l & L & N & F & U) m n]. split_and!; [done|done|].
  exists l. split; [done|]. eapply Forall_impl; [exact F|]. by intros e (a & ->).
Qed.

(** The debit of a call served alone is [consume] on the value it read. *)
Lemma debited_consume (h : Host) (u : string) (a : Action) (w : World) :
  debited h u a w
  = Usage.consume u a (used_of a (Usage.counters_of h u w)) (Usage.ensureUsageRow h u w).
Proof. unfold debited, Usage.consume. by rewrite ensureUsageRow_lookup. Qed.

(** Two debits written from one value read. *)
Lemma consume_twice (h : Host) (u : string) (a : Action) (used : Z) (w : World)
    (c : CountersRow) :
  usage_counters w !! u = Some c →
  let w2 := Usage.consume u a used (Usage.consume u a used w) in
  used_of a (Usage.counters_of h u w2) = used + 1
  ∧ usage_ledger w2
    = (usage_ledger w ++ [Usage.usage_entry u a; Usage.usage_entry u a])%list.
Proof.
  intros Hc w2. subst w2. unfold Usage.consume. rewrite Hc.
  cbn [usage_counters usage_ledger set_usage_counters set_usage_ledger].
  rewrite lookup_insert_eq.
  cbn [usage_counters usage_ledger set_usage_counters set_usage_ledger].
  split.
  - unfold Usage.counters_of.
    cbn [usage_counters usage_ledger set_usage_counters set_usage_ledger].
    rewrite lookup_insert_eq. cbn [default from_option id].
    rewrite used_of_with_used. by rewrite decide_True.
  - by rewrite <- app_assoc.
Qed.

(** X3. What a request costs. A request served alone and authenticated as
    a user appends at most one row to the ledger; each usage counter of
    the user grows by the number of rows appended for its action, so by
    one or not at all, and no limit changes; and the model is called at
    most as many times as rows were appended: no call of the model goes
    unpaid. The debit is a read followed by two writes: served alone it is
    [Usage.consume] on the value just read; two debits written from one
    value read leave the counter one above that value and the ledger two
    rows longer, so between requests that overlap the counter can fall
    behind the ledger. *)
Theorem request_pays_for_what_it_uses
    (h : Host) (route : Route) (req : Request) (w : World) (userId : string) :
  (authenticated h req userId →
   let w' := (serve h route req w).2 in
   ∃ l, usage_ledger w' = (usage_ledger w ++ l)%list
        ∧ (length l ≤ 1)%nat
        ∧ (∀ a, used_of a (Usage.counters_of h userId w')
                = used_of a (Usage.counters_of h userId w) + debits userId a l
                ∧ limit_of a (Usage.counters_of h userId w')
                  = limit_of a (Usage.counters_of h userId w))
        ∧ (openai_calls w ≤ openai_calls w' ≤ openai_calls w + length l)%nat)
  ∧ (∀ a w0,
       quota_available h userId a w0 →
       (Usage.checkAndConsumeQuota h userId a w0).2
       = Usage.consume userId a (used_of a (Usage.counters_of h userId w0))
           (Usage.ensureUsageRow h userId w0))
  ∧ (∀ a used w0 c,
       usage_counters w0 !! userId = Some c →
       let w2 := Usage.consume userId a used (Usage.consume userId a used w0) in
       used_of a (Usage.counters_of h userId w2) = used + 1
       ∧ usage_ledger w2
         = (usage_ledger w0
            ++ [Usage.usage_entry userId a; Usage.usage_entry userId a])%list).
Proof.
  split_and!.
  - intros Ha w'. destruct (serve_served h route req w userId Ha) as (d & c & H & Hc & Hd).
    destruct H as [o k r (l & L & N & F & U) m n]. subst w'.
    exists l. split_and!; [done|lia|done|lia|lia].
  - intros a w0 Hq. rewrite checkAndConsumeQuota_available by done.
    cbn [snd]. apply debited_consume.
  - intros a used w0 c Hc. by apply (consume_twice h userId a used w0 c).
Qed.

Lemma serve_within_limits (h h0 : Host) (route : Route) (req : Request) (w : World) :
  default_counters h0 = default_counters h →
  (∀ u, within_limits h u w) → ∀ u, within_limits h u (serve h0 route req w).2.
Proof.
  intros Hd Hw u.
  assert (Hco : ∀ w0, Usage.counters_of h0 u w0 = Usage.counters_of h u w0).
  { intros w0. unfold Usage.counters_of. by rewrite Hd. }
  destruct (authenticated_dec h0 req) as [(u' & Ha)|Hno].
  - destruct (serve_served h0 route req w u' Ha) as (d & c & H & _).
    destruct (decide (u = u')) as [->|Hne].
    + pose proof (touches_limits _ _ _ _ _ _ H) as Hl.
      unfold within_limits in *. intros a. rewrite <- Hco. apply Hl.
      intros b. rewrite Hco. apply Hw.
    + destruct (touches_rows _ _ _ _ _ _ H u Hne) as [Hc _].
      unfold within_limits, Usage.counters_of. rewrite Hc. apply Hw.
  - destruct (serve_unauthenticated h0 route req w Hno) as [-> _]. apply Hw.
Qed.

(** X4. No sequence of calls, of whatever routes, by whatever users and
    with whatever answers of the model, takes a usage counter past its
    limit: when every counter of every user is within its limit (for a
    user without a counters row, the default row is), it still is after
    the calls. The default row is the same throughout. *)
Theorem usage_never_exceeds_limit (h : Host) (calls : list Call) (w : World) :
  Forall (fun c => default_counters (call_host c) = default_counters h) calls →
  (∀ u, within_limits h u w) →
  ∀ u, within_limits h u (serve_all calls w).
Proof.
  intros Hd. revert w. induction Hd as [|c rest Hc _ IH]; intros w Hw; [done|].
  cbn [serve_all]. apply IH. by apply serve_within_limits.
Qed.

Lemma serve_keeps (h : Host) (route : Route) (req : Request) (w : World) :
  (∀ sessionId row,
     property_sessions w !! sessionId = Some row →
     ∃ row', property_sessions (serve h route req w).2 !! sessionId = Some row'
             ∧ user_id row' = user_id row
             ∧ rightmove_url row' = rightmove_url row
             ∧ rightmove_listing_id row' = rightmove_listing_id row)
  ∧ ∃ l, usage_ledger (serve h route req w).2 = (usage_ledger w ++ l)%list.
Proof.
  destruct (authenticated_dec h req) as [(u & Ha)|Hno].
  - destruct (serve_served h route req w u Ha) as (d & c & H & _).
    destruct H as [o k r (l & L & _) m n]. split; [done|by exists l].
  - destruct (serve_unauthenticated h route req w Hno) as [-> _].
    split; [|exists []; by rewrite app_nil_r].
    intros sid row Hr. by exists row.
Qed.

(** X5. Nothing is lost: after any sequence of calls every session that
    existed still exists, with the same owner, URL and listing id (only
    its status and its extraction time can have changed), and the ledger
    is the old ledger with rows appended. *)
Theorem sessions_and_ledger_are_kept (calls : list Call) (w : World) :
  (∀ sessionId row,
     property_sessions w !! sessionId = Some row →
     ∃ row', property_sessions (serve_all calls w) !! sessionId = Some row'
             ∧ user_id row' = user_id row
             ∧ rightmove_url row' = rightmove_url row
             ∧ rightmove_listing_id row' = rightmove_listing_id row)
  ∧ ∃ l, usage_ledger (serve_all calls w) = (usage_ledger w ++ l)%list.
Proof.
  revert w. induction calls as [|c rest IH]; intros w.
  - split; [|exists []; by rewrite app_nil_r]. intros sid row Hr. by exists row.
  - cbn [serve_all].
    destruct (serve_keeps (call_host c) (call_route c) (call_request c) w) as [Hk (l1 & Hl1)].
    destruct (IH (serve (call_host c) (call_route c) (call_request c) w).2) as [Hk' (l2 & Hl2)].
    split.
    + intros sid row Hr. destruct (Hk sid row Hr) as (r1 & Hr1 & e1 & e2 & e3).
      destruct (Hk' sid r1 Hr1) as (r2 & Hr2 & f1 & f2 & f3).
      exists r2. split_and!; congruence.
    + exists (l1 ++ l2)%list. by rewrite Hl2, Hl1, app_assoc.
Qed.

(** ** The one session a request moves *)

Lemma lands_refl (id : string) (w : World) : lands None id w w.
Proof. by split_and!. Qed.

Lemma lands_sessions (st : option LifecycleStage) (id : string) (w w1 w2 : World) :
  property_sessions w2 = property_sessions w1 →
  lands st id w w1 → lands st id w w2.
Proof. unfold lands, status_of. by intros ->. Qed.

Lemma lands_update_status (st : option LifecycleStage) (id : string) (s : LifecycleStage)
    (w w1 : World) :
  lands st id w w1 → lands (Some s) id w (update_status id s w1).
Proof.
  intros (Ho & He & _). unfold lands, status_of. rewrite update_status_sessions.
  destruct (property_sessions w1 !! id) as [r|] eqn:E.
  - split_and!.
    + intros sid Hne. rewrite lookup_insert_ne by done. by apply Ho.
    + intros _. rewrite lookup_insert_eq. by eexists.
    + intros s'. rewrite lookup_insert_eq. cbn. congruence.
  - split_and!; [exact Ho|by rewrite E|]. intros s'. by rewrite E.
Qed.

Lemma lands_updateSessionStatus (h : Host) (st : option LifecycleStage) (id : string)
    (s : LifecycleStage) (w w1 : World) :
  lands st id w w1 → lands (Some s) id w (Extract.updateSessionStatus h id s w1).
Proof.
  intros (Ho & He & _). unfold lands, status_of, Extract.updateSessionStatus.
  destruct (property_sessions w1 !! id) as [r|] eqn:E; cbn.
  - split_and!.
    + intros sid Hne. rewrite lookup_insert_ne by done. by apply Ho.
    + intros _. rewrite lookup_insert_eq. by eexists.
    + intros s'. rewrite lookup_insert_eq. cbn. congruence.
  - split_and!; [exact Ho|by rewrite E|]. intros s'. by rewrite E.
Qed.

(** Writing back the status the session has in [w]. *)
Lemma lands_revert (st : option LifecycleStage) (id : string) (r : SessionRow)
    (w w1 : World) :
  property_sessions w !! id = Some r →
  lands st id w w1 → lands None id w (update_status id (status r) w1).
Proof.
  intros Hr (Ho & He & _). unfold lands, status_of. rewrite update_status_sessions.
  destruct (He (ex_intro _ r Hr)) as [r1 Hr1]. rewrite Hr1, Hr.
  split_and!.
  - intros sid Hne. rewrite lookup_insert_ne by done. by apply Ho.
  - intros _. rewrite lookup_insert_eq. by eexists.
  - by rewrite lookup_insert_eq.
Qed.

Lemma lands_guard (id u : string) (from : list LifecycleStage) (to : LifecycleStage)
    (w w' : World) (b : bool) :
  setStatusGuarded id u from to w = (b, w') →
  lands (if b then Some to else None) id w w'.
Proof.
  unfold setStatusGuarded. destruct (property_sessions w !! id) as [r|] eqn:E.
  - destruct (bool_decide (user_id r = u) && bool_decide (status r ∈ from));
      intros [= <- <-]; [|apply lands_refl].
    unfold lands, status_of. cbn. split_and!.
    + intros sid Hne. by rewrite lookup_insert_ne.
    + intros _. rewrite lookup_insert_eq. by eexists.
    + intros s'. rewrite lookup_insert_eq. cbn. congruence.
  - intros [= <- <-]. apply lands_refl.
Qed.

Lemma quota_sessions (h : Host) (u : string) (a : Action) (w w' : World)
    (res : throws Usage.QuotaResult) :
  Usage.checkAndConsumeQuota h u a w = (res, w') →
  property_sessions w' = property_sessions w.
Proof.
  intros E. destruct (touches_quota _ _ _ _ _ _ E) as (q & _ & _ & Hq).
  destruct (Usage.ok q); destruct Hq as [_ ->].
  - by destruct (debited_frame h u a w) as [-> _].
  - by destruct (ensureUsageRow_frame h u w) as [-> _].
Qed.

Lemma callOpenAIWithWeb_sessions (h : Host) (w w' : World) (res : throws json) :
  Extract.callOpenAIWithWeb h w = (res, w') →
  property_sessions w' = property_sessions w.
Proof.
  intros E. pose proof (callOpenAIWithWeb_world h w) as H. rewrite E in H. cbn [snd] in H.
  subst w'. by destruct (has_api_key h).
Qed.

Lemma writeFactsRaw_sessions (h : Host) (id : string) (facts : json) (w w' : World)
    (res : throws unit) :
  Extract.writeFactsRaw h id facts w = (res, w') →
  property_sessions w' = property_sessions w.
Proof.
  unfold Extract.writeFactsRaw. by destruct (store_accepts h _ _); intros [= <- <-].
Qed.

Lemma lands_upsertPropertySession (u url : string) (lid : option string)
    (w w' : World) (res : throws (string * SessionRow)) :
  Extract.upsertPropertySession u url lid w = (res, w') →
  match res with
  | Returns (id, row) => lands (Some (status row)) id w w'
  | Throws _ => w' = w
  end.
Proof.
  assert (Hins : ∀ row,
    lands (Some (status row)) (fresh (dom (property_sessions w))) w
      (set_property_sessions
         (<[fresh (dom (property_sessions w)) := row]> (property_sessions w)) w)).
  { intros row. unfold lands, status_of. cbn. split_and!.
    - intros sid Hne. by rewrite lookup_insert_ne.
    - intros _. rewrite lookup_insert_eq. by eexists.
    - intros s'. rewrite lookup_insert_eq. cbn. congruence. }
  assert (Hex : ∀ id row, property_sessions w !! id = Some row →
                          lands (Some (status row)) id w w).
  { intros id row Hr. unfold lands, status_of. rewrite Hr. cbn.
    split_and!; [done|done|congruence]. }
  unfold Extract.upsertPropertySession, Extract.by_listing, Extract.by_url.
  destruct lid as [l|].
  - destruct (Extract.maybeSingle _) as [[id0 r0]|] eqn:E.
    + intros [= <- <-]. apply maybeSingle_filter_owned in E as (Hl & _). by apply Hex.
    + destruct (Extract.enforceMaxLinks u w); unfold Extract.insert_session;
        intros [= <- <-]; [apply Hins|done].
  - destruct (Extract.maybeSingle _) as [[id0 r0]|] eqn:E.
    + intros [= <- <-]. apply maybeSingle_filter_owned in E as (Hl & _). by apply Hex.
    + destruct (Extract.enforceMaxLinks u w); unfold Extract.insert_session;
        intros [= <- <-]; [apply Hins|done].
Qed.

(** A later piece of the same handler, on the same session. *)
Lemma lands_trans (st1 st2 : option LifecycleStage) (id : string) (w w1 w2 : World) :
  lands st1 id w w1 → lands st2 id w1 w2 →
  lands (match st2 with Some s => Some s | None => st1 end) id w w2.
Proof.
  intros (o1 & e1 & s1) (o2 & e2 & s2). unfold lands. split_and!.
  - intros sid Hne. rewrite o2 by done. by apply o1.
  - auto.
  - destruct st2 as [s|]; [done|]. destruct st1 as [s|]; rewrite s2; [done|done].
Qed.

Lemma lands_upsert_after (st0 : option LifecycleStage) (u url : string)
    (lid : option string) (id : string) (row : SessionRow) (w w1 w2 : World) :
  lands st0 id w w1 →
  Extract.upsertPropertySession u url lid w1 = (Returns (id, row), w2) →
  lands (Some (status row)) id w w2.
Proof.
  intros H1 E. pose proof (lands_upsertPropertySession _ _ _ _ _ _ E) as H2. cbn in H2.
  exact (lands_trans _ _ _ _ _ _ H1 H2).
Qed.

Lemma upsert_throws_sessions (u url : string) (lid : option string) (e : Exn)
    (w1 w2 : World) :
  Extract.upsertPropertySession u url lid w1 = (Throws e, w2) →
  property_sessions w2 = property_sessions w1.
Proof. intros E. by rewrite (lands_upsertPropertySession _ _ _ _ _ _ E). Qed.

Lemma moves_intro (route : Route) (req : Request) (r : Response) (w w' : World)
    (id : string) (st : option LifecycleStage) :
  lands st id w w' →
  (∀ s, st = Some s → s ∈ written route) →
  (∀ name, reported_status r = Some name →
     names route req id
     ∧ ∃ r0, property_sessions w !! id = Some r0
             ∧ stage_name (default (status r0) st) = name) →
  moves route req w (r, w').
Proof.
  intros HL Hw Hn. exists id, st. split_and!; [done|done|].
  intros name Hr. destruct (Hn name Hr) as (Hnames & r0 & Hr0 & Hs). split; [done|].
  destruct HL as (_ & He & Hst). destruct (He (ex_intro _ r0 Hr0)) as [r1 Hr1].
  cbn [snd]. destruct st as [s|]; cbn [default] in Hs.
  - exists s. split; [|done]. unfold status_of in *. rewrite Hr1 in *. cbn in *.
    by rewrite (Hst (status r1) eq_refl).
  - exists (status r0). split; [|done]. rewrite Hst. unfold status_of. by rewrite Hr0.
Qed.

Lemma moves_nothing (route : Route) (req : Request) (r : Response) (w : World) :
  reported_status r = None → moves route req w (r, w).
Proof.
  intros Hr. exists EmptyString, None. split_and!; [apply lands_refl|done|].
  intros name. cbn [fst]. by rewrite Hr.
Qed.

Local Ltac land :=
  repeat first
    [ apply lands_refl
    | match goal with
      | Hr : property_sessions ?w !! ?id = Some ?r
        |- lands _ _ ?w (update_status ?id (status ?r) _) =>
          eapply lands_revert; [exact Hr|]
      | |- lands _ _ _ (update_status _ _ _) => eapply lands_update_status
      | |- lands _ _ _ (Extract.updateSessionStatus _ _ _ _) =>
          eapply lands_updateSessionStatus
      | |- lands _ _ _ (set_listing_facts_raw _ ?W) =>
          apply (lands_sessions _ _ _ W); [reflexivity|]
      | |- lands _ _ _ (set_listing_facts_confirmed _ ?W) =>
          apply (lands_sessions _ _ _ W); [reflexivity|]
      | |- lands _ _ _ (set_listing_stats_raw _ ?W) =>
          apply (lands_sessions _ _ _ W); [reflexivity|]
      | |- lands _ _ _ (set_listing_stats_confirmed _ ?W) =>
          apply (lands_sessions _ _ _ W); [reflexivity|]
      | |- lands _ _ _ (set_listing_evaluation_raw _ ?W) =>
          apply (lands_sessions _ _ _ W); [reflexivity|]
      | |- lands _ _ _ (set_preferences _ ?W) =>
          apply (lands_sessions _ _ _ W); [reflexivity|]
      | |- lands _ _ _ (count_openai_call ?W) =>
          apply (lands_sessions _ _ _ W); [reflexivity|]
      | Eq : Usage.checkAndConsumeQuota _ _ _ ?W = (_, ?W') |- lands _ _ _ ?W' =>
          apply (lands_sessions _ _ _ W); [exact (quota_sessions _ _ _ _ _ _ Eq)|]
      | Eq : Extract.callOpenAIWithWeb _ ?W = (_, ?W') |- lands _ _ _ ?W' =>
          apply (lands_sessions _ _ _ W); [exact (callOpenAIWithWeb_sessions _ _ _ _ Eq)|]
      | Eq : Extract.writeFactsRaw _ _ _ ?W = (_, ?W') |- lands _ _ _ ?W' =>
          apply (lands_sessions _ _ _ W); [exact (writeFactsRaw_sessions _ _ _ _ _ _ Eq)|]
      | Eu : Extract.upsertPropertySession _ _ _ ?W = (Returns _, ?W') |- lands _ _ _ ?W' =>
          eapply lands_upsert_after; [|exact Eu]
      | Eu : Extract.upsertPropertySession _ _ _ ?W = (Throws _, ?W') |- lands _ _ _ ?W' =>
          apply (lands_sessions _ _ _ W); [exact (upsert_throws_sessions _ _ _ _ _ _ Eu)|]
      | Eg : setStatusGuarded _ _ _ _ ?w = (_, ?W') |- lands _ _ ?w ?W' =>
          exact (lands_guard _ _ _ _ _ _ _ Eg)
      end ].

Local Ltac in_written :=
  let s := fresh "s" in
  cbn; intros s; first [discriminate | intros [= <-]; set_solver].

Local Ltac named :=
  cbn [names];
  first
    [ unfold request_session;
      match goal with
      | H : negb (truthy_opt _) = false |- _ => apply negb_false_iff in H; rewrite H
      end; reflexivity
    | match goal with
      | H : payload _ = _ |- _ => rewrite H
      end; eexists; split; [eassumption|reflexivity] ].

Local Ltac reported :=
  let n := fresh "n" in let Hn := fresh "Hn" in
  intros n Hn; cbn in Hn;
  first
    [ discriminate Hn
    | injection Hn as <-; split; [|eexists; split; [eassumption|done]]; named ].

Local Ltac moved :=
  repeat match goal with
         | H : negb ?b = _ |- _ => is_var b; destruct b; try discriminate H; clear H
         end;
  cbn [fst snd];
  first
    [ apply moves_nothing; reflexivity
    | eapply moves_intro; [land|in_written|reported] ].

Lemma Stats_POST_moves (h : Host) (req : Request) (w : World) :
  moves POST_stats req w (Stats.POST h req w).
Proof.
  unfold Stats.POST, Stats.run, Stats.finish. repeat case_match; moved.
Qed.

Lemma Evaluate_POST_moves (h : Host) (req : Request) (w : World) :
  moves POST_evaluate req w (Evaluate.POST h req w).
Proof.
  unfold Evaluate.POST, Evaluate.run, Evaluate.finish. repeat case_match; moved.
Qed.

Lemma StatsConfirm_POST_moves (h : Host) (req : Request) (w : World) :
  moves POST_stats_confirm req w (StatsConfirm.POST h req w).
Proof.
  unfold StatsConfirm.POST. repeat case_match; moved.
  Unshelve. all: exact EmptyString.
Qed.

Lemma Confirm_POST_moves (h : Host) (req : Request) (w : World) :
  moves POST_confirm req w (Confirm.POST h req w).
Proof.
  unfold Confirm.POST. repeat case_match; moved.
  Unshelve. all: exact EmptyString.
Qed.

Lemma Preferences_GET_moves (h : Host) (req : Request) (w : World) :
  moves GET_preferences req w (Preferences.GET h req w).
Proof.
  unfold Preferences.GET. repeat case_match; moved.
  Unshelve. all: exact EmptyString.
Qed.

Lemma Preferences_POST_moves (h : Host) (req : Request) (w : World) :
  moves POST_preferences req w (Preferences.POST h req w).
Proof.
  unfold Preferences.POST. repeat case_match; moved.
  Unshelve. all: exact EmptyString.
Qed.

Lemma Extract_POST_moves (h : Host) (req : Request) (w : World) :
  moves POST_extract req w (Extract.POST h req w).
Proof.
  unfold Extract.POST, Extract.invalid_jwt. repeat case_match; subst; moved.
  Unshelve. all: exact EmptyString.
Qed.

Lemma serve_moves (h : Host) (route : Route) (req : Request) (w : World) :
  moves route req w (serve h route req w).
Proof.
  destruct route; cbn [serve].
  - apply Extract_POST_moves.
  - apply Confirm_POST_moves.
  - apply Stats_POST_moves.
  - apply StatsConfirm_POST_moves.
  - apply Evaluate_POST_moves.
  - apply Preferences_GET_moves.
  - apply Preferences_POST_moves.
Qed.

(** X6. A request moves at most one session, and only into a status its
    route writes: the session tables before and after differ at most at
    one session id, and the status of a session afterwards is the one it
    had or one of [written route] (extract: AI_PARSED or
    NEEDS_CONFIRMATION; confirm: CONFIRMED; compute-stats: STATS_RUNNING,
    STATS_FAILED, STATS_NEEDS_CONFIRMATION or STATS_READY; stats
    confirmation: STATS_READY; evaluate: EVAL_RUNNING, EVAL_FAILED or
    AI_READY; the preferences routes: none). In particular no request
    leaves a session in CREATED, FETCHED_HTML, EXTRACTED_BASE,
    VIDEO_REQUESTED or VIDEO_READY that was not there before. *)
Theorem request_moves_one_session
    (h : Host) (route : Route) (req : Request) (w : World) :
  let w' := (serve h route req w).2 in
  (∃ id, ∀ sid, sid ≠ id → property_sessions w' !! sid = property_sessions w !! sid)
  ∧ (∀ sid s, status_of w' sid = Some s →
       status_of w sid = Some s ∨ s ∈ written route)
  ∧ (∀ sid s, status_of w' sid = Some s →
       s ∈ [CREATED; FETCHED_HTML; EXTRACTED_BASE; VIDEO_REQUESTED; VIDEO_READY] →
       status_of w sid = Some s).
Proof.
  intros w'. destruct (serve_moves h route req w) as (id & st & (Ho & He & Hst) & Hw & _).
  fold w' in Ho, He, Hst.
  assert (Hmid : ∀ sid s, status_of w' sid = Some s →
                          status_of w sid = Some s ∨ s ∈ written route).
  { intros sid s Hs. destruct (decide (sid = id)) as [->|Hne].
    - destruct st as [s0|].
      + right. rewrite (Hst s Hs). by apply Hw.
      + left. by rewrite <- Hst.
    - left. unfold status_of in *. by rewrite <- Ho. }
  split_and!; [by exists id|done|].
  intros sid s Hs Hin. destruct (Hmid sid s Hs) as [|Hr]; [done|exfalso].
  destruct route; cbn [written] in Hr;
    repeat (apply elem_of_cons in Hr as [->|Hr]);
    try (by apply elem_of_nil in Hr);
    repeat (apply elem_of_cons in Hin as [Hin|Hin]; try discriminate Hin);
    by apply elem_of_nil in Hin.
Qed.

(** X7. The status a response reports. For a request served alone,
    whenever the body of the response has a [status] member (the 200 and
    the 409 answers of compute-stats, of the stats confirmation and of
    evaluate), the session the request names has, in the world after the
    request, the status of that name. The 409 that follows a lost guard
    reports [seen], the status the request read at its start, whatever is
    stored by then, and writes nothing. In evaluate served alone the guard
    is never lost: the status read is in the source states, so that 409 is
    the answer only to a request that met a write between its read and its
    guard. *)
Theorem reported_status_is_stored
    (h : Host) (route : Route) (req : Request) (w : World) (name : string) :
  (reported_status (serve h route req w).1 = Some name →
   ∃ sid s, names route req sid
            ∧ status_of (serve h route req w).2 sid = Some s
            ∧ stage_name s = name)
  ∧ (∀ c sessionId userId seen w0,
       (guard_at c sessionId userId w0).1 = false →
       reported_status (run_at h c sessionId userId seen w0).1 = Some (stage_name seen)
       ∧ code (run_at h c sessionId userId seen w0).1 = 409
       ∧ (run_at h c sessionId userId seen w0).2 = w0)
  ∧ (∀ sessionId userId r,
       owns w userId sessionId r →
       status r ∈ Evaluate.evalFrom →
       (guard_at EvaluateEntry sessionId userId w).1 = true).
Proof.
  split_and!.
  - intros Hr. destruct (serve_moves h route req w) as (id & st & _ & _ & Hn).
    destruct (Hn name Hr) as (Hnames & s & Hs & Hname). by exists id, s.
  - intros c sessionId userId seen w0 Hg.
    by rewrite (run_at_conflict h c sessionId userId seen w0 Hg).
  - intros sessionId userId r (Hr & Ho) Hs. unfold guard_at.
    by rewrite (setStatusGuarded_true _ _ _ _ _ r Hr Ho Hs).
Qed.

(** ** The sessions as extract identifies them *)

Lemma keys_ext (w w' : World) :
  property_sessions w' = property_sessions w → session_keys w' = session_keys w.
Proof. unfold session_keys. by intros ->. Qed.

Lemma keys_insert_same (m : gmap string SessionRow) (id : string) (r r' : SessionRow) :
  m !! id = Some r → session_key r' = session_key r →
  session_key <$> <[id := r']> m = session_key <$> m.
Proof.
  intros Hr Hk. rewrite fmap_insert. apply insert_id. by rewrite lookup_fmap, Hr, Hk.
Qed.

Lemma keys_update_status (id : string) (s : LifecycleStage) (w : World) :
  session_keys (update_status id s w) = session_keys w.
Proof.
  unfold session_keys. rewrite update_status_sessions.
  destruct (property_sessions w !! id) as [r|] eqn:E; [|done].
  by apply (keys_insert_same _ _ r).
Qed.

Lemma keys_updateSessionStatus (h : Host) (id : string) (s : LifecycleStage) (w : World) :
  session_keys (Extract.updateSessionStatus h id s w) = session_keys w.
Proof.
  unfold session_keys, Extract.updateSessionStatus.
  destruct (property_sessions w !! id) as [r|] eqn:E; [|done]. cbn.
  by apply (keys_insert_same _ _ r).
Qed.

Lemma keys_guard (id u : string) (from : list LifecycleStage) (to : LifecycleStage)
    (w w' : World) (b : bool) :
  setStatusGuarded id u from to w = (b, w') → session_keys w' = session_keys w.
Proof.
  unfold setStatusGuarded. destruct (property_sessions w !! id) as [r|] eqn:E.
  - destruct (bool_decide (user_id r = u) && bool_decide (status r ∈ from));
      intros [= <- <-]; [|done].
    unfold session_keys. cbn. by apply (keys_insert_same _ _ r).
  - by intros [= <- <-].
Qed.

Lemma keys_quota (h : Host) (u : string) (a : Action) (w w' : World)
    (res : throws Usage.QuotaResult) :
  Usage.checkAndConsumeQuota h u a w = (res, w') → session_keys w' = session_keys w.
Proof. intros E. apply keys_ext. by eapply quota_sessions. Qed.

Lemma keys_callOpenAIWithWeb (h : Host) (w w' : World) (res : throws json) :
  Extract.callOpenAIWithWeb h w = (res, w') → session_keys w' = session_keys w.
Proof. intros E. apply keys_ext. by eapply callOpenAIWithWeb_sessions. Qed.

Lemma keys_writeFactsRaw (h : Host) (id : string) (facts : json) (w w' : World)
    (res : throws unit) :
  Extract.writeFactsRaw h id facts w = (res, w') → session_keys w' = session_keys w.
Proof. intros E. apply keys_ext. by eapply writeFactsRaw_sessions. Qed.

(** What [upsertPropertySession] does to the sessions: the one found is
    returned, or, below the cap, a new one is stored under an unused id. *)
Lemma upsert_keys (u url : string) (lid : option string) (w w' : World)
    (res : throws (string * SessionRow)) :
  Extract.upsertPropertySession u url lid w = (res, w') →
  session_keys w' = session_keys w
  ∨ (property_sessions w !! fresh (dom (property_sessions w)) = None
     ∧ session_keys w'
       = <[fresh (dom (property_sessions w)) := (u, url, lid)]> (session_keys w)
     ∧ (Extract.count_sessions u w < 100)%nat
     ∧ match lid with
       | Some l => Extract.by_listing u l w = None
       | None => Extract.by_url u url w = None
       end).
Proof.
  assert (Hf : property_sessions w !! fresh (dom (property_sessions w)) = None).
  { apply not_elem_of_dom. apply is_fresh. }
  unfold Extract.upsertPropertySession, Extract.enforceMaxLinks, Extract.insert_session.
  destruct lid as [l|].
  - destruct (Extract.by_listing u l w) as [[id0 r0]|] eqn:E; [intros [= <- <-]; by left|].
    destruct (100 <=? Extract.count_sessions u w)%nat eqn:Hc; intros [= <- <-]; [by left|].
    right. apply Nat.leb_gt in Hc. split_and!; [done| |done|done].
    unfold session_keys. cbn. by rewrite fmap_insert.
  - destruct (Extract.by_url u url w) as [[id0 r0]|] eqn:E; [intros [= <- <-]; by left|].
    destruct (100 <=? Extract.count_sessions u w)%nat eqn:Hc; intros [= <- <-]; [by left|].
    right. apply Nat.leb_gt in Hc. split_and!; [done| |done|done].
    unfold session_keys. cbn. by rewrite fmap_insert.
Qed.

Local Ltac keys :=
  cbn [fst snd];
  repeat first
    [ rewrite keys_update_status
    | rewrite keys_updateSessionStatus
    | match goal with
      | |- context [session_keys (set_listing_facts_raw ?m ?W)] =>
          change (session_keys (set_listing_facts_raw m W)) with (session_keys W)
      | |- context [session_keys (set_listing_facts_confirmed ?m ?W)] =>
          change (session_keys (set_listing_facts_confirmed m W)) with (session_keys W)
      | |- context [session_keys (set_listing_stats_raw ?m ?W)] =>
          change (session_keys (set_listing_stats_raw m W)) with (session_keys W)
      | |- context [session_keys (set_listing_stats_confirmed ?m ?W)] =>
          change (session_keys (set_listing_stats_confirmed m W)) with (session_keys W)
      | |- context [session_keys (set_listing_evaluation_raw ?m ?W)] =>
          change (session_keys (set_listing_evaluation_raw m W)) with (session_keys W)
      | |- context [session_keys (set_preferences ?m ?W)] =>
          change (session_keys (set_preferences m W)) with (session_keys W)
      | |- context [session_keys (count_openai_call ?W)] =>
          change (session_keys (count_openai_call W)) with (session_keys W)
      | E : Usage.checkAndConsumeQuota _ _ _ _ = (_, ?W') |- context [session_keys ?W'] =>
          rewrite (keys_quota _ _ _ _ _ _ E)
      | E : Extract.callOpenAIWithWeb _ _ = (_, ?W') |- context [session_keys ?W'] =>
          rewrite (keys_callOpenAIWithWeb _ _ _ _ E)
      | E : Extract.writeFactsRaw _ _ _ _ = (_, ?W') |- context [session_keys ?W'] =>
          rewrite (keys_writeFactsRaw _ _ _ _ _ _ E)
      | E : setStatusGuarded _ _ _ _ _ = (_, ?W') |- context [session_keys ?W'] =>
          rewrite (keys_guard _ _ _ _ _ _ _ E)
      end ].

Lemma Stats_POST_keys (h : Host) (req : Request) (w : World) :
  session_keys (Stats.POST h req w).2 = session_keys w.
Proof. unfold Stats.POST, Stats.run, Stats.finish. repeat case_match; keys; done. Qed.

Lemma Evaluate_POST_keys (h : Host) (req : Request) (w : World) :
  session_keys (Evaluate.POST h req w).2 = session_keys w.
Proof. unfold Evaluate.POST, Evaluate.run, Evaluate.finish. repeat case_match; keys; done. Qed.

Lemma StatsConfirm_POST_keys (h : Host) (req : Request) (w : World) :
  session_keys (StatsConfirm.POST h req w).2 = session_keys w.
Proof. unfold StatsConfirm.POST. repeat case_match; keys; done. Qed.

Lemma Confirm_POST_keys (h : Host) (req : Request) (w : World) :
  session_keys (Confirm.POST h req w).2 = session_keys w.
Proof. unfold Confirm.POST. repeat case_match; keys; done. Qed.

Lemma Preferences_GET_keys (h : Host) (req : Request) (w : World) :
  session_keys (Preferences.GET h req w).2 = session_keys w.
Proof. unfold Preferences.GET. repeat case_match; keys; done. Qed.

Lemma Preferences_POST_keys (h : Host) (req : Request) (w : World) :
  session_keys (Preferences.POST h req w).2 = session_keys w.
Proof. unfold Preferences.POST. repeat case_match; keys; done. Qed.

Lemma count_sessions_ext (u : string) (w w' : World) :
  property_sessions w' = property_sessions w →
  Extract.count_sessions u w' = Extract.count_sessions u w.
Proof. unfold Extract.count_sessions. by intros ->. Qed.

Lemma Extract_POST_keys (h : Host) (req : Request) (w : World) :
  adds_at_most_one h POST_extract req w (Extract.POST h req w).2.
Proof.
  unfold adds_at_most_one, Extract.POST. repeat case_match; subst.
  all: try (left; keys; done).
  all: match goal with
       | Eu : Extract.upsertPropertySession _ _ _ _ = (_, _) |- _ =>
           destruct (upsert_keys _ _ _ _ _ _ Eu) as [Hk|(Hn & Hk & Hc & Hf)]
       end.
  all: try (left; keys; rewrite Hk; keys; done).
  all: match goal with
       | Eq : Usage.checkAndConsumeQuota _ _ _ ?w0 = (_, ?w1),
         Ec : Extract.callOpenAIWithWeb _ ?w1 = (_, ?w2) |- _ =>
           assert (Hs : property_sessions w2 = property_sessions w0)
             by (etrans; [exact (callOpenAIWithWeb_sessions _ _ _ _ Ec)
                         |exact (quota_sessions _ _ _ _ _ _ Eq)])
       end.
  all: right; split; [done|]; eexists _, _, _; split_and!;
    [ eexists; split; eassumption
    | reflexivity
    | rewrite <- Hs; exact Hn
    | keys; rewrite Hk; keys; reflexivity
    | rewrite <- (count_sessions_ext _ _ _ Hs); exact Hc
    | rewrite <- (proj1 (find_session_ext _ _ _ _ Hs)); unfold find_session;
      by destruct (parseRightmoveListingId _) ].
Qed.

Lemma serve_adds_at_most_one (h : Host) (route : Route) (req : Request) (w : World) :
  adds_at_most_one h route req w (serve h route req w).2.
Proof.
  destruct route; cbn [serve]; [apply Extract_POST_keys|left..].
  - apply Confirm_POST_keys.
  - apply Stats_POST_keys.
  - apply StatsConfirm_POST_keys.
  - apply Evaluate_POST_keys.
  - apply Preferences_GET_keys.
  - apply Preferences_POST_keys.
Qed.

Lemma keys_lookup (w : World) (id u url : string) (l : option string) :
  session_keys w !! id = Some (u, url, l) ↔
  ∃ r, property_sessions w !! id = Some r
       ∧ user_id r = u ∧ rightmove_url r = url ∧ rightmove_listing_id r = l.
Proof.
  unfold session_keys. rewrite lookup_fmap, fmap_Some. unfold session_key. split.
  - intros (r & Hr & [= -> -> ->]). by exists r.
  - intros (r & Hr & <- & <- & <-). by exists r.
Qed.

Lemma count_sessions_keys (u : string) (w : World) :
  Extract.count_sessions u w
  = size (filter (fun kr : string * (string * string * option string) => kr.2.1.1 = u)
            (session_keys w)).
Proof.
  unfold Extract.count_sessions, session_keys. by rewrite map_filter_fmap, map_size_fmap.
Qed.

(** The cap of 100 sessions per user over one call. *)
Lemma serve_cap (h : Host) (route : Route) (req : Request) (w : World) (u : string) :
  (Extract.count_sessions u (serve h route req w).2
   ≤ Extract.count_sessions u w `max` 100)%nat.
Proof.
  destruct (serve_adds_at_most_one h route req w)
    as [Hk|(_ & id & u0 & url & _ & _ & Hn & Hk & Hc & _)];
    rewrite !count_sessions_keys, Hk; [lia|].
  assert (Hkn : session_keys w !! id = None).
  { unfold session_keys. by rewrite lookup_fmap, Hn. }
  destruct (decide (u0 = u)) as [->|Hne].
  - rewrite map_filter_insert_True by done.
    rewrite map_size_insert_None by (by apply map_lookup_filter_None; left).
    rewrite count_sessions_keys in Hc. lia.
  - rewrite map_filter_insert_not'; [lia|done|]. intros y. by rewrite Hkn.
Qed.

(** An insert adds a session to its owner. *)
Lemma count_sessions_insert_session (u : string) (r : SessionRow) (w : World) :
  user_id r = u →
  Extract.count_sessions u (Extract.insert_session r w).2 = S (Extract.count_sessions u w).
Proof.
  intros Hu. unfold Extract.count_sessions, Extract.insert_session.
  cbn [snd property_sessions set_property_sessions].
  assert (Hnone : property_sessions w !! fresh (dom (property_sessions w)) = None).
  { apply not_elem_of_dom. apply is_fresh. }
  rewrite map_filter_insert_True by done.
  by rewrite map_size_insert_None by (by apply map_lookup_filter_None; left).
Qed.

(** X8. The cap of 100 sessions. Served one after the other, no calls take
    a user who has at most 100 sessions past 100. The count and the insert
    of [upsertPropertySession] are two statements: in a world in which the
    user has fewer than 100 sessions the count lets every request pass
    that asks, and two inserts that follow leave the user two sessions
    more, so two extracts that overlap at 99 sessions leave 101. *)
Theorem session_cap_is_kept (calls : list Call) (w : World) (u : string) :
  ((Extract.count_sessions u w ≤ 100)%nat →
   (Extract.count_sessions u (serve_all calls w) ≤ 100)%nat)
  ∧ (∀ w0 r1 r2,
       user_id r1 = u → user_id r2 = u →
       (Extract.count_sessions u w0 < 100)%nat →
       Extract.enforceMaxLinks u w0 = Returns tt
       ∧ Extract.count_sessions u
           (Extract.insert_session r2 (Extract.insert_session r1 w0).2).2
         = S (S (Extract.count_sessions u w0))).
Proof.
  split.
  - revert w. induction calls as [|c rest IH]; intros w Hw; [done|].
    cbn [serve_all]. apply IH.
    pose proof (serve_cap (call_host c) (call_route c) (call_request c) w u). lia.
  - intros w0 r1 r2 H1 H2 Hc. split.
    + unfold Extract.enforceMaxLinks. apply Nat.leb_gt in Hc. by rewrite Hc.
    + by rewrite !count_sessions_insert_session.
Qed.

Lemma maybeSingle_None_other (m : gmap string SessionRow) (id : string) (r : SessionRow) :
  Extract.maybeSingle (map_to_list m) = None → m !! id = Some r →
  ∃ id' r', id' ≠ id ∧ m !! id' = Some r'.
Proof.
  intros Hm Hr.
  pose proof (NoDup_fst_map_to_list m) as Hnd.
  assert (Hin : ∀ k v, (k, v) ∈ map_to_list m → m !! k = Some v).
  { intros k v. by rewrite elem_of_map_to_list. }
  destruct (map_to_list m) as [|[k1 v1] [|[k2 v2] rest]] eqn:El.
  - apply map_to_list_empty_iff in El. subst m. by rewrite lookup_empty in Hr.
  - done.
  - cbn in Hnd. apply NoDup_cons in Hnd as [Hk1 _].
    assert (k1 ≠ k2) by (intros ->; apply Hk1; left).
    destruct (decide (k1 = id)) as [->|Hne].
    + exists k2, v2. split; [done|]. apply Hin. right. left.
    + exists k1, v1. split; [done|]. apply Hin. left.
Qed.

Lemma one_session_per_listing_new (w : World) (id u url : string) :
  one_session_per_listing w →
  find_session u url w = None →
  ∀ id2 url2, session_keys w !! id2 = Some (u, url2, parseRightmoveListingId url) →
              (parseRightmoveListingId url = None → url = url2) → False.
Proof.
  intros [Hwf Hun] Hf id2 url2 H2 Hurl.
  apply keys_lookup in H2 as (r2 & Hr2 & Hu2 & Hurl2 & Hl2).
  unfold find_session, Extract.by_listing, Extract.by_url in Hf.
  destruct (parseRightmoveListingId url) as [lid|] eqn:Ep.
  - eapply maybeSingle_None_other in Hf as (id3 & r3 & Hne & Hr3);
      [|apply map_lookup_filter_Some; split; [exact Hr2|by cbn]].
    apply map_lookup_filter_Some in Hr3 as (Hr3 & Hu3 & Hl3). cbn in Hu3, Hl3.
    apply Hne. apply (Hun id3 id2 u (rightmove_url r3) url2 (Some lid)).
    + apply keys_lookup. by exists r3.
    + apply keys_lookup. by exists r2.
    + done.
  - specialize (Hurl eq_refl). subst url2.
    eapply maybeSingle_None_other in Hf as (id3 & r3 & Hne & Hr3);
      [|apply map_lookup_filter_Some; split; [exact Hr2|by cbn]].
    apply map_lookup_filter_Some in Hr3 as (Hr3 & Hu3 & Hl3). cbn in Hu3, Hl3.
    apply Hne. apply (Hun id3 id2 u url url None).
    + apply keys_lookup. exists r3. split_and!; [done|done|done|].
      rewrite (Hwf id3 u url (rightmove_listing_id r3)); [by rewrite Ep|].
      apply keys_lookup. by exists r3.
    + apply keys_lookup. by exists r2.
    + done.
Qed.

Lemma serve_one_session_per_listing (h : Host) (route : Route) (req : Request) (w : World) :
  one_session_per_listing w → one_session_per_listing (serve h route req w).2.
Proof.
  intros Hw.
  destruct (serve_adds_at_most_one h route req w)
    as [Hk|(_ & id & u0 & url & _ & _ & Hn & Hk & _ & Hf)];
    unfold one_session_per_listing; rewrite Hk; [done|].
  assert (Hkn : session_keys w !! id = None).
  { unfold session_keys. by rewrite lookup_fmap, Hn. }
  pose proof (one_session_per_listing_new w id u0 url Hw Hf) as Hnew.
  destruct Hw as [Hwf Hun]. split.
  - intros id1 u url1 l [(<- & [= <- <- <-])|(Hne & H1)]%lookup_insert_Some; [done|].
    by eapply Hwf.
  - intros id1 id2 u url1 url2 l
      [(<- & [= <- <- <-])|(Hne1 & H1)]%lookup_insert_Some
      [(<- & E2)|(Hne2 & H2)]%lookup_insert_Some Hurl.
    + done.
    + exfalso. by eapply Hnew.
    + injection E2 as <- <- <-. exfalso. eapply Hnew; [exact H1|].
      intros Hp. symmetry. by apply Hurl.
    + by eapply Hun.
Qed.

(** X9. Whatever calls are served, no user gets a second session on a
    listing: when the listing id of every session is the one its URL
    parses to, and no user has two sessions on one listing id, or two
    sessions without listing id on one URL, the same holds afterwards. *)
Theorem one_session_per_listing_is_kept (calls : list Call) (w : World) :
  one_session_per_listing w → one_session_per_listing (serve_all calls w).
Proof.
  revert w. induction calls as [|c rest IH]; intros w Hw; [done|].
  cbn [serve_all]. apply IH. by apply serve_one_session_per_listing.
Qed.

(** ** Extract: the stages and the new session *)

Lemma quota_facts_raw (h : Host) (u : string) (a : Action) (w w' : World)
    (res : throws Usage.QuotaResult) :
  Usage.checkAndConsumeQuota h u a w = (res, w') →
  listing_facts_raw w' = listing_facts_raw w.
Proof.
  intros E. destruct (touches_quota _ _ _ _ _ _ E) as (q & _ & _ & Hq).
  destruct (Usage.ok q); destruct Hq as [_ ->].
  - by destruct (debited_frame h u a w) as (_ & _ & -> & _).
  - by destruct (ensureUsageRow_frame h u w) as (_ & _ & -> & _).
Qed.

Lemma callOpenAIWithWeb_facts_raw (h : Host) (w w' : World) (res : throws json) :
  Extract.callOpenAIWithWeb h w = (res, w') →
  listing_facts_raw w' = listing_facts_raw w.
Proof.
  intros E. pose proof (callOpenAIWithWeb_world h w) as H. rewrite E in H. cbn [snd] in H.
  subst w'. by destruct (has_api_key h).
Qed.

Lemma is_stage_name (s name : string) :
  Extract.is_stage (JStr s) name = String.eqb s name.
Proof. done. Qed.

(** X10. The stages of extract before the full one store nothing: a
    request whose stage is ["auth"], ["quota"], ["fetch"] or ["openai"]
    leaves the session table and the raw facts as they were, whatever it
    is answered; with ["auth"] it leaves the whole world as it was. *)
Theorem extract_partial_stages_store_nothing
    (h : Host) (req : Request) (w : World) (s : string) :
  extract_stage req = JStr s →
  s ∈ partial_stages →
  let w' := (Extract.POST h req w).2 in
  property_sessions w' = property_sessions w
  ∧ listing_facts_raw w' = listing_facts_raw w
  ∧ (s = "auth" → w' = w).
Proof.
  intros Hst Hin w'. subst w'. unfold Extract.POST.
  destruct (bearer req) as [token|]; [|done].
  unfold extract_stage in Hst.
  destruct (payload req) eqn:Hp; [done|..].
  all: cbv zeta; rewrite Hst; rewrite !is_stage_name.
  all: destruct (getUser h token) as [u|]; [|done].
  all: unfold partial_stages in Hin;
    repeat (apply elem_of_cons in Hin as [->|Hin]); [..|by apply elem_of_nil in Hin].
  all: cbn [String.eqb Ascii.eqb Bool.eqb andb orb negb]; try done.
  all: destruct (Usage.checkAndConsumeQuota h u A_extract w) as [[q|e] w1] eqn:Eq;
    pose proof (quota_sessions _ _ _ _ _ _ Eq) as Hs1;
    pose proof (quota_facts_raw _ _ _ _ _ _ Eq) as Hf1;
    [|done].
  all: destruct (Usage.ok q); cbn [negb]; [|done].
  all: try done.
  all: repeat case_match; subst; cbn [snd]; try done.
  all: match goal with
       | Ec : Extract.callOpenAIWithWeb _ _ = (_, _) |- _ =>
           rewrite (callOpenAIWithWeb_sessions _ _ _ _ Ec),
                   (callOpenAIWithWeb_facts_raw _ _ _ _ Ec)
       end; done.
Qed.

(** Extract from the debit on: no further row is paid. *)
Lemma Extract_POST_after_debit (h : Host) (req : Request) (w : World) (u : string) :
  authenticated h req u →
  payload req ≠ JNull →
  Extract.is_stage (extract_stage req) "auth" = false →
  quota_available h u A_extract w →
  ∃ d c, touches h d c u (debited h u A_extract w) (Extract.POST h req w).2 ∧ d = 0%nat.
Proof.
  intros (token & Hb & Hu) Hnn Hst Hq. unfold Extract.POST. rewrite Hb.
  unfold extract_stage in Hst.
  destruct (payload req) eqn:Hp; [done|..].
  all: rewrite Hu; cbv zeta; rewrite Hst.
  all: rewrite checkAndConsumeQuota_available by done; cbn [Usage.ok negb].
  all: pose proof (touches_refl h u (debited h u A_extract w)) as H0.
  all: repeat case_match; cbn [snd].
  all: repeat match goal with
       | Hq' : touches ?h0 _ _ ?u0 _ _,
         H : Extract.callOpenAIWithWeb ?h0 _ = (_, _) |- _ =>
           let c := fresh "c" in
           destruct (touches_callOpenAIWithWeb h0 u0 _ _ _ H) as (c & ? & ?); clear H
       | Hq' : touches ?h0 _ _ ?u0 _ _,
         H : Extract.upsertPropertySession ?u0 _ _ _ = (Returns (?id, ?row), _) |- _ =>
           let Ht := fresh "Ht" in let Hr := fresh "Hr" in
           destruct (touches_upsertPropertySession h0 _ _ _ _ _ _ H) as [Ht Hr];
           destruct (Hr id row eq_refl); clear H Hr
       | Hq' : touches ?h0 _ _ ?u0 _ _,
         H : Extract.upsertPropertySession ?u0 _ _ _ = (Throws _, _) |- _ =>
           let Ht := fresh "Ht" in
           destruct (touches_upsertPropertySession h0 _ _ _ _ _ _ H) as [Ht _]; clear H
       | H : Extract.writeFactsRaw ?h0 ?id _ _ = (_, _),
         Hs : property_sessions _ !! ?id = Some ?row, Hu' : user_id ?row = ?u0 |- _ =>
           destruct (touches_extract_writes h0 u0 id row _ _ _ _ Hs Hu' H); clear H
       end.
  all: eexists _, _; (split; [chain|reflexivity]).
Qed.

(** X11. Extract takes its unit before it looks at the request: for a
    user with quota left, every extract request whose stage is not
    ["auth"] appends the ledger row of one extract unit and raises the
    extract counter by one, whatever follows (a missing URL, a failing
    fetch, a model that throws, the cap of 100, a refused row). In
    particular a request without a usable [rightmove_url] is answered 400
    at that price, unless its stage is ["quota"]. *)
Theorem extract_debits_before_it_validates
    (h : Host) (req : Request) (w : World) (u : string) :
  authenticated h req u →
  payload req ≠ JNull →
  Extract.is_stage (extract_stage req) "auth" = false →
  quota_available h u A_extract w →
  let res := Extract.POST h req w in
  usage_ledger res.2 = (usage_ledger w ++ [Usage.usage_entry u A_extract])%list
  ∧ used_of A_extract (Usage.counters_of h u res.2)
    = used_of A_extract (Usage.counters_of h u w) + 1
  ∧ (Extract.is_stage (extract_stage req) "quota" = false →
     (∀ url, prop (payload req) "rightmove_url" = Some (JStr url) → url = EmptyString) →
     res = (respond 400 [("error", JStr "Missing rightmove_url in body")],
            debited h u A_extract w)).
Proof.
  intros Ha Hnn Hst Hq res. subst res. split_and!.
  - destruct (Extract_POST_after_debit h req w u Ha Hnn Hst Hq) as (d & c & H & ->).
    destruct (touches_ledger _ _ _ _ _ _ H) as (l & L & N & _).
    destruct l; [|done]. rewrite L, app_nil_r.
    by destruct (debited_frame h u A_extract w) as (_ & -> & _).
  - destruct (Extract_POST_after_debit h req w u Ha Hnn Hst Hq) as (d & c & H & ->).
    destruct (touches_ledger _ _ _ _ _ _ H) as (l & L & N & _ & U).
    destruct l; [|done]. destruct (U A_extract) as [-> _].
    rewrite debits_nil, debited_counters_of, used_of_with_used, decide_True by done. lia.
  - intros Hsq Hurl. destruct Ha as (token & Hb & Hu). unfold Extract.POST. rewrite Hb.
    unfold extract_stage in Hst, Hsq.
    destruct (payload req) eqn:Hp; [done|..].
    all: rewrite Hu; cbv zeta; rewrite Hst, Hsq.
    all: rewrite checkAndConsumeQuota_available by done; cbn [Usage.ok negb].
    all: try done.
    destruct (prop (JObj kvs) "rightmove_url") as [[| | | |url| |]|] eqn:E; try done.
    rewrite (Hurl url eq_refl). done.
Qed.

(** X12. A stage that is none of the four partial stages runs the full
    pipeline: extract compares the stage with ["auth"], ["quota"],
    ["fetch"] and ["openai"] only, so a request with any other truthy
    stage is served exactly as the same request with the stage ["full"]
    or without a stage. *)
Theorem extract_unknown_stage_runs_full
    (h : Host) (req req' : Request) (w : World) :
  bearer req = bearer req' →
  payload req ≠ JNull → payload req' ≠ JNull →
  prop (payload req) "rightmove_url" = prop (payload req') "rightmove_url" →
  (∀ name, name ∈ partial_stages → Extract.is_stage (extract_stage req) name = false) →
  extract_stage req' = JStr "full" →
  Extract.POST h req w = Extract.POST h req' w.
Proof.
  intros Hb Hn Hn' Hurl Hst Hst'. unfold Extract.POST. rewrite Hb.
  destruct (bearer req') as [token|]; [|done].
  assert (H1 := Hst "auth" ltac:(unfold partial_stages; set_solver)).
  assert (H2 := Hst "quota" ltac:(unfold partial_stages; set_solver)).
  assert (H3 := Hst "fetch" ltac:(unfold partial_stages; set_solver)).
  assert (H4 := Hst "openai" ltac:(unfold partial_stages; set_solver)).
  unfold extract_stage in H1, H2, H3, H4, Hst'.
  destruct (payload req) eqn:Hp; [done|..];
    (destruct (payload req') eqn:Hp'; [done|..]).
  all: cbv zeta; rewrite Hst', ?H1, ?H2, ?H3, ?H4, ?Hurl, !is_stage_name;
    cbn [String.eqb Ascii.eqb Bool.eqb]; reflexivity.
Qed.

Lemma upsertPropertySession_new (u url : string) (w : World) :
  find_session u url w = None →
  (Extract.count_sessions u w < 100)%nat →
  let row0 := {| user_id := u;
                 rightmove_url := url;
                 rightmove_listing_id := parseRightmoveListingId url;
                 status := CREATED;
                 last_extracted_at := None |} in
  let id := fresh (dom (property_sessions w)) in
  Extract.upsertPropertySession u url (parseRightmoveListingId url) w
  = (Returns (id, row0),
     set_property_sessions (<[id := row0]> (property_sessions w)) w).
Proof.
  unfold find_session, Extract.upsertPropertySession, Extract.enforceMaxLinks,
    Extract.insert_session.
  intros Hf Hc. apply Nat.leb_gt in Hc.
  destruct (parseRightmoveListingId url) as [lid|]; by rewrite Hf, Hc.
Qed.

(** X13. Extract on a reference the user has no session for, below the
    cap: when the full pipeline runs through (quota left, page fetched,
    model call not throwing, facts row taken by the store), it is
    answered 200 with the id of a session that did not exist; the session
    table is the old one with that one row added, owned by the user, on
    the URL and the listing id it parses to, in NEEDS_CONFIRMATION; the
    raw facts are stored under the new id (the row holds the session id
    and, for each of the twelve fact columns, the member of the answer, or
    null where the answer has none or has null); and the user has one
    session more. *)
Theorem extract_creates_one_session
    (h : Host) (req : Request) (w w2 : World) (u url html : string) (facts : json) :
  authenticated h req u →
  extract_full_request req url →
  quota_available h u A_extract w →
  fetchRightmoveHtml h url = Returns html →
  Extract.callOpenAIWithWeb h (debited h u A_extract w) = (Returns facts, w2) →
  find_session u url w = None →
  (Extract.count_sessions u w < 100)%nat →
  (∀ id, store_accepts h "listing_facts_raw" (Extract.facts_row id facts) = true) →
  ∃ id,
    property_sessions w !! id = None
    ∧ (Extract.POST h req w).1
      = respond 200 [("ok", JBool true); ("stage", JStr "full"); ("user_id", JStr u);
                     ("session_id", JStr id);
                     ("listing_id", Extract.listing_json (parseRightmoveListingId url));
                     ("snippets", JArr (map JStr (extractSnippets h html)));
                     ("facts", facts)]
    ∧ property_sessions (Extract.POST h req w).2
      = <[id := new_session h u url]> (property_sessions w)
    ∧ listing_facts_raw (Extract.POST h req w).2
      = <[id := Extract.facts_row id facts]> (listing_facts_raw w)
    ∧ listing_facts_raw (Extract.POST h req w).2 !! id
      = Some (JObj [ ("property_session_id", JStr id);
                     ("price", nullish (prop facts "price") JNull);
                     ("bedrooms", nullish (prop facts "bedrooms") JNull);
                     ("bathrooms", nullish (prop facts "bathrooms") JNull);
                     ("property_type", nullish (prop facts "property_type") JNull);
                     ("tenure", nullish (prop facts "tenure") JNull);
                     ("lease_years_remaining",
                      nullish (prop facts "lease_years_remaining") JNull);
                     ("postcode", nullish (prop facts "postcode") JNull);
                     ("address", nullish (prop facts "address") JNull);
                     ("description", nullish (prop facts "description") JNull);
                     ("estate_agent", nullish (prop facts "estate_agent") JNull);
                     ("ai_confidence", nullish (prop facts "ai_confidence") JNull);
                     ("ai_warnings", nullish (prop facts "ai_warnings") JNull) ])
    ∧ Extract.count_sessions u (Extract.POST h req w).2 = S (Extract.count_sessions u w).
Proof.
  intros Ha Hreq Hq Hfetch Hcall Hfind Hcount Hacc.
  rewrite (Extract_POST_full h req w u url html Ha Hreq Hq Hfetch).
  unfold extract_tail. rewrite Hcall.
  destruct (extract_called_frame h u w) as (Hs2 & Hf2 & _).
  rewrite Hcall in Hs2, Hf2. cbn [snd] in Hs2, Hf2.
  destruct (find_session_ext u url w w2 Hs2) as [Hfe Hce].
  rewrite upsertPropertySession_new by (by rewrite ?Hfe, ?Hce).
  cbv zeta. rewrite Hs2.
  set (id := fresh (dom (property_sessions w))).
  set (row0 := {| user_id := u; rightmove_url := url;
                  rightmove_listing_id := parseRightmoveListingId url;
                  status := CREATED; last_extracted_at := None |}).
  set (w3 := set_property_sessions (<[id := row0]> (property_sessions w)) w2).
  assert (Hnone : property_sessions w !! id = None).
  { apply not_elem_of_dom. apply is_fresh. }
  assert (H3 : property_sessions w3 !! id = Some row0) by (cbn; by rewrite lookup_insert_eq).
  destruct (extract_written h id facts w3 row0 H3 (Hacc id))
    as (w6 & -> & Hsess & Hfacts & _).
  exists id. cbn [fst snd]. split_and!; [done|done| | | |].
  - rewrite Hsess. cbn. by rewrite insert_insert_eq.
  - rewrite Hfacts. cbn. by rewrite Hf2.
  - by rewrite Hfacts, lookup_insert_eq, facts_row_members.
  - unfold Extract.count_sessions. rewrite Hsess. cbn. rewrite insert_insert_eq.
    rewrite map_filter_insert_True by done.
    by rewrite map_size_insert_None by (by apply map_lookup_filter_None; left).
Qed.

(** ** Confirming the facts, evaluating, and how the routes follow one another *)



Lemma Confirm_POST_admitted (h : Host) (req : Request) (w : World)
    (u : string) (sidv facts : json) (r : SessionRow) (row : json) :
  confirm_admitted h req w u sidv facts r row →
  Confirm.POST h req w
  = (respond 200 [("ok", JBool true)],
     update_status (jsString sidv) CONFIRMED
       (set_listing_facts_confirmed
          (<[jsString sidv := row]> (listing_facts_confirmed w)) w)).
Proof.
  intros ((token & Hb & Hu) & Hnn & Hs & Hf & Hp & (Hr & Ho) & Hacc).
  unfold Confirm.POST. rewrite Hb, Hu.
  destruct (payload req) eqn:Hp'; [done|..];
    rewrite Hs, Hf, Hp, Hr, (bool_decide_eq_true_2 _ Ho), Hacc; done.
Qed.

Lemma Confirm_POST_success (h : Host) (req : Request) (w : World) :
  code (Confirm.POST h req w).1 = 200 →
  ∃ u sidv facts r row, confirm_admitted h req w u sidv facts r row.
Proof.
  unfold Confirm.POST.
  repeat case_match; cbn [fst code respond caught]; try discriminate.
  all: intros _; subst.
  all: repeat match goal with
           | H : negb _ = false |- _ => apply negb_false_iff in H
           | H : bool_decide _ = true |- _ => apply bool_decide_eq_true in H
           end.
  all: eexists _, _, _, _, _; unfold confirm_admitted, authenticated, owns.
  all: match goal with H : payload _ = _ |- _ => rewrite H end.
  all: split_and!; first [eassumption | done | eexists; split; eassumption].
Qed.

(** X15. The confirmation of the facts. It answers 200 exactly when the
    request is admitted: an authenticated caller, a session id and facts
    in the body, the five required facts (price, bedrooms, property_type,
    tenure, postcode) present, that is neither null nor missing nor a
    blank string, a session of the caller under that id, and a row the
    store takes. No status is asked of the session: from whatever status,
    the confirmed facts are stored under the session id and the session
    goes to CONFIRMED. Any other answer leaves the world as it was. *)
Theorem confirm_facts_contract (h : Host) (req : Request) (w : World) :
  (code (Confirm.POST h req w).1 = 200 →
   ∃ u sidv facts r row, confirm_admitted h req w u sidv facts r row)
  ∧ (∀ u sidv facts r row,
       confirm_admitted h req w u sidv facts r row →
       Confirm.POST h req w
       = (respond 200 [("ok", JBool true)],
          update_status (jsString sidv) CONFIRMED
            (set_listing_facts_confirmed
               (<[jsString sidv := row]> (listing_facts_confirmed w)) w))
       ∧ status_of (Confirm.POST h req w).2 (jsString sidv) = Some CONFIRMED
       ∧ listing_facts_confirmed (Confirm.POST h req w).2 !! jsString sidv = Some row)
  ∧ (code (Confirm.POST h req w).1 ≠ 200 → (Confirm.POST h req w).2 = w)
  ∧ ∀ sidv facts,
      (∃ row, Confirm.confirm_payload sidv facts = Returns row)
      ↔ ∀ k, k ∈ Confirm.required_facts → present (prop facts k).
Proof.
  split_and!.
  - apply Confirm_POST_success.
  - intros u sidv facts r row Hadm.
    rewrite (Confirm_POST_admitted h req w u sidv facts r row Hadm). cbn [snd].
    destruct Hadm as (_ & _ & _ & _ & _ & (Hr & _) & _). split_and!; [done| |].
    + apply status_of_update_status. cbn. by exists r.
    + destruct (update_status_frame (jsString sidv) CONFIRMED
                  (set_listing_facts_confirmed
                     (<[jsString sidv := row]> (listing_facts_confirmed w)) w))
        as (_ & _ & _ & -> & _).
      cbn. by rewrite lookup_insert_eq.
  - unfold Confirm.POST.
    repeat case_match; cbn [fst snd code respond caught]; try done.
  - intros sidv facts. unfold Confirm.confirm_payload.
    rewrite <- must_all_present. split.
    + intros [row Hrow].
      destruct (StatsConfirm.must_all facts Confirm.required_facts); [by eexists|done].
    + intros [core ->]. by eexists.
Qed.

(** X16. After the facts of a session are confirmed, compute-stats is
    admitted and evaluate is not, whatever the session went through
    before: a compute-stats request of the owner for that session finds
    the facts and passes its guard (with complete preferences and quota
    left it debits a unit and, the credential being set, goes on to the
    model), while an evaluate request is answered 409 with status
    CONFIRMED and changes nothing, even when confirmed stats of an earlier
    run are still stored. *)
Theorem confirmed_facts_admit_stats_not_evaluate
    (h : Host) (req : Request) (w : World)
    (u : string) (sidv facts : json) (r : SessionRow) (row : json) :
  confirm_admitted h req w u sidv facts r row →
  let sid := jsString sidv in
  let w' := (Confirm.POST h req w).2 in
  let r' := with_status r CONFIRMED in
  owns w' u sid r'
  ∧ (∀ h2 req2,
       authenticated h2 req2 u →
       request_session req2 = Some sid →
       (∃ prefs, preferences w !! u = Some prefs
                 ∧ (Stats.checkMinimumPreferences prefs).1 = true) →
       quota_available h2 u A_stats w →
       Stats.POST h2 req2 w'
       = if negb (has_api_key h2) then
           (respond 500 [("error", JStr "OPENAI_API_KEY missing")],
            update_status sid STATS_FAILED
              (debited h2 u A_stats (entered sid r' STATS_RUNNING w')))
         else Stats.finish h2 sid (stats_called h2 u sid r' w'))
  ∧ (∀ h3 req3,
       authenticated h3 req3 u →
       request_session req3 = Some sid →
       Evaluate.POST h3 req3 w'
       = (respond 409 [("error", JStr "Invalid state"); ("status", JStr "CONFIRMED")], w')).
Proof.
  intros Hadm sid w' r'. subst w'.
  rewrite (Confirm_POST_admitted h req w u sidv facts r row Hadm). cbn [snd].
  destruct Hadm as (_ & _ & _ & _ & _ & (Hr & Ho) & _). fold sid in Hr |- *.
  set (w1 := set_listing_facts_confirmed (<[sid := row]> (listing_facts_confirmed w)) w).
  destruct (update_status_frame sid CONFIRMED w1)
    as (Hc & Hl & _ & Hfc & _ & _ & _ & Hp & _).
  assert (Hown : owns (update_status sid CONFIRMED w1) u sid r').
  { split; [|done]. rewrite update_status_sessions. cbn. rewrite Hr.
    by rewrite lookup_insert_eq. }
  split_and!; [done| |].
  - intros h2 req2 Ha2 Hs2 (prefs & Hprefs & Hmin) Hq.
    apply (Stats_POST_called h2 req2 _ u sid r' Ha2 Hs2 Hown).
    + split.
      * rewrite Hfc. cbn. rewrite lookup_insert_eq. by eexists.
      * exists prefs. by rewrite Hp.
    + destruct (force_recalc req2); cbn; rewrite !elem_of_cons; auto 10.
    + unfold quota_available, Usage.counters_of in *. by rewrite Hc.
  - intros h3 req3 Ha3 Hs3.
    rewrite (Evaluate_POST_owned h3 req3 _ u sid r' Ha3 Hs3 Hown).
    by replace (bool_decide (status r' ∈ Evaluate.evalFrom)) with false by reflexivity.
Qed.

Lemma StatsConfirm_POST_success (h : Host) (req : Request) (w : World) (u : string) :
  authenticated h req u →
  code (StatsConfirm.POST h req w).1 = 200 →
  ∃ sidv stats r row,
    StatsConfirm.must (prop (payload req) "property_session_id")
      "property_session_id required" = Returns sidv
    ∧ StatsConfirm.must (prop (payload req) "stats") "stats required" = Returns stats
    ∧ owns w u (jsString sidv) r
    ∧ status r = STATS_NEEDS_CONFIRMATION
    ∧ StatsConfirm.confirm_payload h sidv stats = Returns row
    ∧ (StatsConfirm.POST h req w).2
      = update_status (jsString sidv) STATS_READY
          (set_listing_stats_confirmed
             (<[jsString sidv := row]> (listing_stats_confirmed w)) w).
Proof.
  intros (token & Hb & Hu). unfold StatsConfirm.POST. rewrite Hb, Hu.
  repeat case_match; cbn [fst snd code respond caught]; try discriminate.
  all: intros _; subst.
  all: repeat match goal with
           | H : negb _ = false |- _ => apply negb_false_iff in H
           | H : bool_decide _ = true |- _ => apply bool_decide_eq_true in H
           end.
  all: eexists _, _, _, _; unfold owns.
  all: split_and!; first [eassumption | done].
Qed.

(** X17. After a user confirmed the stats of a session, evaluate is
    admitted: the confirmation answers 200 only from
    STATS_NEEDS_CONFIRMATION, it leaves the session in STATS_READY with
    confirmed stats stored, and an evaluate request of the owner for that
    session then passes the guard and the stats precondition; with
    confirmed facts, a preferences row and quota left it debits a unit
    and, the credential being set, goes on to the model. *)
Theorem confirmed_stats_admit_evaluate (h : Host) (req : Request) (w : World) (u : string) :
  authenticated h req u →
  code (StatsConfirm.POST h req w).1 = 200 →
  ∃ sid r,
    owns w u sid r
    ∧ status r = STATS_NEEDS_CONFIRMATION
    ∧ let w' := (StatsConfirm.POST h req w).2 in
      let r' := with_status r STATS_READY in
      owns w' u sid r'
      ∧ is_Some (listing_stats_confirmed w' !! sid)
      ∧ ∀ h2 req2,
          authenticated h2 req2 u →
          request_session req2 = Some sid →
          is_Some (listing_facts_confirmed w !! sid) →
          is_Some (preferences w !! u) →
          quota_available h2 u A_evaluate w →
          Evaluate.POST h2 req2 w'
          = if negb (has_api_key h2) then
              (respond 500 [("error", JStr "OPENAI_API_KEY missing")],
               update_status sid EVAL_FAILED
                 (debited h2 u A_evaluate (entered sid r' EVAL_RUNNING w')))
            else Evaluate.finish h2 sid (evaluate_called h2 u sid r' w').
Proof.
  intros Ha H200.
  destruct (StatsConfirm_POST_success h req w u Ha H200)
    as (sidv & stats & r & row & _ & _ & (Hr & Ho) & Hst & _ & ->).
  exists (jsString sidv), r. split_and!; [done..|].
  set (sid := jsString sidv) in *.
  set (w1 := set_listing_stats_confirmed (<[sid := row]> (listing_stats_confirmed w)) w).
  destruct (update_status_frame sid STATS_READY w1)
    as (Hc & Hl & _ & Hfc & _ & Hsc & _ & Hp & _).
  assert (Hown : owns (update_status sid STATS_READY w1) u sid (with_status r STATS_READY)).
  { split; [|done]. rewrite update_status_sessions. cbn. rewrite Hr.
    by rewrite lookup_insert_eq. }
  assert (Hstats : is_Some (listing_stats_confirmed (update_status sid STATS_READY w1) !! sid)).
  { rewrite Hsc. cbn. rewrite lookup_insert_eq. by eexists. }
  cbv zeta. split_and!; [done..|].
  intros h2 req2 Ha2 Hs2 Hf Hpr Hq.
  apply (Evaluate_POST_called h2 req2 _ u sid _ Ha2 Hs2 Hown).
  - split_and!; [by rewrite Hfc|done|by rewrite Hp].
  - cbn. unfold Evaluate.evalFrom. apply elem_of_cons. by left.
  - unfold quota_available, Usage.counters_of in *. by rewrite Hc.
Qed.

Lemma must_throws (o : option json) (msg : string) (e : Exn) :
  StatsConfirm.must o msg = Throws e → e = Error msg ∧ ¬ present o.
Proof.
  destruct o as [[]|]; cbn; try done; try (by intros [= <-]; tauto).
  destruct (String.eqb_spec (trim s) EmptyString) as [E|E]; [|done].
  intros [= <-]. tauto.
Qed.

(** X18. The message of a refused confirmation. [must] is applied to the
    columns from left to right, so a payload is refused with the name of
    its first column that is null, missing or a blank string, followed by
    the word required. The confirmation of the facts answers 400 with
    that message before it looks the session up; the confirmation of the
    stats answers it once the session is found to be the caller's and in
    STATS_NEEDS_CONFIRMATION. Neither writes anything. *)
Theorem refused_confirmation_names_first_missing (h : Host) (req : Request) (w : World) :
  (∀ v ks e,
     StatsConfirm.must_all v ks = Throws e
     ↔ ∃ pre k post,
         ks = (pre ++ k :: post)%list
         ∧ (∀ k', k' ∈ pre → present (prop v k'))
         ∧ ¬ present (prop v k)
         ∧ e = Error (k +:+ " required"))
  ∧ (∀ u sidv facts e,
       authenticated h req u →
       payload req ≠ JNull →
       StatsConfirm.must (prop (payload req) "session_id") "session_id required"
       = Returns sidv →
       StatsConfirm.must (prop (payload req) "facts") "facts required" = Returns facts →
       StatsConfirm.must_all facts Confirm.required_facts = Throws e →
       Confirm.POST h req w = (caught 400 e, w))
  ∧ (∀ u sidv stats r e,
       authenticated h req u →
       payload req ≠ JNull →
       StatsConfirm.must (prop (payload req) "property_session_id")
         "property_session_id required" = Returns sidv →
       StatsConfirm.must (prop (payload req) "stats") "stats required" = Returns stats →
       owns w u (jsString sidv) r →
       status r = STATS_NEEDS_CONFIRMATION →
       StatsConfirm.must_all stats StatsConfirm.core_fields = Throws e →
       StatsConfirm.POST h req w = (caught 400 e, w)).
Proof.
  split_and!.
  - intros v ks. induction ks as [|k ks IH]; intros e; cbn [StatsConfirm.must_all].
    + split; [done|]. intros (pre & k & post & Hks & _). by destruct pre.
    + destruct (StatsConfirm.must (prop v k) (k +:+ " required")) as [x|e0] eqn:Hm.
      * assert (Hp : present (prop v k)) by (apply (must_present _ (k +:+ " required")); eauto).
        destruct (StatsConfirm.must_all v ks) as [kvs|e1] eqn:Hrest.
        -- split; [done|]. intros (pre & k1 & post & Hks & Hpre & Hk1 & ->).
           destruct pre as [|k0 pre]; cbn in Hks; injection Hks as -> ->; [done|].
           assert (Hthrow : Returns kvs = Throws (Error (k1 +:+ " required"))).
           { apply IH. exists pre, k1, post. split_and!; [done| |done|done].
             intros k' Hk'. apply Hpre. by right. }
           discriminate.
        -- split.
           ++ intros [= <-]. destruct (proj1 (IH e1) eq_refl)
                as (pre & k1 & post & -> & Hpre & Hk1 & ->).
              exists (k :: pre), k1, post. split_and!; [done| |done|done].
              intros k' [->|Hk']%elem_of_cons; [done|by apply Hpre].
           ++ intros (pre & k1 & post & Hks & Hpre & Hk1 & ->).
              destruct pre as [|k0 pre]; cbn in Hks; injection Hks as -> ->; [done|].
              apply IH. exists pre, k1, post. split_and!; [done| |done|done].
              intros k' Hk'. apply Hpre. by right.
      * apply must_throws in Hm as [-> Hn]. split.
        -- intros [= <-]. exists [], k, ks. split_and!; [done| |done|done].
           intros k' Hk'. by apply elem_of_nil in Hk'.
        -- intros (pre & k1 & post & Hks & Hpre & Hk1 & ->).
           destruct pre as [|k0 pre]; cbn in Hks; injection Hks as -> ->; [done|].
           destruct Hn. apply Hpre. by left.
  - intros u sidv facts e (token & Hb & Hu) Hnn Hs Hf He.
    unfold Confirm.POST. rewrite Hb, Hu.
    destruct (payload req) eqn:Hp; [done|..];
      rewrite Hs, Hf; unfold Confirm.confirm_payload; by rewrite He.
  - intros u sidv stats r e (token & Hb & Hu) Hnn Hs Hf (Hr & Ho) Hst He.
    unfold StatsConfirm.POST. rewrite Hb, Hu.
    destruct (payload req) eqn:Hp; [done|..];
      rewrite Hs, Hf, Hr, (bool_decide_eq_true_2 _ Ho), (bool_decide_eq_true_2 _ Hst);
      unfold StatsConfirm.confirm_payload; by rewrite He.
Qed.

(** ** Preferences: the minimum set and the route that stores them *)

Lemma opt_prop_Some (p : json) (k : string) : opt_prop (Some p) k = prop p k.
Proof. by destruct p. Qed.

Lemma includes_elem (k : string) (l : list string) : Stats.includes k l = true ↔ k ∈ l.
Proof.
  unfold Stats.includes. rewrite existsb_exists. split.
  - intros (x & Hin & ->%String.eqb_eq). by apply list_elem_of_In.
  - intros Hin. exists k. split; [by apply list_elem_of_In|apply String.eqb_refl].
Qed.

Lemma elem_of_push_new (k x : string) (l : list string) :
  k ∈ Stats.push_new x l ↔ k = x ∨ k ∈ l.
Proof.
  unfold Stats.push_new. destruct (Stats.includes x l) eqn:E.
  - apply includes_elem in E. split; [by right|]. by intros [->|].
  - rewrite elem_of_app, list_elem_of_singleton. tauto.
Qed.

Lemma NoDup_push_new (x : string) (l : list string) : NoDup l → NoDup (Stats.push_new x l).
Proof.
  intros Hl. unfold Stats.push_new. destruct (Stats.includes x l) eqn:E; [done|].
  apply NoDup_app. split_and!; [done| |apply NoDup_singleton].
  intros y Hy ->%list_elem_of_singleton.
  apply includes_elem in Hy. congruence.
Qed.

Lemma push_new_not_nil (x : string) (l : list string) : Stats.push_new x l ≠ [].
Proof.
  unfold Stats.push_new. destruct (Stats.includes x l) eqn:E.
  - intros ->. discriminate.
  - by destruct l.
Qed.

Lemma postcode_test (o : option json) :
  negb (truthy_opt o) || Stats.blank_string o = false
  ↔ ∃ s, o = Some (JStr s) ∧ trim s ≠ EmptyString.
Proof.
  split.
  - intros [_ Hb]%orb_false_iff. destruct o as [[]|]; try discriminate.
    eexists. split; [done|]. cbn in Hb. by apply String.eqb_neq.
  - intros (s & -> & Hs). cbn. apply orb_false_iff. split.
    + destruct s; [done|]. done.
    + by apply String.eqb_neq.
Qed.

Lemma array_test (o : option json) :
  Stats.empty_array o = false ↔ ∃ y ys, o = Some (JArr (y :: ys)).
Proof.
  split.
  - destruct o as [[| | | | |[|y ys]|]|]; try discriminate. by eexists _, _.
  - by intros (y & ys & ->).
Qed.

Lemma reqFields_NoDup : NoDup Stats.reqFields.
Proof. by apply (bool_decide_unpack _). Qed.

Lemma elem_of_if_push (c : bool) (x : string) (l : list string) (k : string) :
  k ∈ (if c then Stats.push_new x l else l) ↔ (c = true ∧ k = x) ∨ k ∈ l.
Proof.
  destruct c; [rewrite elem_of_push_new|]; intuition discriminate.
Qed.

Lemma not_filled (k : string) (v : option json) :
  ¬ filled k v
  ↔ is_nullish v = true
    ∨ (k = "work_postcode" ∧ negb (truthy_opt v) || Stats.blank_string v = true)
    ∨ (k ∈ ["property_type_rank"; "tenure_rank"] ∧ Stats.empty_array v = true).
Proof.
  pose proof (postcode_test v) as T1. pose proof (array_test v) as T2.
  destruct (negb (truthy_opt v) || Stats.blank_string v) eqn:E1;
    destruct (Stats.empty_array v) eqn:E2.
  all: assert (N1 : (∃ s, v = Some (JStr s) ∧ trim s ≠ EmptyString)
                    ↔ negb (truthy_opt v) || Stats.blank_string v = false)
         by (by rewrite E1).
  all: assert (N2 : (∃ y ys, v = Some (JArr (y :: ys))) ↔ Stats.empty_array v = false)
         by (by rewrite E2).
  all: rewrite E1 in N1; rewrite E2 in N2; clear T1 T2.
  all: destruct (decide (k = "work_postcode")) as [K1|K1];
       destruct (decide (k ∈ ["property_type_rank"; "tenure_rank"])) as [K2|K2].
  all: destruct v as [x|]; [|cbn; intuition].
  all: assert (x = JNull ∨ x ≠ JNull) as [->|Hx]
         by (destruct x; auto; right; discriminate);
       [cbn; intuition|].
  all: assert (Hn : is_nullish (Some x) = false) by (by destruct x).
  all: assert (Hf : filled k (Some x)
                    ↔ (k = "work_postcode" → ∃ s, x = JStr s ∧ trim s ≠ EmptyString)
                      ∧ (k ∈ ["property_type_rank"; "tenure_rank"]
                         → ∃ y ys, x = JArr (y :: ys))) by (by destruct x).
  all: rewrite Hf, Hn.
  all: assert (N1' : (∃ s, x = JStr s ∧ trim s ≠ EmptyString)
                     ↔ (∃ s, Some x = Some (JStr s) ∧ trim s ≠ EmptyString))
         by (split; intros (s & Hs & ?); exists s; split; congruence).
  all: assert (N2' : (∃ y ys, x = JArr (y :: ys)) ↔ (∃ y ys, Some x = Some (JArr (y :: ys))))
         by (split; intros (y & ys & Hs); exists y, ys; congruence).
  all: rewrite N1', N2', N1, N2.
  all: intuition discriminate.
Qed.

(** The list [checkMinimumPreferences] returns names the required
    preferences that are not filled. *)
Lemma checkMinimumPreferences_elem (p : json) (k : string) :
  k ∈ (Stats.checkMinimumPreferences p).2 ↔ k ∈ Stats.reqFields ∧ ¬ filled k (prop p k).
Proof.
  unfold Stats.checkMinimumPreferences. cbn [snd]. rewrite !opt_prop_Some.
  rewrite !elem_of_if_push, list_elem_of_filter, not_filled. cbn beta.
  rewrite ?opt_prop_Some.
  assert (Hwp : "work_postcode" ∈ Stats.reqFields) by (by apply (bool_decide_unpack _)).
  assert (Hpt : "property_type_rank" ∈ Stats.reqFields) by (by apply (bool_decide_unpack _)).
  assert (Htr : "tenure_rank" ∈ Stats.reqFields) by (by apply (bool_decide_unpack _)).
  rewrite !elem_of_cons, elem_of_nil.
  split.
  - intros [[H ->]|[[H ->]|[[H ->]|[H Hk]]]]; (split; [done|]); intuition.
  - intros [Hk [H|[[-> H]|[[->|[->|[]]] H]]]]; intuition.
Qed.

Lemma checkMinimumPreferences_NoDup (p : json) : NoDup (Stats.checkMinimumPreferences p).2.
Proof.
  unfold Stats.checkMinimumPreferences. cbn [snd].
  assert (H0 : NoDup (filter (fun k => is_nullish (opt_prop (Some p) k) = true)
                             Stats.reqFields))
    by apply NoDup_filter, reqFields_NoDup.
  repeat case_match; repeat apply NoDup_push_new; done.
Qed.

Lemma filled_dec (k : string) (v : option json) : filled k v ∨ ¬ filled k v.
Proof.
  destruct v as [x|]; [|right; intros []].
  assert (x = JNull ∨ x ≠ JNull) as [->|Hx]
    by (destruct x; auto; right; discriminate); [right; intros []|].
  assert (Hf : filled k (Some x)
               ↔ (k = "work_postcode" → ∃ s, x = JStr s ∧ trim s ≠ EmptyString)
                 ∧ (k ∈ ["property_type_rank"; "tenure_rank"]
                    → ∃ y ys, x = JArr (y :: ys))) by (by destruct x).
  rewrite Hf.
  assert (A : (∃ s, x = JStr s ∧ trim s ≠ EmptyString)
              ∨ ¬ ∃ s, x = JStr s ∧ trim s ≠ EmptyString).
  { destruct x; try (right; intros (s' & ? & ?); discriminate).
    destruct (decide (trim s = EmptyString)) as [E|E].
    - right. intros (s' & [= <-] & ?). done.
    - left. by exists s. }
  assert (B : (∃ y ys, x = JArr (y :: ys)) ∨ ¬ ∃ y ys, x = JArr (y :: ys)).
  { destruct x as [| | | | |[|y ys]|]; try (right; intros (? & ? & ?); discriminate).
    left. by exists y, ys. }
  destruct (decide (k = "work_postcode")),
           (decide (k ∈ ["property_type_rank"; "tenure_rank"])); tauto.
Qed.

Lemma checkMinimumPreferences_ok (p : json) :
  (Stats.checkMinimumPreferences p).1 = true
  ↔ ∀ k, k ∈ Stats.reqFields → filled k (prop p k).
Proof.
  assert (Hok : (Stats.checkMinimumPreferences p).1 = true
                ↔ (Stats.checkMinimumPreferences p).2 = []).
  { unfold Stats.checkMinimumPreferences. cbn [fst snd]. apply bool_decide_eq_true. }
  rewrite Hok. split.
  - intros Hnil k Hk. destruct (filled_dec k (prop p k)) as [|Hn]; [done|].
    assert (Hin : k ∈ (Stats.checkMinimumPreferences p).2)
      by (by apply checkMinimumPreferences_elem).
    rewrite Hnil in Hin. by apply elem_of_nil in Hin.
  - intros Hall. destruct (Stats.checkMinimumPreferences p).2 as [|k rest] eqn:E; [done|].
    assert (Hin : k ∈ (Stats.checkMinimumPreferences p).2) by (rewrite E; left).
    apply checkMinimumPreferences_elem in Hin as [Hk Hn]. destruct Hn. by apply Hall.
Qed.

(** X19. What [checkMinimumPreferences] reports. Its list names exactly
    the required preferences that are not filled, each once: a required
    preference is filled when it is neither null nor undefined, and in
    addition a non-blank string for work_postcode and a non-empty array
    for property_type_rank and tenure_rank. It answers ok exactly when all
    22 required preferences are filled. *)
Theorem minimum_preferences_missing_exactly (p : json) :
  NoDup (Stats.checkMinimumPreferences p).2
  ∧ (∀ k, k ∈ (Stats.checkMinimumPreferences p).2
          ↔ k ∈ Stats.reqFields ∧ ¬ filled k (prop p k))
  ∧ ((Stats.checkMinimumPreferences p).1 = true
     ↔ ∀ k, k ∈ Stats.reqFields → filled k (prop p k))
  ∧ length Stats.reqFields = 22%nat.
Proof.
  split_and!.
  - apply checkMinimumPreferences_NoDup.
  - apply checkMinimumPreferences_elem.
  - apply checkMinimumPreferences_ok.
  - reflexivity.
Qed.

Lemma assoc_with_key (k : string) (v : json) (kvs : list (string * json)) (k' : string) :
  assoc k' (Preferences.with_key k v kvs)
  = if String.eqb k' k then Some v else assoc k' kvs.
Proof.
  induction kvs as [|[k1 v1] rest IH]; cbn; [done|].
  destruct (String.eqb k k1) eqn:E1; cbn.
  - apply String.eqb_eq in E1 as ->. by destruct (String.eqb k' k1).
  - rewrite IH. destruct (String.eqb k' k1) eqn:E2; [|done].
    apply String.eqb_eq in E2 as ->. by rewrite String.eqb_sym, E1.
Qed.

Lemma assoc_None (k : string) (kvs : list (string * json)) :
  k ∉ kvs.*1 → assoc k kvs = None.
Proof.
  induction kvs as [|[k1 v1] rest IH]; cbn; [done|].
  rewrite not_elem_of_cons. intros [Hne Hrest].
  apply String.eqb_neq in Hne. rewrite Hne. by apply IH.
Qed.

Lemma keys_with_key (k : string) (v : json) (kvs : list (string * json)) :
  (Preferences.with_key k v kvs).*1
  = if bool_decide (k ∈ kvs.*1) then kvs.*1 else (kvs.*1 ++ [k])%list.
Proof.
  induction kvs as [|[k1 v1] rest IH]; cbn; [done|].
  destruct (String.eqb k k1) eqn:E1; cbn.
  - apply String.eqb_eq in E1 as ->.
    by rewrite bool_decide_eq_true_2 by (by left).
  - apply String.eqb_neq in E1. rewrite IH.
    destruct (decide (k ∈ rest.*1)) as [Hin|Hin].
    + rewrite !bool_decide_eq_true_2; [done|by right|done].
    + rewrite !bool_decide_eq_false_2; [done| |done].
      rewrite not_elem_of_cons. done.
Qed.

Lemma NoDup_with_key (k : string) (v : json) (kvs : list (string * json)) :
  NoDup kvs.*1 → NoDup (Preferences.with_key k v kvs).*1.
Proof.
  intros Hn. rewrite keys_with_key. case_bool_decide; [done|].
  apply NoDup_app. split_and!; [done| |apply NoDup_singleton].
  by intros x Hx ->%list_elem_of_singleton.
Qed.

(** Writing the members of a payload one by one over a row: a member of
    the payload is read back, the other columns keep their value. *)
Lemma assoc_upsert (payload old : list (string * json)) (k : string) :
  NoDup payload.*1 →
  assoc k (fold_left (fun row kv => Preferences.with_key kv.1 kv.2 row) payload old)
  = match assoc k payload with
    | Some v => Some v
    | None => assoc k old
    end.
Proof.
  revert old. induction payload as [|[k1 v1] rest IH]; intros old Hn; cbn; [done|].
  apply NoDup_cons in Hn as [Hk1 Hrest]. cbn in Hk1.
  rewrite (IH _ Hrest), assoc_with_key.
  destruct (String.eqb k k1) eqn:E; [|done].
  apply String.eqb_eq in E as ->. by rewrite (assoc_None _ _ Hk1).
Qed.

Lemma Preferences_POST_stored (h : Host) (req : Request) (w : World) (u : string) :
  authenticated h req u →
  distinct_members (payload req) →
  store_accepts h "preferences"
    (JObj (Preferences.with_key "user_id" (JStr u) (Preferences.own_entries (payload req))))
  = true →
  ∃ row,
    Preferences.POST h req w
    = (respond 200 [("ok", JBool true); ("preferences", row)],
       set_preferences (<[u := row]> (preferences w)) w)
    ∧ ∀ k, prop row k = merged_preference w u (payload req) k.
Proof.
  intros (token & Hb & Hu) Hd Hacc. unfold Preferences.POST. rewrite Hb, Hu. cbv zeta.
  rewrite Hacc. cbn [negb]. cbv iota.
  eexists. split; [reflexivity|]. intros k.
  unfold merged_preference, stored_preference.
  pose proof (NoDup_with_key "user_id" (JStr u) _ Hd) as Hd'.
  destruct (preferences w !! u) as [old|]; cbn [mbind option_bind prop].
  - unfold Preferences.upsert_row. cbn [prop].
    rewrite (assoc_upsert _ _ _ Hd'), assoc_with_key.
    by destruct (String.eqb k "user_id").
  - rewrite assoc_with_key. destruct (String.eqb k "user_id"); [done|].
    by destruct (assoc k _).
Qed.

(** X20. Saving the preferences. For an authenticated caller whose row the
    store takes and a body whose members have distinct names, as those of
    a parsed JSON text have, POST /api/preferences answers 200 with the
    row it leaves stored for the user of the token: its user_id is that
    user, whatever user_id the body carried; a member of the body is
    stored as sent; a column the body does not name keeps the value it
    had. Rows of other users are not touched, and a GET of the same user
    then returns that row and writes nothing. A row the store refuses is
    answered 400 and nothing is written. *)
Theorem preferences_saved_then_read (h : Host) (req : Request) (w : World) (u : string) :
  authenticated h req u →
  distinct_members (payload req) →
  let sent :=
    JObj (Preferences.with_key "user_id" (JStr u) (Preferences.own_entries (payload req))) in
  (store_accepts h "preferences" sent = false →
   Preferences.POST h req w = (caught 400 StoreError, w))
  ∧ (store_accepts h "preferences" sent = true →
     ∃ row,
       let w' := (Preferences.POST h req w).2 in
       (Preferences.POST h req w).1 = respond 200 [("ok", JBool true); ("preferences", row)]
       ∧ preferences w' !! u = Some row
       ∧ prop row "user_id" = Some (JStr u)
       ∧ (∀ k, prop row k = merged_preference w u (payload req) k)
       ∧ (∀ u', u' ≠ u → preferences w' !! u' = preferences w !! u')
       ∧ ∀ h2 req2,
           authenticated h2 req2 u →
           Preferences.GET h2 req2 w'
           = (respond 200 [("ok", JBool true); ("preferences", row)], w')).
Proof.
  intros Ha Hd sent. split.
  - intros Hacc. destruct Ha as (token & Hb & Hu).
    unfold Preferences.POST. rewrite Hb, Hu. cbv zeta. fold sent. by rewrite Hacc.
  - intros Hacc.
    destruct (Preferences_POST_stored h req w u Ha Hd Hacc) as (row & -> & Hrow).
    exists row. cbn [fst snd]. split_and!; [done| | |done| |].
    + cbn. by rewrite lookup_insert_eq.
    + by rewrite Hrow.
    + intros u' Hne. cbn. by rewrite lookup_insert_ne.
    + intros h2 req2 (token2 & Hb2 & Hu2). unfold Preferences.GET.
      rewrite Hb2, Hu2. cbn [preferences set_preferences].
      by rewrite lookup_insert_eq.
Qed.

(** X21. The preferences check of compute-stats after a save. Once
    POST /api/preferences has stored the row of an authenticated caller
    (the members of the body having distinct names), the stored row passes
    [checkMinimumPreferences] exactly when each of the required
    preferences is filled in the body or, where the body does not name it,
    in the row stored before. In particular a user held back only by the
    empty work postcode of the default row is let through by saving a
    postcode. *)
Theorem saved_preferences_pass_the_check (h : Host) (req : Request) (w : World) (u : string) :
  authenticated h req u →
  distinct_members (payload req) →
  store_accepts h "preferences"
    (JObj (Preferences.with_key "user_id" (JStr u) (Preferences.own_entries (payload req))))
  = true →
  ∃ row,
    preferences (Preferences.POST h req w).2 !! u = Some row
    ∧ ((Stats.checkMinimumPreferences row).1 = true
       ↔ ∀ k, k ∈ Stats.reqFields → filled k (merged_preference w u (payload req) k))
    ∧ (∀ old pc,
         preferences w !! u = Some old →
         (Stats.checkMinimumPreferences old).2 = ["work_postcode"] →
         payload req = JObj [("work_postcode", JStr pc)] →
         trim pc ≠ EmptyString →
         Stats.checkMinimumPreferences row = (true, [])).
Proof.
  intros Ha Hd Hacc.
  destruct (Preferences_POST_stored h req w u Ha Hd Hacc) as (row & -> & Hrow).
  exists row. cbn [snd]. split_and!.
  - cbn. by rewrite lookup_insert_eq.
  - rewrite checkMinimumPreferences_ok. by setoid_rewrite Hrow.
  - intros old pc Hold Hmiss Hbody Hpc.
    assert (Hok : (Stats.checkMinimumPreferences row).1 = true).
    { apply checkMinimumPreferences_ok. intros k Hk. rewrite Hrow.
      unfold merged_preference, stored_preference. rewrite Hbody, Hold.
      cbn [Preferences.own_entries assoc mbind option_bind].
      destruct (String.eqb k "user_id") eqn:E1.
      { apply String.eqb_eq in E1 as ->. exfalso. revert Hk.
        by apply (bool_decide_unpack _). }
      destruct (String.eqb k "work_postcode") eqn:E2.
      { apply String.eqb_eq in E2 as ->. cbn. split; [by eexists|].
        rewrite !elem_of_cons, elem_of_nil. intros [|[|[]]]; discriminate. }
      apply String.eqb_neq in E2.
      destruct (filled_dec k (prop old k)) as [Hf|Hn].
      - destruct old; try done.
      - assert (Hin : k ∈ (Stats.checkMinimumPreferences old).2)
          by (by apply checkMinimumPreferences_elem).
        rewrite Hmiss in Hin. by apply list_elem_of_singleton in Hin. }
    revert Hok. unfold Stats.checkMinimumPreferences. cbn [fst].
    intros Hnil%bool_decide_eq_true. rewrite Hnil. done.
Qed.

(** ** The helpers that read tokens, listing references and model answers *)

Lemma append_cons (c : Ascii.ascii) (s t : string) : String c s +:+ t = String c (s +:+ t).
Proof. reflexivity. Qed.

Lemma append_nil_l (t : string) : EmptyString +:+ t = t.
Proof. reflexivity. Qed.

Lemma append_nil_r (s : string) : s +:+ EmptyString = s.
Proof. induction s as [|c s IH]; [done|]. by rewrite append_cons, IH. Qed.

Lemma append_assoc (a b c : string) : (a +:+ b) +:+ c = a +:+ (b +:+ c).
Proof. induction a as [|x a IH]; [done|]. by rewrite !append_cons, IH. Qed.

Local Ltac appended := rewrite ?append_cons, ?append_nil_l.

Lemma strip_prefix_ci_split (p s rest : string) :
  strip_prefix_ci p s = Some rest →
  ∃ head, s = head +:+ rest ∧ same_ci p head.
Proof.
  unfold same_ci. revert s. induction p as [|a p IH]; intros s; cbn.
  - intros [= ->]. by exists EmptyString.
  - destruct s as [|b s]; [done|].
    destruct (Ascii.eqb (lower a) (lower b)) eqn:E; [|done].
    intros (head & -> & Hh)%IH. exists (String b head). appended. cbn. by rewrite E.
Qed.

Lemma strip_prefix_ci_app (p head rest : string) :
  same_ci p head → strip_prefix_ci p (head +:+ rest) = Some rest.
Proof.
  unfold same_ci. revert head. induction p as [|a p IH]; intros head; cbn.
  - by intros [= ->].
  - destruct head as [|b head]; [done|]. appended. cbn.
    destruct (Ascii.eqb (lower a) (lower b)); [apply IH|done].
Qed.

Lemma has_prefix_split (p s : string) :
  has_prefix p s = true ↔ ∃ rest, s = p +:+ rest.
Proof.
  revert s. induction p as [|a p IH]; intros s; cbn [has_prefix].
  - split; [|done]. intros _. by exists s.
  - destruct s as [|b s].
    + split; [done|]. by intros [rest Hr].
    + rewrite andb_true_iff, IH. split.
      * intros [->%Ascii.eqb_eq [rest ->]]. by exists rest.
      * intros [rest Hr]. rewrite append_cons in Hr. injection Hr as -> ->.
        split; [apply Ascii.eqb_refl|by exists rest].
Qed.

Lemma append_length (a b : string) :
  String.length (a +:+ b) = (String.length a + String.length b)%nat.
Proof. induction a as [|c a IH]; [done|]. rewrite append_cons. cbn. by rewrite IH. Qed.

Lemma append_same_length (a b c d : string) :
  a +:+ b = c +:+ d → String.length a = String.length c → a = c ∧ b = d.
Proof.
  revert c. induction a as [|x a IH]; intros [|y c]; appended; try done.
  intros [= -> H] [= Hl]. destruct (IH c H Hl) as [-> ->]. done.
Qed.

Lemma has_prefix_app (p q rest : string) :
  has_prefix p (q +:+ rest) = true → has_prefix p q = true ∨ has_prefix q p = true.
Proof.
  revert q. induction p as [|a p IH]; intros q; [by left|].
  destruct q as [|b q]; [by right|]. appended. cbn [has_prefix].
  rewrite !andb_true_iff. intros [Hab H]. destruct (IH q H) as [|]; [by left|right].
  split; [|done]. apply Ascii.eqb_eq in Hab as ->. apply Ascii.eqb_refl.
Qed.

(** No white-space character starts with another. *)
Lemma white_space_apart (p q : string) :
  p ∈ white_space → q ∈ white_space → has_prefix p q = true → p = q.
Proof.
  intros Hp Hq.
  assert (Hall : Forall (fun p => Forall (fun q => has_prefix p q = true → p = q)
                                    white_space) white_space).
  { apply Forall_forall. intros p' Hp'. apply Forall_forall. intros q' Hq'.
    revert p' Hp' q' Hq'.
    apply (Forall_forall (fun p' => ∀ q', q' ∈ white_space → has_prefix p' q' = true → p' = q')).
    unfold white_space at 1.
    repeat (apply Forall_cons; split;
            [intros q' Hq'; revert q' Hq';
             apply (Forall_forall (fun q' => has_prefix _ q' = true → _ = q'));
             repeat (apply Forall_cons; split; [by vm_compute|]); by apply Forall_nil|]).
    by apply Forall_nil. }
  rewrite Forall_forall in Hall. specialize (Hall p Hp). rewrite Forall_forall in Hall.
  by apply Hall.
Qed.

Lemma white_space_not_empty (p : string) : p ∈ white_space → p ≠ EmptyString.
Proof.
  intros Hp ->. revert Hp. by apply (bool_decide_unpack _).
Qed.

Lemma width_at_found (chars : list string) (s : string) (w : nat) :
  width_at chars s = S w →
  ∃ p rest, p ∈ chars ∧ s = p +:+ rest ∧ String.length p = S w.
Proof.
  unfold width_at. destruct (find _ chars) as [p|] eqn:E; [|done].
  apply find_some in E as [Hin [rest ->]%has_prefix_split].
  intros Hl. exists p, rest. split_and!; [by apply list_elem_of_In|done|done].
Qed.

Lemma width_at_white_space (p rest : string) :
  p ∈ white_space → width_at white_space (p +:+ rest) = String.length p.
Proof.
  intros Hp. unfold width_at.
  destruct (find (fun q => has_prefix q (p +:+ rest)) white_space) as [q|] eqn:E.
  - apply find_some in E as [Hq%list_elem_of_In Hpre].
    destruct (has_prefix_app _ _ _ Hpre) as [H|H].
    + by rewrite (white_space_apart q p Hq Hp H).
    + by rewrite (white_space_apart p q Hp Hq H).
  - exfalso. apply list_elem_of_In in Hp.
    pose proof (find_none _ _ E p Hp) as Hn. cbn beta in Hn.
    assert (has_prefix p (p +:+ rest) = true) by (apply has_prefix_split; by exists rest).
    congruence.
Qed.

Lemma width_at_black (s : string) : starts_black s → width_at white_space s = 0%nat.
Proof.
  intros Hs. unfold width_at.
  destruct (find (fun q => has_prefix q s) white_space) as [q|] eqn:E; [|done].
  apply find_some in E as [Hq%list_elem_of_In Hpre]. by rewrite (Hs q Hq) in Hpre.
Qed.

Lemma rest_of_line_some (s t : string) :
  rest_of_line s = Some t → t = s ∧ t ≠ EmptyString ∧ one_line t = true.
Proof.
  unfold rest_of_line. destruct s as [|c r]; [done|].
  destruct (one_line (String c r)) eqn:E; [|done]. by intros [= <-].
Qed.

Lemma joined_cons (p : string) (l : list string) : joined (p :: l) = p +:+ joined l.
Proof. reflexivity. Qed.

(** What [spaces_then_rest] passes before the token: the [k] bytes left
    of the character being taken, then white space. *)
Lemma spaces_then_rest_some (s : string) (k : nat) (t : string) :
  spaces_then_rest k s = Some t →
  t ≠ EmptyString ∧ one_line t = true
  ∧ ∃ tail l, s = tail +:+ joined l +:+ t ∧ String.length tail = k
              ∧ Forall (fun p => p ∈ white_space) l.
Proof.
  revert k t. induction s as [|c r IH]; intros k t.
  - by destruct k.
  - destruct k as [|k].
    + cbn [spaces_then_rest].
      destruct (width_at white_space (String c r)) as [|w] eqn:Ew.
      * intros (-> & Hne & Hl)%rest_of_line_some. split_and!; [done..|].
        exists EmptyString, []. split_and!; [done|done|by apply Forall_nil].
      * destruct (spaces_then_rest w r) as [t'|] eqn:Er.
        -- intros [= <-]. destruct (IH w t' Er) as (Hne & Hl & tail & l & Hr & Hlen & Hall).
           split_and!; [done..|].
           destruct (width_at_found _ _ _ Ew) as (p & rest & Hp & Hs & Hlp).
           destruct p as [|c' p']; [done|]. rewrite append_cons in Hs.
           injection Hs as <- Hr'. injection Hlp as Hlp.
           rewrite Hr in Hr'.
           destruct (append_same_length _ _ _ _ Hr') as [-> _]; [congruence|].
           exists EmptyString, (String c p' :: l).
           split_and!; [|done|by apply Forall_cons].
           rewrite append_nil_l, joined_cons, append_assoc, append_cons. by rewrite Hr.
        -- intros (-> & Hne & Hl)%rest_of_line_some. split_and!; [done..|].
           exists EmptyString, []. split_and!; [done|done|by apply Forall_nil].
    + cbn [spaces_then_rest]. intros (Hne & Hl & tail & l & -> & Hlen & Hall)%IH.
      split_and!; [done..|]. exists (String c tail), l.
      split_and!; [by rewrite append_cons|by cbn; rewrite Hlen|done].
Qed.

Lemma spaces_then_rest_pass (tail s : string) :
  spaces_then_rest (String.length tail) (tail +:+ s) = spaces_then_rest 0 s.
Proof. induction tail as [|c tail IH]; [done|]. rewrite append_cons. cbn. apply IH. Qed.

Lemma spaces_then_rest_token (l : list string) (t : string) :
  Forall (fun p => p ∈ white_space) l →
  t ≠ EmptyString → one_line t = true → starts_black t →
  spaces_then_rest 0 (joined l +:+ t) = Some t.
Proof.
  intros Hall Hne Hl Hb. induction Hall as [|p l Hp _ IH].
  - rewrite append_nil_l. destruct t as [|c r]; [done|].
    cbn [spaces_then_rest]. rewrite (width_at_black _ Hb).
    unfold rest_of_line. by rewrite Hl.
  - rewrite joined_cons, append_assoc.
    pose proof (width_at_white_space p (joined l +:+ t) Hp) as Hw.
    destruct p as [|c p']; [by destruct (white_space_not_empty _ Hp)|].
    rewrite append_cons in Hw |- *. cbn [spaces_then_rest]. rewrite Hw.
    cbn [String.length]. by rewrite spaces_then_rest_pass, IH.
Qed.

(** X22. The bearer token. A token read from the Authorization header is
    never empty and holds no line terminator, and the header is the
    scheme Bearer in any case of its letters, one or more white-space
    characters (those of the class [\s], U+00A0 and the other white space
    of Unicode among them) and the token. Conversely every header of that
    form whose token does not start with white space gives back the
    token; without a header there is no token. *)
Theorem bearer_token_read :
  (∀ authorization t,
     getBearerToken authorization = Some t →
     t ≠ EmptyString ∧ one_line t = true
     ∧ ∃ scheme sp,
         authorization = Some (scheme +:+ sp +:+ t)
         ∧ same_ci "Bearer" scheme ∧ white_spaces sp)
  ∧ (∀ scheme sp t,
       same_ci "Bearer" scheme → white_spaces sp →
       t ≠ EmptyString → one_line t = true → starts_black t →
       getBearerToken (Some (scheme +:+ sp +:+ t)) = Some t)
  ∧ getBearerToken None = None.
Proof.
  split_and!.
  - intros authorization t. unfold getBearerToken.
    destruct (strip_prefix_ci "Bearer" (default EmptyString authorization))
      as [rest|] eqn:E; [|done].
    destruct (width_at white_space rest) as [|w] eqn:Ew; [done|].
    destruct rest as [|c after]; [done|].
    intros (Hne & Hl & tail & l & Ha & Hlen & Hall)%spaces_then_rest_some.
    split_and!; [done..|].
    destruct (width_at_found _ _ _ Ew) as (p & rest & Hp & Hs & Hlp).
    destruct p as [|c' p']; [done|]. rewrite append_cons in Hs.
    injection Hs as <- Hr. injection Hlp as Hlp. rewrite Ha in Hr.
    destruct (append_same_length _ _ _ _ Hr) as [-> _]; [congruence|].
    apply strip_prefix_ci_split in E as (scheme & Hs & Hscheme).
    exists scheme, (joined (String c p' :: l)). split_and!; [|done|].
    + destruct authorization as [a|]; cbn [from_option id] in Hs.
      * f_equal. rewrite Hs, Ha, joined_cons, append_assoc. by rewrite append_cons.
      * by destruct scheme.
    + exists (String c p' :: l). split_and!; [done|by apply Forall_cons|done].
  - intros scheme sp t Hscheme (l & Hne & Hall & ->) Ht Hl Hb. unfold getBearerToken.
    cbn [from_option id].
    rewrite (strip_prefix_ci_app _ _ _ Hscheme).
    destruct Hall as [|p l Hp Hall]; [done|].
    rewrite joined_cons, append_assoc.
    pose proof (width_at_white_space p (joined l +:+ t) Hp) as Hw.
    destruct p as [|c p']; [by destruct (white_space_not_empty _ Hp)|].
    rewrite append_cons in Hw |- *. rewrite Hw. cbn [String.length].
    rewrite spaces_then_rest_pass. by apply spaces_then_rest_token.
  - reflexivity.
Qed.

Lemma parseRightmoveListingId_unfold (url : string) :
  parseRightmoveListingId url
  = match match strip_prefix_ci listing_path url with
          | Some rest =>
              match take_digits rest with
              | EmptyString => None
              | digits => Some digits
              end
          | None => None
          end, url with
    | Some digits, _ => Some digits
    | None, String _ rest => parseRightmoveListingId rest
    | None, EmptyString => None
    end.
Proof. by destruct url. Qed.

Lemma take_digits_split (s : string) :
  ∃ rest, s = take_digits s +:+ rest
          ∧ all_digits (take_digits s) = true ∧ starts_with is_digit rest = false.
Proof.
  induction s as [|c r (rest & Hr & Hd & Hs)]; cbn [take_digits].
  - by exists EmptyString.
  - destruct (is_digit c) eqn:E.
    + exists rest. appended. cbn [all_digits]. rewrite E, Hd. by rewrite <- Hr.
    + exists (String c r). split_and!; [done|done|]. by cbn [starts_with].
Qed.

Lemma take_digits_app (digits rest : string) :
  all_digits digits = true → starts_with is_digit rest = false →
  take_digits (digits +:+ rest) = digits.
Proof.
  intros Hd Hs. induction digits as [|c d IH]; appended; cbn [take_digits].
  - destruct rest as [|c r]; [done|]. cbn [starts_with] in Hs. cbn [take_digits].
    by rewrite Hs.
  - cbn [all_digits] in Hd. apply andb_true_iff in Hd as [Hc Hd]. by rewrite Hc, (IH Hd).
Qed.

(** X23. The listing id of a reference. An id read from a URL is a
    non-empty string of digits, and the URL holds, in any case of its
    letters, the path rightmove.co.uk/properties/, then the id, then
    something that does not go on with a digit. Conversely a URL made of a
    prefix without the letter r, that path, digits and a rest that does
    not start with a digit gives back the digits, so that two references
    to one listing that differ in scheme, host prefix, query or fragment
    have the same id. *)
Theorem listing_id_read :
  (∀ url id,
     parseRightmoveListingId url = Some id →
     id ≠ EmptyString ∧ all_digits id = true
     ∧ ∃ pre path rest,
         url = pre +:+ path +:+ id +:+ rest
         ∧ same_ci listing_path path ∧ starts_with is_digit rest = false)
  ∧ (∀ pre path id rest,
       occurs_ci "r" pre = false → same_ci listing_path path →
       id ≠ EmptyString → all_digits id = true → starts_with is_digit rest = false →
       parseRightmoveListingId (pre +:+ path +:+ id +:+ rest) = Some id)
  ∧ (∀ pre pre' path path' id rest rest',
       occurs_ci "r" pre = false → occurs_ci "r" pre' = false →
       same_ci listing_path path → same_ci listing_path path' →
       id ≠ EmptyString → all_digits id = true →
       starts_with is_digit rest = false → starts_with is_digit rest' = false →
       parseRightmoveListingId (pre +:+ path +:+ id +:+ rest)
       = parseRightmoveListingId (pre' +:+ path' +:+ id +:+ rest')).
Proof.
  assert (Hback : ∀ pre path id rest,
            occurs_ci "r" pre = false → same_ci listing_path path →
            id ≠ EmptyString → all_digits id = true → starts_with is_digit rest = false →
            parseRightmoveListingId (pre +:+ path +:+ id +:+ rest) = Some id).
  { intros pre path id rest Hpre Hpath Hne Hd Hrest.
    induction pre as [|c pre IH].
    - appended. rewrite parseRightmoveListingId_unfold.
      rewrite (strip_prefix_ci_app _ _ _ Hpath), (take_digits_app _ _ Hd Hrest).
      by destruct id.
    - cbn in Hpre. apply orb_false_iff in Hpre as [Hc Hpre].
      rewrite parseRightmoveListingId_unfold. appended.
      assert (Hno : strip_prefix_ci listing_path (String c (pre +:+ path +:+ id +:+ rest))
                    = None).
      { unfold listing_path. cbn [strip_prefix_ci]. by rewrite Hc. }
      rewrite Hno. by apply IH. }
  split_and!; [|exact Hback|].
  - intros url. induction url as [|c url IH]; intros id.
    + rewrite parseRightmoveListingId_unfold. by cbn.
    + rewrite parseRightmoveListingId_unfold.
      destruct (strip_prefix_ci listing_path (String c url)) as [rest0|] eqn:E.
      * destruct (take_digits rest0) as [|d ds] eqn:Ed.
        -- intros (Hne & Hd & pre & path & rest & -> & Hp)%IH.
           split_and!; [done..|]. by exists (String c pre), path, rest.
        -- intros [= <-].
           destruct (take_digits_split rest0) as (rest & Hr & Hd & Hs).
           rewrite Ed in Hr, Hd.
           apply strip_prefix_ci_split in E as (path & Hu & Hp).
           split_and!; [done|done|].
           exists EmptyString, path, rest. appended.
           by rewrite Hu, Hr at 1.
      * intros (Hne & Hd & pre & path & rest & -> & Hp)%IH.
        split_and!; [done..|]. by exists (String c pre), path, rest.
  - intros pre pre' path path' id rest rest' ? ? ? ? ? ? ? ?.
    by rewrite !Hback.
Qed.

Lemma string_rev_onto_app (a b acc : string) :
  string_rev_onto (a +:+ b) acc = string_rev_onto b (string_rev_onto a acc).
Proof.
  revert acc. induction a as [|c a IH]; intros acc; appended; [done|].
  cbn [string_rev_onto]. apply IH.
Qed.

Lemma string_rev_onto_acc (s acc : string) :
  string_rev_onto s acc = string_rev_onto s EmptyString +:+ acc.
Proof.
  revert acc. induction s as [|c s IH]; intros acc; cbn [string_rev_onto]; [done|].
  rewrite (IH (String c acc)), (IH (String c EmptyString)).
  by rewrite append_assoc.
Qed.

Lemma string_reverse_app (a b : string) :
  string_reverse (a +:+ b) = string_reverse b +:+ string_reverse a.
Proof.
  unfold string_reverse. by rewrite string_rev_onto_app, string_rev_onto_acc.
Qed.

Lemma string_reverse_cons (c : Ascii.ascii) (s : string) :
  string_reverse (String c s) = string_reverse s +:+ String c EmptyString.
Proof.
  unfold string_reverse. cbn [string_rev_onto]. by rewrite string_rev_onto_acc.
Qed.

Lemma string_reverse_involutive (s : string) : string_reverse (string_reverse s) = s.
Proof.
  induction s as [|c s IH]; [done|].
  by rewrite string_reverse_cons, string_reverse_app, IH.
Qed.

Lemma occurs_app (c : Ascii.ascii) (a b : string) :
  occurs c (a +:+ b) = occurs c a || occurs c b.
Proof.
  induction a as [|d a IH]; appended; [done|].
  cbn [occurs]. by rewrite IH, orb_assoc.
Qed.

Lemma occurs_reverse (c : Ascii.ascii) (s : string) :
  occurs c (string_reverse s) = occurs c s.
Proof.
  induction s as [|d s IH]; [done|].
  rewrite string_reverse_cons, occurs_app, IH. cbn [occurs].
  by rewrite orb_false_r, orb_comm.
Qed.

Lemma from_first_app (c : Ascii.ascii) (pre rest : string) :
  occurs c pre = false →
  from_first c (pre +:+ String c rest) = Some (String c rest).
Proof.
  intros Hpre. induction pre as [|d pre IH]; appended; cbn [from_first].
  - by rewrite Ascii.eqb_refl.
  - cbn [occurs] in Hpre. apply orb_false_iff in Hpre as [-> Hpre]. by apply IH.
Qed.

(** The span from the first opening brace to the last closing brace. *)
Lemma match_braces_span (pre inner post : string) :
  occurs "{" pre = false → occurs "}" post = false →
  match_braces (pre +:+ String "{" (inner +:+ String "}" post))
  = Some (String "{" (inner +:+ String "}" EmptyString)).
Proof.
  intros Hpre Hpost. unfold match_braces. rewrite (from_first_app _ _ _ Hpre).
  rewrite string_reverse_app, string_reverse_cons.
  rewrite append_assoc. appended.
  rewrite from_first_app by (by rewrite occurs_reverse).
  rewrite string_reverse_cons, string_reverse_involutive. done.
Qed.

(** X24. Reading the answer of the model. [parseJsonLoose] answers null
    for a blank text without parsing anything and gives the strict parse
    of the trimmed text when that succeeds. When it fails and the trimmed
    text holds an opening brace followed somewhere by a closing one, the
    answer is the parse of the span from the first opening brace to the
    last closing brace, so an object wrapped in prose or in a code fence
    is recovered; if that span does not parse either, the call throws. *)
Theorem parseJsonLoose_recovers_object (h : Host) (text : string) :
  (trim text = EmptyString → parseJsonLoose h text = Returns JNull)
  ∧ (∀ v, trim text ≠ EmptyString → JSON_parse h (trim text) = Returns v →
          parseJsonLoose h text = Returns v)
  ∧ (∀ e pre inner post,
       trim text = pre +:+ String "{" (inner +:+ String "}" post) →
       occurs "{" pre = false → occurs "}" post = false →
       JSON_parse h (trim text) = Throws e →
       parseJsonLoose h text = JSON_parse h (String "{" (inner +:+ String "}" EmptyString))).
Proof.
  unfold parseJsonLoose. split_and!.
  - by intros ->.
  - intros v Hne Hv. apply String.eqb_neq in Hne. by rewrite Hne, Hv.
  - intros e pre inner post Ht Hpre Hpost He.
    assert (Hne : String.eqb (trim text) EmptyString = false).
    { apply String.eqb_neq. rewrite Ht. by destruct pre. }
    rewrite Hne, He, Ht. by rewrite match_braces_span.
Qed.

(** ** White space beyond ASCII

    [trim] and [\s] take the white space of ECMAScript: a text made of a
    no-break space, an en quad, a line separator or a byte order mark is
    as blank as one made of a blank. *)

Lemma white_space_is_blank : Forall (fun p => trim p = EmptyString) white_space.
Proof. apply (bool_decide_unpack _). by vm_compute. Qed.

Lemma trim_keeps_the_inside :
  trim (no_break_space +:+ "N1" +:+ no_break_space +:+ "9GU" +:+ bytes [226; 128; 168])
  = "N1" +:+ no_break_space +:+ "9GU".
Proof. reflexivity. Qed.

Lemma must_refuses_white_space (msg : string) :
  Forall (fun p => StatsConfirm.must (Some (JStr p)) msg = Throws (Error msg)) white_space.
Proof.
  eapply Forall_impl; [apply white_space_is_blank|].
  intros p Hp. cbn [StatsConfirm.must]. by rewrite Hp.
Qed.

Lemma blank_postcode_is_missing :
  Stats.checkMinimumPreferences blank_postcode_preferences = (false, ["work_postcode"]).
Proof. reflexivity. Qed.

(** ** The pages and the routes they post to *)

Lemma assoc_wire (kvs : list (string * json)) (k : string) :
  assoc k (map (fun kv => (kv.1, PropertiesPage.wire kv.2)) kvs)
  = PropertiesPage.wire <$> assoc k kvs.
Proof.
  induction kvs as [|[k1 v1] rest IH]; cbn [map assoc fst snd]; [done|].
  by destruct (String.eqb k k1).
Qed.

Lemma prop_wire (v : json) (k : string) :
  prop (PropertiesPage.wire v) k = PropertiesPage.wire <$> prop v k.
Proof.
  destruct v; try done. cbn [PropertiesPage.wire prop]. apply assoc_wire.
Qed.

Lemma prop_some_object (v : json) (k : string) (x : json) :
  prop v k = Some x → ∃ kvs, v = JObj kvs.
Proof. destruct v; try done. by eexists. Qed.

Lemma not_positive_present (h : Host) (v : option json) :
  blank_is_zero h →
  PropertiesPage.not_positive h v = false →
  present (PropertiesPage.wire <$> v).
Proof.
  intros Hz. destruct v as [x|]; [|done]. unfold PropertiesPage.not_positive.
  intros [Ht Hn]%orb_false_iff. apply negb_false_iff in Ht.
  destruct x as [|b|n| |s|xs|kvs]; try done.
  cbn [fmap option_fmap option_map PropertiesPage.wire present].
  intros Hs. cbn [jsNumber] in Hn. by rewrite (Hz s Hs) in Hn.
Qed.

Lemma blank_present (v : option json) :
  PropertiesPage.blank v = Returns false → present (PropertiesPage.wire <$> v).
Proof.
  destruct v as [[]|]; try done. cbn.
  intros [= Hs]. by apply String.eqb_neq.
Qed.

(** X25. The facts form and its route. Whatever the properties page posts
    to /api/confirm for a session, the id of the session not being blank
    and [Number] of a blank string being 0, passes every check the route
    makes on
    the body: the session id and the facts are there, and the five
    required facts satisfy [must], because the page has already refused a
    price or a number of bedrooms that is missing or not positive and a
    blank property type, tenure or postcode. The route therefore answers
    200 to the owner of the session whenever the store takes the row. *)
Theorem page_facts_pass_the_route (h : Host) (id : string) (f body : json) :
  blank_is_zero h →
  trim id ≠ EmptyString →
  PropertiesPage.submitConfirm h (Some id) (Some f) = Returns (PropertiesPage.Sends body) →
  ∃ facts row,
    StatsConfirm.must (prop body "session_id") "session_id required" = Returns (JStr id)
    ∧ StatsConfirm.must (prop body "facts") "facts required" = Returns facts
    ∧ Confirm.confirm_payload (JStr id) facts = Returns row
    ∧ ∀ req w u r,
        payload req = body → authenticated h req u → owns w u id r →
        store_accepts h "listing_facts_confirmed" row = true →
        (Confirm.POST h req w).1 = respond 200 [("ok", JBool true)].
Proof.
  intros Hz Hid. unfold PropertiesPage.submitConfirm.
  destruct (negb (truthy f)) eqn:Ht; [done|].
  destruct (PropertiesPage.not_positive h (prop f "price")) eqn:Hprice; [done|].
  destruct (PropertiesPage.not_positive h (prop f "bedrooms")) eqn:Hbed; [done|].
  destruct (PropertiesPage.blank (prop f "property_type")) as [[]|] eqn:Hpt; try done.
  destruct (PropertiesPage.blank (prop f "tenure")) as [[]|] eqn:Hten; try done.
  destruct (PropertiesPage.blank (prop f "postcode")) as [[]|] eqn:Hpc; try done.
  intros [= <-].
  assert (Hobj : ∃ kvs, f = JObj kvs).
  { destruct (prop f "price") as [x|] eqn:E; [by eapply prop_some_object|done]. }
  destruct Hobj as [kvs ->].
  assert (Hmust : ∃ core,
            StatsConfirm.must_all (PropertiesPage.wire (JObj kvs)) Confirm.required_facts
            = Returns core).
  { apply must_all_present. intros k Hk. rewrite prop_wire.
    unfold Confirm.required_facts in Hk.
    repeat (apply elem_of_cons in Hk as [->|Hk]);
      [by apply (not_positive_present h)..|by apply blank_present
      |by apply blank_present|by apply blank_present|by apply elem_of_nil in Hk]. }
  destruct Hmust as [core Hcore].
  eexists (PropertiesPage.wire (JObj kvs)), _.
  assert (Hsid : StatsConfirm.must (Some (JStr id)) "session_id required" = Returns (JStr id)).
  { cbn. apply String.eqb_neq in Hid. by rewrite Hid. }
  assert (Hrow : Confirm.confirm_payload (JStr id) (PropertiesPage.wire (JObj kvs))
                 = Returns (JObj (("property_session_id", JStr id) :: core ++
                     map (fun k => (k, nullish (prop (PropertiesPage.wire (JObj kvs)) k) JNull))
                         Confirm.optional_facts))).
  { unfold Confirm.confirm_payload. by rewrite Hcore. }
  split_and!; [exact Hsid|done|exact Hrow|].
  intros req w u r Hbody Ha Ho Hacc.
  assert (Hadm : ∃ row,
            confirm_admitted h req w u (JStr id) (PropertiesPage.wire (JObj kvs)) r row).
  { eexists. unfold confirm_admitted. rewrite Hbody.
    split_and!; [done|done|exact Hsid|done|exact Hrow|done|exact Hacc]. }
  destruct Hadm as [row Hadm].
  by rewrite (Confirm_POST_admitted _ _ _ _ _ _ _ _ Hadm).
Qed.

Lemma draft_member (raw : json) (k : string) :
  k ∈ StatsConfirm.core_fields →
  prop (PropertiesPage.wire (PropertiesPage.statsDraft raw)) k
  = Some (PropertiesPage.wire
            (nullish (prop raw k)
               (if bool_decide (k ∈ text_stats) then JStr EmptyString else JNum 0))).
Proof.
  intros Hk. unfold StatsConfirm.core_fields in Hk.
  repeat (apply elem_of_cons in Hk as [->|Hk]); [reflexivity..|].
  by apply elem_of_nil in Hk.
Qed.

Lemma prefilled_present (raw : json) (k : string) :
  present (Some (PropertiesPage.wire
                   (nullish (prop raw k)
                      (if bool_decide (k ∈ text_stats) then JStr EmptyString else JNum 0))))
  ↔ prefilled raw k.
Proof.
  unfold prefilled. destruct (prop raw k) as [[]|]; cbn [nullish]; try done.
  all: case_bool_decide; cbn; split; try done; try tauto.
Qed.

(** X26. The stats form and its route. The draft the properties page
    opens for a raw stats row, posted as it is for a session whose id is
    not blank, passes the [must] checks
    of /api/stats/confirm exactly when every one of the ten core columns
    of the raw row is prefilled: it holds a value that is neither a blank
    string nor NaN, or it holds none and is one of the six numbers, which
    the form sets to 0. A text column without value (commute mode, station,
    supermarket or green space name) opens as the empty string, which the
    route refuses until the user fills it in. Without a raw row no draft
    is opened and nothing is posted. *)
Theorem stats_draft_passes_when_prefilled (listing_stats_raw : option json) (id : string) :
  trim id ≠ EmptyString →
  let raw := PropertiesPage.getOne listing_stats_raw in
  (truthy raw = false →
   PropertiesPage.openStatsConfirm listing_stats_raw = None
   ∧ PropertiesPage.submitStatsConfirm (Some id) None = PropertiesPage.Nothing)
  ∧ (truthy raw = true →
     ∃ d body stats,
       PropertiesPage.openStatsConfirm listing_stats_raw = Some d
       ∧ PropertiesPage.submitStatsConfirm (Some id) (Some d) = PropertiesPage.Sends body
       ∧ StatsConfirm.must (prop body "property_session_id") "property_session_id required"
         = Returns (JStr id)
       ∧ StatsConfirm.must (prop body "stats") "stats required" = Returns stats
       ∧ ((∃ core, StatsConfirm.must_all stats StatsConfirm.core_fields = Returns core)
          ↔ ∀ k, k ∈ StatsConfirm.core_fields → prefilled raw k)).
Proof.
  intros Hid raw. unfold PropertiesPage.openStatsConfirm. fold raw. split.
  - by intros ->.
  - intros ->.
    exists (PropertiesPage.statsDraft raw),
           (PropertiesPage.wire
              (JObj [ ("property_session_id", JStr id);
                      ("stats", PropertiesPage.statsDraft raw) ])),
           (PropertiesPage.wire (PropertiesPage.statsDraft raw)).
    split_and!; [reflexivity|reflexivity| |reflexivity|].
    + cbn. apply String.eqb_neq in Hid. by rewrite Hid.
    + rewrite must_all_present. split.
      * intros Hall k Hk. apply prefilled_present.
        rewrite <- (draft_member raw k Hk). by apply Hall.
      * intros Hall k Hk. rewrite (draft_member raw k Hk).
        apply prefilled_present. by apply Hall.
Qed.












Lemma splice_start_le (len : nat) (start : Z) :
  (PreferencesPage.splice_start len start ≤ len)%nat.
Proof. unfold PreferencesPage.splice_start. destruct (start <? 0) eqn:E; lia. Qed.

Lemma splice_start_index (len : nat) (start : Z) :
  0 ≤ start < Z.of_nat len → PreferencesPage.splice_start len start = Z.to_nat start.
Proof.
  intros Hs. unfold PreferencesPage.splice_start.
  destruct (start <? 0) eqn:E; [apply Z.ltb_lt in E; lia|]. lia.
Qed.

Lemma splice_start_past (len : nat) (start : Z) :
  Z.of_nat len ≤ start → PreferencesPage.splice_start len start = len.
Proof.
  intros Hs. unfold PreferencesPage.splice_start.
  destruct (start <? 0) eqn:E; [apply Z.ltb_lt in E; lia|]. lia.
Qed.

(** X28. Moving an entry of a ranking. For a position [from] inside the
    array, [reorder] returns a rearrangement of the array: no entry is
    lost, repeated or undefined, the entry taken from [from] stands at
    [to] (counted from the end when negative, and kept within the array),
    the other entries keep their order, and moving an entry onto its own
    position changes nothing. With [from] at or past the end nothing is
    taken out and an undefined entry is put in, so the array grows by
    one. *)
Theorem reorder_moves_one_entry {T : Type} (arr : list T) (from to : Z) :
  (0 ≤ from < Z.of_nat (length arr) →
   let i := Z.to_nat from in
   let j := PreferencesPage.splice_start (length arr - 1) to in
   PreferencesPage.reorder arr from to ≡ₚ map Some arr
   ∧ PreferencesPage.reorder arr from to !! j = Some (arr !! i)
   ∧ delete j (PreferencesPage.reorder arr from to) = map Some (delete i arr)
   ∧ PreferencesPage.reorder arr from from = map Some arr)
  ∧ (Z.of_nat (length arr) ≤ from →
     length (PreferencesPage.reorder arr from to) = S (length arr)
     ∧ None ∈ PreferencesPage.reorder arr from to).
Proof.
  split.
  - intros Hfrom i j. unfold PreferencesPage.reorder. cbv zeta.
    rewrite !length_map, (splice_start_index _ _ Hfrom). fold i.
    destruct (lookup_lt_is_Some_2 arr i) as [x Hx]; [lia|].
    assert (Hcopy : map Some arr !! i = Some (Some x)).
    { change (map Some arr) with (Some <$> arr). by rewrite list_lookup_fmap, Hx. }
    rewrite Hcopy. cbn [mjoin option_join].
    assert (Hlen : length (delete i (map Some arr)) = (length arr - 1)%nat).
    { rewrite length_delete by (by eexists). by rewrite length_map. }
    rewrite !Hlen. fold j.
    assert (Hj : (j ≤ length (delete i (map Some arr)))%nat)
      by (rewrite Hlen; apply splice_start_le).
    set (copy1 := delete i (map Some arr)) in *.
    assert (Htake : length (take j copy1) = j) by (rewrite length_take; lia).
    split_and!.
    + rewrite <- Permutation_middle, take_drop. unfold copy1.
      symmetry. by apply delete_Permutation.
    + rewrite lookup_app_r by lia. rewrite Htake, Nat.sub_diag. by rewrite Hx.
    + rewrite <- Htake at 1. rewrite delete_middle, take_drop. unfold copy1.
      symmetry. exact (list_fmap_delete Some arr i).
    + assert (Hi : PreferencesPage.splice_start (length arr - 1) from = i).
      { unfold PreferencesPage.splice_start.
        destruct (from <? 0) eqn:E; [apply Z.ltb_lt in E; lia|]. lia. }
      rewrite Hi. unfold copy1. rewrite delete_take_drop.
      rewrite take_app_length' by (rewrite length_take, length_map; lia).
      rewrite drop_app_length' by (rewrite length_take, length_map; lia).
      by apply take_drop_middle.
  - intros Hfrom. unfold PreferencesPage.reorder. cbv zeta.
    rewrite !length_map, (splice_start_past _ _ Hfrom).
    assert (Hcopy : map Some arr !! length arr = None).
    { apply lookup_ge_None. by rewrite length_map. }
    rewrite Hcopy. cbn [mjoin option_join].
    assert (Hdel : delete (length arr) (map Some arr) = map Some arr).
    { rewrite delete_take_drop, take_ge, drop_ge by (rewrite length_map; lia).
      apply app_nil_r. }
    rewrite Hdel, length_map. split.
    + rewrite length_app, length_take. cbn [length]. rewrite length_drop, length_map.
      pose proof (splice_start_le (length arr) to). lia.
    + apply elem_of_app. right. by left.
Qed.

Lemma elem_of_kept_of (xs : list json) (allowed : list string) (x : string) :
  x ∈ PreferencesPage.kept_of xs allowed ↔ JStr x ∈ xs ∧ x ∈ allowed.
Proof.
  induction xs as [|y xs IH]; cbn [PreferencesPage.kept_of].
  - rewrite !elem_of_nil. tauto.
  - destruct y; rewrite ?IH, ?elem_of_cons; try (intuition congruence).
    case_bool_decide; rewrite ?elem_of_cons, IH; intuition congruence.
Qed.

Lemma kept_of_strings (l allowed : list string) :
  (∀ x, x ∈ l → x ∈ allowed) →
  PreferencesPage.kept_of (map JStr l) allowed = l.
Proof.
  induction l as [|x l IH]; intros Hall; cbn [map PreferencesPage.kept_of]; [done|].
  rewrite bool_decide_eq_true_2 by (apply Hall; by left).
  rewrite IH; [done|]. intros y Hy. apply Hall. by right.
Qed.

Lemma elem_of_normalizeRankList (current : option json) (allowed : list string) (x : string) :
  x ∈ PreferencesPage.normalizeRankList current allowed ↔ x ∈ allowed.
Proof.
  unfold PreferencesPage.normalizeRankList. cbv zeta.
  rewrite elem_of_app, list_elem_of_filter.
  match goal with
  | |- x ∈ ?k ∨ _ ↔ _ => destruct (decide (x ∈ k)) as [Hk|Hk]
  end.
  - pose proof (proj1 (elem_of_kept_of _ _ _) Hk). tauto.
  - tauto.
Qed.

(** X29. The ranking lists the preferences form loads. Whatever was
    stored, [normalizeRankList] returns a list that holds exactly the
    allowed names: the stored ones that are allowed come first, in their
    stored order, and the allowed ones that were not stored follow; a
    stored value that is not an array gives the allowed list itself. When
    no allowed name was stored twice the result is a rearrangement of the
    allowed list, and normalising a normalised list changes nothing. For
    a non-empty allowed list, as the three of the form are, the cut-off
    the form then clamps into the list is a valid index of it. *)
Theorem normalised_rank_list (current : option json) (allowed : list string) :
  let kept :=
    PreferencesPage.kept_of (match current with Some (JArr xs) => xs | _ => [] end) allowed in
  let r := PreferencesPage.normalizeRankList current allowed in
  (∀ x, x ∈ r ↔ x ∈ allowed)
  ∧ take (length kept) r = kept
  ∧ ((∀ xs, current ≠ Some (JArr xs)) → r = allowed)
  ∧ (NoDup allowed → NoDup kept → r ≡ₚ allowed)
  ∧ PreferencesPage.normalizeRankList (Some (JArr (map JStr r))) allowed = r
  ∧ (allowed ≠ [] →
     ∀ n, is_Some (r !! Z.to_nat (PreferencesPage.clamp n 0 (Z.of_nat (length r) - 1)))
          ∧ 0 ≤ PreferencesPage.clamp n 0 (Z.of_nat (length r) - 1)).
Proof.
  intros kept r.
  assert (Helem : ∀ x, x ∈ r ↔ x ∈ allowed)
    by (intros x; apply elem_of_normalizeRankList).
  split_and!.
  - exact Helem.
  - unfold r, PreferencesPage.normalizeRankList. cbv zeta. fold kept.
    by rewrite take_app_length.
  - intros Hno. unfold r, PreferencesPage.normalizeRankList. cbv zeta.
    assert (Hcur : match current with Some (JArr xs) => xs | _ => [] end = [])
      by (destruct current as [[]|]; try done; by destruct (Hno xs)).
    rewrite Hcur. cbn [PreferencesPage.kept_of app].
    clear. induction allowed as [|a l IH]; [done|].
    rewrite filter_cons, decide_True by apply not_elem_of_nil.
    by rewrite IH.
  - intros Hallowed Hkept. apply NoDup_Permutation; [|done|exact Helem].
    unfold r, PreferencesPage.normalizeRankList. cbv zeta. fold kept.
    apply NoDup_app. split_and!; [done| |by apply NoDup_filter].
    intros x Hx [Hn _]%list_elem_of_filter. done.
  - unfold PreferencesPage.normalizeRankList at 1. cbv zeta.
    rewrite kept_of_strings by (intros x; apply Helem).
    assert (Hnone : filter (fun x => x ∉ r) allowed = []).
    { destruct (filter (fun x => x ∉ r) allowed) as [|x rest] eqn:E; [done|].
      assert (Hx : x ∈ filter (fun x => x ∉ r) allowed) by (rewrite E; left).
      apply list_elem_of_filter in Hx as [Hn Hx]. by apply Helem in Hx. }
    by rewrite Hnone, app_nil_r.
  - intros Hne n.
    assert (Hlen : (0 < length r)%nat).
    { destruct allowed as [|a l]; [done|].
      assert (Ha : a ∈ r) by (apply Helem; by left).
      destruct r; [by apply elem_of_nil in Ha|cbn; lia]. }
    unfold PreferencesPage.clamp. split; [|lia].
    apply lookup_lt_is_Some_2. lia.
Qed.

(** * The further properties on the samples *)

(** On the samples: compute-stats without a token is answered 401 and
    changes nothing. *)
Lemma unauthenticated_request_changes_nothing_witness :
  (∀ u, ¬ authenticated keyless_host anonymous_request u)
  ∧ (serve keyless_host POST_stats anonymous_request confirmed_world).2 = confirmed_world
  ∧ code (serve keyless_host POST_stats anonymous_request confirmed_world).1 = 401.
Proof.
  assert (Hn : ∀ u, ¬ authenticated keyless_host anonymous_request u)
    by (intros u (t & Hb & _); discriminate).
  destruct (unauthenticated_request_changes_nothing keyless_host POST_stats
              anonymous_request confirmed_world Hn) as [Hw Hc].
  split_and!; [done|done|]. destruct Hc as [Hc|(Hr & _)]; [done|discriminate].
Defined.

(** On the samples: compute-stats of alice leaves the session of bob as it
    is. *)
Lemma request_touches_only_own_rows_witness :
  authenticated stats_host (session_request false) "alice"
  ∧ property_sessions shared_world !! "b1" = Some bob_row
  ∧ user_id bob_row ≠ "alice"
  ∧ property_sessions (serve stats_host POST_stats (session_request false) shared_world).2
      !! "b1" = Some bob_row.
Proof.
  assert (Ha : authenticated stats_host (session_request false) "alice")
    by (exists "token-alice"; split; reflexivity).
  assert (Hb : property_sessions shared_world !! "b1" = Some bob_row) by reflexivity.
  assert (Hu : user_id bob_row ≠ "alice") by discriminate.
  split_and!; [done..|].
  destruct (request_touches_only_own_rows stats_host POST_stats (session_request false)
              shared_world "alice" Ha) as (Hothers & _).
  by destruct (Hothers "b1" bob_row Hb Hu).
Defined.

(** On the samples: compute-stats of alice appends at most one row to the
    ledger; and two extract debits that both read 4 of 5 leave the counter
    at 5 and two rows in the ledger. *)
Lemma request_pays_for_what_it_uses_witness :
  authenticated stats_host (session_request false) "alice"
  ∧ (∃ l, usage_ledger (serve stats_host POST_stats (session_request false) confirmed_world).2
          = (usage_ledger confirmed_world ++ l)%list
          ∧ (length l ≤ 1)%nat)
  ∧ usage_counters last_unit_world !! "alice" = Some last_unit_counters
  ∧ used_of A_extract
      (Usage.counters_of stats_host "alice"
         (Usage.consume "alice" A_extract 4
            (Usage.consume "alice" A_extract 4 last_unit_world))) = 5
  ∧ usage_ledger
      (Usage.consume "alice" A_extract 4 (Usage.consume "alice" A_extract 4 last_unit_world))
    = [Usage.usage_entry "alice" A_extract; Usage.usage_entry "alice" A_extract].
Proof.
  assert (Ha : authenticated stats_host (session_request false) "alice")
    by (exists "token-alice"; split; reflexivity).
  assert (Hc : usage_counters last_unit_world !! "alice" = Some last_unit_counters)
    by reflexivity.
  destruct (request_pays_for_what_it_uses stats_host POST_stats (session_request false)
              confirmed_world "alice") as (Halone & _ & Htwice).
  destruct (Halone Ha) as (l & Hl & Hlen & _).
  destruct (Htwice A_extract 4 last_unit_world last_unit_counters Hc) as (Hused & Hledger).
  split_and!; [done| |done|exact Hused|exact Hledger].
  by exists l.
Defined.

Lemma confirmed_world_within_limits (h : Host) (u : string) :
  default_counters h = fresh_counters → within_limits h u confirmed_world.
Proof.
  intros Hd a. unfold Usage.counters_of. cbn [usage_counters confirmed_world sample_world].
  destruct (decide (u = "alice")) as [->|Hne].
  - rewrite lookup_singleton_eq. by destruct a.
  - rewrite lookup_singleton_ne by done. cbn. rewrite Hd. by destruct a.
Qed.

(** On the samples: after calls of four routes every counter is within
    its limit. *)
Lemma usage_never_exceeds_limit_witness :
  Forall (fun c => default_counters (call_host c) = default_counters stats_host) sample_calls
  ∧ (∀ u, within_limits stats_host u confirmed_world)
  ∧ within_limits stats_host "alice" (serve_all sample_calls confirmed_world).
Proof.
  assert (Hd : Forall (fun c => default_counters (call_host c) = default_counters stats_host)
                 sample_calls)
    by (unfold sample_calls; repeat (apply Forall_cons; split; [reflexivity|]);
        by apply Forall_nil).
  assert (Hw : ∀ u, within_limits stats_host u confirmed_world)
    by (intros u; by apply confirmed_world_within_limits).
  split_and!; [done|done|].
  apply (usage_never_exceeds_limit stats_host sample_calls confirmed_world Hd Hw).
Defined.

(** On the samples: evaluate on a session that is only CONFIRMED reports
    CONFIRMED, and that is the status stored; an evaluate that read
    STATS_READY and finds the guard taken by another reports STATS_READY
    while EVAL_RUNNING is stored. *)
Lemma reported_status_is_stored_witness :
  reported_status (serve keyless_host POST_evaluate (session_request false) confirmed_world).1
  = Some "CONFIRMED"
  ∧ (∃ sid s,
       names POST_evaluate (session_request false) sid
       ∧ status_of (serve keyless_host POST_evaluate (session_request false)
                      confirmed_world).2 sid = Some s
       ∧ stage_name s = "CONFIRMED")
  ∧ (guard_at EvaluateEntry "s1" "alice" evaluating_world).1 = false
  ∧ status_of evaluating_world "s1" = Some EVAL_RUNNING
  ∧ reported_status
      (run_at keyless_host EvaluateEntry "s1" "alice" STATS_READY evaluating_world).1
    = Some "STATS_READY"
  ∧ (run_at keyless_host EvaluateEntry "s1" "alice" STATS_READY evaluating_world).2
    = evaluating_world.
Proof.
  assert (Hr : reported_status
                 (serve keyless_host POST_evaluate (session_request false) confirmed_world).1
               = Some "CONFIRMED") by reflexivity.
  assert (Hg : (guard_at EvaluateEntry "s1" "alice" evaluating_world).1 = false)
    by reflexivity.
  assert (Hst : status_of evaluating_world "s1" = Some EVAL_RUNNING) by reflexivity.
  destruct (reported_status_is_stored keyless_host POST_evaluate (session_request false)
              confirmed_world "CONFIRMED") as (Halone & Hlost & _).
  destruct (Hlost EvaluateEntry "s1" "alice" STATS_READY evaluating_world Hg)
    as (Hrep & _ & Hsame).
  split_and!; [exact Hr|exact (Halone Hr)|exact Hg|exact Hst|exact Hrep|exact Hsame].
Defined.

(** On the samples: a user at the cap stays at the cap after an extract on
    a new listing; and at 99 sessions the count lets a request pass, and
    two inserts after it leave 101. *)
Lemma session_cap_is_kept_witness :
  (Extract.count_sessions "alice" full_world ≤ 100)%nat
  ∧ (Extract.count_sessions "alice"
       (serve_all [ {| call_host := facts_host; call_route := POST_extract;
                       call_request := extract_request new_listing_url |} ] full_world)
     ≤ 100)%nat
  ∧ Extract.count_sessions "alice" almost_full_world = 99%nat
  ∧ Extract.enforceMaxLinks "alice" almost_full_world = Returns tt
  ∧ Extract.count_sessions "alice"
      (Extract.insert_session (created_row "998")
         (Extract.insert_session (created_row "999") almost_full_world).2).2
    = 101%nat.
Proof.
  assert (Hc : (Extract.count_sessions "alice" full_world ≤ 100)%nat)
    by (apply Nat.leb_le; by vm_compute).
  assert (Hn : Extract.count_sessions "alice" almost_full_world = 99%nat)
    by (by vm_compute).
  assert (Hlt : (Extract.count_sessions "alice" almost_full_world < 100)%nat)
    by (rewrite Hn; lia).
  destruct (session_cap_is_kept
              [ {| call_host := facts_host; call_route := POST_extract;
                   call_request := extract_request new_listing_url |} ]
              full_world "alice") as (Hkept & Htwo).
  destruct (Htwo almost_full_world (created_row "999") (created_row "998")
              eq_refl eq_refl Hlt) as (Hpass & Hmore).
  split_and!; [exact Hc|exact (Hkept Hc)|exact Hn|exact Hpass|].
  rewrite Hmore, Hn. reflexivity.
Defined.

Lemma confirmed_world_one_session_per_listing : one_session_per_listing confirmed_world.
Proof.
  assert (Hk : session_keys confirmed_world
               = {[ "s1" := ("alice", listing_url, Some "170645465") ]}).
  { unfold session_keys. cbn [property_sessions confirmed_world sample_world].
    by rewrite map_fmap_singleton. }
  unfold one_session_per_listing. rewrite Hk. split.
  - intros id u url l [_ [= <- <- <-]]%lookup_singleton_Some. reflexivity.
  - intros id1 id2 u url1 url2 l [<- _]%lookup_singleton_Some
      [<- _]%lookup_singleton_Some _. reflexivity.
Qed.

(** On the samples: after calls of four routes, among them an extract on a
    new listing, no user has two sessions on one listing. *)
Lemma one_session_per_listing_is_kept_witness :
  one_session_per_listing confirmed_world
  ∧ one_session_per_listing (serve_all sample_calls confirmed_world).
Proof.
  split; [apply confirmed_world_one_session_per_listing|].
  apply (one_session_per_listing_is_kept sample_calls confirmed_world
           confirmed_world_one_session_per_listing).
Defined.

(** On the samples: the fetch stage of extract leaves the sessions and the
    raw facts as they were. *)
Lemma extract_partial_stages_store_nothing_witness :
  extract_stage (staged_request new_listing_url "fetch") = JStr "fetch"
  ∧ "fetch" ∈ partial_stages
  ∧ property_sessions
      (Extract.POST facts_host (staged_request new_listing_url "fetch") confirmed_world).2
    = property_sessions confirmed_world
  ∧ listing_facts_raw
      (Extract.POST facts_host (staged_request new_listing_url "fetch") confirmed_world).2
    = listing_facts_raw confirmed_world.
Proof.
  assert (Hs : extract_stage (staged_request new_listing_url "fetch") = JStr "fetch")
    by reflexivity.
  assert (Hp : "fetch" ∈ partial_stages) by (by apply (bool_decide_unpack _)).
  split_and!; [done|done|..];
    by destruct (extract_partial_stages_store_nothing facts_host
                   (staged_request new_listing_url "fetch") confirmed_world "fetch" Hs Hp)
      as (H1 & H2 & _).
Defined.

(** On the samples: an extract request without a URL is answered 400 and
    has cost one unit. *)
Lemma extract_debits_before_it_validates_witness :
  authenticated facts_host (extract_request EmptyString) "alice"
  ∧ payload (extract_request EmptyString) ≠ JNull
  ∧ Extract.is_stage (extract_stage (extract_request EmptyString)) "auth" = false
  ∧ quota_available facts_host "alice" A_extract confirmed_world
  ∧ code (Extract.POST facts_host (extract_request EmptyString) confirmed_world).1 = 400
  ∧ used_of A_extract
      (Usage.counters_of facts_host "alice"
         (Extract.POST facts_host (extract_request EmptyString) confirmed_world).2)
    = used_of A_extract (Usage.counters_of facts_host "alice" confirmed_world) + 1.
Proof.
  assert (Ha : authenticated facts_host (extract_request EmptyString) "alice")
    by (exists "token-alice"; split; reflexivity).
  assert (Hn : payload (extract_request EmptyString) ≠ JNull) by discriminate.
  assert (Hs : Extract.is_stage (extract_stage (extract_request EmptyString)) "auth" = false)
    by reflexivity.
  assert (Hq : quota_available facts_host "alice" A_extract confirmed_world) by reflexivity.
  destruct (extract_debits_before_it_validates facts_host (extract_request EmptyString)
              confirmed_world "alice" Ha Hn Hs Hq) as (_ & Hused & Hres).
  split_and!; [done..| |exact Hused].
  rewrite Hres; [reflexivity|reflexivity|].
  by intros url [= <-].
Defined.

(** On the samples: an extract request with the stage ["preview"] is
    served as one with the stage ["full"]. *)
Lemma extract_unknown_stage_runs_full_witness :
  bearer (staged_request new_listing_url "preview")
  = bearer (staged_request new_listing_url "full")
  ∧ (∀ name, name ∈ partial_stages →
       Extract.is_stage (extract_stage (staged_request new_listing_url "preview")) name
       = false)
  ∧ Extract.POST facts_host (staged_request new_listing_url "preview") confirmed_world
    = Extract.POST facts_host (staged_request new_listing_url "full") confirmed_world.
Proof.
  assert (Hst : ∀ name, name ∈ partial_stages →
            Extract.is_stage (extract_stage (staged_request new_listing_url "preview")) name
            = false).
  { intros name Hin. unfold partial_stages in Hin.
    repeat (apply elem_of_cons in Hin as [->|Hin]); [reflexivity..|].
    by apply elem_of_nil in Hin. }
  split_and!; [reflexivity|exact Hst|].
  apply extract_unknown_stage_runs_full;
    [reflexivity|discriminate|discriminate|reflexivity|exact Hst|reflexivity].
Defined.

(** On the samples: extract on a listing alice has no session for gives
    her a second session. *)
Lemma extract_creates_one_session_witness :
  authenticated facts_host (extract_request new_listing_url) "alice"
  ∧ extract_full_request (extract_request new_listing_url) new_listing_url
  ∧ quota_available facts_host "alice" A_extract confirmed_world
  ∧ find_session "alice" new_listing_url confirmed_world = None
  ∧ (Extract.count_sessions "alice" confirmed_world < 100)%nat
  ∧ Extract.count_sessions "alice"
      (Extract.POST facts_host (extract_request new_listing_url) confirmed_world).2
    = S (Extract.count_sessions "alice" confirmed_world).
Proof.
  assert (Ha : authenticated facts_host (extract_request new_listing_url) "alice")
    by (exists "token-alice"; split; reflexivity).
  assert (Hreq : extract_full_request (extract_request new_listing_url) new_listing_url)
    by (split_and!; [reflexivity|done|by left]).
  assert (Hq : quota_available facts_host "alice" A_extract confirmed_world) by reflexivity.
  assert (Hnew : find_session "alice" new_listing_url confirmed_world = None)
    by (by vm_compute).
  assert (Hcount : (Extract.count_sessions "alice" confirmed_world < 100)%nat)
    by (apply Nat.ltb_lt; by vm_compute).
  assert (Hfacts : (Extract.callOpenAIWithWeb facts_host
                      (debited facts_host "alice" A_extract confirmed_world)).1
                   = Returns facts_json) by (by vm_compute).
  assert (Hcall : Extract.callOpenAIWithWeb facts_host
                    (debited facts_host "alice" A_extract confirmed_world)
                  = (Returns facts_json,
                     (Extract.callOpenAIWithWeb facts_host
                        (debited facts_host "alice" A_extract confirmed_world)).2)).
  { rewrite <- Hfacts. apply surjective_pairing. }
  destruct (extract_creates_one_session facts_host (extract_request new_listing_url)
              confirmed_world _ "alice" new_listing_url
              "<html><title>Flat</title></html>" facts_json
              Ha Hreq Hq eq_refl Hcall Hnew Hcount (fun _ => eq_refl))
    as (id & _ & _ & _ & _ & _ & Hmore).
  split_and!; [done..|exact Hmore].
Defined.


Lemma facts_request_admitted :
  confirm_admitted keyless_host (facts_request facts_json) evaluated_world
    "alice" (JStr "s1") facts_json (session_row AI_READY) confirmed_facts_row.
Proof.
  unfold confirm_admitted. split_and!.
  - exists "token-alice". split; reflexivity.
  - discriminate.
  - reflexivity.
  - reflexivity.
  - reflexivity.
  - split; reflexivity.
  - reflexivity.
Qed.

(** On the samples: the facts of a session that was already evaluated are
    confirmed again, and the session is back in CONFIRMED. *)
Lemma confirm_facts_contract_witness :
  confirm_admitted keyless_host (facts_request facts_json) evaluated_world
    "alice" (JStr "s1") facts_json (session_row AI_READY) confirmed_facts_row
  ∧ status_of evaluated_world "s1" = Some AI_READY
  ∧ status_of (Confirm.POST keyless_host (facts_request facts_json) evaluated_world).2 "s1"
    = Some CONFIRMED.
Proof.
  split_and!; [exact facts_request_admitted|reflexivity|].
  destruct (confirm_facts_contract keyless_host (facts_request facts_json) evaluated_world)
    as (_ & Hok & _).
  by destruct (Hok "alice" (JStr "s1") facts_json (session_row AI_READY)
                 confirmed_facts_row facts_request_admitted) as (_ & Hst & _).
Defined.

(** On the samples: after that confirmation evaluate is refused with 409,
    although confirmed stats are stored. *)
Lemma confirmed_facts_admit_stats_not_evaluate_witness :
  confirm_admitted keyless_host (facts_request facts_json) evaluated_world
    "alice" (JStr "s1") facts_json (session_row AI_READY) confirmed_facts_row
  ∧ is_Some (listing_stats_confirmed evaluated_world !! "s1")
  ∧ code (Evaluate.POST evaluation_host (session_request false)
            (Confirm.POST keyless_host (facts_request facts_json) evaluated_world).2).1
    = 409.
Proof.
  split_and!; [exact facts_request_admitted|by exists confirmed_stats_row|].
  destruct (confirmed_facts_admit_stats_not_evaluate keyless_host (facts_request facts_json)
              evaluated_world "alice" (JStr "s1") facts_json (session_row AI_READY)
              confirmed_facts_row facts_request_admitted) as (_ & _ & Heval).
  rewrite (Heval evaluation_host (session_request false));
    [reflexivity|by exists "token-alice"|reflexivity].
Defined.

(** On the samples: after the stats of [s1] are confirmed, the session is
    one that was waiting for the confirmation. *)
Lemma confirmed_stats_admit_evaluate_witness :
  authenticated keyless_host (confirm_request None) "alice"
  ∧ code (StatsConfirm.POST keyless_host (confirm_request None) needs_confirmation_world).1
    = 200
  ∧ ∃ sid r,
      owns needs_confirmation_world "alice" sid r
      ∧ status r = STATS_NEEDS_CONFIRMATION.
Proof.
  assert (Ha : authenticated keyless_host (confirm_request None) "alice")
    by (exists "token-alice"; split; reflexivity).
  assert (Hc : code (StatsConfirm.POST keyless_host (confirm_request None)
                       needs_confirmation_world).1 = 200) by (by vm_compute).
  split_and!; [done|done|].
  destruct (confirmed_stats_admit_evaluate keyless_host (confirm_request None)
              needs_confirmation_world "alice" Ha Hc) as (sid & r & Ho & Hst & _).
  by exists sid, r.
Defined.

(** On the samples: a draft without the commute mode is refused with the
    name of that column. *)
Lemma refused_confirmation_names_first_missing_witness :
  StatsConfirm.must_all (draft (Some "commute_mode")) StatsConfirm.core_fields
  = Throws (Error "commute_mode required")
  ∧ StatsConfirm.POST keyless_host (confirm_request (Some "commute_mode"))
      needs_confirmation_world
    = (caught 400 (Error "commute_mode required"), needs_confirmation_world).
Proof.
  assert (Hm : StatsConfirm.must_all (draft (Some "commute_mode")) StatsConfirm.core_fields
               = Throws (Error "commute_mode required")) by (by vm_compute).
  split; [exact Hm|].
  destruct (refused_confirmation_names_first_missing keyless_host
              (confirm_request (Some "commute_mode")) needs_confirmation_world)
    as (_ & _ & Hstats).
  apply (Hstats "alice" (JStr "s1") (draft (Some "commute_mode"))
           (session_row STATS_NEEDS_CONFIRMATION));
    [by exists "token-alice"|discriminate|reflexivity|reflexivity|by split|reflexivity
    |exact Hm].
Defined.

(** On the samples: alice saves a work postcode over the default row; the
    row read back has it, and keeps the default budget. *)
Lemma preferences_saved_then_read_witness :
  authenticated keyless_host postcode_request "alice"
  ∧ distinct_members (payload postcode_request)
  ∧ ∃ row,
      preferences (Preferences.POST keyless_host postcode_request default_prefs_world).2
        !! "alice" = Some row
      ∧ prop row "user_id" = Some (JStr "alice")
      ∧ prop row "work_postcode" = Some (JStr "EC1A 1BB")
      ∧ prop row "budget_max" = Some (JNum 450000).
Proof.
  assert (Ha : authenticated keyless_host postcode_request "alice")
    by (exists "token-alice"; split; reflexivity).
  assert (Hd : distinct_members (payload postcode_request))
    by (by apply (bool_decide_unpack _)).
  split_and!; [done|done|].
  destruct (preferences_saved_then_read keyless_host postcode_request default_prefs_world
              "alice" Ha Hd) as [_ Hok].
  destruct (Hok eq_refl) as (row & _ & Hrow & Hid & Hmerged & _).
  exists row. split_and!; [done|done|..]; by rewrite Hmerged.
Defined.

(** On the samples: alice, held back by the empty work postcode of the
    default row, passes the check once she saved a postcode. *)
Lemma saved_preferences_pass_the_check_witness :
  authenticated keyless_host postcode_request "alice"
  ∧ distinct_members (payload postcode_request)
  ∧ (Stats.checkMinimumPreferences (Preferences.defaultPreferences "alice")).2
    = ["work_postcode"]
  ∧ ∃ row,
      preferences (Preferences.POST keyless_host postcode_request default_prefs_world).2
        !! "alice" = Some row
      ∧ Stats.checkMinimumPreferences row = (true, []).
Proof.
  assert (Ha : authenticated keyless_host postcode_request "alice")
    by (exists "token-alice"; split; reflexivity).
  assert (Hd : distinct_members (payload postcode_request))
    by (by apply (bool_decide_unpack _)).
  assert (Hm : (Stats.checkMinimumPreferences (Preferences.defaultPreferences "alice")).2
               = ["work_postcode"]) by reflexivity.
  split_and!; [done|done|done|].
  destruct (saved_preferences_pass_the_check keyless_host postcode_request
              default_prefs_world "alice" Ha Hd eq_refl) as (row & Hrow & _ & Hpass).
  exists row. split; [done|].
  apply (Hpass (Preferences.defaultPreferences "alice") "EC1A 1BB");
    [reflexivity|exact Hm|reflexivity|by vm_compute].
Defined.

(** On the samples: a header with the scheme in lower case and, between
    scheme and token, a blank, a no-break space (U+00A0) and a tab gives
    the token. *)
Lemma bearer_token_read_witness :
  same_ci "Bearer" "bearer"
  ∧ white_spaces (bytes [32; 194; 160; 9])
  ∧ starts_black "token-alice"
  ∧ getBearerToken (Some ("bearer" +:+ bytes [32; 194; 160; 9] +:+ "token-alice"))
    = Some "token-alice".
Proof.
  assert (Hs : same_ci "Bearer" "bearer") by reflexivity.
  assert (Hw : white_spaces (bytes [32; 194; 160; 9])).
  { exists [bytes [32]; bytes [194; 160]; bytes [9]].
    split; [discriminate|]. split; [|reflexivity].
    apply (bool_decide_unpack _). vm_compute. exact I. }
  assert (Hb : starts_black "token-alice").
  { unfold starts_black.
    apply (proj1 (Forall_forall (fun p => has_prefix p "token-alice" = false) white_space)).
    apply (bool_decide_unpack _). vm_compute. exact I. }
  split; [exact Hs|]. split; [exact Hw|]. split; [exact Hb|].
  destruct bearer_token_read as (_ & Hback & _).
  apply (Hback "bearer" (bytes [32; 194; 160; 9]) "token-alice");
    [exact Hs|exact Hw|discriminate|reflexivity|exact Hb].
Defined.

(** On the samples: two references to one listing, one with a query and
    one with a fragment and another case of the host, have the same
    listing id. *)
Lemma listing_id_read_witness :
  parseRightmoveListingId "https://www.rightmove.co.uk/properties/170645465?channel=BUY"
  = Some "170645465"
  ∧ parseRightmoveListingId "https://www.rightmove.co.uk/properties/170645465?channel=BUY"
    = parseRightmoveListingId "http://m.RightMove.co.uk/properties/170645465#/media".
Proof.
  destruct listing_id_read as (_ & Hback & Hsame).
  split.
  - apply (Hback "https://www." "rightmove.co.uk/properties/" "170645465" "?channel=BUY");
      [reflexivity|reflexivity|discriminate|reflexivity|reflexivity].
  - apply (Hsame "https://www." "http://m." "rightmove.co.uk/properties/"
             "RightMove.co.uk/properties/" "170645465" "?channel=BUY" "#/media");
      [reflexivity|reflexivity|reflexivity|reflexivity|discriminate|reflexivity
      |reflexivity|reflexivity].
Defined.

(** On the samples: an object wrapped in prose is recovered. *)
Lemma parseJsonLoose_recovers_object_witness :
  sample_JSON_parse "Here it is: {} as asked" = Throws SyntaxError
  ∧ parseJsonLoose keyless_host "  Here it is: {} as asked " = Returns (JObj []).
Proof.
  assert (Hp : sample_JSON_parse "Here it is: {} as asked" = Throws SyntaxError)
    by (by vm_compute).
  split; [exact Hp|].
  destruct (parseJsonLoose_recovers_object keyless_host "  Here it is: {} as asked ")
    as (_ & _ & Hspan).
  rewrite (Hspan SyntaxError "Here it is: " EmptyString " as asked");
    [by vm_compute|by vm_compute|reflexivity|reflexivity|by vm_compute].
Defined.

Lemma sample_blank_is_zero (key : string) (text : string) :
  blank_is_zero (sample_host key text).
Proof.
  intros s Hs. cbn [StringToNumber sample_host]. unfold sample_StringToNumber.
  by rewrite Hs.
Qed.

(** On the samples: the facts form, filled with the extracted facts, posts
    a body the route answers 200 to. *)
Lemma page_facts_pass_the_route_witness :
  blank_is_zero keyless_host
  ∧ trim "s1" ≠ EmptyString
  ∧ PropertiesPage.submitConfirm keyless_host (Some "s1") (Some facts_json)
    = Returns (PropertiesPage.Sends (payload (facts_request facts_json)))
  ∧ (Confirm.POST keyless_host (facts_request facts_json) confirmed_world).1
    = respond 200 [("ok", JBool true)].
Proof.
  assert (Hz : blank_is_zero keyless_host) by apply sample_blank_is_zero.
  assert (Hid : trim "s1" ≠ EmptyString) by (by vm_compute).
  assert (Hs : PropertiesPage.submitConfirm keyless_host (Some "s1") (Some facts_json)
               = Returns (PropertiesPage.Sends (payload (facts_request facts_json))))
    by (by vm_compute).
  split_and!; [done..|].
  destruct (page_facts_pass_the_route keyless_host "s1" facts_json
              (payload (facts_request facts_json)) Hz Hid Hs)
    as (facts & row & _ & _ & _ & Hroute).
  apply (Hroute (facts_request facts_json) confirmed_world "alice" (session_row CONFIRMED));
    [reflexivity|by exists "token-alice"|by split|reflexivity].
Defined.

(** On the samples: the draft opened for the row compute-stats wrote is
    taken as it is; the draft of a row without station name is not. *)
Lemma stats_draft_passes_when_prefilled_witness :
  trim "s1" ≠ EmptyString
  ∧ truthy (PropertiesPage.getOne (Some raw_stats_row)) = true
  ∧ (∀ k, k ∈ StatsConfirm.core_fields → prefilled raw_stats_row k)
  ∧ ¬ prefilled nameless_stats_row "nearest_station_name"
  ∧ ∃ d body stats,
      PropertiesPage.openStatsConfirm (Some raw_stats_row) = Some d
      ∧ PropertiesPage.submitStatsConfirm (Some "s1") (Some d) = PropertiesPage.Sends body
      ∧ StatsConfirm.must (prop body "stats") "stats required" = Returns stats
      ∧ ∃ core, StatsConfirm.must_all stats StatsConfirm.core_fields = Returns core.
Proof.
  assert (Hid : trim "s1" ≠ EmptyString) by (by vm_compute).
  assert (Ht : truthy (PropertiesPage.getOne (Some raw_stats_row)) = true) by reflexivity.
  assert (Hall : ∀ k, k ∈ StatsConfirm.core_fields → prefilled raw_stats_row k).
  { intros k Hk. unfold StatsConfirm.core_fields in Hk.
    repeat (apply elem_of_cons in Hk as [->|Hk]); [by vm_compute..|].
    by apply elem_of_nil in Hk. }
  assert (Hno : ¬ prefilled nameless_stats_row "nearest_station_name").
  { assert (Hv : prop nameless_stats_row "nearest_station_name" = Some JNull)
      by (by vm_compute).
    unfold prefilled. rewrite Hv. intros Hn. apply Hn.
    apply (bool_decide_unpack _). by vm_compute. }
  split_and!; [done..|].
  destruct (stats_draft_passes_when_prefilled (Some raw_stats_row) "s1" Hid) as [_ Hopen].
  destruct (Hopen Ht) as (d & body & stats & Hd & Hb & _ & Hs & Hiff).
  exists d, body, stats. split_and!; [done..|]. by apply Hiff.
Defined.


(** On the samples: moving the first of three entries to the end. *)
Lemma reorder_moves_one_entry_witness :
  0 ≤ 0 < Z.of_nat (length ["flat"; "terraced"; "detached"])
  ∧ PreferencesPage.reorder ["flat"; "terraced"; "detached"] 0 2
    ≡ₚ map Some ["flat"; "terraced"; "detached"]
  ∧ PreferencesPage.reorder ["flat"; "terraced"; "detached"] 0 2 !! 2%nat
    = Some (Some "flat").
Proof.
  assert (Hr : 0 ≤ 0 < Z.of_nat (length ["flat"; "terraced"; "detached"]))
    by (cbn; lia).
  destruct (reorder_moves_one_entry ["flat"; "terraced"; "detached"] 0 2) as [Hin _].
  destruct (Hin Hr) as (Hperm & Hat & _).
  split; [exact Hr|]. split; [exact Hperm|exact Hat].
Defined.

(** On the samples: a stored ranking with a name that is not allowed and
    most names missing is completed to a rearrangement of the property
    types, the stored name first. *)
Lemma normalised_rank_list_witness :
  NoDup PreferencesPage.UK_PROPERTY_TYPES
  ∧ PreferencesPage.normalizeRankList (Some (JArr [JStr "flat"; JStr "castle"]))
      PreferencesPage.UK_PROPERTY_TYPES
    ≡ₚ PreferencesPage.UK_PROPERTY_TYPES
  ∧ PreferencesPage.normalizeRankList (Some (JArr [JStr "flat"; JStr "castle"]))
      PreferencesPage.UK_PROPERTY_TYPES !! 0%nat = Some "flat".
Proof.
  assert (Hn : NoDup PreferencesPage.UK_PROPERTY_TYPES)
    by (by apply (bool_decide_unpack _)).
  destruct (normalised_rank_list (Some (JArr [JStr "flat"; JStr "castle"]))
              PreferencesPage.UK_PROPERTY_TYPES) as (_ & _ & _ & Hperm & _).
  split_and!; [exact Hn| |reflexivity].
  apply Hperm; [exact Hn|]. apply (bool_decide_unpack _). by vm_compute.
Defined.
